(** * pr-manager: reviewer assignment, reassignment and bulk deactivation

    A shallow embedding of the service layer ([internal/service]: the
    [UserManager] reviewer directory and the [PullRequestManager]) and of
    the PostgreSQL repository ([internal/repository]) it is wired to in
    [cmd/main.go], followed by the properties of the reviewer-assignment
    engine.

    Conventions of the embedding.
    - A Go [map[string]T] is a [gmap string T]; a [map[string]struct{}] is a
      [gset string].  The order in which [range] walks a map is not fixed by
      the language: it is the parameter [range_users] below.
    - A Go result [(T, error)] is a [result T]; a bare [error] result is an
      [option error].
    - The repositories are the Go interfaces, as records of operations over
      an abstract database state.  A write either fails and leaves the
      database as it was (every write of the repository is one statement or
      one transaction), or yields the next database state.
    - Every write call on a repository and every goroutine started with
      [go] is appended to the [trace] of the world, so that "is not called"
      and "is called once, with these arguments" are statements about the
      trace. *)

From stdpp Require Import base strings list gmap fin_maps sets pretty.
From Stdlib Require Import ZArith.

Set Default Proof Using "Type".

(** ** Package [domain]: sentinel errors and their constructors *)

Module domain.

Inductive sentinel :=
| ErrTeamExists | ErrPRExists | ErrPRMerged | ErrNotAssigned
| ErrNoCandidate | ErrNotFound | ErrUnauthorized | ErrTeamIsEmty.

(** [Sentinel s] is one of the [errors.New] values of the package,
    [Errorf msg] a [fmt.Errorf] (or a driver error) that wraps nothing, and
    [Wrapf msg cause] a [fmt.Errorf] with a [%w] operand; [msg] is the text
    the call adds around the operand. *)
Inductive error :=
| Sentinel (s : sentinel)
| Errorf (msg : string)
| Wrapf (msg : string) (cause : error).

#[global] Instance sentinel_eq_dec : EqDecision sentinel.
Proof. solve_decision. Defined.

#[global] Instance error_eq_dec : EqDecision error.
Proof. solve_decision. Defined.

(** [errors.Is err target] for a sentinel target: walk the [%w] chain. *)
Fixpoint errors_Is (err : error) (target : sentinel) : bool :=
  match err with
  | Sentinel s => bool_decide (s = target)
  | Errorf _ => false
  | Wrapf _ cause => errors_Is cause target
  end.

Definition NewTeamExistsError (teamName : string) : error :=
  Wrapf (": team " +:+ teamName +:+ " already exists") (Sentinel ErrTeamExists).

Definition NewPRMergedError (prID : string) : error :=
  Wrapf (": pull request " +:+ prID +:+ " is already merged") (Sentinel ErrPRMerged).

Definition NewNotAssignedError (prID : string) : error :=
  Wrapf (": pull request " +:+ prID +:+ " is not assigned to reviewer")
        (Sentinel ErrNotAssigned).

Definition NewNoCandidateError (prID : string) : error :=
  Wrapf (": no candidate reviewer available for pull request " +:+ prID)
        (Sentinel ErrNoCandidate).

Definition NewNotFoundError (resource : string) : error :=
  Wrapf (": " +:+ resource +:+ " not found") (Sentinel ErrNotFound).

Definition NewPRExistsError (prID : string) : error :=
  Wrapf (": pull request " +:+ prID +:+ " already exists") (Sentinel ErrPRExists).

Definition NewUnauthorizedError (action : string) : error :=
  Wrapf (": not authorized to " +:+ action) (Sentinel ErrUnauthorized).

(** The format of this one has no [%w]. *)
Definition NewErrTeamIsEmty (teamID : string) : error :=
  Errorf ("team with id " +:+ teamID +:+ " is emty").

End domain.
Export domain.

(** A Go result [(T, error)]. *)
Inductive result (A : Type) :=
| Ok (a : A)
| Err (e : error).
Arguments Ok {A} a.
Arguments Err {A} e.

Definition is_Ok {A} (r : result A) : bool :=
  match r with Ok _ => true | Err _ => false end.

(** ** Package [models] *)

(** [*time.Time]: an instant is a number, [nil] is [None]. *)
Definition Time := Z.

Definition PullRequestStatusMERGED : string := "MERGED".
Definition PullRequestStatusOPEN : string := "OPEN".

Module PullRequest.
Record t := mk {
  AssignedReviewers : list string;
  AuthorId : string;
  CreatedAt : option Time;
  MergedAt : option Time;
  PullRequestId : string;
  PullRequestName : string;
  Status : string
}.
Definition with_AssignedReviewers (rs : list string) (pr : t) : t :=
  mk rs (AuthorId pr) (CreatedAt pr) (MergedAt pr) (PullRequestId pr)
     (PullRequestName pr) (Status pr).
Definition with_merged (now : Time) (pr : t) : t :=
  mk (AssignedReviewers pr) (AuthorId pr) (CreatedAt pr) (Some now)
     (PullRequestId pr) (PullRequestName pr) PullRequestStatusMERGED.
#[global] Instance eq_dec : EqDecision t.
Proof. solve_decision. Defined.
End PullRequest.

Module PostPullRequestCreateJSONBody.
Record t := mk {
  AuthorId : string;
  PullRequestId : string;
  PullRequestName : string
}.
End PostPullRequestCreateJSONBody.

Module User.
Record t := mk {
  IsActive : bool;
  TeamName : string;
  UserId : string;
  Username : string
}.
Definition with_IsActive (b : bool) (u : t) : t :=
  mk b (TeamName u) (UserId u) (Username u).
#[global] Instance eq_dec : EqDecision t.
Proof. solve_decision. Defined.
End User.

Module TeamMember.
Record t := mk {
  IsActive : bool;
  UserId : string;
  Username : string
}.
#[global] Instance eq_dec : EqDecision t.
Proof. solve_decision. Defined.
End TeamMember.

Module Team.
Record t := mk {
  Members : list TeamMember.t;
  TeamName : string
}.
#[global] Instance eq_dec : EqDecision t.
Proof. solve_decision. Defined.
End Team.

Definition ConvertUserToTeamMember (user : User.t) : TeamMember.t :=
  TeamMember.mk (User.IsActive user) (User.UserId user) (User.Username user).

Definition ConvertTmToUser (tm : TeamMember.t) (teamName : string) : User.t :=
  User.mk (TeamMember.IsActive tm) teamName (TeamMember.UserId tm)
          (TeamMember.Username tm).

Module ReviewerReplacement.
Record t := mk {
  OldUserId : string;
  NewUserId : string
}.
#[global] Instance eq_dec : EqDecision t.
Proof. solve_decision. Defined.
End ReviewerReplacement.

Module TeamPRReassignment.
Record t := mk {
  PullRequestId : string;
  Replacements : list ReviewerReplacement.t
}.
#[global] Instance eq_dec : EqDecision t.
Proof. solve_decision. Defined.
End TeamPRReassignment.

Module TeamBulkDeactivateResult.
Record t := mk {
  TeamName : string;
  Deactivated : list string;
  Reassignments : list TeamPRReassignment.t
}.
#[global] Instance eq_dec : EqDecision t.
Proof. solve_decision. Defined.
End TeamBulkDeactivateResult.

Module ReviewerSwap.
Record t := mk {
  PullRequestId : string;
  OldUserId : string;
  NewUserId : string
}.
#[global] Instance eq_dec : EqDecision t.
Proof. solve_decision. Defined.
End ReviewerSwap.

Module ReassignResponse.
Record t := mk {
  PR : PullRequest.t;
  ReplacedBy : string
}.
End ReassignResponse.

Module PostPullRequestMergeJSONBody.
Record t := mk {
  PullRequestId : string
}.
End PostPullRequestMergeJSONBody.

Module PostPullRequestReassignJSONBody.
Record t := mk {
  OldUserId : string;
  PullRequestId : string
}.
End PostPullRequestReassignJSONBody.

Module PostUsersSetIsActiveJSONBody.
Record t := mk {
  IsActive : bool;
  UserId : string
}.
End PostUsersSetIsActiveJSONBody.

Module TeamBulkDeactivateRequest.
Record t := mk {
  TeamName : string;
  UserIDs : list string
}.
End TeamBulkDeactivateRequest.

Module PullRequestShort.
Record t := mk {
  AuthorId : string;
  PullRequestId : string;
  PullRequestName : string;
  Status : string
}.
#[global] Instance eq_dec : EqDecision t.
Proof. solve_decision. Defined.
End PullRequestShort.

(** The counters are Go [int]s converted from the [int64] of a [COUNT]; a
    count of rows is far below [2^63], and the conversion keeps it. *)
Module UserAssignmentStat.
Record t := mk {
  UserId : string;
  Username : string;
  Assignments : Z
}.
#[global] Instance eq_dec : EqDecision t.
Proof. solve_decision. Defined.
End UserAssignmentStat.

Module PullRequestAssignmentStat.
Record t := mk {
  PullRequestId : string;
  PullRequestName : string;
  ReviewerCount : Z
}.
#[global] Instance eq_dec : EqDecision t.
Proof. solve_decision. Defined.
End PullRequestAssignmentStat.

Module AssignmentStats.
Record t := mk {
  ByUser : list UserAssignmentStat.t;
  ByPullRequest : list PullRequestAssignmentStat.t
}.
#[global] Instance eq_dec : EqDecision t.
Proof. solve_decision. Defined.
End AssignmentStats.

(** ** What the Go side leaves open

    [range_users] is the order in which a [for ... range um.users] loop
    visits the entries of the map: some enumeration of the entries, each
    exactly once.  [TrimSpace] is [strings.TrimSpace] of the standard
    library. *)

Class Golang := {
  range_users : gmap string User.t → list (string * User.t);
  range_users_perm : ∀ m, range_users m ≡ₚ map_to_list m;
  TrimSpace : string → string
}.

(** ** The repository interfaces of package [service] *)

Module Repository.

(** [PullRequestRepository], the methods the engine calls. *)
Class PullRequestRepository (DB : Type) := {
  SavePullRequest : PullRequest.t → DB → result DB;
  GetPullRequest : string → DB → result PullRequest.t;
  FindOpenPullRequestsByReviewers : list string → DB → result (list PullRequest.t);
  ApplyBulkTeamReviewerSwaps : list ReviewerSwap.t → list string → DB → result DB
}.

(** [UserTeamRepository], the methods the directory calls. *)
Class UserTeamRepository (DB : Type) := {
  SaveUser : User.t → DB → result DB;
  GetUser : string → DB → result User.t;
  CreateTeamWithMembers : Team.t → list User.t → DB → result DB;
  GetTeam : string → DB → result Team.t
}.

(** [PullRequestRepository], the two methods that only report.  The
    statistics come as a pointer, which may be [nil]. *)
Class PullRequestReports (DB : Type) := {
  FindPullRequestsByReviewer : string → DB → result (list PullRequest.t);
  GetAssignmentStats : DB → result (option AssignmentStats.t)
}.

End Repository.

(** ** The world: database, directory cache and the trace of effects *)

Inductive Event :=
| CallSavePullRequest (pr : PullRequest.t)
| CallApplyBulkTeamReviewerSwaps (swaps : list ReviewerSwap.t)
                                 (usersToDeactivate : list string)
| CallSaveUser (user : User.t)
| CallCreateTeamWithMembers (team : Team.t) (users : list User.t)
| GoSetActivity (rewIds : list string) (status : bool).

#[global] Instance Event_eq_dec : EqDecision Event.
Proof. solve_decision. Defined.

Record World (DB : Type) := mkWorld {
  store : DB;
  users : gmap string User.t;
  trace : list Event
}.
Arguments mkWorld {DB} store users trace.
Arguments store {DB} w.
Arguments users {DB} w.
Arguments trace {DB} w.

Definition emit {DB} (e : Event) (w : World DB) : World DB :=
  mkWorld (store w) (users w) (trace w ++ [e]).

Definition with_store {DB} (db : DB) (w : World DB) : World DB :=
  mkWorld db (users w) (trace w).

Definition with_users {DB} (us : gmap string User.t) (w : World DB) : World DB :=
  mkWorld (store w) us (trace w).

(** A write call: it is recorded, and the database moves on only when the
    call succeeds. *)
Definition call_write {DB} (e : Event) (op : DB → result DB) (w : World DB)
  : option error * World DB :=
  let w := emit e w in
  match op (store w) with
  | Err err => (Some err, w)
  | Ok db => (None, with_store db w)
  end.

(** ** [UserManager]: the reviewer directory *)

Module UserManager.
Section UserManager.
Context {DB : Type} {go : Golang}.

(** [um.repo]; [None] is the [nil] repository. *)
Variable repo : option (Repository.UserTeamRepository DB).

Definition PrimeCacheUser (userID : string) (w : World DB)
  : option error * World DB :=
  match repo with
  | None => (Some (Errorf "repository is not configured"), w)
  | Some r =>
    match Repository.GetUser userID (store w) with
    | Err err => (Some (Wrapf ("failed to get user " +:+ userID +:+ ": ") err), w)
    | Ok user => (None, with_users (<[User.UserId user := user]> (users w)) w)
    end
  end.

(** The loop of [AssignRewiers] over the entries still to visit. *)
Fixpoint AssignRewiers_loop (teamId : string) (entries : list (string * User.t))
    (ans : list string) (counter : nat) : list string :=
  match entries with
  | [] => ans
  | (_, user) :: entries =>
    let '(ans, counter) :=
      if bool_decide (User.TeamName user = teamId) && User.IsActive user
      then (ans ++ [User.UserId user], S counter)
      else (ans, counter) in
    if bool_decide (counter = 2) then ans
    else AssignRewiers_loop teamId entries ans counter
  end.

Definition AssignRewiers (teamId : string) (us : gmap string User.t) : list string :=
  AssignRewiers_loop teamId (range_users us) [] 0.

(** The body shared by [SetActivity] and [SyncUsersActivity]: the flag of
    each cached user is overwritten, ids that are not cached are skipped. *)
Definition set_cached_activity (status : bool) (us : gmap string User.t) (el : string)
  : gmap string User.t :=
  match us !! el with
  | Some user => <[el := User.with_IsActive status user]> us
  | None => us
  end.

(** The [error] result of [SetActivity] is always [nil]. *)
Definition SetActivity (rewIds : list string) (status : bool)
    (us : gmap string User.t) : gmap string User.t :=
  foldl (set_cached_activity status) us rewIds.

Fixpoint AddTeam_validate (i : nat) (userIDs : gset string)
    (members : list TeamMember.t) : option error :=
  match members with
  | [] => None
  | m :: members =>
    if decide (TeamMember.UserId m = "") then
      Some (Errorf ("empty user_id found in team members at index " +:+ pretty i))
    else if decide (TeamMember.UserId m ∈ userIDs) then
      Some (Errorf ("duplicate user_id '" +:+ TeamMember.UserId m +:+
                    "' found in team members at index " +:+ pretty i))
    else AddTeam_validate (S i) ({[TeamMember.UserId m]} ∪ userIDs) members
  end.

Definition cache_users (us : gmap string User.t) (new : list User.t)
  : gmap string User.t :=
  foldl (λ us user, <[User.UserId user := user]> us) us new.

Definition AddTeam (team : Team.t) (w : World DB) : option error * World DB :=
  match AddTeam_validate 0 ∅ (Team.Members team) with
  | Some err => (Some err, w)
  | None =>
    let new := (λ m, ConvertTmToUser m (Team.TeamName team)) <$> Team.Members team in
    let '(failed, w) :=
      match repo with
      | Some r =>
        call_write (CallCreateTeamWithMembers team new)
                   (Repository.CreateTeamWithMembers team new) w
      | None => (None, w)
      end in
    match failed with
    | Some err =>
      (Some (Wrapf ("failed to persist team " +:+ Team.TeamName team +:+ ": ") err), w)
    | None => (None, with_users (cache_users (users w) new) w)
    end
  end.

(** The fallback of [GetTeam]: the team as the cache sees it. *)
Definition GetTeam_from_cache (teamName : string) (us : gmap string User.t)
  : result Team.t :=
  let members :=
    ConvertUserToTeamMember <$>
      filter (λ user, User.TeamName user = teamName) ((range_users us).*2) in
  if bool_decide (length members = 0) then Err (NewNotFoundError "team")
  else Ok (Team.mk members teamName).

Definition GetTeam (teamName : string) (w : World DB) : result Team.t :=
  match repo with
  | Some r =>
    match Repository.GetTeam teamName (store w) with
    | Err err =>
      if negb (errors_Is err ErrNotFound)
      then Err (Wrapf "failed to get team from repository: " err)
      else GetTeam_from_cache teamName (users w)
    | Ok team => Ok team
    end
  | None => GetTeam_from_cache teamName (users w)
  end.

Definition GetUserTeam (userID : string) (w : World DB) : result string * World DB :=
  match users w !! userID with
  | Some user => (Ok (User.TeamName user), w)
  | None =>
    match repo with
    | None => (Err (NewNotFoundError "user"), w)
    | Some r =>
      match Repository.GetUser userID (store w) with
      | Err err =>
        if errors_Is err ErrNotFound then (Err (NewNotFoundError "user"), w)
        else (Err (Wrapf "failed to get user from repository: " err), w)
      | Ok user =>
        (Ok (User.TeamName user),
         with_users (<[User.UserId user := user]> (users w)) w)
      end
    end
  end.

Definition FindReplacementReviewer (teamName : string) (excludeUserIDs : list string)
    (us : gmap string User.t) : result string :=
  let excludeSet : gset string := list_to_set excludeUserIDs in
  match
    list_find (λ user, User.TeamName user = teamName ∧ User.IsActive user = true ∧
                       User.UserId user ∉ excludeSet)
              ((range_users us).*2)
  with
  | Some (_, user) => Ok (User.UserId user)
  | None => Err (Sentinel ErrNoCandidate)
  end.

Definition SetUserActivity (userID : string) (isActive : bool) (w : World DB)
  : result User.t * World DB :=
  match users w !! userID with
  | None => (Err (NewNotFoundError "user"), w)
  | Some user =>
    let originalStatus := User.IsActive user in
    let user := User.with_IsActive isActive user in
    let w := with_users (<[userID := user]> (users w)) w in
    match repo with
    | Some r =>
      match call_write (CallSaveUser user) (Repository.SaveUser user) w with
      | (Some err, w) =>
        let user := User.with_IsActive originalStatus user in
        (Err (Wrapf "failed to save user: " err),
         with_users (<[userID := user]> (users w)) w)
      | (None, w) => (Ok user, w)
      end
    | None => (Ok user, w)
    end
  end.

Definition SyncUsersActivity (userIDs : list string) (isActive : bool)
    (us : gmap string User.t) : gmap string User.t :=
  if bool_decide (length userIDs = 0) then us
  else foldl (set_cached_activity isActive) us userIDs.

End UserManager.
End UserManager.

(** ** [PullRequestManager]: the pull request lifecycle and the bulk planner *)

Module PullRequestManager.

(** [reviewerPool]: a queue of candidate ids and the set of ids that are
    still available. *)
Record reviewerPool := mkPool {
  queue : list string;
  available : gset string
}.

(** The loop of [newReviewerPool]. *)
Fixpoint newReviewerPool_loop (ids : list string) (p : reviewerPool) : reviewerPool :=
  match ids with
  | [] => p
  | id :: ids =>
    if decide (id = "") then newReviewerPool_loop ids p
    else if decide (id ∈ available p) then newReviewerPool_loop ids p
    else newReviewerPool_loop ids (mkPool (queue p ++ [id]) ({[id]} ∪ available p))
  end.

Definition newReviewerPool (ids : list string) : reviewerPool :=
  newReviewerPool_loop ids (mkPool [] ∅).

(** The loop of [take], by recursion on [attempts].  The result [None] is
    the pair [("", false)] of the source.  The receiver is never [nil]
    ([newReviewerPool] always returns a pool), and a [nil] exclusion map
    excludes nothing, like the empty set. *)
Fixpoint take_loop (attempts : nat) (exclude : gset string) (p : reviewerPool)
  : option string * reviewerPool :=
  match attempts with
  | 0 => (None, p)
  | S attempts =>
    match queue p with
    | [] => (None, p)
    | candidate :: rest =>
      if decide (candidate ∈ available p) then
        if decide (candidate ∈ exclude) then
          take_loop attempts exclude (mkPool (rest ++ [candidate]) (available p))
        else (Some candidate, mkPool rest (available p ∖ {[candidate]}))
      else take_loop attempts exclude (mkPool rest (available p))
    end
  end.

Definition take (exclude : gset string) (p : reviewerPool)
  : option string * reviewerPool :=
  if bool_decide (size (available p) = 0) then (None, p)
  else take_loop (length (queue p)) exclude p.

(** Successive draws, one exclusion set each. *)
Fixpoint take_all (excludes : list (gset string)) (p : reviewerPool)
  : list (option string) * reviewerPool :=
  match excludes with
  | [] => ([], p)
  | exclude :: excludes =>
    let '(r, p) := take exclude p in
    let '(rs, p) := take_all excludes p in
    (r :: rs, p)
  end.

Section PullRequestManager.
Context {DB : Type} {go : Golang}.

(** [prm.repo]. *)
Context {prRepo : Repository.PullRequestRepository DB}.

(** [prm.UserService] is the [UserManager], as [cmd/main.go] wires it; this
    is the repository of that manager. *)
Variable userRepo : option (Repository.UserTeamRepository DB).

(** [now] is the reading of [time.Now()]. *)
Definition convertReqToModel (reqData : PostPullRequestCreateJSONBody.t) (now : Time)
  : PullRequest.t :=
  PullRequest.mk [] (PostPullRequestCreateJSONBody.AuthorId reqData) (Some now) None
    (PostPullRequestCreateJSONBody.PullRequestId reqData)
    (PostPullRequestCreateJSONBody.PullRequestName reqData)
    PullRequestStatusOPEN.

Definition CreatePullRequest (reqData : PostPullRequestCreateJSONBody.t) (now : Time)
    (w : World DB) : result PullRequest.t * World DB :=
  let pr := convertReqToModel reqData now in
  match UserManager.GetUserTeam userRepo (PullRequest.AuthorId pr) w with
  | (Err err, w) => (Err (Wrapf "failed to get author team: " err), w)
  | (Ok teamID, w) =>
    let curAssignedReviewers := UserManager.AssignRewiers teamID (users w) in
    let pr := PullRequest.with_AssignedReviewers curAssignedReviewers pr in
    let w := emit (GoSetActivity curAssignedReviewers false) w in
    match call_write (CallSavePullRequest pr) (Repository.SavePullRequest pr) w with
    | (Some _, w) => (Err (Errorf "couldn`t add pr to DB"), w)
    | (None, w) => (Ok pr, w)
    end
  end.

Definition load_pull_request (prID : string) (w : World DB) : result PullRequest.t :=
  match Repository.GetPullRequest prID (store w) with
  | Err err =>
    if errors_Is err ErrNotFound then Err (NewNotFoundError "pull request")
    else Err (Wrapf "failed to get pull request: " err)
  | Ok pr => Ok pr
  end.

Definition Merge (prID : string) (now : Time) (w : World DB)
  : result PullRequest.t * World DB :=
  match load_pull_request prID w with
  | Err err => (Err err, w)
  | Ok pr =>
    if decide (PullRequest.Status pr = PullRequestStatusMERGED) then (Ok pr, w)
    else
      let pr := PullRequest.with_merged now pr in
      match call_write (CallSavePullRequest pr) (Repository.SavePullRequest pr) w with
      | (Some err, w) => (Err (Wrapf "failed to save merged pull request: " err), w)
      | (None, w) =>
        let w :=
          if bool_decide (0 < length (PullRequest.AssignedReviewers pr))
          then emit (GoSetActivity (PullRequest.AssignedReviewers pr) true) w
          else w in
        (Ok pr, w)
      end
  end.

Definition Reassign (oldUserId prId : string) (w : World DB)
  : result ReassignResponse.t * World DB :=
  match load_pull_request prId w with
  | Err err => (Err err, w)
  | Ok pr =>
    if decide (PullRequest.Status pr = PullRequestStatusMERGED)
    then (Err (NewPRMergedError prId), w)
    else if negb (bool_decide (oldUserId ∈ PullRequest.AssignedReviewers pr))
    then (Err (NewNotAssignedError prId), w)
    else
      match UserManager.GetUserTeam userRepo oldUserId w with
      | (Err err, w) => (Err (Wrapf "failed to get user team: " err), w)
      | (Ok teamName, w) =>
        let excludeUserIDs := PullRequest.AssignedReviewers pr ++ [oldUserId] in
        match UserManager.FindReplacementReviewer teamName excludeUserIDs (users w) with
        | Err err =>
          if errors_Is err ErrNoCandidate then (Err (NewNoCandidateError prId), w)
          else (Err (Wrapf "failed to find replacement reviewer: " err), w)
        | Ok newReviewerID =>
          let newAssignedReviewers :=
            filter (λ reviewerID, reviewerID ≠ oldUserId)
                   (PullRequest.AssignedReviewers pr) ++ [newReviewerID] in
          let pr := PullRequest.with_AssignedReviewers newAssignedReviewers pr in
          match call_write (CallSavePullRequest pr) (Repository.SavePullRequest pr) w with
          | (Some err, w) =>
            (Err (Wrapf "failed to save reassigned pull request: " err), w)
          | (None, w) =>
            let w := emit (GoSetActivity [oldUserId] true) w in
            let w := emit (GoSetActivity [newReviewerID] false) w in
            (Ok (ReassignResponse.mk pr newReviewerID), w)
          end
        end
      end
  end.

(** The loop of [normalizeTargetUserIDs]. *)
Fixpoint normalizeTargetUserIDs_loop (userIDs : list string)
    (targetSet : gset string) (targets : list string) : list string * gset string :=
  match userIDs with
  | [] => (targets, targetSet)
  | raw :: userIDs =>
    let id := TrimSpace raw in
    if decide (id = "") then normalizeTargetUserIDs_loop userIDs targetSet targets
    else if decide (id ∈ targetSet)
    then normalizeTargetUserIDs_loop userIDs targetSet targets
    else normalizeTargetUserIDs_loop userIDs ({[id]} ∪ targetSet) (targets ++ [id])
  end.

Definition normalizeTargetUserIDs (userIDs : list string)
  : result (list string * gset string) :=
  let '(targets, targetSet) := normalizeTargetUserIDs_loop userIDs ∅ [] in
  if bool_decide (length targets = 0) then Err (Errorf "no valid user ids provided")
  else Ok (targets, targetSet).

Definition ensureTargetsInTeam (targets : list string) (members : list TeamMember.t)
  : option error :=
  let memberSet : gset string := list_to_set (TeamMember.UserId <$> members) in
  match list_find (λ id, id ∉ memberSet) targets with
  | Some (_, id) => Some (NewNotFoundError ("user " +:+ id))
  | None => None
  end.

Definition collectReplacementCandidates (members : list TeamMember.t)
    (targetSet : gset string) : list string :=
  TeamMember.UserId <$>
    filter (λ member, (TeamMember.UserId member ∉ targetSet) ∧
                      TeamMember.IsActive member = true) members.

(** The local variables of [planBulkReviewerSwaps] that its loops update. *)
Record planState := mkPlan {
  pool : reviewerPool;
  swaps : list ReviewerSwap.t;
  reassignments : list TeamPRReassignment.t;
  replacementIDs : list string
}.

(** The inner loop: the reviewers of one pull request.  [None] is the
    early return when the pool has no candidate left for this request. *)
Fixpoint plan_reviewers (prID : string) (targetSet : gset string)
    (reviewers : list string) (assigned : gset string)
    (replacementsForPR : list ReviewerReplacement.t) (st : planState)
  : option (list ReviewerReplacement.t * planState) :=
  match reviewers with
  | [] => Some (replacementsForPR, st)
  | reviewer :: reviewers =>
    if decide (reviewer ∈ targetSet) then
      match take assigned (pool st) with
      | (None, _) => None
      | (Some newReviewer, p) =>
        plan_reviewers prID targetSet reviewers ({[newReviewer]} ∪ assigned)
          (replacementsForPR ++ [ReviewerReplacement.mk reviewer newReviewer])
          (mkPlan p
             (swaps st ++ [ReviewerSwap.mk prID reviewer newReviewer])
             (reassignments st)
             (replacementIDs st ++ [newReviewer]))
      end
    else plan_reviewers prID targetSet reviewers assigned replacementsForPR st
  end.

(** The outer loop: the open pull requests. *)
Fixpoint plan_pull_requests (targetSet : gset string) (openPRs : list PullRequest.t)
    (st : planState) : result planState :=
  match openPRs with
  | [] => Ok st
  | pr :: openPRs =>
    let assigned : gset string := list_to_set (PullRequest.AssignedReviewers pr) in
    match plan_reviewers (PullRequest.PullRequestId pr) targetSet
            (PullRequest.AssignedReviewers pr) assigned [] st with
    | None => Err (NewNoCandidateError (PullRequest.PullRequestId pr))
    | Some (replacementsForPR, st) =>
      let st :=
        if bool_decide (0 < length replacementsForPR) then
          mkPlan (pool st) (swaps st)
            (reassignments st ++
               [TeamPRReassignment.mk (PullRequest.PullRequestId pr) replacementsForPR])
            (replacementIDs st)
        else st in
      plan_pull_requests targetSet openPRs st
    end
  end.

Definition planBulkReviewerSwaps (targets : list string) (targetSet : gset string)
    (p : reviewerPool) (db : DB)
  : result (list ReviewerSwap.t * list TeamPRReassignment.t * list string) :=
  match Repository.FindOpenPullRequestsByReviewers targets db with
  | Err err => Err (Wrapf "find open pull requests: " err)
  | Ok openPRs =>
    match plan_pull_requests targetSet openPRs (mkPlan p [] [] []) with
    | Err err => Err err
    | Ok st => Ok (swaps st, reassignments st, replacementIDs st)
    end
  end.

Definition BulkDeactivateTeamMembers (teamName : string) (userIDs : list string)
    (w : World DB) : result TeamBulkDeactivateResult.t * World DB :=
  let teamName := TrimSpace teamName in
  if decide (teamName = "") then (Err (Errorf "team name is required"), w)
  else if bool_decide (length userIDs = 0) then (Err (Errorf "no user ids provided"), w)
  else
    match normalizeTargetUserIDs userIDs with
    | Err err => (Err err, w)
    | Ok (targets, targetSet) =>
      match UserManager.GetTeam userRepo teamName w with
      | Err err => (Err err, w)
      | Ok team =>
        match ensureTargetsInTeam targets (Team.Members team) with
        | Some err => (Err err, w)
        | None =>
          let candidateIDs := collectReplacementCandidates (Team.Members team) targetSet in
          let p := newReviewerPool candidateIDs in
          match planBulkReviewerSwaps targets targetSet p (store w) with
          | Err err => (Err err, w)
          | Ok (swaps, reassignments, replacementIDs) =>
            let usersToDeactivate := targets ++ replacementIDs in
            match call_write (CallApplyBulkTeamReviewerSwaps swaps usersToDeactivate)
                    (Repository.ApplyBulkTeamReviewerSwaps swaps usersToDeactivate) w with
            | (Some err, w) => (Err (Wrapf "bulk reviewer swap: " err), w)
            | (None, w) =>
              let w :=
                if bool_decide (0 < length usersToDeactivate)
                then with_users
                       (UserManager.SyncUsersActivity usersToDeactivate false (users w)) w
                else w in
              (Ok (TeamBulkDeactivateResult.mk teamName targets reassignments), w)
            end
          end
        end
      end
    end.

(** [BulkDeactivateTeamMembers] in its two halves.  The first half only
    reads: it ends when [planBulkReviewerSwaps] has returned, with the local
    variables the rest of the call uses.  The second half writes what was
    planned: the call of [ApplyBulkTeamReviewerSwaps], the update of the
    cache and the result.  The whole call is the first half followed by the
    second on the same world; nothing in the code keeps another request
    from being served between the two. *)
Record bulkPlan := mkBulkPlan {
  plan_teamName : string;
  plan_targets : list string;
  plan_swaps : list ReviewerSwap.t;
  plan_reassignments : list TeamPRReassignment.t;
  plan_replacementIDs : list string
}.

Definition BulkDeactivateTeamMembers_plan (teamName : string) (userIDs : list string)
    (w : World DB) : result bulkPlan :=
  let teamName := TrimSpace teamName in
  if decide (teamName = "") then Err (Errorf "team name is required")
  else if bool_decide (length userIDs = 0) then Err (Errorf "no user ids provided")
  else
    match normalizeTargetUserIDs userIDs with
    | Err err => Err err
    | Ok (targets, targetSet) =>
      match UserManager.GetTeam userRepo teamName w with
      | Err err => Err err
      | Ok team =>
        match ensureTargetsInTeam targets (Team.Members team) with
        | Some err => Err err
        | None =>
          let candidateIDs := collectReplacementCandidates (Team.Members team) targetSet in
          let p := newReviewerPool candidateIDs in
          match planBulkReviewerSwaps targets targetSet p (store w) with
          | Err err => Err err
          | Ok (swaps, reassignments, replacementIDs) =>
            Ok (mkBulkPlan teamName targets swaps reassignments replacementIDs)
          end
        end
      end
    end.

Definition BulkDeactivateTeamMembers_apply (plan : bulkPlan) (w : World DB)
  : result TeamBulkDeactivateResult.t * World DB :=
  let usersToDeactivate := plan_targets plan ++ plan_replacementIDs plan in
  match call_write (CallApplyBulkTeamReviewerSwaps (plan_swaps plan) usersToDeactivate)
          (Repository.ApplyBulkTeamReviewerSwaps (plan_swaps plan) usersToDeactivate) w with
  | (Some err, w) => (Err (Wrapf "bulk reviewer swap: " err), w)
  | (None, w) =>
    let w :=
      if bool_decide (0 < length usersToDeactivate)
      then with_users (UserManager.SyncUsersActivity usersToDeactivate false (users w)) w
      else w in
    (Ok (TeamBulkDeactivateResult.mk (plan_teamName plan) (plan_targets plan)
           (plan_reassignments plan)), w)
  end.

(** The reports go through the same [prm.repo]. *)
Context {prReports : Repository.PullRequestReports DB}.

Definition ListForReviewer (userID : string) (w : World DB)
  : result (list PullRequestShort.t) :=
  match Repository.FindPullRequestsByReviewer userID (store w) with
  | Err err =>
    Err (Wrapf ("failed to find pull requests for reviewer " +:+ userID +:+ ": ") err)
  | Ok prs =>
    Ok ((λ pr, PullRequestShort.mk (PullRequest.AuthorId pr) (PullRequest.PullRequestId pr)
                 (PullRequest.PullRequestName pr) (PullRequest.Status pr)) <$> prs)
  end.

Definition AssignmentStats (w : World DB) : result (option AssignmentStats.t) :=
  match Repository.GetAssignmentStats (store w) with
  | Err err => Err (Wrapf "failed to get assignment stats: " err)
  | Ok stats => Ok stats
  end.

End PullRequestManager.
End PullRequestManager.

(** ** [Storage]: the PostgreSQL repository

    The four tables of [migrations/000001_init_schema.up.sql] with their
    primary and foreign keys, and the statements of [pr_repo.go] and
    [user_team_repo.go] run against them.  A statement that violates a
    constraint fails; a failed statement ends the method with an error and,
    inside a transaction, rolls it back, so the tables are left as they
    were.  Failures of the connection are not part of this model; the
    properties that must survive them are stated over the abstract
    interfaces above. *)

Module Storage.

(** What the database server decides: the order of the rows of a result
    set (the [ORDER BY] clauses sort under the collation of the database,
    and leave ties open), and the value a [TIMESTAMPTZ] column keeps of an
    instant. *)
Class Postgres := {
  order_by : ∀ A : Type, list A → list A;
  order_by_perm : ∀ (A : Type) (l : list A), order_by A l ≡ₚ l;
  timestamptz : Time → Time
}.
Arguments order_by {_ A} l.

Record UserRow := mkUserRow {
  username : string;
  is_active : bool;
  team_name : option string
}.

Record PullRequestRow := mkPullRequestRow {
  pull_request_name : string;
  author_id : string;
  status : string;
  created_at : option Time;
  merged_at : option Time
}.

(** [teams] is keyed by [team_name], [users] by [user_id], [pull_requests]
    by [pull_request_id]; [pull_request_reviewers] holds its rows
    [(pull_request_id, user_id)]. *)
Record Tables := mkTables {
  teams : gset string;
  users : gmap string UserRow;
  pull_requests : gmap string PullRequestRow;
  pull_request_reviewers : list (string * string)
}.

Definition unique_violation (constraint : string) : error :=
  Errorf ("duplicate key value violates unique constraint " +:+ constraint).

Definition foreign_key_violation (constraint : string) : error :=
  Errorf ("insert or update violates foreign key constraint " +:+ constraint).

(** [NULLIF($4, '')]. *)
Definition nullif_empty (s : string) : option string :=
  if decide (s = "") then None else Some s.

(** [INSERT INTO users ... ON CONFLICT (user_id) DO UPDATE ...]. *)
Definition upsert_user (user : User.t) (db : Tables) : result Tables :=
  let team := nullif_empty (User.TeamName user) in
  if match team with Some t => bool_decide (t ∈ teams db) | None => true end then
    Ok (mkTables (teams db)
          (<[User.UserId user := mkUserRow (User.Username user) (User.IsActive user) team]>
             (users db))
          (pull_requests db) (pull_request_reviewers db))
  else Err (foreign_key_violation "users_team_name_fkey").

(** [INSERT INTO pull_request_reviewers (pull_request_id, user_id)]. *)
Definition insert_reviewer (row : string * string) (db : Tables) : result Tables :=
  if bool_decide (row ∈ pull_request_reviewers db) then
    Err (unique_violation "pull_request_reviewers_pkey")
  else if negb (bool_decide (row.1 ∈ dom (pull_requests db))) then
    Err (foreign_key_violation "pull_request_reviewers_pull_request_id_fkey")
  else if negb (bool_decide (row.2 ∈ dom (users db))) then
    Err (foreign_key_violation "pull_request_reviewers_user_id_fkey")
  else
    Ok (mkTables (teams db) (users db) (pull_requests db)
          (pull_request_reviewers db ++ [row])).

(** [DELETE FROM pull_request_reviewers] with the given row filter. *)
Definition delete_reviewers (P : string * string → Prop) `{!∀ row, Decision (P row)}
    (db : Tables) : Tables :=
  mkTables (teams db) (users db) (pull_requests db)
    (filter (λ row, ¬ P row) (pull_request_reviewers db)).

(** The [user_id]s of the reviewer rows of one pull request. *)
Definition reviewers_of (prID : string) (db : Tables) : list string :=
  (filter (λ row, row.1 = prID) (pull_request_reviewers db)).*2.

Section Storage.
Context {pg : Postgres}.

(** *** [pr_repo.go] *)

(** [INSERT INTO pull_requests ... ON CONFLICT (pull_request_id) DO UPDATE]. *)
Definition upsert_pull_request (pr : PullRequest.t) (db : Tables) : result Tables :=
  if bool_decide (PullRequest.AuthorId pr ∈ dom (users db)) then
    Ok (mkTables (teams db) (users db)
          (<[PullRequest.PullRequestId pr :=
               mkPullRequestRow (PullRequest.PullRequestName pr) (PullRequest.AuthorId pr)
                 (PullRequest.Status pr)
                 (timestamptz <$> PullRequest.CreatedAt pr)
                 (timestamptz <$> PullRequest.MergedAt pr)]>
             (pull_requests db))
          (pull_request_reviewers db))
  else Err (foreign_key_violation "pull_requests_author_id_fkey").

(** The loop of [SavePullRequest] that inserts the reviewers. *)
Fixpoint SavePullRequest_reviewers (prID : string) (reviewers : list string)
    (seen : gset string) (db : Tables) : result Tables :=
  match reviewers with
  | [] => Ok db
  | r :: reviewers =>
    if decide (r = "") then SavePullRequest_reviewers prID reviewers seen db
    else if decide (r ∈ seen) then SavePullRequest_reviewers prID reviewers seen db
    else
      match insert_reviewer (prID, r) db with
      | Err err => Err (Wrapf ("insert pull_request_reviewer (" +:+ r +:+ "): ") err)
      | Ok db => SavePullRequest_reviewers prID reviewers ({[r]} ∪ seen) db
      end
  end.

Definition SavePullRequest (pr : PullRequest.t) (db : Tables) : result Tables :=
  if bool_decide (2 < length (PullRequest.AssignedReviewers pr)) then
    Err (Errorf "assigned reviewers count must be <= 2")
  else
    match upsert_pull_request pr db with
    | Err err => Err (Wrapf "upsert pull_requests: " err)
    | Ok db =>
      let db := delete_reviewers (λ row, row.1 = PullRequest.PullRequestId pr) db in
      SavePullRequest_reviewers (PullRequest.PullRequestId pr)
        (PullRequest.AssignedReviewers pr) ∅ db
    end.

(** A row of [pull_requests] with the reviewers aggregated for it. *)
Definition scan_pull_request (db : Tables) (entry : string * PullRequestRow)
  : PullRequest.t :=
  PullRequest.mk (order_by (reviewers_of entry.1 db)) (author_id entry.2)
    (created_at entry.2) (merged_at entry.2) entry.1 (pull_request_name entry.2)
    (status entry.2).

Definition GetPullRequest (prID : string) (db : Tables) : result PullRequest.t :=
  match pull_requests db !! prID with
  | None => Err (NewNotFoundError ("pull request " +:+ prID))
  | Some row => Ok (scan_pull_request db (prID, row))
  end.

Definition FindOpenPullRequestsByReviewers (reviewerIDs : list string) (db : Tables)
  : result (list PullRequest.t) :=
  if bool_decide (length reviewerIDs = 0) then Ok []
  else
    let unique : gset string := list_to_set (filter (λ id, id ≠ "") reviewerIDs) in
    if bool_decide (size unique = 0) then Ok []
    else
      Ok (order_by
            (scan_pull_request db <$>
               filter (λ entry, status entry.2 = "OPEN" ∧
                                Exists (λ r, r ∈ unique) (reviewers_of entry.1 db))
                      (map_to_list (pull_requests db)))).

(** [fmt.Sprintf("%+v", swap)]: the fields of the struct with their names. *)
Definition format_swap (swap : ReviewerSwap.t) : string :=
  "{PullRequestId:" +:+ ReviewerSwap.PullRequestId swap +:+
  " OldUserId:" +:+ ReviewerSwap.OldUserId swap +:+
  " NewUserId:" +:+ ReviewerSwap.NewUserId swap +:+ "}".

(** One turn of the loop of [applyReviewerSwapsTx].  The [DELETE] may
    remove no row: the number of rows it affected is not looked at. *)
Definition applyReviewerSwap (swap : ReviewerSwap.t) (db : Tables) : result Tables :=
  let prID := ReviewerSwap.PullRequestId swap in
  let old := ReviewerSwap.OldUserId swap in
  let new := ReviewerSwap.NewUserId swap in
  if bool_decide (prID = "" ∨ old = "" ∨ new = "") then
    Err (Errorf ("invalid reviewer swap payload: " +:+ format_swap swap))
  else
    let db := delete_reviewers (λ row, row = (prID, old)) db in
    match insert_reviewer (prID, new) db with
    | Err err =>
      Err (Wrapf ("insert reviewer " +:+ new +:+ " for pr " +:+ prID +:+ ": ") err)
    | Ok db => Ok db
    end.

Fixpoint applyReviewerSwapsTx (swaps : list ReviewerSwap.t) (db : Tables)
  : result Tables :=
  match swaps with
  | [] => Ok db
  | swap :: swaps =>
    match applyReviewerSwap swap db with
    | Err err => Err err
    | Ok db => applyReviewerSwapsTx swaps db
    end
  end.

(** [UPDATE users SET is_active = false WHERE user_id = ANY($1)]. *)
Definition deactivateUsersTx (userIDs : list string) (db : Tables) : Tables :=
  let uniq : gset string := list_to_set (filter (λ id, id ≠ "") userIDs) in
  if bool_decide (size uniq = 0) then db
  else
    mkTables (teams db)
      (map_imap (λ id row,
                   Some (if decide (id ∈ uniq)
                         then mkUserRow (username row) false (team_name row)
                         else row))
                (users db))
      (pull_requests db) (pull_request_reviewers db).

Definition ApplyBulkTeamReviewerSwaps (swaps : list ReviewerSwap.t)
    (usersToDeactivate : list string) (db : Tables) : result Tables :=
  if bool_decide (length swaps = 0) && bool_decide (length usersToDeactivate = 0)
  then Ok db
  else
    match
      (if bool_decide (0 < length swaps) then applyReviewerSwapsTx swaps db else Ok db)
    with
    | Err err => Err err
    | Ok db =>
      Ok (if bool_decide (0 < length usersToDeactivate)
          then deactivateUsersTx usersToDeactivate db else db)
    end.

(** *** [user_team_repo.go] *)

Definition SaveUser (user : User.t) (db : Tables) : result Tables :=
  match upsert_user user db with
  | Err err => Err (Wrapf "upsert user: " err)
  | Ok db => Ok db
  end.

Definition scan_user (entry : string * UserRow) : User.t :=
  User.mk (is_active entry.2) (default "" (team_name entry.2)) entry.1
          (username entry.2).

Definition GetUser (userID : string) (db : Tables) : result User.t :=
  match users db !! userID with
  | None => Err (NewNotFoundError ("user " +:+ userID))
  | Some row => Ok (scan_user (userID, row))
  end.

Definition GetAllUsersInTeam (teamId : string) (db : Tables) : list User.t :=
  order_by
    (scan_user <$>
       filter (λ entry, team_name entry.2 = Some teamId) (map_to_list (users db))).

(** The loop of [CreateTeamWithMembers] that upserts the members. *)
Fixpoint CreateTeamWithMembers_users (new : list User.t) (db : Tables)
  : result Tables :=
  match new with
  | [] => Ok db
  | user :: new =>
    match upsert_user user db with
    | Err err => Err (Wrapf ("upsert user " +:+ User.UserId user +:+ ": ") err)
    | Ok db => CreateTeamWithMembers_users new db
    end
  end.

Definition CreateTeamWithMembers (team : Team.t) (new : list User.t) (db : Tables)
  : result Tables :=
  if bool_decide (Team.TeamName team ∈ teams db) then
    Err (NewTeamExistsError (Team.TeamName team))
  else
    CreateTeamWithMembers_users new
      (mkTables ({[Team.TeamName team]} ∪ teams db) (users db) (pull_requests db)
                (pull_request_reviewers db)).

Definition convertUserToTeamMember (u : User.t) : TeamMember.t :=
  TeamMember.mk (User.IsActive u) (User.UserId u) (User.Username u).

Definition GetTeam (teamID : string) (db : Tables) : result Team.t :=
  if bool_decide (teamID ∈ teams db) then
    Ok (Team.mk (convertUserToTeamMember <$> GetAllUsersInTeam teamID db) teamID)
  else Err (NewNotFoundError ("team " +:+ teamID)).

(** [INSERT INTO teams ... ON CONFLICT (team_name) DO NOTHING], and the
    check of [RowsAffected]. *)
Definition SaveTeam (team : Team.t) (db : Tables) : result Tables :=
  if bool_decide (Team.TeamName team ∈ teams db) then
    Err (NewTeamExistsError (Team.TeamName team))
  else
    Ok (mkTables ({[Team.TeamName team]} ∪ teams db) (users db) (pull_requests db)
                 (pull_request_reviewers db)).

(** *** [pr_repo.go], the reports *)

(** The join of [FindPullRequestsByReviewer] keeps, of the reviewer rows of
    a request, the rows of [reviewerID]: a request is listed when it has
    one, and these rows are what [array_agg] collects for it. *)
Definition FindPullRequestsByReviewer (reviewerID : string) (db : Tables)
  : result (list PullRequest.t) :=
  Ok (order_by
        ((λ entry : string * PullRequestRow,
            PullRequest.mk
              (order_by (filter (λ r, r = reviewerID) (reviewers_of entry.1 db)))
              (author_id entry.2) (created_at entry.2) (merged_at entry.2) entry.1
              (pull_request_name entry.2) (status entry.2)) <$>
         filter (λ entry, Exists (λ r, r = reviewerID) (reviewers_of entry.1 db))
                (map_to_list (pull_requests db)))).

(** The first query of [GetAssignmentStats] has one group for each
    [user_id] of the reviewer table ([username] depends on it), with the
    number of its rows; the second one group for each pull request, with
    the number of its reviewer rows. *)
Definition GetAssignmentStats (db : Tables) : result (option AssignmentStats.t) :=
  let userIDs : gset string := list_to_set (pull_request_reviewers db).*2 in
  Ok (Some (AssignmentStats.mk
    (order_by
       ((λ userID,
           UserAssignmentStat.mk userID
             (default "" (username <$> users db !! userID))
             (Z.of_nat (length (filter (λ row, row.2 = userID)
                                       (pull_request_reviewers db))))) <$>
        elements userIDs))
    (order_by
       ((λ entry : string * PullRequestRow,
           PullRequestAssignmentStat.mk entry.1 (pull_request_name entry.2)
             (Z.of_nat (length (reviewers_of entry.1 db)))) <$>
        map_to_list (pull_requests db))))).

(** [*Storage] implements both interfaces. *)
Definition pullRequestRepository : Repository.PullRequestRepository Tables :=
  {| Repository.SavePullRequest := SavePullRequest;
     Repository.GetPullRequest := GetPullRequest;
     Repository.FindOpenPullRequestsByReviewers := FindOpenPullRequestsByReviewers;
     Repository.ApplyBulkTeamReviewerSwaps := ApplyBulkTeamReviewerSwaps |}.

Definition userTeamRepository : Repository.UserTeamRepository Tables :=
  {| Repository.SaveUser := SaveUser;
     Repository.GetUser := GetUser;
     Repository.CreateTeamWithMembers := CreateTeamWithMembers;
     Repository.GetTeam := GetTeam |}.

Definition pullRequestReports : Repository.PullRequestReports Tables :=
  {| Repository.FindPullRequestsByReviewer := FindPullRequestsByReviewer;
     Repository.GetAssignmentStats := GetAssignmentStats |}.

End Storage.
End Storage.

(** ** Package [web]: the HTTP handlers

    A handler is run on what the request carries: the value
    [encoding/json] decoded from the body ([None] when decoding failed) or a
    parameter of the URL query (the empty string when it is absent).  Its
    result is the response handed to [writeJSON], status and value; the
    content type is always [application/json]. *)

Module http.
Definition StatusOK : Z := 200.
Definition StatusCreated : Z := 201.
Definition StatusBadRequest : Z := 400.
Definition StatusUnauthorized : Z := 401.
Definition StatusNotFound : Z := 404.
Definition StatusConflict : Z := 409.
Definition StatusInternalServerError : Z := 500.
End http.

Module web.

(** The services behind the server ([ifaces.go]), over the state they keep. *)
Class PullRequestService (W : Type) := {
  CreatePullRequest : PostPullRequestCreateJSONBody.t → W → result PullRequest.t * W;
  Merge : PostPullRequestMergeJSONBody.t → W → result PullRequest.t * W;
  Reassign : string → string → W → result ReassignResponse.t * W;
  ListForReviewer : string → W → result (list PullRequestShort.t) * W;
  AssignmentStats : W → result (option AssignmentStats.t) * W;
  BulkDeactivateTeamMembers :
    string → list string → W → result TeamBulkDeactivateResult.t * W
}.

Class UserTeamService (W : Type) := {
  AddTeam : Team.t → W → option error * W;
  GetTeam : string → W → result Team.t * W;
  SetUserActivity : string → bool → W → result User.t * W
}.

(** The text of an error response: a literal of the handler, or
    [err.Error()] of the error a service returned. *)
Inductive Message :=
| Literal (text : string)
| ErrorText (err : error).

(** The values the handlers encode. *)
Inductive Body :=
| errorResponse (code : string) (message : Message)
| teamAdded (team : Team.t)
| teamFound (team : Team.t)
| teamDeactivateResponse (result : TeamBulkDeactivateResult.t)
| prResp (pr : PullRequest.t)
| reassignResponse (pr : PullRequest.t) (replacedBy : string)
| setUserResp (user : User.t)
| getUserReviewsResp (userId : string) (pullRequests : list PullRequestShort.t)
| assignmentStats (stats : AssignmentStats.t).

Record Response := mkResponse {
  status : Z;
  body : Body
}.

Definition writeJSON (status : Z) (v : Body) : Response := mkResponse status v.

Definition writeError (status : Z) (code : string) (message : Message) : Response :=
  writeJSON status (errorResponse code message).

Definition mapDomainError (err : option error) : Z * string * Message :=
  match err with
  | None => (http.StatusOK, "", Literal "")
  | Some e =>
    if errors_Is e ErrTeamExists then (http.StatusBadRequest, "TEAM_EXISTS", ErrorText e)
    else if errors_Is e ErrPRExists then (http.StatusConflict, "PR_EXISTS", ErrorText e)
    else if errors_Is e ErrPRMerged then (http.StatusConflict, "PR_MERGED", ErrorText e)
    else if errors_Is e ErrNotAssigned
    then (http.StatusConflict, "NOT_ASSIGNED", ErrorText e)
    else if errors_Is e ErrNoCandidate
    then (http.StatusConflict, "NO_CANDIDATE", ErrorText e)
    else if errors_Is e ErrNotFound then (http.StatusNotFound, "NOT_FOUND", ErrorText e)
    else if errors_Is e ErrUnauthorized
    then (http.StatusUnauthorized, "UNAUTHORIZED", ErrorText e)
    else (http.StatusInternalServerError, "INTERNAL_ERROR", ErrorText e)
  end.

(** The error branch every handler has. *)
Definition write_domain_error (err : error) : Response :=
  let '(status, code, msg) := mapDomainError (Some err) in
  writeError status code msg.

Definition invalid_payload : Response :=
  writeError http.StatusBadRequest "INVALID_PAYLOAD" (Literal "invalid json payload").

Definition missing_param (message : string) : Response :=
  writeError http.StatusBadRequest "MISSING_PARAM" (Literal message).

Section Server.
Context {W : Type} {go : Golang}.
Context {prService : PullRequestService W} {userTeamService : UserTeamService W}.

(** *** [team_handlers.go] *)

Definition handleTeamAdd (decoded : option Team.t) (w : W) : Response * W :=
  match decoded with
  | None => (invalid_payload, w)
  | Some team =>
    match AddTeam team w with
    | (Some err, w) => (write_domain_error err, w)
    | (None, w) => (writeJSON http.StatusCreated (teamAdded team), w)
    end
  end.

Definition handleTeamGet (teamName : string) (w : W) : Response * W :=
  if decide (teamName = "") then (missing_param "team_name is required", w)
  else
    match GetTeam teamName w with
    | (Err err, w) => (write_domain_error err, w)
    | (Ok team, w) => (writeJSON http.StatusOK (teamFound team), w)
    end.

Definition handleTeamDeactivate (decoded : option TeamBulkDeactivateRequest.t) (w : W)
  : Response * W :=
  match decoded with
  | None => (invalid_payload, w)
  | Some req =>
    let teamName := TrimSpace (TeamBulkDeactivateRequest.TeamName req) in
    if decide (teamName = "") then (missing_param "team_name is required", w)
    else
      let filtered :=
        filter (λ id, id ≠ "") (TrimSpace <$> TeamBulkDeactivateRequest.UserIDs req) in
      if bool_decide (length filtered = 0)
      then (missing_param "at least one user_id is required", w)
      else
        match BulkDeactivateTeamMembers teamName filtered w with
        | (Err err, w) => (write_domain_error err, w)
        | (Ok result, w) => (writeJSON http.StatusOK (teamDeactivateResponse result), w)
        end
  end.

(** *** The pull request handlers *)

Definition handlePRCreate (decoded : option PostPullRequestCreateJSONBody.t) (w : W)
  : Response * W :=
  match decoded with
  | None => (invalid_payload, w)
  | Some p =>
    if bool_decide (PostPullRequestCreateJSONBody.PullRequestId p = "" ∨
                    PostPullRequestCreateJSONBody.PullRequestName p = "" ∨
                    PostPullRequestCreateJSONBody.AuthorId p = "")
    then (missing_param "pull_request_id, pull_request_name and author_id are required", w)
    else
      match CreatePullRequest p w with
      | (Err err, w) => (write_domain_error err, w)
      | (Ok pr, w) => (writeJSON http.StatusCreated (prResp pr), w)
      end
  end.

Definition handlePRMerge (decoded : option PostPullRequestMergeJSONBody.t) (w : W)
  : Response * W :=
  match decoded with
  | None => (invalid_payload, w)
  | Some p =>
    if decide (PostPullRequestMergeJSONBody.PullRequestId p = "")
    then (missing_param "pull_request_id is required", w)
    else
      match Merge p w with
      | (Err err, w) => (write_domain_error err, w)
      | (Ok pr, w) => (writeJSON http.StatusOK (prResp pr), w)
      end
  end.

Definition handlePRReassign (decoded : option PostPullRequestReassignJSONBody.t) (w : W)
  : Response * W :=
  match decoded with
  | None => (invalid_payload, w)
  | Some p =>
    let prId := PostPullRequestReassignJSONBody.PullRequestId p in
    let oldUserId := PostPullRequestReassignJSONBody.OldUserId p in
    if bool_decide (prId = "" ∨ oldUserId = "")
    then (missing_param "pull_request_id and old_user_id are required", w)
    else
      match Reassign oldUserId prId w with
      | (Err err, w) => (write_domain_error err, w)
      | (Ok res, w) =>
        (writeJSON http.StatusOK
           (reassignResponse (ReassignResponse.PR res) (ReassignResponse.ReplacedBy res)), w)
      end
  end.

(** *** The user handlers *)

Definition handleSetUserActivity (decoded : option PostUsersSetIsActiveJSONBody.t) (w : W)
  : Response * W :=
  match decoded with
  | None => (invalid_payload, w)
  | Some p =>
    if decide (PostUsersSetIsActiveJSONBody.UserId p = "")
    then (missing_param "user_id is required", w)
    else
      match SetUserActivity (PostUsersSetIsActiveJSONBody.UserId p)
                            (PostUsersSetIsActiveJSONBody.IsActive p) w with
      | (Err err, w) => (write_domain_error err, w)
      | (Ok user, w) => (writeJSON http.StatusOK (setUserResp user), w)
      end
  end.

Definition handleGetUserReviews (userID : string) (w : W) : Response * W :=
  if decide (userID = "") then (missing_param "user_id is required", w)
  else
    match ListForReviewer userID w with
    | (Err err, w) => (write_domain_error err, w)
    | (Ok prs, w) => (writeJSON http.StatusOK (getUserReviewsResp userID prs), w)
    end.

(** *** [stats_handlers.go] *)

Definition handleAssignmentStats (w : W) : Response * W :=
  match AssignmentStats w with
  | (Err err, w) => (write_domain_error err, w)
  | (Ok stats, w) =>
    (writeJSON http.StatusOK (assignmentStats (default (AssignmentStats.mk [] []) stats)), w)
  end.

End Server.
End web.

(** ** [cmd/main.go]: one [Storage] behind both services *)

Module main.
Section main.
Context {go : Golang} {pg : Storage.Postgres}.

#[local] Existing Instance Storage.pullRequestRepository.

Definition userManager : option (Repository.UserTeamRepository Storage.Tables) :=
  Some Storage.userTeamRepository.

Definition PrimeCacheUser := UserManager.PrimeCacheUser userManager.
Definition AddTeam := UserManager.AddTeam userManager.
Definition GetTeam := UserManager.GetTeam userManager.
Definition SetUserActivity := UserManager.SetUserActivity userManager.

Definition CreatePullRequest := PullRequestManager.CreatePullRequest userManager.
Definition Merge := PullRequestManager.Merge (DB := Storage.Tables).
Definition Reassign := PullRequestManager.Reassign userManager.
Definition BulkDeactivateTeamMembers :=
  PullRequestManager.BulkDeactivateTeamMembers userManager.

(** One step of a serial execution: a request served by one of the
    services from its first statement to its last, whatever its outcome, or
    a goroutine that was started with [go] and now runs.  These are the
    executions in which no request is served while another is: some of the
    executions of the server, which serves requests concurrently.  All of
    them are the closure of [Concurrent.step] below. *)
Inductive step : World Storage.Tables → World Storage.Tables → Prop :=
| step_PrimeCacheUser userID w :
    step w (PrimeCacheUser userID w).2
| step_AddTeam team w :
    step w (AddTeam team w).2
| step_SetUserActivity userID isActive w :
    step w (SetUserActivity userID isActive w).2
| step_CreatePullRequest reqData now w :
    step w (CreatePullRequest reqData now w).2
| step_Merge prID now w :
    step w (Merge prID now w).2
| step_Reassign oldUserId prId w :
    step w (Reassign oldUserId prId w).2
| step_BulkDeactivateTeamMembers teamName userIDs w :
    step w (BulkDeactivateTeamMembers teamName userIDs w).2
| step_go_SetActivity rewIds status w :
    GoSetActivity rewIds status ∈ trace w →
    step w (with_users (UserManager.SetActivity rewIds status (users w)) w).

(** The two halves of a bulk deactivation. *)
Definition BulkDeactivateTeamMembers_plan :=
  PullRequestManager.BulkDeactivateTeamMembers_plan userManager.
Definition BulkDeactivateTeamMembers_apply :=
  PullRequestManager.BulkDeactivateTeamMembers_apply (DB := Storage.Tables).

(** The reports of the same [Storage], and the two managers as the
    services of the HTTP server; [now] is what [time.Now()] reads while the
    request is served. *)
#[local] Existing Instance Storage.pullRequestReports.

Definition ListForReviewer := PullRequestManager.ListForReviewer (DB := Storage.Tables).
Definition AssignmentStats := PullRequestManager.AssignmentStats (DB := Storage.Tables).

Definition prManager (now : Time) : web.PullRequestService (World Storage.Tables) :=
  {| web.CreatePullRequest := λ reqData, CreatePullRequest reqData now;
     web.Merge := λ payload, Merge (PostPullRequestMergeJSONBody.PullRequestId payload) now;
     web.Reassign := Reassign;
     web.ListForReviewer := λ userID w, (ListForReviewer userID w, w);
     web.AssignmentStats := λ w, (AssignmentStats w, w);
     web.BulkDeactivateTeamMembers := BulkDeactivateTeamMembers |}.

Definition userTeamService : web.UserTeamService (World Storage.Tables) :=
  {| web.AddTeam := AddTeam;
     web.GetTeam := λ teamName w, (GetTeam teamName w, w);
     web.SetUserActivity := SetUserActivity |}.

End main.
End main.

(** ** The server: requests served concurrently

    [net/http] serves every request in a goroutine of its own.  What the
    requests share is the database and the cache of the [UserManager].  A
    request touches them in atomic actions: a statement or a transaction of
    the repository, or a stretch of code that holds the lock [um.mu] of the
    cache.  Between two actions of a request any number of actions of other
    requests may happen.  As in the specification, a transaction is atomic
    at the storage boundary. *)

Module Concurrent.

#[local] Abbreviation W := (World Storage.Tables).

(** What is left of a request: a result, or an atomic action and what
    follows it, which may use what the action returned. *)
Inductive Prog (A : Type) : Type :=
| Ret (a : A)
| Atomic {X : Type} (act : W → X * W) (k : X → Prog A).
Arguments Ret {A} a.
Arguments Atomic {A X} act k.

Fixpoint bind {A B : Type} (p : Prog A) (f : A → Prog B) : Prog B :=
  match p with
  | Ret a => f a
  | Atomic act k => Atomic act (λ x, bind (k x) f)
  end.

#[global] Instance Prog_ret : MRet Prog := @Ret.
#[global] Instance Prog_bind : MBind Prog := λ A B f p, bind p f.

(** A request that is served without any other in between. *)
Fixpoint run {A : Type} (p : Prog A) (w : W) : A * W :=
  match p with
  | Ret a => (a, w)
  | Atomic act k => let '(x, w) := act w in run (k x) w
  end.

(** The first [n] actions of a request, done without any other in
    between, and what is then left of the request. *)
Fixpoint advance {A : Type} (n : nat) (p : Prog A) (w : W) : Prog A * W :=
  match n, p with
  | S n, Atomic act k => let '(x, w) := act w in advance n (k x) w
  | _, _ => (p, w)
  end.

Definition atomic {X : Type} (act : W → X * W) : Prog X := Atomic act Ret.

(** One [SELECT], or a look at the cache under the lock. *)
Definition query {X : Type} (f : W → X) : Prog X := atomic (λ w, (f w, w)).

(** An update of the cache under the lock, or a [go] statement. *)
Definition update (f : W → W) : Prog unit := atomic (λ w, ((), f w)).

Section Concurrent.
Context {go : Golang} {pg : Storage.Postgres}.

(** *** The repository: the methods that read with more than one statement *)

Definition repo_GetPullRequest (prID : string) : Prog (result PullRequest.t) :=
  found ← query (λ w, Storage.pull_requests (store w) !! prID);
  match found with
  | None => mret (Err (NewNotFoundError ("pull request " +:+ prID)))
  | Some row =>
    reviewers ← query (λ w, Storage.order_by (Storage.reviewers_of prID (store w)));
    mret (Ok (PullRequest.mk reviewers (Storage.author_id row) (Storage.created_at row)
                (Storage.merged_at row) prID (Storage.pull_request_name row)
                (Storage.status row)))
  end.

Definition repo_GetTeam (teamID : string) : Prog (result Team.t) :=
  found ← query (λ w, bool_decide (teamID ∈ Storage.teams (store w)));
  if found : bool then
    members ← query (λ w, Storage.GetAllUsersInTeam teamID (store w));
    mret (Ok (Team.mk (Storage.convertUserToTeamMember <$> members) teamID))
  else mret (Err (NewNotFoundError ("team " +:+ teamID))).

(** *** [UserManager], with the repository of [cmd/main.go] *)

Definition cache_user (user : User.t) : Prog unit :=
  update (λ w, with_users (<[User.UserId user := user]> (users w)) w).

Definition PrimeCacheUser (userID : string) : Prog (option error) :=
  r ← query (λ w, Storage.GetUser userID (store w));
  match r with
  | Err err => mret (Some (Wrapf ("failed to get user " +:+ userID +:+ ": ") err))
  | Ok user => cache_user user;; mret None
  end.

Definition AddTeam (team : Team.t) : Prog (option error) :=
  match UserManager.AddTeam_validate 0 ∅ (Team.Members team) with
  | Some err => mret (Some err)
  | None =>
    let new := (λ m, ConvertTmToUser m (Team.TeamName team)) <$> Team.Members team in
    failed ← atomic (call_write (CallCreateTeamWithMembers team new)
                                (Storage.CreateTeamWithMembers team new));
    match failed with
    | Some err =>
      mret (Some (Wrapf ("failed to persist team " +:+ Team.TeamName team +:+ ": ") err))
    | None =>
      update (λ w, with_users (UserManager.cache_users (users w) new) w);; mret None
    end
  end.

Definition GetTeam (teamName : string) : Prog (result Team.t) :=
  r ← repo_GetTeam teamName;
  match r with
  | Err err =>
    if negb (errors_Is err ErrNotFound)
    then mret (Err (Wrapf "failed to get team from repository: " err))
    else query (λ w, UserManager.GetTeam_from_cache teamName (users w))
  | Ok team => mret (Ok team)
  end.

Definition GetUserTeam (userID : string) : Prog (result string) :=
  cached ← query (λ w, users w !! userID);
  match cached with
  | Some user => mret (Ok (User.TeamName user))
  | None =>
    r ← query (λ w, Storage.GetUser userID (store w));
    match r with
    | Err err =>
      if errors_Is err ErrNotFound then mret (Err (NewNotFoundError "user"))
      else mret (Err (Wrapf "failed to get user from repository: " err))
    | Ok user => cache_user user;; mret (Ok (User.TeamName user))
    end
  end.

(** [SetUserActivity] holds the lock from its first statement to its last,
    the write to the database included: no other request touches the cache
    meanwhile, and the call is one action. *)
Definition SetUserActivity (userID : string) (isActive : bool) : Prog (result User.t) :=
  atomic (main.SetUserActivity userID isActive).

(** [go prm.UserService.SetActivity(rewIds, status)]: the goroutine is
    recorded in the trace, and runs when the scheduler picks it. *)
Definition go_SetActivity (rewIds : list string) (status : bool) : Prog unit :=
  update (emit (GoSetActivity rewIds status)).

(** *** [PullRequestManager] *)

Definition SavePullRequest (pr : PullRequest.t) : Prog (option error) :=
  atomic (call_write (CallSavePullRequest pr) (Storage.SavePullRequest pr)).

Definition CreatePullRequest (reqData : PostPullRequestCreateJSONBody.t) (now : Time)
  : Prog (result PullRequest.t) :=
  let pr := PullRequestManager.convertReqToModel reqData now in
  r ← GetUserTeam (PullRequest.AuthorId pr);
  match r with
  | Err err => mret (Err (Wrapf "failed to get author team: " err))
  | Ok teamID =>
    curAssignedReviewers ← query (λ w, UserManager.AssignRewiers teamID (users w));
    let pr := PullRequest.with_AssignedReviewers curAssignedReviewers pr in
    go_SetActivity curAssignedReviewers false;;
    failed ← SavePullRequest pr;
    match failed with
    | Some _ => mret (Err (Errorf "couldn`t add pr to DB"))
    | None => mret (Ok pr)
    end
  end.

Definition load_pull_request (prID : string) : Prog (result PullRequest.t) :=
  r ← repo_GetPullRequest prID;
  match r with
  | Err err =>
    if errors_Is err ErrNotFound then mret (Err (NewNotFoundError "pull request"))
    else mret (Err (Wrapf "failed to get pull request: " err))
  | Ok pr => mret (Ok pr)
  end.

Definition Merge (prID : string) (now : Time) : Prog (result PullRequest.t) :=
  r ← load_pull_request prID;
  match r with
  | Err err => mret (Err err)
  | Ok pr =>
    if decide (PullRequest.Status pr = PullRequestStatusMERGED) then mret (Ok pr)
    else
      let pr := PullRequest.with_merged now pr in
      failed ← SavePullRequest pr;
      match failed with
      | Some err => mret (Err (Wrapf "failed to save merged pull request: " err))
      | None =>
        (if bool_decide (0 < length (PullRequest.AssignedReviewers pr))
         then go_SetActivity (PullRequest.AssignedReviewers pr) true
         else mret ());;
        mret (Ok pr)
      end
  end.

Definition Reassign (oldUserId prId : string) : Prog (result ReassignResponse.t) :=
  r ← load_pull_request prId;
  match r with
  | Err err => mret (Err err)
  | Ok pr =>
    if decide (PullRequest.Status pr = PullRequestStatusMERGED)
    then mret (Err (NewPRMergedError prId))
    else if negb (bool_decide (oldUserId ∈ PullRequest.AssignedReviewers pr))
    then mret (Err (NewNotAssignedError prId))
    else
      r ← GetUserTeam oldUserId;
      match r with
      | Err err => mret (Err (Wrapf "failed to get user team: " err))
      | Ok teamName =>
        let excludeUserIDs := PullRequest.AssignedReviewers pr ++ [oldUserId] in
        found ← query (λ w, UserManager.FindReplacementReviewer teamName excludeUserIDs
                              (users w));
        match found with
        | Err err =>
          if errors_Is err ErrNoCandidate then mret (Err (NewNoCandidateError prId))
          else mret (Err (Wrapf "failed to find replacement reviewer: " err))
        | Ok newReviewerID =>
          let newAssignedReviewers :=
            filter (λ reviewerID, reviewerID ≠ oldUserId)
                   (PullRequest.AssignedReviewers pr) ++ [newReviewerID] in
          let pr := PullRequest.with_AssignedReviewers newAssignedReviewers pr in
          failed ← SavePullRequest pr;
          match failed with
          | Some err => mret (Err (Wrapf "failed to save reassigned pull request: " err))
          | None =>
            go_SetActivity [oldUserId] true;;
            go_SetActivity [newReviewerID] false;;
            mret (Ok (ReassignResponse.mk pr newReviewerID))
          end
        end
      end
  end.

Definition BulkDeactivateTeamMembers (teamName : string) (userIDs : list string)
  : Prog (result TeamBulkDeactivateResult.t) :=
  let teamName := TrimSpace teamName in
  if decide (teamName = "") then mret (Err (Errorf "team name is required"))
  else if bool_decide (length userIDs = 0) then mret (Err (Errorf "no user ids provided"))
  else
    match PullRequestManager.normalizeTargetUserIDs userIDs with
    | Err err => mret (Err err)
    | Ok (targets, targetSet) =>
      r ← GetTeam teamName;
      match r with
      | Err err => mret (Err err)
      | Ok team =>
        match PullRequestManager.ensureTargetsInTeam targets (Team.Members team) with
        | Some err => mret (Err err)
        | None =>
          let candidateIDs :=
            PullRequestManager.collectReplacementCandidates (Team.Members team) targetSet in
          let p := PullRequestManager.newReviewerPool candidateIDs in
          planned ← query (λ w, PullRequestManager.planBulkReviewerSwaps
                                  (prRepo := Storage.pullRequestRepository)
                                  targets targetSet p (store w));
          match planned with
          | Err err => mret (Err err)
          | Ok (swaps, reassignments, replacementIDs) =>
            let usersToDeactivate := targets ++ replacementIDs in
            failed ← atomic (call_write
                               (CallApplyBulkTeamReviewerSwaps swaps usersToDeactivate)
                               (Storage.ApplyBulkTeamReviewerSwaps swaps usersToDeactivate));
            match failed with
            | Some err => mret (Err (Wrapf "bulk reviewer swap: " err))
            | None =>
              (if bool_decide (0 < length usersToDeactivate)
               then update (λ w, with_users
                                   (UserManager.SyncUsersActivity usersToDeactivate false
                                      (users w)) w)
               else mret ());;
              mret (Ok (TeamBulkDeactivateResult.mk teamName targets reassignments))
            end
          end
        end
      end
    end.

(** *** The scheduler *)

(** A request in flight, whatever the type of its result. *)
Inductive Thread :=
| Running {A : Type} (p : Prog A).

(** The requests a client may send, with any arguments, and the warming
    of the cache. *)
Inductive request : Thread → Prop :=
| request_PrimeCacheUser userID : request (Running (PrimeCacheUser userID))
| request_AddTeam team : request (Running (AddTeam team))
| request_GetTeam teamName : request (Running (GetTeam teamName))
| request_SetUserActivity userID isActive :
    request (Running (SetUserActivity userID isActive))
| request_CreatePullRequest reqData now :
    request (Running (CreatePullRequest reqData now))
| request_Merge prID now : request (Running (Merge prID now))
| request_Reassign oldUserId prId : request (Running (Reassign oldUserId prId))
| request_BulkDeactivateTeamMembers teamName userIDs :
    request (Running (BulkDeactivateTeamMembers teamName userIDs)).

Record System := mkSystem {
  world : W;
  threads : list Thread
}.

(** One step of the server: a request arrives; a request in flight does
    its next atomic action; or a goroutine that was started with [go] runs
    [SetActivity], which holds the lock throughout. *)
Inductive step : System → System → Prop :=
| step_request t s :
    request t → step s (mkSystem (world s) (threads s ++ [t]))
| step_atomic {A X : Type} (act : W → X * W) (k : X → Prog A) i s :
    threads s !! i = Some (Running (Atomic act k)) →
    step s (mkSystem (act (world s)).2
                     (<[i := Running (k (act (world s)).1)]> (threads s)))
| step_go_SetActivity rewIds status s :
    GoSetActivity rewIds status ∈ trace (world s) →
    step s (mkSystem (with_users (UserManager.SetActivity rewIds status (users (world s)))
                                 (world s))
                     (threads s)).

End Concurrent.
End Concurrent.

(** ** Concrete instances, for running the definitions *)

Module Examples.

(** The white space of ASCII: ['\t'], ['\n'], ['\v'], ['\f'], ['\r'], [' ']. *)
Definition is_ascii_space (a : Ascii.ascii) : bool :=
  bool_decide (a ∈ [Ascii.ascii_of_nat 9; Ascii.ascii_of_nat 10; Ascii.ascii_of_nat 11;
                    Ascii.ascii_of_nat 12; Ascii.ascii_of_nat 13; Ascii.ascii_of_nat 32]).

Fixpoint trim_left (s : string) : string :=
  match s with
  | String a s' => if is_ascii_space a then trim_left s' else s
  | EmptyString => EmptyString
  end.

Fixpoint trim_right (s : string) : string :=
  match s with
  | String a s' =>
    let t := trim_right s' in
    if is_ascii_space a && bool_decide (t = "") then "" else String a t
  | EmptyString => EmptyString
  end.

(** [strings.TrimSpace] on strings whose white space is ASCII. *)
Definition TrimSpace_ascii (s : string) : string := trim_right (trim_left s).

(** A runtime that walks a map in the order [map_to_list] lists it. *)
Definition golang : Golang :=
  {| range_users := map_to_list;
     range_users_perm := λ m, Permutation_refl (map_to_list m);
     TrimSpace := TrimSpace_ascii |}.

(** A server that returns rows in the order they are found and keeps
    instants as they are. *)
Definition postgres : Storage.Postgres :=
  {| Storage.order_by := λ _ l, l;
     Storage.order_by_perm := λ _ l, Permutation_refl l;
     Storage.timestamptz := λ t, t |}.

Definition member (id : string) (active : bool) : TeamMember.t :=
  TeamMember.mk active id id.

Definition user (id team : string) (active : bool) : User.t :=
  User.mk active team id id.

(** A directory without repository and an empty cache. *)
Definition cache_only : World unit := mkWorld () ∅ [].

(** An empty database behind an empty cache. *)
Definition empty_tables : Storage.Tables := Storage.mkTables ∅ ∅ ∅ [].
Definition fresh : World Storage.Tables := mkWorld empty_tables ∅ [].

(** A repository whose every call fails, like the mock of the test
    [TestUserManager_SetUserActivityPersistsAndRollsBack]. *)
Definition failing_user_repo : Repository.UserTeamRepository unit :=
  {| Repository.SaveUser := λ _ _, Err (Errorf "boom");
     Repository.GetUser := λ _ _, Err (Errorf "boom");
     Repository.CreateTeamWithMembers := λ _ _ _, Err (Errorf "boom");
     Repository.GetTeam := λ _ _, Err (Errorf "boom") |}.

(** The running system after [AddTeam] of a team of four, one of them
    inactive, and after [CreatePullRequest] by one of its members. *)
Definition backend : Team.t :=
  Team.mk [member "u1" true; member "u2" true; member "u3" true; member "u4" false]
          "backend".

Definition with_team : World Storage.Tables :=
  (main.AddTeam (pg := postgres) backend fresh).2.

Definition with_pr : World Storage.Tables :=
  (main.CreatePullRequest (go := golang) (pg := postgres)
     (PostPullRequestCreateJSONBody.mk "u1" "pr-1" "title") 5%Z with_team).2.

(** The same with a team of two whose only active member reviews the
    request that member wrote. *)
Definition small : Team.t := Team.mk [member "u1" true; member "u2" false] "backend".

Definition small_team : World Storage.Tables :=
  (main.AddTeam (pg := postgres) small fresh).2.

Definition small_pr : World Storage.Tables :=
  (main.CreatePullRequest (go := golang) (pg := postgres)
     (PostPullRequestCreateJSONBody.mk "u1" "pr-1" "title") 5%Z small_team).2.

(** A team of five, all active, and two pull requests written by one of
    them: both get the reviewers ["c"] and ["e"]. *)
Definition core : Team.t :=
  Team.mk [member "a" true; member "b" true; member "c" true; member "d" true;
           member "e" true] "core".

Definition core_team : World Storage.Tables :=
  (main.AddTeam (pg := postgres) core fresh).2.

Definition core_pr : World Storage.Tables :=
  (main.CreatePullRequest (go := golang) (pg := postgres)
     (PostPullRequestCreateJSONBody.mk "d" "P1" "first") 5%Z core_team).2.

Definition core_prs : World Storage.Tables :=
  (main.CreatePullRequest (go := golang) (pg := postgres)
     (PostPullRequestCreateJSONBody.mk "d" "P2" "second") 6%Z core_pr).2.

(** Two requests on [core_prs], interleaved.  A bulk deactivation of
    ["c"] does its first three actions: it has read the team and the open
    requests of ["c"], and what is left of it holds the swaps it planned,
    ["c"] by ["a"] on ["P1"] and ["c"] by ["b"] on ["P2"]. *)
Definition stale_plan
  : Concurrent.Prog (result TeamBulkDeactivateResult.t) * World Storage.Tables :=
  Concurrent.advance 3
    (Concurrent.BulkDeactivateTeamMembers (go := golang) (pg := postgres) "core" ["c"])
    core_prs.

(** Then a [Reassign] of ["c"] on ["P2"] is served from its first action
    to its last: it replaces ["c"] by ["a"]. *)
Definition reassigned : result ReassignResponse.t * World Storage.Tables :=
  Concurrent.run (Concurrent.Reassign (go := golang) (pg := postgres) "c" "P2")
    stale_plan.2.

(** Then the bulk deactivation does the rest of its actions: it writes
    what it planned. *)
Definition bulk_done : result TeamBulkDeactivateResult.t * World Storage.Tables :=
  Concurrent.run stale_plan.1 reassigned.2.

(** The world this leaves, and the server with its five requests
    answered. *)
Definition over_cap : World Storage.Tables := bulk_done.2.

Definition over_cap_system : Concurrent.System :=
  Concurrent.mkSystem over_cap
    [Concurrent.Running (Concurrent.Ret (main.AddTeam (pg := postgres) core fresh).1);
     Concurrent.Running
       (Concurrent.Ret
          (main.CreatePullRequest (go := golang) (pg := postgres)
             (PostPullRequestCreateJSONBody.mk "d" "P1" "first") 5%Z core_team).1);
     Concurrent.Running
       (Concurrent.Ret
          (main.CreatePullRequest (go := golang) (pg := postgres)
             (PostPullRequestCreateJSONBody.mk "d" "P2" "second") 6%Z core_pr).1);
     Concurrent.Running (Concurrent.Ret bulk_done.1);
     Concurrent.Running (Concurrent.Ret reassigned.1)].

End Examples.

(** ** Invariants and specification-side definitions *)

(** A reviewer list as the data model wants it: at most two ids, no id
    twice. *)
Definition reviewers_ok (rs : list string) : Prop :=
  length rs ≤ 2 ∧ NoDup rs.

(** Every cache entry is filed under the id of its user. *)
Definition cache_inv (us : gmap string User.t) : Prop :=
  map_Forall (λ k u, User.UserId u = k) us.

(** A pool as [newReviewerPool] builds it and [take] keeps it: the queue
    lists the available ids, each once. *)
Definition pool_wf (p : PullRequestManager.reviewerPool) : Prop :=
  NoDup (PullRequestManager.queue p) ∧
  ∀ x, x ∈ PullRequestManager.queue p ↔ x ∈ PullRequestManager.available p.

(** The primary key of [pull_request_reviewers], and the cap of two
    reviewers for each pull request that has reviewer rows. *)
Definition store_inv (db : Storage.Tables) : Prop :=
  NoDup (Storage.pull_request_reviewers db) ∧
  Forall (λ row, length (Storage.reviewers_of row.1 db) ≤ 2)
         (Storage.pull_request_reviewers db).

(** The two invariants of a world that serial executions reach: the
    reviewer table with its cap of two, and the cache. *)
Definition world_inv (w : World Storage.Tables) : Prop :=
  store_inv (store w) ∧ cache_inv (users w).

(** The foreign key [users.team_name REFERENCES teams(team_name)]. *)
Definition users_team_fk (db : Storage.Tables) : Prop :=
  map_Forall (λ _ row, match Storage.team_name row with
                       | Some t => t ∈ Storage.teams db
                       | None => True
                       end) (Storage.users db).

(** The normal form of a target list in the words of the specification,
    to compare [normalizeTargetUserIDs] with: de-duplicate, keeping the
    first occurrence of an id ... *)
Fixpoint spec_first_occurrences (l : list string) : list string :=
  match l with
  | [] => []
  | x :: l => x :: filter (λ y, y ≠ x) (spec_first_occurrences l)
  end.

(** ... after trimming every id and dropping the empty ones. *)
Definition spec_normalize {go : Golang} (userIDs : list string) : list string :=
  spec_first_occurrences (filter (λ id, id ≠ "") (TrimSpace <$> userIDs)).

(** The swaps a report entry stands for. *)
Definition swaps_of_reassignment (r : TeamPRReassignment.t) : list ReviewerSwap.t :=
  (λ rep, ReviewerSwap.mk (TeamPRReassignment.PullRequestId r)
            (ReviewerReplacement.OldUserId rep) (ReviewerReplacement.NewUserId rep))
    <$> TeamPRReassignment.Replacements r.

(** The slot a swap refills and the replacement it is reported as. *)
Definition slot_of (s : ReviewerSwap.t) : string * string :=
  (ReviewerSwap.PullRequestId s, ReviewerSwap.OldUserId s).

Definition replacement_of (s : ReviewerSwap.t) : ReviewerReplacement.t :=
  ReviewerReplacement.mk (ReviewerSwap.OldUserId s) (ReviewerSwap.NewUserId s).

(** What a loop that files each element of a list under its key leaves in
    a map: the caching loop of [AddTeam], the upserts of
    [CreateTeamWithMembers]. *)
Definition insert_all {A V : Type} (key : A → string) (val : A → V)
    (m : gmap string V) (l : list A) : gmap string V :=
  foldl (λ m a, <[key a := val a]> m) m l.

(** The row an upsert writes for a user. *)
Definition user_row (user : User.t) : Storage.UserRow :=
  Storage.mkUserRow (User.Username user) (User.IsActive user)
    (Storage.nullif_empty (User.TeamName user)).

(** The reviewer slots a bulk deactivation has to refill: for each open
    pull request, in order, its reviewers that are targets. *)
Definition targeted_slots (targetSet : gset string) (openPRs : list PullRequest.t)
  : list (string * string) :=
  openPRs ≫= λ pr,
    (λ reviewer, (PullRequest.PullRequestId pr, reviewer)) <$>
      filter (λ reviewer, reviewer ∈ targetSet) (PullRequest.AssignedReviewers pr).

(** ** What the further properties speak of *)

(** The sentinel at the end of the [%w] chain of an error, if there is
    one. *)
Fixpoint wrapped_sentinel (err : error) : option sentinel :=
  match err with
  | Sentinel s => Some s
  | Errorf _ => None
  | Wrapf _ cause => wrapped_sentinel cause
  end.

(** The users of a team that [AssignRewiers] may pick, in the order the
    cache is walked. *)
Definition active_of_team {go : Golang} (teamId : string) (us : gmap string User.t)
  : list User.t :=
  filter (λ user, User.TeamName user = teamId ∧ User.IsActive user = true)
         ((range_users us).*2).

(** The foreign keys of the schema: the team of a user, the author of a
    pull request, and the pull request and the user of a reviewer row. *)
Definition schema_fk (db : Storage.Tables) : Prop :=
  users_team_fk db ∧
  map_Forall (λ _ row, Storage.author_id row ∈ dom (Storage.users db))
             (Storage.pull_requests db) ∧
  Forall (λ row, row.1 ∈ dom (Storage.pull_requests db) ∧
                 row.2 ∈ dom (Storage.users db))
         (Storage.pull_request_reviewers db).

(** Every user in the cache is filed under the id of a row of the users
    table, and its team, when it has one, is a stored team. *)
Definition cache_stored (db : Storage.Tables) (us : gmap string User.t) : Prop :=
  map_Forall (λ k user, k ∈ dom (Storage.users db) ∧
                        (User.TeamName user = "" ∨ User.TeamName user ∈ Storage.teams db))
             us.

(** The invariants of the serial executions, together: those of the
    reviewer table, the cap of two included, and of the cache, the foreign
    keys, no user with an empty id, and the cache within the users table.
    The server keeps all of them but the cap: see [running_inv]. *)
Definition system_inv (w : World Storage.Tables) : Prop :=
  world_inv w ∧ schema_fk (store w) ∧ ("" ∉ dom (Storage.users (store w))) ∧
  cache_stored (store w) (users w).

(** What holds of the database and the cache of the server whatever the
    order in which the actions of its requests happen: the primary key of
    the reviewer table, every cache entry filed under its own id, the
    foreign keys, no user with an empty id, and the cache within the users
    table.  The cap of two reviewers is not among them. *)
Definition running_inv (w : World Storage.Tables) : Prop :=
  NoDup (Storage.pull_request_reviewers (store w)) ∧ cache_inv (users w) ∧
  schema_fk (store w) ∧ ("" ∉ dom (Storage.users (store w))) ∧
  cache_stored (store w) (users w).

(** What no action takes back: a team and a user, once stored, stay. *)
Definition grows (w w' : World Storage.Tables) : Prop :=
  Storage.teams (store w) ⊆ Storage.teams (store w') ∧
  dom (Storage.users (store w)) ⊆ dom (Storage.users (store w')).

(** A request in flight whose every action to come keeps [running_inv],
    and takes nothing back, in whatever world it happens that has grown
    from [w0], the world in which the request last acted. *)
Fixpoint safe {A : Type} (p : Concurrent.Prog A) (w0 : World Storage.Tables) : Prop :=
  match p with
  | Concurrent.Ret _ => True
  | Concurrent.Atomic act k =>
    ∀ w, running_inv w → grows w0 w →
         running_inv (act w).2 ∧ grows w (act w).2 ∧ safe (k (act w).1) (act w).2
  end.

(** The error kind [InvalidPayload] of the specification, as a client of
    the HTTP interface is told it: status 400 with the code
    [INVALID_PAYLOAD]. *)
Definition reported_as_InvalidPayload (err : error) : Prop :=
  (web.mapDomainError (Some err)).1 = (http.StatusBadRequest, "INVALID_PAYLOAD").

(** Reduces the fields of a world that an operation has just written. *)
Ltac world_fields := cbn [store users with_users with_store emit fst snd].

(** Runs the actions of a request that stand at its head. *)
Ltac run_actions :=
  cbn [Concurrent.run Concurrent.bind mbind mret Concurrent.Prog_bind Concurrent.Prog_ret
       Concurrent.query Concurrent.update Concurrent.atomic fst snd].

(** * Properties *)

#[local] Set Warnings "-clear-no-such-hyp".

(** ** Normalisation of the targets *)

Lemma filter_id {A} (P : A → Prop) `{!∀ x, Decision (P x)} (l : list A) :
  Forall P l → filter P l = l.
Proof.
  induction 1 as [|x l Hx _ IH]; [done|]. by rewrite filter_cons_True, IH.
Qed.

Lemma filter_none {A} (P : A → Prop) `{!∀ x, Decision (P x)} (l : list A) :
  Forall (λ x, ¬ P x) l → filter P l = [].
Proof.
  induction 1 as [|x l Hx _ IH]; [done|]. by rewrite filter_cons_False.
Qed.

Section normalize.
Context {go : Golang}.

Lemma filter_not_in_cons_in (S : gset string) (x : string) (l : list string) :
  x ∈ S →
  filter (λ y, y ∉ S) (filter (λ y, y ≠ x) l) = filter (λ y, y ∉ S) l.
Proof.
  intros Hx. rewrite list_filter_filter. apply list_filter_iff.
  intros y. split; [tauto|]. intros Hy. split; [done|]. by intros ->.
Qed.

Lemma filter_not_in_cons_out (S : gset string) (x : string) (l : list string) :
  filter (λ y, y ∉ S) (filter (λ y, y ≠ x) l) = filter (λ y, y ∉ {[x]} ∪ S) l.
Proof.
  rewrite list_filter_filter. apply list_filter_iff. intros y.
  rewrite not_elem_of_union, not_elem_of_singleton. tauto.
Qed.

(** The loop, from any intermediate state: what it appends to [targets] is
    the normal form of the rest of the input without the ids seen so far. *)
Lemma normalizeTargetUserIDs_loop_spec (userIDs : list string)
    (targetSet : gset string) (targets : list string) :
  let rest := filter (λ y, y ∉ targetSet) (spec_normalize userIDs) in
  PullRequestManager.normalizeTargetUserIDs_loop userIDs targetSet targets
  = (targets ++ rest, list_to_set rest ∪ targetSet).
Proof.
  revert targetSet targets. unfold spec_normalize.
  induction userIDs as [|raw userIDs IH]; intros targetSet targets; simpl.
  { rewrite app_nil_r. f_equal. symmetry. apply (left_id_L ∅ (∪)). }
  destruct (decide (TrimSpace raw = "")) as [Hempty|Hne].
  { rewrite filter_cons_False by (by intros Hn; apply Hn). apply IH. }
  rewrite filter_cons_True by done. simpl.
  destruct (decide (TrimSpace raw ∈ targetSet)) as [Hin|Hout].
  - rewrite filter_cons_False by (by intros Hn; apply Hn). rewrite IH. simpl.
    by rewrite filter_not_in_cons_in.
  - rewrite filter_cons_True by done. rewrite IH. simpl.
    rewrite filter_not_in_cons_out, <- app_assoc. simpl. f_equal.
    set_solver.
Qed.

Lemma normalizeTargetUserIDs_loop_init (userIDs : list string) :
  PullRequestManager.normalizeTargetUserIDs_loop userIDs ∅ []
  = (spec_normalize userIDs, list_to_set (spec_normalize userIDs)).
Proof.
  rewrite normalizeTargetUserIDs_loop_spec. cbv zeta.
  rewrite filter_id by (apply Forall_forall; intros; apply not_elem_of_empty).
  by rewrite (right_id_L ∅ (∪)).
Qed.

Lemma spec_first_occurrences_NoDup (l : list string) :
  NoDup (spec_first_occurrences l).
Proof.
  induction l as [|x l IH]; simpl; [constructor|].
  constructor; [|by apply NoDup_filter].
  rewrite list_elem_of_filter. tauto.
Qed.

Lemma spec_first_occurrences_elem_of (l : list string) (x : string) :
  x ∈ spec_first_occurrences l ↔ x ∈ l.
Proof.
  induction l as [|y l IH]; simpl; [done|].
  rewrite !elem_of_cons, list_elem_of_filter, IH.
  destruct (decide (x = y)); naive_solver.
Qed.

End normalize.

Lemma normalizeTargetUserIDs_eq {go : Golang} (userIDs : list string) :
  PullRequestManager.normalizeTargetUserIDs userIDs
  = (if decide (spec_normalize userIDs = [])
     then Err (Errorf "no valid user ids provided")
     else Ok (spec_normalize userIDs, list_to_set (spec_normalize userIDs))).
Proof.
  unfold PullRequestManager.normalizeTargetUserIDs.
  rewrite normalizeTargetUserIDs_loop_init.
  destruct (spec_normalize userIDs) as [|x l]; [done|].
  by rewrite bool_decide_eq_false_2, decide_False.
Qed.

(** C7, amended.  [normalizeTargetUserIDs] computes what the
    specification words: every id trimmed, the empty ones dropped,
    duplicates removed with the first occurrence kept, together with the set
    of the ids kept; when that list is empty it fails with the error
    ["no valid user ids provided"].  [BulkDeactivateTeamMembers] then fails
    before it reads or writes anything, with the first of three errors that
    applies: ["team name is required"], ["no user ids provided"] or
    ["no valid user ids provided"].  Each of them is a bare [fmt.Errorf]:
    it wraps no sentinel, so it has no error kind, and [mapDomainError]
    turns it into status 500 with the code [INTERNAL_ERROR]. *)
Theorem normalizeTargetUserIDs_refines_spec {go : Golang} (userIDs : list string) :
  PullRequestManager.normalizeTargetUserIDs userIDs
  = (if decide (spec_normalize userIDs = [])
     then Err (Errorf "no valid user ids provided")
     else Ok (spec_normalize userIDs, list_to_set (spec_normalize userIDs)))
  ∧ (spec_normalize userIDs = [] →
     ∀ (DB : Type) (prRepo : Repository.PullRequestRepository DB)
       (userRepo : option (Repository.UserTeamRepository DB))
       (teamName : string) (w : World DB),
       let err :=
         Errorf (if decide (TrimSpace teamName = "") then "team name is required"
                 else if bool_decide (length userIDs = 0) then "no user ids provided"
                 else "no valid user ids provided") in
       PullRequestManager.BulkDeactivateTeamMembers userRepo teamName userIDs w
       = (Err err, w) ∧
       wrapped_sentinel err = None ∧
       (∀ target, errors_Is err target = false) ∧
       (web.mapDomainError (Some err)).1
       = (http.StatusInternalServerError, "INTERNAL_ERROR")).
Proof.
  pose proof (normalizeTargetUserIDs_eq userIDs) as Hnorm.
  split; [done|]. intros Hempty DB prRepo userRepo teamName w. cbv zeta.
  split; [|done].
  unfold PullRequestManager.BulkDeactivateTeamMembers.
  rewrite Hnorm. cbv zeta.
  destruct (decide (TrimSpace teamName = "")); [done|].
  destruct (bool_decide (length userIDs = 0)); [done|].
  by destruct (decide (spec_normalize userIDs = [])).
Qed.


Example normalizeTargetUserIDs_run :
  PullRequestManager.normalizeTargetUserIDs (go := Examples.golang)
    [" u2 "; ""; "u1"; "u2"; "   "; "u1 "]
  = Ok (["u2"; "u1"], {["u2"; "u1"]}).
Proof. vm_compute. reflexivity. Qed.

(** ** The candidate pool *)

Section pool.
Import PullRequestManager.

Lemma reviewerPool_eta (p : reviewerPool) : mkPool (queue p) (available p) = p.
Proof. by destruct p. Qed.

(** A list either satisfies [P] throughout, or splits at its first element
    that does not. *)
Lemma Forall_or_first_not {A} (P : A → Prop) `{!∀ x, Decision (P x)} (l : list A) :
  Forall P l ∨ ∃ s c r, l = s ++ c :: r ∧ Forall P s ∧ ¬ P c.
Proof.
  induction l as [|x l [IH|(s & c & r & -> & Hs & Hc)]].
  - left. constructor.
  - destruct (decide (P x)) as [Hx|Hx].
    + left. by constructor.
    + right. exists [], x, l. by split_and!.
  - destruct (decide (P x)) as [Hx|Hx].
    + right. exists (x :: s), c, r. split_and!; [done|by constructor|done].
    + right. exists [], x, (s ++ c :: r). by split_and!.
Qed.

Lemma newReviewerPool_loop_wf (ids : list string) (p : reviewerPool) :
  pool_wf p → pool_wf (newReviewerPool_loop ids p).
Proof.
  revert p. induction ids as [|id ids IH]; intros p Hp; simpl; [done|].
  destruct (decide (id = "")); [by apply IH|].
  destruct (decide (id ∈ available p)) as [Hin|Hout]; [by apply IH|].
  apply IH. destruct Hp as [Hnd Hq]. split; simpl.
  - apply NoDup_app. split_and!; [done| |apply NoDup_singleton].
    intros x Hx ->%list_elem_of_singleton. by apply Hout, Hq.
  - intros x. rewrite elem_of_app, list_elem_of_singleton, elem_of_union,
      elem_of_singleton, Hq. tauto.
Qed.

Lemma newReviewerPool_loop_available (ids : list string) (p : reviewerPool) (x : string) :
  x ∈ available (newReviewerPool_loop ids p) ↔ x ∈ available p ∨ (x ∈ ids ∧ x ≠ "").
Proof.
  revert p. induction ids as [|id ids IH]; intros p; simpl.
  { rewrite elem_of_nil. tauto. }
  rewrite elem_of_cons.
  destruct (decide (id = "")) as [->|Hne]; [rewrite IH; naive_solver|].
  destruct (decide (id ∈ available p)) as [Hin|Hout]; rewrite IH; simpl.
  - naive_solver.
  - rewrite elem_of_union, elem_of_singleton. naive_solver.
Qed.

Lemma newReviewerPool_wf (ids : list string) : pool_wf (newReviewerPool ids).
Proof.
  apply newReviewerPool_loop_wf. split; simpl; [constructor|].
  intros x. by rewrite elem_of_nil, elem_of_empty.
Qed.

Lemma newReviewerPool_available (ids : list string) (x : string) :
  x ∈ available (newReviewerPool ids) ↔ x ∈ ids ∧ x ≠ "".
Proof.
  unfold newReviewerPool. rewrite newReviewerPool_loop_available. simpl.
  rewrite elem_of_empty. tauto.
Qed.

(** Candidates that are available but excluded are moved, one by one, from
    the head of the queue to its back. *)
Lemma take_loop_rotate (exclude av : gset string) (s q : list string) (n : nat) :
  Forall (λ x, x ∈ av ∧ x ∈ exclude) s →
  take_loop (length s + n) exclude (mkPool (s ++ q) av)
  = take_loop n exclude (mkPool (q ++ s) av).
Proof.
  revert q. induction s as [|x s IH]; intros q Hs; simpl.
  { by rewrite app_nil_r. }
  apply Forall_cons in Hs as [[Hav Hex] Hs].
  rewrite !decide_True by done. rewrite <- app_assoc, IH by done.
  by rewrite <- app_assoc.
Qed.

Lemma take_loop_all_excluded (exclude av : gset string) (q : list string) :
  Forall (λ x, x ∈ av ∧ x ∈ exclude) q →
  take_loop (length q) exclude (mkPool q av) = (None, mkPool q av).
Proof.
  intros Hq. rewrite <- (Nat.add_0_r (length q)).
  rewrite <- (app_nil_r q) at 2. by rewrite take_loop_rotate.
Qed.

Lemma take_loop_first (exclude av : gset string) (s r : list string) (c : string) :
  Forall (λ x, x ∈ av ∧ x ∈ exclude) s → c ∈ av → c ∉ exclude →
  take_loop (length (s ++ c :: r)) exclude (mkPool (s ++ c :: r) av)
  = (Some c, mkPool (r ++ s) (av ∖ {[c]})).
Proof.
  intros Hs Hc Hex. rewrite length_app, take_loop_rotate by done. simpl.
  by rewrite decide_True, decide_False.
Qed.

Lemma take_spec (exclude : gset string) (p : reviewerPool) :
  pool_wf p →
  match take exclude p with
  | (Some c, p') =>
    (c ∉ exclude) ∧ c ∈ available p ∧ available p' = available p ∖ {[c]} ∧
    ∃ rejected rest,
      queue p = rejected ++ c :: rest ∧
      Forall (λ x, x ∈ exclude) rejected ∧
      queue p' = rest ++ rejected
  | (None, p') => p' = p ∧ ∀ x, x ∈ available p → x ∈ exclude
  end.
Proof.
  destruct p as [q av]. intros [Hnd Hq]. unfold take. simpl in *.
  case_bool_decide as Hsize.
  { split; [done|]. intros x Hx. apply size_empty_inv in Hsize.
    by apply Hsize in Hx. }
  destruct (Forall_or_first_not (λ x, x ∈ exclude) q)
    as [Hall|(s & c & r & -> & Hs & Hc)].
  - rewrite take_loop_all_excluded.
    + split; [done|]. intros x Hx%Hq. by eapply Forall_forall in Hall.
    + apply Forall_forall. intros x Hx. split; [by apply Hq|].
      by eapply Forall_forall in Hall.
  - assert (c ∈ av) as Hc' by (apply Hq; set_solver).
    rewrite take_loop_first; [|..|done|done].
    + split_and!; [done..|]. by exists s, r.
    + apply Forall_forall. intros x Hx. split; [apply Hq; set_solver|].
      by eapply Forall_forall in Hs.
Qed.

Lemma take_wf (exclude : gset string) (p : reviewerPool) :
  pool_wf p → pool_wf (take exclude p).2.
Proof.
  intros Hp. pose proof (take_spec exclude p Hp) as Hspec.
  destruct (take exclude p) as [[c|] p']; simpl.
  - destruct Hspec as (_ & _ & Hav & s & r & Hsplit & _ & Hq').
    destruct Hp as [Hnd Hq]. rewrite Hsplit in Hnd.
    apply NoDup_app in Hnd as (Hs & Hsr & [Hcr Hr]%NoDup_cons).
    split.
    + rewrite Hq'. apply NoDup_app. split_and!; [done| |done].
      intros x Hx Hx'. apply (Hsr x Hx'). set_solver.
    + intros x. rewrite Hq', Hav, elem_of_difference, elem_of_singleton, <- Hq, Hsplit.
      rewrite !elem_of_app, elem_of_cons. split; [|tauto].
      intros [Hx|Hx]; (split; [tauto|]); intros ->; [done|].
      apply (Hsr c Hx). set_solver.
  - by destruct Hspec as [-> _].
Qed.

(** A sequence of draws: the pool stays well formed, only loses
    availability, and each id drawn was available before the sequence and is
    not after it. *)
Lemma take_all_spec (excludes : list (gset string)) (p : reviewerPool) :
  pool_wf p →
  pool_wf (take_all excludes p).2 ∧
  available (take_all excludes p).2 ⊆ available p ∧
  NoDup (omap id (take_all excludes p).1) ∧
  ∀ c, Some c ∈ (take_all excludes p).1 →
       c ∈ available p ∧ c ∉ available (take_all excludes p).2.
Proof.
  revert p. induction excludes as [|exclude excludes IH]; intros p Hp; simpl.
  { split_and!; [done|done|constructor|]. by intros c ?%elem_of_nil. }
  pose proof (take_spec exclude p Hp) as Hspec.
  pose proof (take_wf exclude p Hp) as Hwf.
  destruct (take exclude p) as [r p1]; simpl in *.
  specialize (IH p1 Hwf). destruct (take_all excludes p1) as [rs p2]; simpl in *.
  destruct IH as (Hwf2 & Hsub & Hnd & Hrs).
  assert (available p1 ⊆ available p) as Hsub1.
  { destruct r; [|by destruct Hspec as [-> _]].
    destruct Hspec as (_ & _ & -> & _). set_solver. }
  split_and!; [done|set_solver| |].
  - destruct r as [c|]; simpl; [|done]. constructor; [|done].
    intros Hc. apply list_elem_of_omap in Hc as (o & Ho & Heq). simpl in Heq. subst o.
    apply Hrs in Ho as [Hc _]. destruct Hspec as (_ & _ & Hav & _).
    rewrite Hav in Hc. set_solver.
  - intros c [Heq|Hc]%elem_of_cons.
    + subst r. destruct Hspec as (_ & Hc & Hav & _). split; [done|].
      intros Hc2. apply Hsub in Hc2. rewrite Hav in Hc2. set_solver.
    + apply Hrs in Hc as [Hc1 Hc2]. split; [by apply Hsub1|done].
Qed.

(** C5.  The pool is a round-robin queue.  For any pool reached from
    [newReviewerPool] by earlier draws, a draw [take exclude]:
    - returns an id that is not excluded, was not drawn before and was
      available, and removes exactly that id from availability;
    - has moved the candidates it passed over, all of them excluded and all
      still available, to the back of the queue, behind the rest;
    - fails only when every available candidate is excluded, and then
      leaves the pool as it was. *)
Theorem reviewerPool_take_round_robin
    (ids : list string) (excludes : list (gset string)) (exclude : gset string) :
  let p := (take_all excludes (newReviewerPool ids)).2 in
  let drawn := omap id (take_all excludes (newReviewerPool ids)).1 in
  match take exclude p with
  | (Some c, p') =>
    (c ∉ exclude) ∧ (c ∉ drawn) ∧ c ∈ available p ∧
    available p' = available p ∖ {[c]} ∧
    ∃ rejected rest,
      queue p = rejected ++ c :: rest ∧
      Forall (λ x, x ∈ exclude ∧ x ∈ available p') rejected ∧
      queue p' = rest ++ rejected
  | (None, p') => p' = p ∧ ∀ x, x ∈ available p → x ∈ exclude
  end.
Proof.
  intros p drawn.
  destruct (take_all_spec excludes (newReviewerPool ids) (newReviewerPool_wf ids))
    as (Hwf & _ & _ & Hdrawn). fold p in Hwf, Hdrawn.
  pose proof (take_spec exclude p Hwf) as Hspec.
  destruct (take exclude p) as [[c|] p']; [|done].
  destruct Hspec as (Hex & Hav & Hav' & s & r & Hsplit & Hs & Hq').
  split_and!; [done| |done|done|].
  - intros Hc. apply list_elem_of_omap in Hc as (o & Ho & Heq). simpl in Heq. subst o.
    by apply Hdrawn in Ho as [_ Hc].
  - exists s, r. split_and!; [done| |done].
    apply Forall_forall. intros x Hx. split; [by eapply Forall_forall in Hs|].
    destruct Hwf as [Hnd Hq]. rewrite Hav', elem_of_difference, elem_of_singleton.
    split.
    + apply Hq. rewrite Hsplit. set_solver.
    + intros ->. rewrite Hsplit in Hnd.
      apply NoDup_app in Hnd as (_ & Hsr & _). apply (Hsr c Hx). set_solver.
Qed.

(** Two candidates, the first one already a reviewer of the first request:
    it is passed over, goes behind, and is drawn for the next request. *)
Example take_run :
  (take_all [{["a"]}; {["b"]}; ∅] (newReviewerPool ["a"; "b"; ""; "a"])).1
  = [Some "b"; Some "a"; None].
Proof. vm_compute. reflexivity. Qed.

End pool.

(** ** The directory *)

Section directory.
Context {DB : Type} {go : Golang}.
Variable repo : option (Repository.UserTeamRepository DB).

(** C8.  [SetUserActivity] on a cached user: the flag is set in the cache
    and the user, with the new flag, is handed to [SaveUser] in the same
    call.  When the write succeeds (or there is no repository) the updated
    user is returned; when it fails an error is returned and the cache is
    exactly the cache from before the call. *)
Theorem SetUserActivity_persists_or_rolls_back
    (userID : string) (isActive : bool) (w : World DB) (user : User.t) :
  users w !! userID = Some user →
  let updated := User.with_IsActive isActive user in
  UserManager.SetUserActivity repo userID isActive w
  = match repo with
    | None => (Ok updated, mkWorld (store w) (<[userID := updated]> (users w)) (trace w))
    | Some r =>
      match Repository.SaveUser updated (store w) with
      | Ok db =>
        (Ok updated,
         mkWorld db (<[userID := updated]> (users w)) (trace w ++ [CallSaveUser updated]))
      | Err err =>
        (Err (Wrapf "failed to save user: " err),
         mkWorld (store w) (users w) (trace w ++ [CallSaveUser updated]))
      end
    end.
Proof.
  intros Hcached updated. unfold UserManager.SetUserActivity. rewrite Hcached.
  fold updated. destruct repo as [r|]; [|done].
  unfold call_write. simpl.
  destruct (Repository.SaveUser updated (store w)) as [db|err]; [done|].
  unfold with_users, emit. simpl. do 2 f_equal. rewrite insert_insert_eq.
  apply insert_id. rewrite Hcached. by destruct user.
Qed.

(** An id that is not cached is reported and nothing happens. *)
Lemma SetUserActivity_not_cached (userID : string) (isActive : bool) (w : World DB) :
  users w !! userID = None →
  UserManager.SetUserActivity repo userID isActive w = (Err (NewNotFoundError "user"), w).
Proof. intros Hnone. unfold UserManager.SetUserActivity. by rewrite Hnone. Qed.

End directory.

Lemma SetUserActivity_persists_or_rolls_back_witness :
  let w := mkWorld () {["u1" := Examples.user "u1" "alpha" true]} [] in
  UserManager.SetUserActivity (Some Examples.failing_user_repo) "u1" false w
  = (Err (Wrapf "failed to save user: " (Errorf "boom")),
     mkWorld () (users w) [CallSaveUser (Examples.user "u1" "alpha" false)]).
Proof.
  intros w.
  exact (SetUserActivity_persists_or_rolls_back (Some Examples.failing_user_repo) "u1" false w
           (Examples.user "u1" "alpha" true) eq_refl).
Defined.

(** ** The bulk planner *)

Section planner.
Import PullRequestManager.

(** The inner loop appends one swap for each targeted reviewer, in order,
    and reports the same replacements for the request. *)
Lemma plan_reviewers_spec (prID : string) (targetSet : gset string)
    (reviewers : list string) (assigned : gset string)
    (repl repl' : list ReviewerReplacement.t) (st st' : planState) :
  plan_reviewers prID targetSet reviewers assigned repl st = Some (repl', st') →
  reassignments st' = reassignments st ∧
  ∃ added,
    swaps st' = swaps st ++ added ∧
    replacementIDs st' = replacementIDs st ++ (ReviewerSwap.NewUserId <$> added) ∧
    repl' = repl ++ (replacement_of <$> added) ∧
    slot_of <$> added
    = (λ reviewer, (prID, reviewer)) <$> filter (λ reviewer, reviewer ∈ targetSet) reviewers.
Proof.
  revert assigned repl st.
  induction reviewers as [|reviewer reviewers IH]; intros assigned repl st; simpl.
  { intros [= <- <-]. split; [done|]. exists []. by rewrite !app_nil_r. }
  destruct (decide (reviewer ∈ targetSet)) as [Hin|Hout].
  - rewrite filter_cons_True by done.
    destruct (take assigned (pool st)) as [[new|] p]; [|done].
    intros (Hre & added & Hsw & Hids & Hrepl & Hslots)%IH. simpl in *.
    split; [done|]. exists (ReviewerSwap.mk prID reviewer new :: added).
    rewrite Hsw, Hids, Hrepl, <- !app_assoc, !fmap_cons, Hslots. done.
  - rewrite filter_cons_False by done. apply IH.
Qed.

Lemma swaps_of_reassignment_mk (prID : string) (added : list ReviewerSwap.t) :
  Forall (λ s, ReviewerSwap.PullRequestId s = prID) added →
  swaps_of_reassignment (TeamPRReassignment.mk prID (replacement_of <$> added)) = added.
Proof.
  intros Hpr. unfold swaps_of_reassignment. simpl. rewrite <- list_fmap_compose.
  rewrite <- (list_fmap_id added) at 2. apply Forall_fmap_ext_1.
  eapply Forall_impl; [done|]. intros s <-. by destruct s.
Qed.

Lemma slot_of_fmap_pr (prID : string) (added : list ReviewerSwap.t) (olds : list string) :
  slot_of <$> added = (λ reviewer, (prID, reviewer)) <$> olds →
  Forall (λ s, ReviewerSwap.PullRequestId s = prID) added.
Proof.
  revert olds. induction added as [|s added IH]; intros [|old olds]; simpl; try done.
  intros [= Hpr _ Hrest]. constructor; [done|]. by eapply IH.
Qed.

(** The outer loop: the swaps follow the targeted slots of the open
    requests, the replacement ids are the new ids of the swaps, and the
    report groups the same swaps by request, without empty entries. *)
Lemma plan_pull_requests_spec (targetSet : gset string)
    (openPRs : list PullRequest.t) (st st' : planState) :
  plan_pull_requests targetSet openPRs st = Ok st' →
  ∃ added report,
    swaps st' = swaps st ++ added ∧
    replacementIDs st' = replacementIDs st ++ (ReviewerSwap.NewUserId <$> added) ∧
    reassignments st' = reassignments st ++ report ∧
    report ≫= swaps_of_reassignment = added ∧
    Forall (λ r, TeamPRReassignment.Replacements r ≠ []) report ∧
    slot_of <$> added = targeted_slots targetSet openPRs.
Proof.
  revert st. induction openPRs as [|pr openPRs IH]; intros st; simpl.
  { intros [= <-]. exists [], []. by rewrite !app_nil_r. }
  destruct (plan_reviewers _ _ _ _ _ st) as [[repl st1]|] eqn:Hinner; [|done].
  apply plan_reviewers_spec in Hinner
    as (Hre & added1 & Hsw1 & Hids1 & Hrepl & Hslots1). simpl in Hrepl. subst repl.
  pose proof (slot_of_fmap_pr _ _ _ Hslots1) as Hpr.
  intros (added2 & report2 & Hsw2 & Hids2 & Hre2 & Hflat & Hne & Hslots2)%IH.
  unfold targeted_slots. simpl. fold (targeted_slots targetSet openPRs).
  rewrite <- Hslots1, <- Hslots2.
  case_bool_decide as Hlen; simpl in Hsw2, Hids2, Hre2.
  - exists (added1 ++ added2),
      (TeamPRReassignment.mk (PullRequest.PullRequestId pr) (replacement_of <$> added1)
         :: report2).
    rewrite Hsw2, Hids2, Hre2, Hsw1, Hids1, Hre, !fmap_app, <- !app_assoc.
    rewrite bind_cons, swaps_of_reassignment_mk, Hflat by done.
    split_and!; try done. constructor; [|done]. simpl.
    intros Hnil. rewrite Hnil in Hlen. simpl in Hlen. lia.
  - assert (added1 = []) as ->.
    { destruct added1; [done|]. rewrite length_fmap in Hlen. simpl in Hlen. lia. }
    exists added2, report2. rewrite Hsw2, Hids2, Hre2, Hsw1, Hids1, Hre. simpl.
    by rewrite !app_nil_r.
Qed.

(** When no open request has a targeted reviewer the plan is empty. *)
Lemma targeted_slots_none (targetSet : gset string) (openPRs : list PullRequest.t) :
  Forall (λ pr, Forall (λ reviewer, reviewer ∉ targetSet)
                       (PullRequest.AssignedReviewers pr)) openPRs →
  targeted_slots targetSet openPRs = [].
Proof.
  induction 1 as [|pr openPRs Hpr _ IH]; [done|].
  unfold targeted_slots in *. rewrite bind_cons, IH, app_nil_r.
  assert (filter (λ reviewer, reviewer ∈ targetSet) (PullRequest.AssignedReviewers pr)
          = []) as ->; [|done].
  induction Hpr as [|r rs Hr _ IHr]; [done|]. by rewrite filter_cons_False.
Qed.

(** ... and the pool is not asked for anything. *)
Lemma plan_pull_requests_untargeted (targetSet : gset string)
    (openPRs : list PullRequest.t) (st : planState) :
  Forall (λ pr, Forall (λ reviewer, reviewer ∉ targetSet)
                       (PullRequest.AssignedReviewers pr)) openPRs →
  plan_pull_requests targetSet openPRs st = Ok st.
Proof.
  induction 1 as [|pr openPRs Hpr _ IH]; [done|]. simpl.
  assert (∀ assigned, plan_reviewers (PullRequest.PullRequestId pr) targetSet
            (PullRequest.AssignedReviewers pr) assigned [] st = Some ([], st)) as ->.
  { induction Hpr as [|r rs Hr _ IHr]; intros assigned; [done|]. simpl.
    by rewrite decide_False. }
  simpl. apply IH.
Qed.

(** The planner fails only with [NoCandidate], for one of the requests. *)
Lemma plan_pull_requests_Err (targetSet : gset string)
    (openPRs : list PullRequest.t) (st : planState) (err : error) :
  plan_pull_requests targetSet openPRs st = Err err →
  ∃ pr, pr ∈ openPRs ∧ err = NewNoCandidateError (PullRequest.PullRequestId pr).
Proof.
  revert st. induction openPRs as [|pr openPRs IH]; intros st; simpl; [done|].
  destruct (plan_reviewers _ _ _ _ _ st) as [[repl st1]|].
  - intros (pr' & Hin & ->)%IH. exists pr'. split; [by right|done].
  - intros [= <-]. exists pr. split; [by left|done].
Qed.

End planner.

(** ** The lifecycle manager over any repository *)

Section manager.
Import PullRequestManager.
Context {DB : Type} {go : Golang} {prRepo : Repository.PullRequestRepository DB}.
Variable userRepo : option (Repository.UserTeamRepository DB).

Lemma normalizeTargetUserIDs_Ok (userIDs targets : list string) (targetSet : gset string) :
  normalizeTargetUserIDs userIDs = Ok (targets, targetSet) →
  targets = spec_normalize userIDs ∧ targetSet = list_to_set targets ∧ targets ≠ [].
Proof.
  rewrite normalizeTargetUserIDs_eq.
  destruct (decide (spec_normalize userIDs = [])); [done|]. by intros [= <- <-].
Qed.

(** What [BulkDeactivateTeamMembers] does once its input has passed the
    checks: plan, then one call of [ApplyBulkTeamReviewerSwaps], then the
    cache. *)
Lemma BulkDeactivateTeamMembers_checked (teamName : string) (userIDs : list string)
    (w : World DB) (targets : list string) (targetSet : gset string) (team : Team.t) :
  TrimSpace teamName ≠ "" →
  normalizeTargetUserIDs userIDs = Ok (targets, targetSet) →
  UserManager.GetTeam userRepo (TrimSpace teamName) w = Ok team →
  ensureTargetsInTeam targets (Team.Members team) = None →
  BulkDeactivateTeamMembers userRepo teamName userIDs w
  = match planBulkReviewerSwaps targets targetSet
            (newReviewerPool (collectReplacementCandidates (Team.Members team) targetSet))
            (store w) with
    | Err err => (Err err, w)
    | Ok (swaps, reassignments, replacementIDs) =>
      let usersToDeactivate := targets ++ replacementIDs in
      let called :=
        trace w ++ [CallApplyBulkTeamReviewerSwaps swaps usersToDeactivate] in
      match Repository.ApplyBulkTeamReviewerSwaps swaps usersToDeactivate (store w) with
      | Err err => (Err (Wrapf "bulk reviewer swap: " err), mkWorld (store w) (users w) called)
      | Ok db =>
        (Ok (TeamBulkDeactivateResult.mk (TrimSpace teamName) targets reassignments),
         mkWorld db (UserManager.SyncUsersActivity usersToDeactivate false (users w)) called)
      end
    end.
Proof.
  intros Hteam Hnorm Hget Hensure. unfold BulkDeactivateTeamMembers. cbv zeta.
  rewrite decide_False by done.
  pose proof (normalizeTargetUserIDs_Ok _ _ _ Hnorm) as (_ & _ & Hne).
  assert (userIDs ≠ []) as HuserIDs.
  { intros ->. by vm_compute in Hnorm. }
  rewrite bool_decide_eq_false_2 by (by destruct userIDs).
  rewrite Hnorm, Hget, Hensure.
  destruct (planBulkReviewerSwaps _ _ _ _) as [[[sw re] ids]|err]; [|done].
  unfold call_write. simpl.
  destruct (Repository.ApplyBulkTeamReviewerSwaps _ _ _) as [db|err]; [|done].
  rewrite bool_decide_eq_true_2; [done|].
  rewrite length_app. destruct targets; [done|]. simpl. lia.
Qed.

(** A successful call has passed the checks. *)
Lemma BulkDeactivateTeamMembers_Ok_inv (teamName : string) (userIDs : list string)
    (w w' : World DB) (res : TeamBulkDeactivateResult.t) :
  BulkDeactivateTeamMembers userRepo teamName userIDs w = (Ok res, w') →
  ∃ targets targetSet team,
    TrimSpace teamName ≠ "" ∧
    normalizeTargetUserIDs userIDs = Ok (targets, targetSet) ∧
    UserManager.GetTeam userRepo (TrimSpace teamName) w = Ok team ∧
    ensureTargetsInTeam targets (Team.Members team) = None.
Proof.
  unfold BulkDeactivateTeamMembers. cbv zeta.
  destruct (decide (TrimSpace teamName = "")); [done|].
  destruct (bool_decide (length userIDs = 0)); [done|].
  destruct (normalizeTargetUserIDs userIDs) as [[targets targetSet]|]; [|done].
  destruct (UserManager.GetTeam _ _ _) as [team|]; [|done].
  destruct (ensureTargetsInTeam _ _) eqn:Hensure; [done|].
  intros _. by exists targets, targetSet, team.
Qed.

(** C2.  Bulk deactivation is all-or-nothing.  When the plan cannot be
    completed, because for some open pull request the pool has no candidate
    left, [BulkDeactivateTeamMembers] returns the [NoCandidate] error of
    that request and the world is the one it started from: the database and
    the cache are untouched and the trace has no new entry, so
    [ApplyBulkTeamReviewerSwaps] was not called. *)
Theorem BulkDeactivateTeamMembers_all_or_nothing (teamName : string)
    (userIDs : list string) (w : World DB) (targets : list string)
    (targetSet : gset string) (team : Team.t) (openPRs : list PullRequest.t) :
  TrimSpace teamName ≠ "" →
  normalizeTargetUserIDs userIDs = Ok (targets, targetSet) →
  UserManager.GetTeam userRepo (TrimSpace teamName) w = Ok team →
  ensureTargetsInTeam targets (Team.Members team) = None →
  Repository.FindOpenPullRequestsByReviewers targets (store w) = Ok openPRs →
  is_Ok (plan_pull_requests targetSet openPRs
           (mkPlan (newReviewerPool
                      (collectReplacementCandidates (Team.Members team) targetSet))
                   [] [] [])) = false →
  ∃ pr, pr ∈ openPRs ∧
    errors_Is (NewNoCandidateError (PullRequest.PullRequestId pr)) ErrNoCandidate = true ∧
    BulkDeactivateTeamMembers userRepo teamName userIDs w
    = (Err (NewNoCandidateError (PullRequest.PullRequestId pr)), w).
Proof.
  intros Hteam Hnorm Hget Hensure Hfind Hplan.
  rewrite (BulkDeactivateTeamMembers_checked _ _ _ _ _ _ Hteam Hnorm Hget Hensure).
  unfold planBulkReviewerSwaps. rewrite Hfind.
  destruct (plan_pull_requests _ _ _) as [st|err] eqn:Hst; [done|].
  apply plan_pull_requests_Err in Hst as (pr & Hin & ->). by exists pr.
Qed.

(** C6.  A successful bulk deactivation has called
    [ApplyBulkTeamReviewerSwaps] exactly once.  The ids it handed over for
    deactivation are the normalised targets followed by the replacement of
    every swap of the plan; the swaps refill, in order, every targeted
    reviewer slot of the open pull requests found; and the result reports
    the normalised targets and, grouped by pull request, the old and new
    reviewer of each of these swaps. *)
Theorem BulkDeactivateTeamMembers_hands_over_plan (teamName : string)
    (userIDs : list string) (w w' : World DB) (res : TeamBulkDeactivateResult.t) :
  BulkDeactivateTeamMembers userRepo teamName userIDs w = (Ok res, w') →
  ∃ swaps openPRs,
    let targets := spec_normalize userIDs in
    Repository.FindOpenPullRequestsByReviewers targets (store w) = Ok openPRs ∧
    slot_of <$> swaps = targeted_slots (list_to_set targets) openPRs ∧
    trace w' = trace w ++
      [CallApplyBulkTeamReviewerSwaps swaps
         (targets ++ (ReviewerSwap.NewUserId <$> swaps))] ∧
    TeamBulkDeactivateResult.Deactivated res = targets ∧
    TeamBulkDeactivateResult.Reassignments res ≫= swaps_of_reassignment = swaps ∧
    Forall (λ r, TeamPRReassignment.Replacements r ≠ [])
           (TeamBulkDeactivateResult.Reassignments res).
Proof.
  intros Hok.
  destruct (BulkDeactivateTeamMembers_Ok_inv _ _ _ _ _ Hok)
    as (targets & targetSet & team & Hteam & Hnorm & Hget & Hensure).
  rewrite (BulkDeactivateTeamMembers_checked _ _ _ _ _ _ Hteam Hnorm Hget Hensure) in Hok.
  apply normalizeTargetUserIDs_Ok in Hnorm as (-> & -> & _).
  unfold planBulkReviewerSwaps in Hok.
  destruct (Repository.FindOpenPullRequestsByReviewers _ _) as [openPRs|] eqn:Hfind;
    [|done].
  destruct (plan_pull_requests _ _ _) as [st|] eqn:Hplan; [|done].
  apply plan_pull_requests_spec in Hplan
    as (added & report & Hsw & Hids & Hre & Hflat & Hne & Hslots).
  simpl in Hsw, Hids, Hre. subst added. cbv zeta in Hok.
  destruct (Repository.ApplyBulkTeamReviewerSwaps _ _ _) as [db|]; [|done].
  injection Hok as <- <-. exists (swaps st), openPRs. cbv zeta. simpl.
  rewrite Hids, Hre. by split_and!.
Qed.

(** C10.  When none of the open pull requests found has a target among its
    reviewers, [ApplyBulkTeamReviewerSwaps] is called once, with no swap and
    exactly the normalised targets; the call decides the outcome, and on its
    success the result reports the targets and no reassignment. *)
Theorem BulkDeactivateTeamMembers_without_reviews (teamName : string)
    (userIDs : list string) (w : World DB) (targets : list string)
    (targetSet : gset string) (team : Team.t) (openPRs : list PullRequest.t) :
  TrimSpace teamName ≠ "" →
  normalizeTargetUserIDs userIDs = Ok (targets, targetSet) →
  UserManager.GetTeam userRepo (TrimSpace teamName) w = Ok team →
  ensureTargetsInTeam targets (Team.Members team) = None →
  Repository.FindOpenPullRequestsByReviewers targets (store w) = Ok openPRs →
  Forall (λ pr, Forall (λ reviewer, reviewer ∉ targetSet)
                       (PullRequest.AssignedReviewers pr)) openPRs →
  BulkDeactivateTeamMembers userRepo teamName userIDs w
  = match Repository.ApplyBulkTeamReviewerSwaps [] targets (store w) with
    | Ok db =>
      (Ok (TeamBulkDeactivateResult.mk (TrimSpace teamName) targets []),
       mkWorld db (UserManager.SyncUsersActivity targets false (users w))
               (trace w ++ [CallApplyBulkTeamReviewerSwaps [] targets]))
    | Err err =>
      (Err (Wrapf "bulk reviewer swap: " err),
       mkWorld (store w) (users w)
               (trace w ++ [CallApplyBulkTeamReviewerSwaps [] targets]))
    end.
Proof.
  intros Hteam Hnorm Hget Hensure Hfind Hnone.
  rewrite (BulkDeactivateTeamMembers_checked _ _ _ _ _ _ Hteam Hnorm Hget Hensure).
  unfold planBulkReviewerSwaps. rewrite Hfind.
  rewrite plan_pull_requests_untargeted by done. cbv zeta. simpl.
  by rewrite app_nil_r.
Qed.


Lemma length_filter_remove_one (x : string) (l : list string) :
  NoDup l → x ∈ l → S (length (filter (λ y, y ≠ x) l)) = length l.
Proof.
  induction 1 as [|y l Hy Hnd IH]; [by intros ?%elem_of_nil|].
  intros [->|Hin]%elem_of_cons.
  - rewrite filter_cons_False by (by intros Hn; apply Hn). simpl. f_equal.
    f_equal. apply filter_id, Forall_forall. by intros z Hz ->.
  - rewrite filter_cons_True by (by intros ->). simpl. f_equal. by apply IH.
Qed.

(** A replacement found in the cache is the id of a cached user of the
    team who is active and not excluded. *)
Lemma FindReplacementReviewer_Ok (teamName : string) (excludeUserIDs : list string)
    (us : gmap string User.t) (new : string) :
  UserManager.FindReplacementReviewer teamName excludeUserIDs us = Ok new →
  (new ∉ excludeUserIDs) ∧
  ∃ k member, us !! k = Some member ∧ User.UserId member = new ∧
              User.TeamName member = teamName ∧ User.IsActive member = true.
Proof.
  unfold UserManager.FindReplacementReviewer.
  destruct (list_find _ _) as [[i member]|] eqn:Hfind; [|done].
  intros [= <-]. apply list_find_Some in Hfind as (Hi & (Hteam & Hactive & Hex) & _).
  split; [by rewrite elem_of_list_to_set in Hex|].
  apply list_elem_of_lookup_2, list_elem_of_fmap in Hi as ([k member'] & -> & Hin).
  rewrite range_users_perm in Hin. apply elem_of_map_to_list in Hin.
  by exists k, member'.
Qed.

(** [GetUserTeam] only reads the database and only adds to the cache. *)
Lemma GetUserTeam_world (userID : string) (w : World DB) :
  let w' := (UserManager.GetUserTeam userRepo userID w).2 in
  store w' = store w ∧ trace w' = trace w.
Proof.
  unfold UserManager.GetUserTeam. destruct (users w !! userID); [done|].
  destruct userRepo as [r|]; [|done].
  destruct (Repository.GetUser userID (store w)) as [u|err]; [done|].
  by destruct (errors_Is err ErrNotFound).
Qed.

(** C3.  A successful [Reassign] on a pull request loaded with a
    duplicate-free reviewer list: the request was not merged and the old
    reviewer was on it; the new list has the same length, is the old list
    without the old reviewer followed by one new id, and that id was not on
    the request and is not the old reviewer; it is the id of a cached user
    who is active and whose team is the team found for the old reviewer.
    The list returned is the list handed to [SavePullRequest]. *)
Theorem Reassign_replaces_one_reviewer (oldUserId prId : string) (w w' : World DB)
    (pr : PullRequest.t) (resp : ReassignResponse.t) :
  Repository.GetPullRequest prId (store w) = Ok pr →
  NoDup (PullRequest.AssignedReviewers pr) →
  Reassign userRepo oldUserId prId w = (Ok resp, w') →
  let before := PullRequest.AssignedReviewers pr in
  let after := PullRequest.AssignedReviewers (ReassignResponse.PR resp) in
  let new := ReassignResponse.ReplacedBy resp in
  PullRequest.Status pr ≠ PullRequestStatusMERGED ∧ oldUserId ∈ before ∧
  length after = length before ∧
  (oldUserId ∉ after) ∧
  after = filter (λ reviewerID, reviewerID ≠ oldUserId) before ++ [new] ∧
  (new ∉ before) ∧ new ≠ oldUserId ∧
  (∃ teamName k member,
     (UserManager.GetUserTeam userRepo oldUserId w).1 = Ok teamName ∧
     users w' !! k = Some member ∧ User.UserId member = new ∧
     User.TeamName member = teamName ∧ User.IsActive member = true) ∧
  CallSavePullRequest (ReassignResponse.PR resp) ∈ trace w'.
Proof.
  intros Hget Hnd. unfold Reassign, load_pull_request. rewrite Hget.
  destruct (decide (PullRequest.Status pr = PullRequestStatusMERGED)); [done|].
  case_bool_decide as Hassigned; [|done]. simpl.
  destruct (UserManager.GetUserTeam userRepo oldUserId w) as [[teamName|] w1]; [|done].
  destruct (UserManager.FindReplacementReviewer _ _ _) as [new|err] eqn:Hfind.
  2: { by destruct (errors_Is err ErrNoCandidate). }
  unfold call_write. simpl.
  destruct (Repository.SavePullRequest _ _) as [db|]; [|done].
  intros [= <- <-]. simpl.
  apply FindReplacementReviewer_Ok in Hfind
    as (Hex & k & member & Hk & Hid & Hteam & Hactive).
  rewrite elem_of_app, list_elem_of_singleton in Hex.
  split_and!; try done; try tauto.
  - rewrite length_app. simpl. rewrite Nat.add_1_r.
    by apply length_filter_remove_one.
  - rewrite elem_of_app, list_elem_of_filter, list_elem_of_singleton. naive_solver.
  - by exists teamName, k, member.
  - rewrite !elem_of_app, !list_elem_of_singleton. tauto.
Qed.

(** C4, over any repository: merging a pull request that is stored as
    merged returns it as stored and leaves the world as it was. *)
Lemma Merge_already_merged (prID : string) (now : Time) (w : World DB)
    (pr : PullRequest.t) :
  Repository.GetPullRequest prID (store w) = Ok pr →
  PullRequest.Status pr = PullRequestStatusMERGED →
  Merge prID now w = (Ok pr, w).
Proof.
  intros Hget Hmerged. unfold Merge, load_pull_request. rewrite Hget.
  by rewrite decide_True.
Qed.

(** Merging a pull request that is not merged: one [SavePullRequest], and
    on its success one goroutine that reactivates the reviewers, if any. *)
Lemma Merge_not_merged (prID : string) (now : Time) (w : World DB) (pr : PullRequest.t) :
  Repository.GetPullRequest prID (store w) = Ok pr →
  PullRequest.Status pr ≠ PullRequestStatusMERGED →
  let merged := PullRequest.with_merged now pr in
  Merge prID now w
  = match Repository.SavePullRequest merged (store w) with
    | Err err =>
      (Err (Wrapf "failed to save merged pull request: " err),
       mkWorld (store w) (users w) (trace w ++ [CallSavePullRequest merged]))
    | Ok db =>
      (Ok merged,
       mkWorld db (users w)
         (trace w ++ CallSavePullRequest merged ::
            if bool_decide (0 < length (PullRequest.AssignedReviewers pr))
            then [GoSetActivity (PullRequest.AssignedReviewers pr) true] else []))
    end.
Proof.
  intros Hget Hopen merged. unfold Merge, load_pull_request. rewrite Hget.
  rewrite decide_False by done. fold merged. unfold call_write. simpl.
  destruct (Repository.SavePullRequest merged (store w)) as [db|]; [|done].
  simpl. case_bool_decide; [|done]. unfold emit. simpl. by rewrite <- app_assoc.
Qed.

End manager.

(** ** The PostgreSQL repository *)

Section storage.
Import Storage.
Context {pg : Postgres}.

Lemma store_inv_alt (db : Tables) :
  store_inv db ↔
  NoDup (pull_request_reviewers db) ∧ ∀ prID, length (reviewers_of prID db) ≤ 2.
Proof.
  unfold store_inv. split; intros [Hnd Hcap]; (split; [done|]).
  - intros prID. unfold reviewers_of.
    destruct (filter (λ row, row.1 = prID) (pull_request_reviewers db))
      as [|row rows] eqn:Hrows; [simpl; lia|].
    assert (row ∈ filter (λ row, row.1 = prID) (pull_request_reviewers db)) as Hin.
    { rewrite Hrows. by left. }
    apply list_elem_of_filter in Hin as [<- Hin].
    rewrite <- Hrows. by eapply Forall_forall in Hcap.
  - apply Forall_forall. intros row _. apply Hcap.
Qed.

Lemma reviewers_of_elem_of (prID r : string) (db : Tables) :
  r ∈ reviewers_of prID db ↔ (prID, r) ∈ pull_request_reviewers db.
Proof.
  unfold reviewers_of. rewrite list_elem_of_fmap. split.
  - intros ([p r'] & -> & [Hp Hin]%list_elem_of_filter). simpl in *. by subst.
  - intros Hin. exists (prID, r). split; [done|]. by apply list_elem_of_filter.
Qed.

(** The primary key makes the reviewers of a request duplicate-free. *)
Lemma reviewers_of_NoDup (prID : string) (db : Tables) :
  NoDup (pull_request_reviewers db) → NoDup (reviewers_of prID db).
Proof.
  intros Hnd. unfold reviewers_of. apply NoDup_fmap_2_strong; [|by apply NoDup_filter].
  intros [p1 r1] [p2 r2] [Hp1 _]%list_elem_of_filter [Hp2 _]%list_elem_of_filter.
  simpl in *. congruence.
Qed.

Lemma scan_pull_request_reviewers_ok (db : Tables) (entry : string * PullRequestRow) :
  store_inv db → reviewers_ok (PullRequest.AssignedReviewers (scan_pull_request db entry)).
Proof.
  intros [Hnd Hcap]%store_inv_alt. unfold reviewers_ok. simpl.
  rewrite order_by_perm. split; [apply Hcap|by apply reviewers_of_NoDup].
Qed.

(** Every pull request read from a database that satisfies the invariant
    has at most two reviewers, all different. *)
Lemma GetPullRequest_reviewers_ok (prID : string) (db : Tables) (pr : PullRequest.t) :
  store_inv db → GetPullRequest prID db = Ok pr →
  reviewers_ok (PullRequest.AssignedReviewers pr).
Proof.
  intros Hinv. unfold GetPullRequest. destruct (pull_requests db !! prID); [|done].
  intros [= <-]. by apply scan_pull_request_reviewers_ok.
Qed.

Lemma GetPullRequest_id (prID : string) (db : Tables) (pr : PullRequest.t) :
  GetPullRequest prID db = Ok pr → PullRequest.PullRequestId pr = prID.
Proof.
  unfold GetPullRequest. destruct (pull_requests db !! prID); [|done]. by intros [= <-].
Qed.

Lemma insert_reviewer_Ok (row : string * string) (db db' : Tables) :
  insert_reviewer row db = Ok db' →
  (row ∉ pull_request_reviewers db) ∧
  db' = mkTables (teams db) (users db) (pull_requests db)
                 (pull_request_reviewers db ++ [row]).
Proof.
  unfold insert_reviewer. case_bool_decide; [done|].
  destruct (negb _); [done|]. destruct (negb _); [done|]. by intros [= <-].
Qed.

Lemma reviewers_of_app (prID : string) (db : Tables) (rows : list (string * string)) :
  reviewers_of prID
    (mkTables (teams db) (users db) (pull_requests db) (pull_request_reviewers db ++ rows))
  = reviewers_of prID db ++ (filter (λ row, row.1 = prID) rows).*2.
Proof. unfold reviewers_of. simpl. by rewrite filter_app, fmap_app. Qed.

(** The loop of [SavePullRequest] only appends rows of the request, at
    most one for each reviewer given, and keeps the primary key. *)
Lemma SavePullRequest_reviewers_Ok (prID : string) (reviewers : list string)
    (seen : gset string) (db db' : Tables) :
  SavePullRequest_reviewers prID reviewers seen db = Ok db' →
  ∃ added,
    db' = mkTables (teams db) (users db) (pull_requests db)
            (pull_request_reviewers db ++ ((λ r, (prID, r)) <$> added)) ∧
    length added ≤ length reviewers ∧
    (NoDup (pull_request_reviewers db) → NoDup (pull_request_reviewers db')).
Proof.
  revert seen db. induction reviewers as [|r reviewers IH]; intros seen db; simpl.
  { intros [= <-]. exists []. rewrite app_nil_r. by destruct db. }
  destruct (decide (r = "")).
  { intros (added & -> & Hlen & Hnd)%IH. exists added. split_and!; [done|lia|done]. }
  destruct (decide (r ∈ seen)).
  { intros (added & -> & Hlen & Hnd)%IH. exists added. split_and!; [done|lia|done]. }
  destruct (insert_reviewer (prID, r) db) as [db1|] eqn:Hins; [|done].
  apply insert_reviewer_Ok in Hins as [Hfresh ->].
  intros (added & -> & Hlen & Hnd)%IH. simpl in *. exists (r :: added).
  rewrite <- app_assoc. split_and!; [done|simpl; lia|].
  intros Hnd0. rewrite app_assoc. apply Hnd, NoDup_app.
  split_and!; [done| |apply NoDup_singleton].
  by intros x Hx ->%list_elem_of_singleton.
Qed.

Lemma filter_fst_fmap_pair_eq (prID : string) (rs : list string) :
  filter (λ row : string * string, row.1 = prID) ((λ r, (prID, r)) <$> rs)
  = (λ r, (prID, r)) <$> rs.
Proof. apply filter_id, Forall_fmap, Forall_forall. by intros. Qed.

Lemma filter_fst_fmap_pair_ne (prID p : string) (rs : list string) :
  p ≠ prID →
  filter (λ row : string * string, row.1 = p) ((λ r, (prID, r)) <$> rs) = [].
Proof.
  intros Hne. induction rs as [|r rs IH]; [done|].
  rewrite fmap_cons, filter_cons_False; [done|]. simpl. congruence.
Qed.

(** What a successful [SavePullRequest] has checked and done. *)
Lemma SavePullRequest_Ok (pr : PullRequest.t) (db db' : Tables) :
  SavePullRequest pr db = Ok db' →
  length (PullRequest.AssignedReviewers pr) ≤ 2 ∧
  teams db' = teams db ∧ users db' = users db ∧
  (∃ row, pull_requests db' = <[PullRequest.PullRequestId pr := row]> (pull_requests db) ∧
          status row = PullRequest.Status pr) ∧
  (store_inv db → store_inv db').
Proof.
  unfold SavePullRequest. case_bool_decide as Hlen; [done|].
  unfold upsert_pull_request. case_bool_decide; [|done].
  intros (added & -> & Hadded & Hnd)%SavePullRequest_reviewers_Ok. simpl in *.
  split_and!; [lia|done|done|by eexists|].
  intros [Hnd0 Hcap]%store_inv_alt. apply store_inv_alt. split.
  { apply Hnd. by apply NoDup_filter. }
  intros p. unfold reviewers_of. simpl. rewrite filter_app, fmap_app, length_app.
  rewrite list_filter_filter. destruct (decide (p = PullRequest.PullRequestId pr)) as [->|Hne].
  - rewrite filter_fst_fmap_pair_eq, !length_fmap.
    rewrite filter_none; [simpl; lia|].
    apply Forall_forall. intros row _. simpl. tauto.
  - rewrite filter_fst_fmap_pair_ne by done. simpl. rewrite Nat.add_0_r.
    etrans; [|apply (Hcap p)]. unfold reviewers_of. rewrite !length_fmap.
    apply Nat.eq_le_incl. f_equal. apply list_filter_iff. intros row. simpl.
    split; [tauto|]. intros <-. split; [done|]. congruence.
Qed.


Lemma filter_ext_Forall {A} (P Q : A → Prop) `{!∀ x, Decision (P x)}
    `{!∀ x, Decision (Q x)} (l : list A) :
  Forall (λ x, P x ↔ Q x) l → filter P l = filter Q l.
Proof.
  induction 1 as [|x l Hx _ IH]; [done|]. rewrite !filter_cons, IH.
  destruct (decide (P x)), (decide (Q x)); tauto.
Qed.

Lemma length_filter_without {A} `{!EqDecision A} (P : A → Prop)
    `{!∀ x, Decision (P x)} (x : A) (l : list A) :
  NoDup l → x ∈ l → P x →
  S (length (filter (λ y, P y ∧ y ≠ x) l)) = length (filter P l).
Proof.
  intros Hnd Hin HP. induction Hnd as [|y l Hy Hnd IH]; [by apply elem_of_nil in Hin|].
  apply elem_of_cons in Hin as [<-|Hin].
  - rewrite filter_cons_False by tauto. rewrite filter_cons_True by done. simpl.
    do 2 f_equal. apply filter_ext_Forall, Forall_forall. intros z Hz.
    split; [tauto|]. intros HPz. split; [done|]. by intros ->.
  - destruct (decide (P y)).
    + rewrite !filter_cons_True; [|done|].
      * simpl. f_equal. by apply IH.
      * split; [done|]. by intros ->.
    + rewrite !filter_cons_False by tauto. by apply IH.
Qed.

(** One swap: the row of the old reviewer is deleted and the row of the
    new one is added, which the primary key must allow. *)
Lemma applyReviewerSwap_Ok (swap : ReviewerSwap.t) (db db' : Tables) :
  applyReviewerSwap swap db = Ok db' →
  let kept := filter (λ row, row ≠ slot_of swap) (pull_request_reviewers db) in
  let new := (ReviewerSwap.PullRequestId swap, ReviewerSwap.NewUserId swap) in
  (new ∉ kept) ∧
  db' = mkTables (teams db) (users db) (pull_requests db) (kept ++ [new]).
Proof.
  unfold applyReviewerSwap. cbv zeta. case_bool_decide; [done|].
  destruct (insert_reviewer _ _) as [db1|] eqn:Hins; [|done]. intros [= <-].
  by apply insert_reviewer_Ok in Hins as [Hfresh ->].
Qed.

(** Swaps whose old reviewers are distinct rows of the table keep the
    primary key and the number of reviewers of every pull request. *)
Lemma applyReviewerSwapsTx_Ok (swaps : list ReviewerSwap.t) (db db' : Tables) :
  applyReviewerSwapsTx swaps db = Ok db' →
  NoDup (slot_of <$> swaps) →
  Forall (λ s, slot_of s ∈ pull_request_reviewers db) swaps →
  NoDup (pull_request_reviewers db) →
  teams db' = teams db ∧ users db' = users db ∧ pull_requests db' = pull_requests db ∧
  NoDup (pull_request_reviewers db') ∧
  ∀ prID, length (reviewers_of prID db') = length (reviewers_of prID db).
Proof.
  revert db. induction swaps as [|s swaps IH]; intros db; simpl.
  { by intros [= <-]. }
  destruct (applyReviewerSwap s db) as [db1|] eqn:Hswap; [|done].
  apply applyReviewerSwap_Ok in Hswap as [Hfresh ->].
  intros Hrest [Hs Hslots]%NoDup_cons [Hin Hins]%Forall_cons Hnd.
  apply IH in Hrest as (-> & -> & -> & Hnd' & Hlen); simpl; [|done| |].
  - split_and!; [done..|]. intros prID. rewrite Hlen. unfold reviewers_of. simpl.
    rewrite !length_fmap, filter_app, length_app, list_filter_filter.
    destruct (decide (prID = ReviewerSwap.PullRequestId s)) as [->|Hne].
    + rewrite filter_cons_True by done. simpl.
      rewrite <- (length_filter_without (λ row, row.1 = ReviewerSwap.PullRequestId s)
                    (slot_of s)) by done. lia.
    + rewrite filter_cons_False by (simpl; congruence). simpl. rewrite Nat.add_0_r.
      f_equal. apply list_filter_iff. intros row. split; [tauto|].
      intros Hrow. split; [done|]. intros ->. by apply Hne.
  - apply Forall_forall. intros s' Hs'. rewrite elem_of_app, list_elem_of_filter.
    left. split; [|by eapply Forall_forall in Hins].
    intros Heq. apply Hs. rewrite <- Heq. by apply list_elem_of_fmap_2.
  - apply NoDup_app. split_and!; [by apply NoDup_filter| |apply NoDup_singleton].
    by intros x Hx ->%list_elem_of_singleton.
Qed.

Lemma deactivateUsersTx_tables (userIDs : list string) (db : Tables) :
  teams (deactivateUsersTx userIDs db) = teams db ∧
  pull_requests (deactivateUsersTx userIDs db) = pull_requests db ∧
  pull_request_reviewers (deactivateUsersTx userIDs db) = pull_request_reviewers db.
Proof. unfold deactivateUsersTx. by case_bool_decide. Qed.

(** [ApplyBulkTeamReviewerSwaps] with such swaps keeps the invariant. *)
Lemma ApplyBulkTeamReviewerSwaps_Ok (swaps : list ReviewerSwap.t)
    (usersToDeactivate : list string) (db db' : Tables) :
  ApplyBulkTeamReviewerSwaps swaps usersToDeactivate db = Ok db' →
  NoDup (slot_of <$> swaps) →
  Forall (λ s, slot_of s ∈ pull_request_reviewers db) swaps →
  store_inv db → store_inv db'.
Proof.
  intros Happly Hslots Hin [Hnd Hcap]%store_inv_alt. apply store_inv_alt.
  unfold ApplyBulkTeamReviewerSwaps in Happly.
  destruct (_ && _); [by injection Happly as <-|].
  assert (applyReviewerSwapsTx swaps db
          = (if bool_decide (0 < length swaps) then applyReviewerSwapsTx swaps db
             else Ok db)) as Heq.
  { case_bool_decide as Hlen; [done|]. destruct swaps; [done|]. simpl in Hlen. lia. }
  rewrite <- Heq in Happly.
  destruct (applyReviewerSwapsTx swaps db) as [db1|] eqn:Htx; [|done].
  apply applyReviewerSwapsTx_Ok in Htx as (_ & _ & _ & Hnd1 & Hlen1); [|done..].
  injection Happly as <-.
  assert (∀ db2, pull_request_reviewers db2 = pull_request_reviewers db1 →
                 NoDup (pull_request_reviewers db2) ∧
                 ∀ prID, length (reviewers_of prID db2) ≤ 2) as Hsame.
  { intros db2 Hrows. unfold reviewers_of in *. rewrite Hrows. split; [done|].
    intros prID. rewrite Hlen1. apply Hcap. }
  apply Hsame. destruct (bool_decide (0 < length usersToDeactivate)); [|done].
  apply deactivateUsersTx_tables.
Qed.

(** Without swaps the call only deactivates, and cannot fail. *)
Lemma ApplyBulkTeamReviewerSwaps_no_swaps (usersToDeactivate : list string) (db : Tables) :
  usersToDeactivate ≠ [] →
  ApplyBulkTeamReviewerSwaps [] usersToDeactivate db
  = Ok (deactivateUsersTx usersToDeactivate db).
Proof.
  intros Hne. unfold ApplyBulkTeamReviewerSwaps.
  destruct usersToDeactivate as [|u us]; [done|].
  rewrite (bool_decide_eq_false_2 (length (u :: us) = 0)) by done.
  rewrite andb_false_r, (bool_decide_eq_false_2 (0 < length [])) by (simpl; lia).
  by rewrite bool_decide_eq_true_2 by (simpl; lia).
Qed.

(** The open pull requests found are distinct requests, each with the
    reviewers the table holds for it, and each has a reviewer among the ids
    asked for. *)
Lemma FindOpenPullRequestsByReviewers_Ok (reviewerIDs : list string) (db : Tables)
    (openPRs : list PullRequest.t) :
  FindOpenPullRequestsByReviewers reviewerIDs db = Ok openPRs →
  NoDup (PullRequest.PullRequestId <$> openPRs) ∧
  Forall (λ pr,
            PullRequest.AssignedReviewers pr
              ≡ₚ reviewers_of (PullRequest.PullRequestId pr) db ∧
            PullRequest.Status pr = PullRequestStatusOPEN ∧
            ∃ r, r ∈ PullRequest.AssignedReviewers pr ∧ r ∈ reviewerIDs) openPRs.
Proof.
  unfold FindOpenPullRequestsByReviewers.
  case_bool_decide; [intros [= <-]; split; constructor|].
  case_bool_decide; [intros [= <-]; split; constructor|].
  intros [= <-]. split.
  - rewrite order_by_perm, <- list_fmap_compose.
    apply NoDup_fmap_2_strong; [|apply NoDup_filter, NoDup_map_to_list].
    intros [k1 v1] [k2 v2] [_ H1%elem_of_map_to_list]%list_elem_of_filter
      [_ H2%elem_of_map_to_list]%list_elem_of_filter. simpl. intros ->. congruence.
  - apply Forall_forall. intros pr. rewrite order_by_perm, list_elem_of_fmap.
    intros (entry & -> & [[Hopen Hex] _]%list_elem_of_filter). simpl.
    split_and!; [apply order_by_perm|done|].
    apply Exists_exists in Hex as (r & Hr & Hin).
    exists r. rewrite order_by_perm. split; [done|].
    apply elem_of_list_to_set, list_elem_of_filter in Hin. tauto.
Qed.

(** The slots to refill in requests found in the table are distinct rows
    of the table. *)
Lemma targeted_slots_rows (targetSet : gset string) (db : Tables)
    (openPRs : list PullRequest.t) :
  NoDup (pull_request_reviewers db) →
  NoDup (PullRequest.PullRequestId <$> openPRs) →
  Forall (λ pr, PullRequest.AssignedReviewers pr
                  ≡ₚ reviewers_of (PullRequest.PullRequestId pr) db) openPRs →
  NoDup (targeted_slots targetSet openPRs) ∧
  Forall (λ slot, slot ∈ pull_request_reviewers db) (targeted_slots targetSet openPRs).
Proof.
  intros Hnd Hids Hprs. unfold targeted_slots.
  induction Hprs as [|pr openPRs Hpr Hprs IH]; [split; constructor|].
  rewrite fmap_cons in Hids. apply NoDup_cons in Hids as [Hid Hids].
  destruct (IH Hids) as [IHnd IHin]. rewrite bind_cons. split.
  - apply NoDup_app. split_and!; [| |done].
    + apply NoDup_fmap_2; [by intros ?? [= ]|]. apply NoDup_filter.
      rewrite Hpr. by apply reviewers_of_NoDup.
    + intros slot (r & -> & _)%list_elem_of_fmap
        (pr' & (r' & [= Heq _] & _)%list_elem_of_fmap & Hpr')%list_elem_of_bind.
      apply Hid. rewrite Heq. by apply list_elem_of_fmap_2.
  - apply Forall_app. split; [|done]. apply Forall_forall.
    intros slot (r & -> & [_ Hr]%list_elem_of_filter)%list_elem_of_fmap.
    rewrite Hpr in Hr. by apply reviewers_of_elem_of.
Qed.

End storage.

(** ** The reviewer lists in serial executions *)

Section invariant.
Context {go : Golang} {pg : Storage.Postgres}.
#[local] Existing Instance Storage.pullRequestRepository.

(** The loop of [AssignRewiers] stops at two ids and picks them from the
    entries in the order it visits them. *)
Lemma AssignRewiers_loop_spec (teamId : string) (entries : list (string * User.t))
    (ans : list string) :
  length ans < 2 →
  ∃ picked,
    UserManager.AssignRewiers_loop teamId entries ans (length ans) = ans ++ picked ∧
    picked `sublist_of` ((User.UserId ∘ snd) <$> entries) ∧
    length (ans ++ picked) ≤ 2.
Proof.
  revert ans. induction entries as [|[k user] entries IH]; intros ans Hlen; simpl.
  { exists []. rewrite app_nil_r. split_and!; [done|done|lia]. }
  destruct (bool_decide (User.TeamName user = teamId) && User.IsActive user).
  - case_bool_decide as Htwo.
    + exists [User.UserId user]. split_and!; [done| |rewrite length_app; simpl; lia].
      apply sublist_skip, sublist_nil_l.
    + destruct (IH (ans ++ [User.UserId user])) as (picked & Heq & Hsub & Hle).
      { rewrite length_app. simpl. lia. }
      rewrite length_app, Nat.add_1_r in Heq. exists (User.UserId user :: picked).
      rewrite Heq, <- app_assoc in *. split_and!; [done| |done].
      by apply sublist_skip.
  - rewrite bool_decide_eq_false_2 by lia.
    destruct (IH ans Hlen) as (picked & Heq & Hsub & Hle).
    exists picked. split_and!; [done| |done]. by apply sublist_cons.
Qed.

Lemma cache_inv_ids (us : gmap string User.t) :
  cache_inv us → NoDup ((User.UserId ∘ snd) <$> range_users us).
Proof.
  intros Hinv. rewrite range_users_perm.
  rewrite (Forall_fmap_ext_1 (User.UserId ∘ snd) fst).
  - apply NoDup_fst_map_to_list.
  - apply Forall_forall. intros [k user] Hin%elem_of_map_to_list. simpl.
    by apply Hinv in Hin.
Qed.

(** [AssignRewiers] returns at most two ids, all different, when every
    cache entry is filed under its own id. *)
Lemma AssignRewiers_reviewers_ok (teamId : string) (us : gmap string User.t) :
  cache_inv us → reviewers_ok (UserManager.AssignRewiers teamId us).
Proof.
  intros Hinv. unfold UserManager.AssignRewiers.
  destruct (AssignRewiers_loop_spec teamId (range_users us) [])
    as (picked & Heq & Hsub & Hle).
  { simpl. lia. }
  simpl in Heq, Hle. rewrite Heq. split; [done|].
  eapply sublist_NoDup; [|exact Hsub]. by apply cache_inv_ids.
Qed.

Lemma GetUserTeam_cache_inv {DB} (repo : option (Repository.UserTeamRepository DB))
    (userID : string) (w : World DB) :
  cache_inv (users w) → cache_inv (users (UserManager.GetUserTeam repo userID w).2).
Proof.
  intros Hinv. unfold UserManager.GetUserTeam. destruct (users w !! userID); [done|].
  destruct repo as [r|]; [|done].
  destruct (Repository.GetUser userID (store w)) as [u|err].
  - simpl. by apply map_Forall_insert_2.
  - by destruct (errors_Is err ErrNotFound).
Qed.

Lemma set_cached_activity_cache_inv (status : bool) (us : gmap string User.t)
    (ids : list string) :
  cache_inv us → cache_inv (foldl (UserManager.set_cached_activity status) us ids).
Proof.
  revert us. induction ids as [|id ids IH]; intros us Hinv; [done|]. simpl.
  apply IH. unfold UserManager.set_cached_activity.
  destruct (us !! id) as [user|] eqn:Hid; [|done].
  apply map_Forall_insert_2; [|done]. by apply Hinv in Hid.
Qed.

Lemma SyncUsersActivity_cache_inv (ids : list string) (status : bool)
    (us : gmap string User.t) :
  cache_inv us → cache_inv (UserManager.SyncUsersActivity ids status us).
Proof.
  intros Hinv. unfold UserManager.SyncUsersActivity. case_bool_decide; [done|].
  by apply set_cached_activity_cache_inv.
Qed.

Lemma SetActivity_cache_inv (ids : list string) (status : bool)
    (us : gmap string User.t) :
  cache_inv us → cache_inv (UserManager.SetActivity ids status us).
Proof. apply set_cached_activity_cache_inv. Qed.

Lemma insert_all_cache_inv (us : gmap string User.t) (new : list User.t) :
  cache_inv us → cache_inv (insert_all User.UserId id us new).
Proof.
  revert us. induction new as [|user new IH]; intros us Hinv; [done|]. simpl.
  apply IH. by apply map_Forall_insert_2.
Qed.

Lemma upsert_user_rows (user : User.t) (db db' : Storage.Tables) :
  Storage.upsert_user user db = Ok db' →
  Storage.pull_request_reviewers db' = Storage.pull_request_reviewers db.
Proof.
  unfold Storage.upsert_user. destruct (match Storage.nullif_empty _ with
    | Some t => bool_decide (t ∈ Storage.teams db) | None => true end); [|done].
  by intros [= <-].
Qed.

Lemma CreateTeamWithMembers_users_rows (new : list User.t) (db db' : Storage.Tables) :
  Storage.CreateTeamWithMembers_users new db = Ok db' →
  Storage.pull_request_reviewers db' = Storage.pull_request_reviewers db.
Proof.
  revert db. induction new as [|user new IH]; intros db; simpl; [by intros [= <-]|].
  destruct (Storage.upsert_user user db) as [db1|] eqn:Hup; [|done].
  intros ->%IH. by eapply upsert_user_rows.
Qed.

(** The invariant of the reviewer table only looks at that table. *)
Lemma store_inv_rows (db db' : Storage.Tables) :
  Storage.pull_request_reviewers db' = Storage.pull_request_reviewers db →
  store_inv db → store_inv db'.
Proof. unfold store_inv, Storage.reviewers_of. by intros ->. Qed.

Lemma PrimeCacheUser_world_inv (userID : string) (w : World Storage.Tables) :
  world_inv w → world_inv (main.PrimeCacheUser userID w).2.
Proof.
  intros [Hstore Hcache]. unfold main.PrimeCacheUser, UserManager.PrimeCacheUser. simpl.
  destruct (Storage.GetUser userID (store w)); [|done].
  split; [done|]. simpl. by apply map_Forall_insert_2.
Qed.

Lemma AddTeam_world_inv (team : Team.t) (w : World Storage.Tables) :
  world_inv w → world_inv (main.AddTeam team w).2.
Proof.
  intros [Hstore Hcache]. unfold main.AddTeam, UserManager.AddTeam.
  destruct (UserManager.AddTeam_validate _ _ _); [done|].
  unfold call_write. simpl.
  destruct (Storage.CreateTeamWithMembers _ _ _) as [db|] eqn:Hcreate; [|done].
  split; simpl; [|by apply insert_all_cache_inv].
  eapply store_inv_rows; [|done].
  unfold Storage.CreateTeamWithMembers in Hcreate. case_bool_decide; [done|].
  by apply CreateTeamWithMembers_users_rows in Hcreate.
Qed.

Lemma SetUserActivity_world_inv (userID : string) (isActive : bool)
    (w : World Storage.Tables) :
  world_inv w → world_inv (main.SetUserActivity userID isActive w).2.
Proof.
  intros [Hstore Hcache]. unfold main.SetUserActivity, UserManager.SetUserActivity.
  destruct (users w !! userID) as [user|] eqn:Hcached; [|done].
  assert (∀ b, cache_inv (<[userID := User.with_IsActive b user]> (users w))) as Hset.
  { intros b. apply map_Forall_insert_2; [|done]. by apply Hcache in Hcached. }
  unfold call_write. simpl. unfold Storage.SaveUser.
  destruct (Storage.upsert_user _ _) as [db|] eqn:Hup; split; simpl.
  - eapply store_inv_rows; [|done]. by eapply upsert_user_rows.
  - apply Hset.
  - done.
  - rewrite insert_insert_eq. apply Hset.
Qed.

Lemma CreatePullRequest_world_inv (reqData : PostPullRequestCreateJSONBody.t)
    (now : Time) (w : World Storage.Tables) :
  world_inv w → world_inv (main.CreatePullRequest reqData now w).2.
Proof.
  intros [Hstore Hcache].
  unfold main.CreatePullRequest, PullRequestManager.CreatePullRequest.
  pose proof (GetUserTeam_world main.userManager
                (PostPullRequestCreateJSONBody.AuthorId reqData) w) as [Hst Htr].
  pose proof (GetUserTeam_cache_inv main.userManager
                (PostPullRequestCreateJSONBody.AuthorId reqData) w Hcache) as Hc1.
  simpl in *.
  destruct (UserManager.GetUserTeam _ _ w) as [[teamID|] w1]; simpl in *.
  2: { unfold world_inv. simpl. by rewrite Hst. }
  unfold call_write. simpl.
  destruct (Storage.SavePullRequest _ _) as [db|] eqn:Hsave; simpl.
  - apply SavePullRequest_Ok in Hsave as (_ & _ & _ & _ & Hinv).
    split; [|done]. apply Hinv. by rewrite Hst.
  - unfold world_inv. simpl. by rewrite Hst.
Qed.

Lemma Merge_world_inv (prID : string) (now : Time) (w : World Storage.Tables) :
  world_inv w → world_inv (main.Merge prID now w).2.
Proof.
  intros [Hstore Hcache].
  unfold main.Merge, PullRequestManager.Merge, PullRequestManager.load_pull_request.
  simpl. destruct (Storage.GetPullRequest prID (store w)) as [pr0|err].
  2: { by destruct (errors_Is err ErrNotFound). }
  destruct (decide _); [done|]. unfold call_write. simpl.
  destruct (Storage.SavePullRequest _ _) as [db|] eqn:Hsave; [|done].
  apply SavePullRequest_Ok in Hsave as (_ & _ & _ & _ & Hinv).
  case_bool_decide; (split; [by apply Hinv|done]).
Qed.

Lemma Reassign_world_inv (oldUserId prId : string) (w : World Storage.Tables) :
  world_inv w → world_inv (main.Reassign oldUserId prId w).2.
Proof.
  intros [Hstore Hcache].
  unfold main.Reassign, PullRequestManager.Reassign, PullRequestManager.load_pull_request.
  simpl. destruct (Storage.GetPullRequest prId (store w)) as [pr0|err].
  2: { by destruct (errors_Is err ErrNotFound). }
  destruct (decide _); [done|]. destruct (negb _); [done|].
  pose proof (GetUserTeam_world main.userManager oldUserId w) as [Hst Htr].
  pose proof (GetUserTeam_cache_inv main.userManager oldUserId w Hcache) as Hc1.
  simpl in *.
  destruct (UserManager.GetUserTeam _ _ w) as [[teamName|] w1]; simpl in *.
  2: { unfold world_inv. simpl. by rewrite Hst. }
  destruct (UserManager.FindReplacementReviewer _ _ _) as [new|err].
  2: { unfold world_inv. destruct (errors_Is err ErrNoCandidate); simpl; by rewrite Hst. }
  unfold call_write. simpl.
  destruct (Storage.SavePullRequest _ _) as [db|] eqn:Hsave; simpl.
  - apply SavePullRequest_Ok in Hsave as (_ & _ & _ & _ & Hinv).
    split; [|done]. apply Hinv. by rewrite Hst.
  - unfold world_inv. simpl. by rewrite Hst.
Qed.

Lemma BulkDeactivateTeamMembers_world_inv (teamName : string) (userIDs : list string)
    (w : World Storage.Tables) :
  world_inv w → world_inv (main.BulkDeactivateTeamMembers teamName userIDs w).2.
Proof.
  intros [Hstore Hcache].
  unfold main.BulkDeactivateTeamMembers, PullRequestManager.BulkDeactivateTeamMembers.
  cbv zeta. destruct (decide (TrimSpace teamName = "")) as [|Hteam]; [done|].
  destruct (bool_decide (length userIDs = 0)); [done|].
  destruct (PullRequestManager.normalizeTargetUserIDs userIDs)
    as [[targets targetSet]|]; [|done].
  destruct (UserManager.GetTeam _ _ _) as [team|]; [|done].
  destruct (PullRequestManager.ensureTargetsInTeam _ _); [done|].
  unfold PullRequestManager.planBulkReviewerSwaps. simpl.
  destruct (Storage.FindOpenPullRequestsByReviewers targets (store w))
    as [openPRs|] eqn:Hfind; [|done].
  destruct (PullRequestManager.plan_pull_requests _ _ _) as [st|] eqn:Hplan; [|done].
  apply plan_pull_requests_spec in Hplan
    as (added & report & Hsw & _ & _ & _ & _ & Hslots).
  simpl in Hsw. subst added. unfold call_write. simpl.
  destruct (Storage.ApplyBulkTeamReviewerSwaps _ _ _) as [db|] eqn:Happly; [|done].
  apply FindOpenPullRequestsByReviewers_Ok in Hfind as [Hids Hprs].
  pose proof Hstore as [Hnd _]%store_inv_alt.
  destruct (targeted_slots_rows targetSet (store w) openPRs) as [Hslots_nd Hslots_in];
    [done|done|by eapply Forall_impl; [done|]; intros pr [? _]|].
  apply ApplyBulkTeamReviewerSwaps_Ok in Happly; [|by rewrite Hslots| |done].
  - case_bool_decide; (split; [done|]); simpl; [|done].
    by apply SyncUsersActivity_cache_inv.
  - rewrite <- Hslots in Hslots_in. by apply Forall_fmap in Hslots_in.
Qed.

(** Every step of a serial execution keeps the invariants, whatever the
    outcome of the request; they hold when the cache is empty and the
    reviewer table is, and so in every world a serial execution reaches. *)
Lemma step_world_inv (w w' : World Storage.Tables) :
  main.step w w' → world_inv w → world_inv w'.
Proof.
  destruct 1 as [userID w|team w|userID isActive w|reqData now w|prID now w
                |oldUserId prId w|teamName userIDs w|rewIds status w Hgo]; intros Hinv.
  - by apply PrimeCacheUser_world_inv.
  - by apply AddTeam_world_inv.
  - by apply SetUserActivity_world_inv.
  - by apply CreatePullRequest_world_inv.
  - by apply Merge_world_inv.
  - by apply Reassign_world_inv.
  - by apply BulkDeactivateTeamMembers_world_inv.
  - destruct Hinv as [Hstore Hcache]. split; [done|]. by apply SetActivity_cache_inv.
Qed.

Lemma world_inv_fresh : world_inv Examples.fresh.
Proof. split; [split; constructor|apply map_Forall_empty]. Qed.

Lemma reachable_world_inv (w w' : World Storage.Tables) :
  rtc main.step w w' → world_inv w → world_inv w'.
Proof. induction 1 as [|w w1 w' Hstep _ IH]; [done|]. intros Hinv. eauto using step_world_inv. Qed.

(** Serial executions keep every reviewer list at most two ids long and
    free of duplicates.  In a world that satisfies [world_inv] (the reviewer
    table respects its primary key and holds at most two rows for a pull
    request; every cache entry is filed under its own id), a successful
    create, merge or reassign that is served alone returns a pull request
    with such a list, and after a successful bulk deactivation served alone,
    as after any of the others, every pull request read from the store has
    such a list and [world_inv] holds again.  The server does not serve its
    requests alone, and does not keep [world_inv]: [Examples.over_cap] is a
    world it reaches. *)
Lemma serial_reviewer_lists_stay_ok (w : World Storage.Tables) :
  world_inv w →
  (∀ reqData now pr w',
     main.CreatePullRequest reqData now w = (Ok pr, w') →
     reviewers_ok (PullRequest.AssignedReviewers pr) ∧ world_inv w') ∧
  (∀ prID now pr w',
     main.Merge prID now w = (Ok pr, w') →
     reviewers_ok (PullRequest.AssignedReviewers pr) ∧ world_inv w') ∧
  (∀ oldUserId prId resp w',
     main.Reassign oldUserId prId w = (Ok resp, w') →
     reviewers_ok (PullRequest.AssignedReviewers (ReassignResponse.PR resp)) ∧
     world_inv w') ∧
  (∀ teamName userIDs res w',
     main.BulkDeactivateTeamMembers teamName userIDs w = (Ok res, w') →
     world_inv w') ∧
  (∀ w', world_inv w' →
     ∀ prID pr, Storage.GetPullRequest prID (store w') = Ok pr →
                reviewers_ok (PullRequest.AssignedReviewers pr)).
Proof.
  intros Hinv. pose proof Hinv as [Hstore Hcache]. split_and!.
  - intros reqData now pr w' Hrun.
    pose proof (CreatePullRequest_world_inv reqData now w Hinv) as Hinv'.
    rewrite Hrun in Hinv'. split; [|done]. revert Hrun.
    unfold main.CreatePullRequest, PullRequestManager.CreatePullRequest.
    pose proof (GetUserTeam_cache_inv main.userManager
                  (PostPullRequestCreateJSONBody.AuthorId reqData) w Hcache) as Hc1.
    simpl in *.
    destruct (UserManager.GetUserTeam _ _ w) as [[teamID|] w1]; [|done].
    unfold call_write. simpl.
    destruct (Storage.SavePullRequest _ _) as [db|]; [|done].
    intros [= <- <-]. by apply AssignRewiers_reviewers_ok.
  - intros prID now pr w' Hrun.
    pose proof (Merge_world_inv prID now w Hinv) as Hinv'.
    rewrite Hrun in Hinv'. split; [|done]. revert Hrun.
    unfold main.Merge, PullRequestManager.Merge, PullRequestManager.load_pull_request.
    simpl. destruct (Storage.GetPullRequest prID (store w)) as [pr0|err] eqn:Hget.
    2: { by destruct (errors_Is err ErrNotFound). }
    pose proof (GetPullRequest_reviewers_ok _ _ _ Hstore Hget) as Hok.
    destruct (decide _); [by intros [= <- <-]|].
    unfold call_write. simpl.
    destruct (Storage.SavePullRequest _ _) as [db|]; [|done].
    by intros [= <- <-].
  - intros oldUserId prId resp w' Hrun.
    pose proof (Reassign_world_inv oldUserId prId w Hinv) as Hinv'.
    rewrite Hrun in Hinv'. split; [|done]. unfold main.Reassign in Hrun.
    destruct (PullRequestManager.load_pull_request prId w) as [pr0|] eqn:Hload.
    2: { unfold PullRequestManager.Reassign in Hrun. by rewrite Hload in Hrun. }
    assert (Storage.GetPullRequest prId (store w) = Ok pr0) as Hget.
    { unfold PullRequestManager.load_pull_request in Hload. simpl in Hload.
      destruct (Storage.GetPullRequest prId (store w)) as [|err]; [done|].
      by destruct (errors_Is err ErrNotFound). }
    destruct (GetPullRequest_reviewers_ok _ _ _ Hstore Hget) as [Hlen Hnd].
    unfold PullRequestManager.Reassign in Hrun. rewrite Hload in Hrun.
    destruct (decide _); [done|]. case_bool_decide as Hassigned; [|done].
    simpl in Hrun.
    destruct (UserManager.GetUserTeam _ _ w) as [[teamName|] w1]; [|done].
    destruct (UserManager.FindReplacementReviewer _ _ _) as [new|err] eqn:Hfind.
    2: { by destruct (errors_Is err ErrNoCandidate). }
    apply FindReplacementReviewer_Ok in Hfind as [Hnew _].
    rewrite elem_of_app in Hnew. unfold call_write in Hrun. simpl in Hrun.
    destruct (Storage.SavePullRequest _ _) as [db|]; [|done].
    injection Hrun as <- <-. simpl. split.
    + rewrite length_app. simpl.
      rewrite Nat.add_1_r, (length_filter_remove_one oldUserId) by done. done.
    + apply NoDup_app. split_and!; [by apply NoDup_filter| |apply NoDup_singleton].
      intros x [_ Hx]%list_elem_of_filter ->%list_elem_of_singleton. tauto.
  - intros teamName userIDs res w' Hrun.
    pose proof (BulkDeactivateTeamMembers_world_inv teamName userIDs w Hinv) as Hinv'.
    by rewrite Hrun in Hinv'.
  - intros w' [Hstore' _] prID pr. by apply GetPullRequest_reviewers_ok.
Qed.

(** On the PostgreSQL repository the premise of C10 can be read off the
    tables: when no pull request stored as open has a target among its
    reviewer rows, the query finds nothing, the call with no swap cannot
    fail, and the bulk deactivation succeeds. *)
Lemma FindOpenPullRequestsByReviewers_none (targets : list string) (db : Storage.Tables) :
  (∀ prID row r,
     Storage.pull_requests db !! prID = Some row →
     Storage.status row = PullRequestStatusOPEN →
     r ∈ Storage.reviewers_of prID db → r ∉ targets) →
  Storage.FindOpenPullRequestsByReviewers targets db = Ok [].
Proof.
  intros Hnone. unfold Storage.FindOpenPullRequestsByReviewers.
  case_bool_decide; [done|]. case_bool_decide; [done|]. f_equal.
  apply Permutation_nil_r. rewrite Storage.order_by_perm, filter_none; [done|].
  apply Forall_forall. intros [prID row] Hin%elem_of_map_to_list [Hopen Hex].
  apply Exists_exists in Hex as (r & Hr & Hin'). simpl in *.
  apply elem_of_list_to_set, list_elem_of_filter in Hin' as [_ Hin'].
  by eapply Hnone.
Qed.

Lemma BulkDeactivateTeamMembers_without_reviews_stored (teamName : string)
    (userIDs : list string) (w : World Storage.Tables) (targets : list string)
    (targetSet : gset string) (team : Team.t) :
  TrimSpace teamName ≠ "" →
  PullRequestManager.normalizeTargetUserIDs userIDs = Ok (targets, targetSet) →
  main.GetTeam (TrimSpace teamName) w = Ok team →
  PullRequestManager.ensureTargetsInTeam targets (Team.Members team) = None →
  (∀ prID row r,
     Storage.pull_requests (store w) !! prID = Some row →
     Storage.status row = PullRequestStatusOPEN →
     r ∈ Storage.reviewers_of prID (store w) → r ∉ targets) →
  main.BulkDeactivateTeamMembers teamName userIDs w
  = (Ok (TeamBulkDeactivateResult.mk (TrimSpace teamName) targets []),
     mkWorld (Storage.deactivateUsersTx targets (store w))
             (UserManager.SyncUsersActivity targets false (users w))
             (trace w ++ [CallApplyBulkTeamReviewerSwaps [] targets])).
Proof.
  intros Hteam Hnorm Hget Hensure Hnone. unfold main.BulkDeactivateTeamMembers.
  rewrite (BulkDeactivateTeamMembers_checked _ _ _ _ _ _ _ Hteam Hnorm Hget Hensure).
  unfold PullRequestManager.planBulkReviewerSwaps. simpl.
  rewrite FindOpenPullRequestsByReviewers_none by done. simpl.
  rewrite app_nil_r, ApplyBulkTeamReviewerSwaps_no_swaps; [done|].
  by apply normalizeTargetUserIDs_Ok in Hnorm as (_ & _ & ?).
Qed.

End invariant.

(** ** Teams: [AddTeam] followed by [GetTeam] *)

Section fold_insert.
Context {A V : Type} (key : A → string) (val : A → V).

Lemma insert_all_lookup_ne (m : gmap string V) (l : list A) (k : string) :
  k ∉ key <$> l → insert_all key val m l !! k = m !! k.
Proof.
  revert m. induction l as [|a l IH]; intros m Hk; [done|]. simpl.
  rewrite fmap_cons, not_elem_of_cons in Hk. destruct Hk as [Hne Hk].
  unfold insert_all in *. rewrite IH by done. by rewrite lookup_insert_ne.
Qed.

Lemma insert_all_lookup (m : gmap string V) (l : list A) (a : A) :
  NoDup (key <$> l) → a ∈ l → insert_all key val m l !! key a = Some (val a).
Proof.
  revert m. induction l as [|b l IH]; intros m Hnd Hin; [by apply elem_of_nil in Hin|].
  rewrite fmap_cons in Hnd. apply NoDup_cons in Hnd as [Hb Hnd]. simpl.
  apply elem_of_cons in Hin as [->|Hin].
  - fold (insert_all key val (<[key b := val b]> m) l).
    rewrite insert_all_lookup_ne by done. by rewrite lookup_insert_eq.
  - by apply IH.
Qed.

(** After inserting entries with distinct keys, the entries of the map
    that satisfy [P] are the inserted ones, provided these satisfy [P] and
    no other entry of the map did. *)
Lemma insert_all_filter (P : V → Prop) `{!∀ v, Decision (P v)}
    (m : gmap string V) (l : list A) :
  NoDup (key <$> l) →
  Forall (λ a, P (val a)) l →
  (∀ k v, m !! k = Some v → P v → k ∈ key <$> l) →
  filter (λ e, P e.2) (map_to_list (insert_all key val m l)) ≡ₚ (λ a, (key a, val a)) <$> l.
Proof.
  intros Hnd HP Hm. apply NoDup_Permutation.
  - apply NoDup_filter, NoDup_map_to_list.
  - apply (NoDup_fmap_1 fst). by rewrite <- list_fmap_compose.
  - intros [k v]. rewrite list_elem_of_filter, elem_of_map_to_list, list_elem_of_fmap.
    simpl. split.
    + intros [Hv Hk]. destruct (decide (k ∈ key <$> l)) as [Hin|Hout].
      * apply list_elem_of_fmap in Hin as (a & -> & Hin). exists a. split; [|done].
        rewrite insert_all_lookup in Hk by done. congruence.
      * rewrite insert_all_lookup_ne in Hk by done. by destruct Hout; eapply Hm.
    + intros (a & [= -> ->] & Hin). split; [by eapply Forall_forall in HP|].
      by apply insert_all_lookup.
Qed.

End fold_insert.

Lemma filter_fmap_snd {K V} (P : V → Prop) `{!∀ v, Decision (P v)} (l : list (K * V)) :
  filter P (l.*2) = (filter (λ e, P e.2) l).*2.
Proof.
  induction l as [|e l IH]; [done|]. rewrite fmap_cons, !filter_cons, IH. simpl.
  by destruct (decide (P e.2)).
Qed.

(** The payload check of [AddTeam] passes exactly for member ids that are
    non-empty, pairwise different and not seen before. *)
Lemma AddTeam_validate_None (i : nat) (userIDs : gset string) (members : list TeamMember.t) :
  UserManager.AddTeam_validate i userIDs members = None ↔
  NoDup (TeamMember.UserId <$> members) ∧
  Forall (λ m, TeamMember.UserId m ≠ "" ∧ TeamMember.UserId m ∉ userIDs) members.
Proof.
  revert i userIDs. induction members as [|m members IH]; intros i userIDs; simpl.
  { split; [|done]. intros _. split; constructor. }
  rewrite ?fmap_cons, NoDup_cons, Forall_cons.
  destruct (decide (TeamMember.UserId m = "")); [naive_solver|].
  destruct (decide (TeamMember.UserId m ∈ userIDs)); [naive_solver|].
  rewrite IH. split.
  - intros [Hnd Hall]. split_and!; [|done|done|done|].
    + intros (m' & Heq & Hin)%list_elem_of_fmap.
      eapply Forall_forall in Hall as [_ Hall]; [|done]. set_solver.
    + eapply Forall_impl; [done|]. set_solver.
  - intros [[Hm Hnd] [_ Hall]]. split; [done|]. apply Forall_forall.
    intros m' Hin. eapply Forall_forall in Hall as [? ?]; [|done]. split; [done|].
    rewrite not_elem_of_union, not_elem_of_singleton. split; [|done].
    intros Heq. apply Hm. rewrite <- Heq. by apply list_elem_of_fmap_2.
Qed.

Section teams.
Context {go : Golang} {pg : Storage.Postgres}.

Lemma CreateTeamWithMembers_users_Ok (new : list User.t) (db db' : Storage.Tables) :
  Storage.CreateTeamWithMembers_users new db = Ok db' →
  Storage.teams db' = Storage.teams db ∧
  Storage.users db' = insert_all User.UserId user_row (Storage.users db) new.
Proof.
  revert db. induction new as [|user new IH]; intros db; simpl.
  { by intros [= <-]. }
  unfold Storage.upsert_user.
  destruct (match Storage.nullif_empty (User.TeamName user) with
            | Some t => bool_decide (t ∈ Storage.teams db) | None => true end); [|done].
  by intros [-> ->]%IH.
Qed.

(** What a successful [AddTeam] has checked and done. *)
Lemma AddTeam_Ok_inv {DB} (repo : option (Repository.UserTeamRepository DB))
    (team : Team.t) (w w' : World DB) :
  UserManager.AddTeam repo team w = (None, w') →
  let new := (λ m, ConvertTmToUser m (Team.TeamName team)) <$> Team.Members team in
  NoDup (TeamMember.UserId <$> Team.Members team) ∧
  Forall (λ m, TeamMember.UserId m ≠ "") (Team.Members team) ∧
  users w' = insert_all User.UserId id (users w) new ∧
  match repo with
  | Some r => Repository.CreateTeamWithMembers team new (store w) = Ok (store w')
  | None => store w' = store w
  end.
Proof.
  unfold UserManager.AddTeam.
  destruct (UserManager.AddTeam_validate _ _ _) eqn:Hvalid; [done|].
  apply AddTeam_validate_None in Hvalid as [Hnd Hne].
  assert (Forall (λ m, TeamMember.UserId m ≠ "") (Team.Members team)) as Hne'.
  { eapply Forall_impl; [done|]. naive_solver. }
  destruct repo as [r|]; [|by intros [= <-]].
  unfold call_write. simpl.
  destruct (Repository.CreateTeamWithMembers _ _ _) as [db|]; [|done].
  by intros [= <-].
Qed.

Lemma ConvertTmToUser_ids (teamName : string) (members : list TeamMember.t) :
  User.UserId <$> ((λ m, ConvertTmToUser m teamName) <$> members)
  = TeamMember.UserId <$> members.
Proof. by rewrite <- list_fmap_compose. Qed.

(** C9, as the code has it.  After a successful [AddTeam]:
    - with the PostgreSQL repository, a team name that is not empty and a
      users table that respects its foreign key to [teams], [GetTeam]
      answers from the store with exactly the members of the payload;
    - the reconstruction from the cache yields exactly the members of the
      payload when there is at least one and no user cached before under
      another id carried that team name. *)
Theorem AddTeam_GetTeam_roundtrip (team : Team.t) :
  (∀ w w' : World Storage.Tables,
     users_team_fk (store w) → Team.TeamName team ≠ "" →
     main.AddTeam team w = (None, w') →
     ∃ got, main.GetTeam (Team.TeamName team) w' = Ok got ∧
            Team.TeamName got = Team.TeamName team ∧
            Team.Members got ≡ₚ Team.Members team) ∧
  (∀ (DB : Type) (repo : option (Repository.UserTeamRepository DB)) (w w' : World DB),
     Team.Members team ≠ [] →
     (∀ k u, users w !! k = Some u → User.TeamName u = Team.TeamName team →
             k ∈ TeamMember.UserId <$> Team.Members team) →
     UserManager.AddTeam repo team w = (None, w') →
     ∃ got, UserManager.GetTeam_from_cache (Team.TeamName team) (users w') = Ok got ∧
            Team.TeamName got = Team.TeamName team ∧
            Team.Members got ≡ₚ Team.Members team).
Proof.
  split.
  - intros w w' Hfk Hname Hadd. unfold main.AddTeam in Hadd.
    apply AddTeam_Ok_inv in Hadd as (Hnd & Hne & _ & Hcreate).
    simpl in Hcreate. unfold Storage.CreateTeamWithMembers in Hcreate.
    case_bool_decide as Hfresh; [done|].
    apply CreateTeamWithMembers_users_Ok in Hcreate as [Hteams Husers]. simpl in *.
    unfold main.GetTeam, UserManager.GetTeam. simpl. unfold Storage.GetTeam.
    rewrite bool_decide_eq_true_2 by (rewrite Hteams; set_solver).
    eexists. split_and!; [done..|]. simpl.
    unfold Storage.GetAllUsersInTeam. rewrite Storage.order_by_perm, Husers.
    set (new := (λ m, ConvertTmToUser m (Team.TeamName team)) <$> Team.Members team).
    assert (filter (λ entry : string * Storage.UserRow,
                      Storage.team_name entry.2 = Some (Team.TeamName team))
                   (map_to_list (insert_all User.UserId user_row (Storage.users (store w)) new))
            ≡ₚ (λ user, (User.UserId user, user_row user)) <$> new) as Hperm.
    { refine (@insert_all_filter _ _ User.UserId user_row
                (λ row, Storage.team_name row = Some (Team.TeamName team))
                (λ row, decide (Storage.team_name row = Some (Team.TeamName team)))
                _ _ _ _ _); unfold new.
      - by rewrite ConvertTmToUser_ids.
      - apply Forall_fmap, Forall_forall. intros m _. simpl.
        unfold Storage.nullif_empty. by rewrite decide_False.
      - intros k row Hk Hrow. apply Hfk in Hk. by rewrite Hrow in Hk. }
    rewrite Hperm. unfold new. rewrite <- !list_fmap_compose.
    rewrite (list_fmap_ext _ id (Team.Members team)); [by rewrite list_fmap_id|].
    intros i m _. by destruct m.
  - intros DB repo w w' Hmembers Hothers Hadd.
    apply AddTeam_Ok_inv in Hadd as (Hnd & Hne & Husers & _).
    unfold UserManager.GetTeam_from_cache.
    assert (ConvertUserToTeamMember <$>
              filter (λ user, User.TeamName user = Team.TeamName team)
                     ((range_users (users w')).*2)
            ≡ₚ Team.Members team) as Hperm.
    { rewrite range_users_perm, filter_fmap_snd, Husers.
      set (new := (λ m, ConvertTmToUser m (Team.TeamName team)) <$> Team.Members team).
      assert (filter (λ entry : string * User.t,
                        User.TeamName entry.2 = Team.TeamName team)
                     (map_to_list (insert_all User.UserId id (users w) new))
              ≡ₚ (λ user, (User.UserId user, user)) <$> new) as Hperm.
      { refine (@insert_all_filter _ _ User.UserId id
                  (λ user, User.TeamName user = Team.TeamName team)
                  (λ user, decide (User.TeamName user = Team.TeamName team))
                  _ _ _ _ _); unfold new.
        - by rewrite ConvertTmToUser_ids.
        - by apply Forall_fmap, Forall_forall.
        - intros k u Hk Hu. rewrite ConvertTmToUser_ids. by eapply Hothers. }
      rewrite Hperm. unfold new. rewrite <- !list_fmap_compose.
      rewrite (list_fmap_ext _ id (Team.Members team)); [by rewrite list_fmap_id|].
      intros i m _. by destruct m. }
    rewrite bool_decide_eq_false_2.
    + by eexists.
    + rewrite Hperm. by destruct (Team.Members team).
Qed.

End teams.

(** ** Merge *)

Section merge.
Context {pg : Storage.Postgres}.
#[local] Existing Instance Storage.pullRequestRepository.

(** With the PostgreSQL repository a successful merge leaves the request
    stored as merged. *)
Lemma Merge_stores_merged (prID : string) (now : Time) (w w1 : World Storage.Tables)
    (pr1 : PullRequest.t) :
  main.Merge prID now w = (Ok pr1, w1) →
  ∃ pr2, Storage.GetPullRequest prID (store w1) = Ok pr2 ∧
         PullRequest.Status pr2 = PullRequestStatusMERGED.
Proof.
  unfold main.Merge, PullRequestManager.Merge, PullRequestManager.load_pull_request.
  simpl. destruct (Storage.GetPullRequest prID (store w)) as [pr0|err] eqn:Hget.
  2: { by destruct (errors_Is err ErrNotFound). }
  destruct (decide _) as [Hmerged|Hopen]; [intros [= <- <-]; by exists pr0|].
  unfold call_write. simpl.
  destruct (Storage.SavePullRequest _ _) as [db|] eqn:Hsave; [|done].
  apply SavePullRequest_Ok in Hsave as (_ & _ & _ & (row & Hrows & Hstatus) & _).
  simpl in Hrows, Hstatus. rewrite (GetPullRequest_id _ _ _ Hget) in Hrows.
  intros [= <- <-].
  assert (store (if bool_decide (0 < length (PullRequest.AssignedReviewers pr0))
                 then emit (GoSetActivity (PullRequest.AssignedReviewers pr0) true)
                        (with_store db (emit (CallSavePullRequest
                           (PullRequest.with_merged now pr0)) w))
                 else with_store db (emit (CallSavePullRequest
                           (PullRequest.with_merged now pr0)) w)) = db) as ->.
  { by case_bool_decide. }
  unfold Storage.GetPullRequest. rewrite Hrows, lookup_insert_eq. by eexists.
Qed.

End merge.

(** C4.  Merge is idempotent.  Over any repository, merging a pull request
    that is stored as merged returns it as stored, without error, and
    leaves the world as it was: no [SavePullRequest], no goroutine for the
    reviewers.  With the PostgreSQL repository a successful merge stores
    the request as merged, so a second merge returns the stored request and
    changes nothing: the state after two merges is the state after one. *)
Theorem Merge_idempotent :
  (∀ (DB : Type) (prRepo : Repository.PullRequestRepository DB)
     (prID : string) (now : Time) (w : World DB) (pr : PullRequest.t),
     Repository.GetPullRequest prID (store w) = Ok pr →
     PullRequest.Status pr = PullRequestStatusMERGED →
     PullRequestManager.Merge prID now w = (Ok pr, w)) ∧
  (∀ (pg : Storage.Postgres) (prID : string) (now now' : Time)
     (w w1 : World Storage.Tables) (pr1 : PullRequest.t),
     main.Merge prID now w = (Ok pr1, w1) →
     ∃ pr2, Storage.GetPullRequest prID (store w1) = Ok pr2 ∧
            PullRequest.Status pr2 = PullRequestStatusMERGED ∧
            main.Merge prID now' w1 = (Ok pr2, w1)).
Proof.
  split.
  - intros DB prRepo prID now w pr. apply Merge_already_merged.
  - intros pg prID now now' w w1 pr1 (pr2 & Hget & Hmerged)%Merge_stores_merged.
    exists pr2. split_and!; [done..|].
    by apply (Merge_already_merged (prRepo := Storage.pullRequestRepository)).
Qed.

(** ** The properties at concrete inputs *)

Section runs.
Import Examples.
#[local] Existing Instance golang.
#[local] Existing Instance postgres.
#[local] Existing Instance Storage.pullRequestRepository.

(** C7 as the specification states it does not hold.  A target list of a
    blank id and an empty one normalises to the empty list, and the bulk
    deactivation fails with ["no valid user ids provided"].  This error has no kind:
    it wraps no sentinel, there is no sentinel for an invalid payload, and
    a client is not told [INVALID_PAYLOAD] but status 500 with the code
    [INTERNAL_ERROR]. *)
Lemma normalizeTargetUserIDs_refines_spec_counterexample :
  let userIDs := [" "; ""] in
  spec_normalize userIDs = [] ∧
  ∃ err,
    main.BulkDeactivateTeamMembers "backend" userIDs with_pr = (Err err, with_pr) ∧
    err = Errorf "no valid user ids provided" ∧
    wrapped_sentinel err = None ∧
    ¬ reported_as_InvalidPayload err ∧
    web.write_domain_error err
    = web.writeError http.StatusInternalServerError "INTERNAL_ERROR"
        (web.ErrorText err).
Proof.
  intros userIDs. split; [by vm_compute|].
  exists (Errorf "no valid user ids provided").
  split_and!; [by vm_compute|done|done| |done].
  unfold reported_as_InvalidPayload. by vm_compute.
Qed.

(** C9 as the specification states it does not hold.  A directory without
    repository accepts the team name ["T"] twice; the second payload has the
    single member ["b"], and [GetTeam], answered from the cache, returns the
    two users cached under ["T"]. *)
Lemma AddTeam_GetTeam_roundtrip_counterexample :
  let first := Team.mk [member "a" true] "T" in
  let second := Team.mk [member "b" true] "T" in
  let w1 := (UserManager.AddTeam None first cache_only).2 in
  ∃ w2 got,
    UserManager.AddTeam None second w1 = (None, w2) ∧
    UserManager.GetTeam None "T" w2 = Ok got ∧
    ¬ (Team.Members got ≡ₚ Team.Members second).
Proof.
  intros first second w1.
  exists (UserManager.AddTeam None second w1).2,
         (Team.mk [member "a" true; member "b" true] "T").
  split_and!; [by vm_compute..|].
  intros Hperm%Permutation_length. by vm_compute in Hperm.
Qed.

(** With the PostgreSQL repository an empty team name is stored as [NULL]
    on the users, and [GetTeam] finds the team without members. *)
Example AddTeam_GetTeam_empty_team_name :
  let team := Team.mk [member "a" true] "" in
  ∃ w', main.AddTeam team fresh = (None, w') ∧
        main.GetTeam "" w' = Ok (Team.mk [] "").
Proof. eexists. split; by vm_compute. Qed.

(** A payload without members is accepted, and the reconstruction from the
    cache reports the team as not found. *)
Example AddTeam_GetTeam_no_members :
  ∃ w', UserManager.AddTeam None (Team.mk [] "T") cache_only = (None, w') ∧
        UserManager.GetTeam None "T" w' = Err (NewNotFoundError "team").
Proof. eexists. split; by vm_compute. Qed.

Lemma AddTeam_GetTeam_roundtrip_witness :
  users_team_fk (store fresh) ∧ Team.TeamName backend ≠ "" ∧
  main.AddTeam backend fresh = (None, with_team) ∧
  ∃ got, main.GetTeam "backend" with_team = Ok got ∧
         Team.TeamName got = "backend" ∧
         Team.Members got ≡ₚ Team.Members backend.
Proof.
  assert (users_team_fk (store fresh)) as Hfk by apply map_Forall_empty.
  assert (Team.TeamName backend ≠ "") as Hname by done.
  assert (main.AddTeam backend fresh = (None, with_team)) as Hadd by (by vm_compute).
  split_and!; [done..|].
  exact (proj1 (AddTeam_GetTeam_roundtrip backend) fresh with_team Hfk Hname Hadd).
Defined.

Lemma world_inv_with_pr : world_inv with_pr.
Proof.
  unfold world_inv, store_inv, cache_inv. refine (bool_decide_unpack _ _).
  by vm_compute.
Defined.

Lemma Reassign_replaces_one_reviewer_witness :
  ∃ pr resp w',
    Storage.GetPullRequest "pr-1" (store with_pr) = Ok pr ∧
    NoDup (PullRequest.AssignedReviewers pr) ∧
    main.Reassign "u3" "pr-1" with_pr = (Ok resp, w') ∧
    PullRequest.AssignedReviewers pr = ["u3"; "u1"] ∧
    PullRequest.AssignedReviewers (ReassignResponse.PR resp)
    = filter (λ reviewerID, reviewerID ≠ "u3") (PullRequest.AssignedReviewers pr)
        ++ [ReassignResponse.ReplacedBy resp] ∧
    length (PullRequest.AssignedReviewers (ReassignResponse.PR resp)) = 2 ∧
    (ReassignResponse.ReplacedBy resp ∉ PullRequest.AssignedReviewers pr).
Proof.
  destruct (Storage.GetPullRequest "pr-1" (store with_pr)) as [pr|] eqn:Hget;
    [|by vm_compute in Hget].
  destruct (main.Reassign "u3" "pr-1" with_pr) as [[resp|err] w'] eqn:Hrun;
    [|by vm_compute in Hrun].
  assert (PullRequest.AssignedReviewers pr = ["u3"; "u1"]) as Hrs.
  { vm_compute in Hget. by injection Hget as <-. }
  assert (NoDup (PullRequest.AssignedReviewers pr)) as Hnd.
  { rewrite Hrs. refine (bool_decide_unpack _ _). by vm_compute. }
  exists pr, resp, w'.
  destruct (Reassign_replaces_one_reviewer (prRepo := Storage.pullRequestRepository)
              main.userManager "u3" "pr-1" with_pr w' pr resp
              Hget Hnd Hrun) as (_ & _ & Hlen & _ & Hafter & Hnew & _).
  split_and!; [done..| |done]. by rewrite Hlen, Hrs.
Defined.

Lemma Merge_idempotent_witness :
  ∃ pr1 w1 pr2,
    main.Merge "pr-1" 9%Z with_pr = (Ok pr1, w1) ∧
    PullRequest.Status pr2 = PullRequestStatusMERGED ∧
    main.Merge "pr-1" 10%Z w1 = (Ok pr2, w1).
Proof.
  destruct (main.Merge "pr-1" 9%Z with_pr) as [[pr1|err] w1] eqn:Hrun;
    [|by vm_compute in Hrun].
  destruct (proj2 Merge_idempotent postgres "pr-1" 9%Z 10%Z with_pr w1 pr1 Hrun)
    as (pr2 & _ & Hmerged & Hagain).
  by exists pr1, w1, pr2.
Defined.

Lemma BulkDeactivateTeamMembers_all_or_nothing_witness :
  let openPRs :=
    [PullRequest.mk ["u1"] "u1" (Some 5%Z) None "pr-1" "title" PullRequestStatusOPEN] in
  TrimSpace "backend" ≠ "" ∧
  PullRequestManager.normalizeTargetUserIDs ["u1"] = Ok (["u1"], {["u1"]}) ∧
  main.GetTeam "backend" small_pr = Ok small ∧
  PullRequestManager.ensureTargetsInTeam ["u1"] (Team.Members small) = None ∧
  Storage.FindOpenPullRequestsByReviewers ["u1"] (store small_pr) = Ok openPRs ∧
  main.BulkDeactivateTeamMembers "backend" ["u1"] small_pr
  = (Err (NewNoCandidateError "pr-1"), small_pr).
Proof.
  intros openPRs.
  assert (TrimSpace "backend" ≠ "") as Hteam by (by vm_compute).
  assert (PullRequestManager.normalizeTargetUserIDs ["u1"] = Ok (["u1"], {["u1"]}))
    as Hnorm by (by vm_compute).
  assert (main.GetTeam "backend" small_pr = Ok small) as Hget by (by vm_compute).
  assert (PullRequestManager.ensureTargetsInTeam ["u1"] (Team.Members small) = None)
    as Hensure by (by vm_compute).
  assert (Storage.FindOpenPullRequestsByReviewers ["u1"] (store small_pr) = Ok openPRs)
    as Hfind by (by vm_compute).
  split_and!; [done..|].
  destruct (BulkDeactivateTeamMembers_all_or_nothing
              (prRepo := Storage.pullRequestRepository) main.userManager "backend" ["u1"]
              small_pr ["u1"] {["u1"]} small openPRs Hteam Hnorm Hget Hensure Hfind)
    as (pr & Hin & _ & Hrun); [by vm_compute|].
  apply list_elem_of_singleton in Hin. by subst pr.
Defined.

Lemma BulkDeactivateTeamMembers_hands_over_plan_witness :
  ∃ res w',
    main.BulkDeactivateTeamMembers "backend" [" u3"; "u3"] with_pr = (Ok res, w') ∧
    trace w' = trace with_pr ++
      [CallApplyBulkTeamReviewerSwaps [ReviewerSwap.mk "pr-1" "u3" "u2"] ["u3"; "u2"]] ∧
    TeamBulkDeactivateResult.Reassignments res
    = [TeamPRReassignment.mk "pr-1" [ReviewerReplacement.mk "u3" "u2"]].
Proof.
  destruct (main.BulkDeactivateTeamMembers "backend" [" u3"; "u3"] with_pr)
    as [[res|err] w'] eqn:Hrun; [|by vm_compute in Hrun].
  exists res, w'.
  destruct (BulkDeactivateTeamMembers_hands_over_plan
              (prRepo := Storage.pullRequestRepository) main.userManager "backend"
              [" u3"; "u3"] with_pr w' res Hrun)
    as (swaps & openPRs & _ & _ & Htrace & _).
  vm_compute in Hrun. injection Hrun as <- <-. by vm_compute.
Defined.

Lemma BulkDeactivateTeamMembers_without_reviews_witness :
  TrimSpace "backend" ≠ "" ∧
  PullRequestManager.normalizeTargetUserIDs ["u2"] = Ok (["u2"], {["u2"]}) ∧
  main.GetTeam "backend" small_pr = Ok small ∧
  PullRequestManager.ensureTargetsInTeam ["u2"] (Team.Members small) = None ∧
  Storage.FindOpenPullRequestsByReviewers ["u2"] (store small_pr) = Ok [] ∧
  ∃ w',
    main.BulkDeactivateTeamMembers "backend" ["u2"] small_pr
    = (Ok (TeamBulkDeactivateResult.mk "backend" ["u2"] []), w') ∧
    trace w' = trace small_pr ++ [CallApplyBulkTeamReviewerSwaps [] ["u2"]].
Proof.
  assert (TrimSpace "backend" ≠ "") as Hteam by (by vm_compute).
  assert (PullRequestManager.normalizeTargetUserIDs ["u2"] = Ok (["u2"], {["u2"]}))
    as Hnorm by (by vm_compute).
  assert (main.GetTeam "backend" small_pr = Ok small) as Hget by (by vm_compute).
  assert (PullRequestManager.ensureTargetsInTeam ["u2"] (Team.Members small) = None)
    as Hensure by (by vm_compute).
  assert (Storage.FindOpenPullRequestsByReviewers ["u2"] (store small_pr) = Ok [])
    as Hfind by (by vm_compute).
  split_and!; [done..|].
  pose proof (BulkDeactivateTeamMembers_without_reviews
                (prRepo := Storage.pullRequestRepository) main.userManager "backend" ["u2"]
                small_pr ["u2"] {["u2"]} small [] Hteam Hnorm Hget Hensure Hfind
                (Forall_nil_2 _)) as Hrun.
  unfold Repository.ApplyBulkTeamReviewerSwaps, Storage.pullRequestRepository in Hrun.
  rewrite ApplyBulkTeamReviewerSwaps_no_swaps in Hrun by done.
  eexists. split; [exact Hrun|done].
Defined.

End runs.

(** * Further properties *)

(** ** The errors and their HTTP status *)

Lemma errors_Is_wrapped_sentinel (err : error) (target : sentinel) :
  errors_Is err target = bool_decide (wrapped_sentinel err = Some target).
Proof.
  induction err as [s| |msg cause IH]; simpl; [|done|done].
  apply bool_decide_ext. naive_solver.
Qed.

Lemma mapDomainError_table (err : error) :
  web.mapDomainError (Some err)
  = (match wrapped_sentinel err with
     | Some ErrTeamExists => (400, "TEAM_EXISTS")
     | Some ErrPRExists => (409, "PR_EXISTS")
     | Some ErrPRMerged => (409, "PR_MERGED")
     | Some ErrNotAssigned => (409, "NOT_ASSIGNED")
     | Some ErrNoCandidate => (409, "NO_CANDIDATE")
     | Some ErrNotFound => (404, "NOT_FOUND")
     | Some ErrUnauthorized => (401, "UNAUTHORIZED")
     | Some ErrTeamIsEmty | None => (500, "INTERNAL_ERROR")
     end, web.ErrorText err)%Z.
Proof.
  unfold web.mapDomainError. rewrite !errors_Is_wrapped_sentinel.
  destruct (wrapped_sentinel err) as [[]|]; reflexivity.
Qed.

(** [mapDomainError] looks through every [%w]: the status and the code of
    an error are those of the sentinel at the end of its chain, so wrapping
    an error with more text never changes them.  An error that wraps no
    sentinel is an internal error, and so is [ErrTeamIsEmty], which
    [mapDomainError] does not list.  Only [nil] is mapped to 200.  The
    constructors of the package wrap their sentinel, except
    [NewErrTeamIsEmty]. *)
Theorem mapDomainError_by_sentinel (err : error) :
  (web.mapDomainError (Some err)).1
  = (match wrapped_sentinel err with
     | Some ErrTeamExists => (400, "TEAM_EXISTS")
     | Some ErrPRExists => (409, "PR_EXISTS")
     | Some ErrPRMerged => (409, "PR_MERGED")
     | Some ErrNotAssigned => (409, "NOT_ASSIGNED")
     | Some ErrNoCandidate => (409, "NO_CANDIDATE")
     | Some ErrNotFound => (404, "NOT_FOUND")
     | Some ErrUnauthorized => (401, "UNAUTHORIZED")
     | Some ErrTeamIsEmty | None => (500, "INTERNAL_ERROR")
     end)%Z
  ∧ (web.mapDomainError (Some err)).2 = web.ErrorText err
  ∧ (∀ msg, (web.mapDomainError (Some (Wrapf msg err))).1
            = (web.mapDomainError (Some err)).1)
  ∧ (web.mapDomainError (Some err)).1.1 ≠ http.StatusOK
  ∧ (∀ name,
       wrapped_sentinel (NewTeamExistsError name) = Some ErrTeamExists ∧
       wrapped_sentinel (NewPRExistsError name) = Some ErrPRExists ∧
       wrapped_sentinel (NewPRMergedError name) = Some ErrPRMerged ∧
       wrapped_sentinel (NewNotAssignedError name) = Some ErrNotAssigned ∧
       wrapped_sentinel (NewNoCandidateError name) = Some ErrNoCandidate ∧
       wrapped_sentinel (NewNotFoundError name) = Some ErrNotFound ∧
       wrapped_sentinel (NewUnauthorizedError name) = Some ErrUnauthorized ∧
       wrapped_sentinel (NewErrTeamIsEmty name) = None).
Proof.
  split_and!.
  - by rewrite mapDomainError_table.
  - by rewrite mapDomainError_table.
  - intros msg. rewrite !mapDomainError_table. done.
  - rewrite mapDomainError_table. cbn [fst]. by destruct (wrapped_sentinel err) as [[]|].
  - done.
Qed.

(** ** The directory *)

Section cache.
Context {go : Golang}.

Lemma set_cached_activity_lookup (status : bool) (us : gmap string User.t)
    (el k : string) :
  UserManager.set_cached_activity status us el !! k
  = if decide (k = el) then User.with_IsActive status <$> us !! k else us !! k.
Proof.
  unfold UserManager.set_cached_activity.
  destruct (decide (k = el)) as [->|Hne].
  - destruct (us !! el) as [user|] eqn:Hel.
    + by rewrite lookup_insert_eq.
    + by rewrite Hel.
  - destruct (us !! el); [|done]. by rewrite lookup_insert_ne.
Qed.

Lemma foldl_set_cached_activity_lookup (status : bool) (ids : list string)
    (us : gmap string User.t) (k : string) :
  foldl (UserManager.set_cached_activity status) us ids !! k
  = if decide (k ∈ ids) then User.with_IsActive status <$> us !! k else us !! k.
Proof.
  revert us. induction ids as [|el ids IH]; intros us; cbn [foldl].
  - destruct (decide (k ∈ [])) as [Hin|]; [by apply elem_of_nil in Hin|done].
  - rewrite IH, set_cached_activity_lookup.
    destruct (decide (k = el)) as [->|Hne].
    + rewrite (decide_True (P := el ∈ el :: ids)) by left.
      destruct (decide (el ∈ ids)); [|done].
      by destruct (us !! el) as [[]|].
    + destruct (decide (k ∈ ids)) as [Hin|Hnin].
      * rewrite decide_True; [done|by right].
      * rewrite decide_False; [done|]. by intros [?|?]%elem_of_cons.
Qed.

(** [SetActivity] and [SyncUsersActivity] are the same update of the cache:
    every cached user whose id is listed gets the flag, with the other
    fields kept; users that are not listed are untouched, and an id that is
    not cached adds nothing to the cache. *)
Theorem SetActivity_lookup (ids : list string) (status : bool)
    (us : gmap string User.t) :
  (∀ k, UserManager.SetActivity ids status us !! k
        = if decide (k ∈ ids) then User.with_IsActive status <$> us !! k else us !! k)
  ∧ dom (UserManager.SetActivity ids status us) = dom us
  ∧ UserManager.SyncUsersActivity ids status us = UserManager.SetActivity ids status us.
Proof.
  split_and!.
  - intros k. apply foldl_set_cached_activity_lookup.
  - apply set_eq. intros k. rewrite !elem_of_dom.
    unfold UserManager.SetActivity. rewrite foldl_set_cached_activity_lookup.
    destruct (decide (k ∈ ids)); [|done]. by rewrite fmap_is_Some.
  - unfold UserManager.SyncUsersActivity, UserManager.SetActivity.
    case_bool_decide as Hlen; [|done]. by destruct ids.
Qed.

(** The loop of [AssignRewiers] from any point: it appends the ids of the
    next users of the team that are active until the counter is at two. *)
Lemma AssignRewiers_loop_take (teamId : string) (entries : list (string * User.t))
    (ans : list string) (counter : nat) :
  counter < 2 →
  UserManager.AssignRewiers_loop teamId entries ans counter
  = ans ++ take (2 - counter)
             (User.UserId <$>
                filter (λ user, User.TeamName user = teamId ∧ User.IsActive user = true)
                       (entries.*2)).
Proof.
  revert ans counter. induction entries as [|[k user] entries IH]; intros ans counter Hc.
  { simpl. by rewrite take_nil, app_nil_r. }
  cbn [UserManager.AssignRewiers_loop]. rewrite fmap_cons. cbn [snd].
  destruct (decide (User.TeamName user = teamId ∧ User.IsActive user = true)) as [[Ht Ha]|Hno].
  - rewrite filter_cons_True by done.
    rewrite bool_decide_eq_true_2, Ha by done. simpl.
    case_bool_decide as Htwo.
    + assert (counter = 1) as -> by lia. done.
    + rewrite IH by lia. rewrite <- app_assoc. simpl.
      replace (2 - counter) with (S (2 - S counter)) by lia. done.
  - rewrite filter_cons_False by done.
    assert (bool_decide (User.TeamName user = teamId) && User.IsActive user = false) as ->.
    { apply andb_false_iff. destruct (decide (User.TeamName user = teamId)).
      - right. destruct (User.IsActive user); [tauto|done].
      - left. by apply bool_decide_eq_false_2. }
    rewrite bool_decide_eq_false_2 by lia. by apply IH.
Qed.

Lemma AssignRewiers_take (teamId : string) (us : gmap string User.t) :
  UserManager.AssignRewiers teamId us = take 2 (User.UserId <$> active_of_team teamId us).
Proof. unfold UserManager.AssignRewiers. by rewrite AssignRewiers_loop_take by lia. Qed.

Lemma AssignRewiers_elem_of (teamId : string) (us : gmap string User.t) (id : string) :
  id ∈ UserManager.AssignRewiers teamId us →
  ∃ k user, us !! k = Some user ∧ User.UserId user = id ∧
            User.TeamName user = teamId ∧ User.IsActive user = true.
Proof.
  rewrite AssignRewiers_take. intros (i & Hi & _)%elem_of_take.
  apply list_elem_of_lookup_2, list_elem_of_fmap in Hi as (user & -> & Huser).
  apply list_elem_of_filter in Huser as [[Ht Ha] Huser].
  apply list_elem_of_fmap in Huser as ([k u] & -> & Hku).
  rewrite range_users_perm in Hku. apply elem_of_map_to_list in Hku.
  by exists k, u.
Qed.

(** [AssignRewiers] picks the first two users of the team that are active,
    in the order the cache is walked, and fewer only when there are fewer:
    nobody from another team, nobody inactive, and nobody twice when the
    cache files every user under its own id.  Nothing excludes the author
    of the pull request. *)
Theorem AssignRewiers_first_two (teamId : string) (us : gmap string User.t) :
  UserManager.AssignRewiers teamId us = take 2 (User.UserId <$> active_of_team teamId us)
  ∧ length (UserManager.AssignRewiers teamId us) = length (active_of_team teamId us) `min` 2
  ∧ (∀ id, id ∈ UserManager.AssignRewiers teamId us →
           ∃ k user, us !! k = Some user ∧ User.UserId user = id ∧
                     User.TeamName user = teamId ∧ User.IsActive user = true)
  ∧ (cache_inv us → NoDup (UserManager.AssignRewiers teamId us)).
Proof.
  split_and!.
  - apply AssignRewiers_take.
  - rewrite AssignRewiers_take, length_take, length_fmap. lia.
  - apply AssignRewiers_elem_of.
  - intros Hc. rewrite AssignRewiers_take. unfold active_of_team.
    eapply sublist_NoDup; [apply (cache_inv_ids us Hc)|].
    etrans; [apply sublist_take|].
    rewrite (list_fmap_compose snd User.UserId). apply fmap_sublist, sublist_filter.
Qed.

Lemma FindReplacementReviewer_Err (teamName : string) (excludeUserIDs : list string)
    (us : gmap string User.t) (err : error) :
  UserManager.FindReplacementReviewer teamName excludeUserIDs us = Err err →
  err = Sentinel ErrNoCandidate ∧
  ∀ k member, us !! k = Some member → User.TeamName member = teamName →
              User.IsActive member = true → User.UserId member ∈ excludeUserIDs.
Proof.
  unfold UserManager.FindReplacementReviewer.
  destruct (list_find _ _) as [[i user]|] eqn:Hlf; [done|].
  intros [= <-]. split; [done|]. intros k member Hk Ht Ha.
  apply list_find_None in Hlf. rewrite Forall_forall in Hlf.
  destruct (decide (User.UserId member ∈ excludeUserIDs)) as [|Hnin]; [done|].
  exfalso. apply (Hlf member).
  - apply list_elem_of_fmap. exists (k, member). split; [done|].
    rewrite range_users_perm. by apply elem_of_map_to_list.
  - split_and!; [done..|]. by rewrite elem_of_list_to_set.
Qed.

(** [FindReplacementReviewer] answers [ErrNoCandidate], bare, exactly when
    every cached user of the team that is active is excluded; otherwise it
    returns the id of a cached user of the team who is active and not
    excluded. *)
Theorem FindReplacementReviewer_complete (teamName : string)
    (excludeUserIDs : list string) (us : gmap string User.t) :
  match UserManager.FindReplacementReviewer teamName excludeUserIDs us with
  | Ok new =>
    (new ∉ excludeUserIDs) ∧
    ∃ k member, us !! k = Some member ∧ User.UserId member = new ∧
                User.TeamName member = teamName ∧ User.IsActive member = true
  | Err err =>
    err = Sentinel ErrNoCandidate ∧
    ∀ k member, us !! k = Some member → User.TeamName member = teamName →
                User.IsActive member = true → User.UserId member ∈ excludeUserIDs
  end.
Proof.
  destruct (UserManager.FindReplacementReviewer teamName excludeUserIDs us)
    as [new|err] eqn:Hfind.
  - by apply FindReplacementReviewer_Ok.
  - by apply FindReplacementReviewer_Err.
Qed.

End cache.

(** ** The PostgreSQL repository, method by method *)

Section repository.
Import Storage.
Context {pg : Postgres}.

Lemma order_by_nil {A} : order_by (@nil A) = [].
Proof. apply Permutation_nil_r. by rewrite order_by_perm. Qed.

(** The loop that inserts the reviewers, run on a table that holds the
    request, whose reviewer rows for it are rows of the ids seen so far,
    all of them users: it fails exactly when a reviewer that is not the
    empty string is not a user, and it appends the first occurrences of the
    reviewers not seen. *)
Lemma SavePullRequest_reviewers_spec (prID : string) (reviewers : list string)
    (seen : gset string) (db : Tables) :
  prID ∈ dom (pull_requests db) →
  (∀ r, (prID, r) ∈ pull_request_reviewers db → r ∈ seen) →
  (∀ r, r ∈ seen → r ∈ dom (users db)) →
  let added := filter (λ r, r ∉ seen)
                 (spec_first_occurrences (filter (λ r, r ≠ "") reviewers)) in
  if decide (Forall (λ r, r ≠ "" → r ∈ dom (users db)) reviewers) then
    SavePullRequest_reviewers prID reviewers seen db
    = Ok (mkTables (teams db) (users db) (pull_requests db)
            (pull_request_reviewers db ++ ((λ r, (prID, r)) <$> added)))
  else is_Ok (SavePullRequest_reviewers prID reviewers seen db) = false.
Proof.
  revert seen db.
  induction reviewers as [|r reviewers IH]; intros seen db Hpr Hrows Hseen;
    cbn [SavePullRequest_reviewers].
  { rewrite decide_True by constructor. simpl. rewrite app_nil_r. by destruct db. }
  destruct (decide (r = "")) as [->|Hr].
  { rewrite filter_cons_False by naive_solver.
    specialize (IH seen db Hpr Hrows Hseen). cbv zeta in IH.
    destruct (decide (Forall _ reviewers)) as [Hall|Hnot].
    - rewrite decide_True; [done|]. by constructor.
    - rewrite decide_False; [done|]. by intros [_ ?]%Forall_cons. }
  rewrite filter_cons_True by done. cbn [spec_first_occurrences].
  destruct (decide (r ∈ seen)) as [Hin|Hnin].
  { rewrite filter_cons_False by naive_solver.
    rewrite filter_not_in_cons_in by done.
    specialize (IH seen db Hpr Hrows Hseen). cbv zeta in IH.
    destruct (decide (Forall _ reviewers)) as [Hall|Hnot].
    - rewrite decide_True; [done|]. constructor; [|done]. intros _. by apply Hseen.
    - rewrite decide_False; [done|]. by intros [_ ?]%Forall_cons. }
  rewrite filter_cons_True by done. rewrite filter_not_in_cons_out.
  unfold insert_reviewer.
  rewrite bool_decide_eq_false_2 by (intros Hin; by apply Hnin, Hrows).
  rewrite (bool_decide_eq_true_2 (_ ∈ dom (pull_requests db))) by done.
  cbn [negb fst snd].
  destruct (decide (r ∈ dom (users db))) as [Hu|Hu].
  - rewrite bool_decide_eq_true_2 by done. cbn [negb].
    set (db1 := mkTables _ _ _ (_ ++ [(prID, r)])).
    assert (∀ r', (prID, r') ∈ pull_request_reviewers db1 → r' ∈ {[r]} ∪ seen) as Hrows1.
    { intros r' [Hin|Hin%list_elem_of_singleton]%elem_of_app.
      - apply elem_of_union_r. by apply Hrows.
      - apply elem_of_union_l, elem_of_singleton. congruence. }
    assert (∀ r', r' ∈ {[r]} ∪ seen → r' ∈ dom (users db1)) as Hseen1.
    { intros r' [->%elem_of_singleton|Hin]%elem_of_union; [done|by apply Hseen]. }
    specialize (IH ({[r]} ∪ seen) db1 Hpr Hrows1 Hseen1). cbv zeta in IH.
    change (users db1) with (users db) in IH.
    destruct (decide (Forall _ reviewers)) as [Hall|Hnot].
    + rewrite decide_True by (by constructor).
      rewrite IH. subst db1. cbn [teams users pull_requests pull_request_reviewers].
      by rewrite fmap_cons, <- app_assoc.
    + rewrite decide_False by (by intros [_ ?]%Forall_cons). apply IH.
  - rewrite bool_decide_eq_false_2 by done. cbn [negb is_Ok].
    rewrite decide_False; [done|]. intros [Hd _]%Forall_cons. by apply Hu, Hd.
Qed.

(** [SavePullRequest], in full: when it succeeds, and the tables it
    leaves. *)
Lemma SavePullRequest_spec (pr : PullRequest.t) (db : Tables) :
  let id := PullRequest.PullRequestId pr in
  let row := mkPullRequestRow (PullRequest.PullRequestName pr) (PullRequest.AuthorId pr)
               (PullRequest.Status pr) (timestamptz <$> PullRequest.CreatedAt pr)
               (timestamptz <$> PullRequest.MergedAt pr) in
  let stored := spec_first_occurrences
                  (filter (λ r, r ≠ "") (PullRequest.AssignedReviewers pr)) in
  if decide (length (PullRequest.AssignedReviewers pr) ≤ 2 ∧
             PullRequest.AuthorId pr ∈ dom (users db) ∧
             Forall (λ r, r ≠ "" → r ∈ dom (users db)) (PullRequest.AssignedReviewers pr))
  then
    SavePullRequest pr db
    = Ok (mkTables (teams db) (users db) (<[id := row]> (pull_requests db))
            (filter (λ row, ¬ row.1 = id) (pull_request_reviewers db) ++
             ((λ r, (id, r)) <$> stored)))
  else is_Ok (SavePullRequest pr db) = false.
Proof.
  cbv zeta. unfold SavePullRequest, upsert_pull_request.
  case_bool_decide as Hlen.
  { rewrite decide_False; [done|]. lia. }
  case_bool_decide as Hauthor.
  2: { rewrite decide_False; [done|]. tauto. }
  unfold delete_reviewers. cbn [teams users pull_requests pull_request_reviewers].
  set (db1 := mkTables _ _ _ _).
  pose proof (SavePullRequest_reviewers_spec (PullRequest.PullRequestId pr)
                (PullRequest.AssignedReviewers pr) ∅ db1) as Hloop.
  cbv zeta in Hloop. change (users db1) with (users db) in Hloop.
  rewrite (filter_id (λ r, r ∉ (∅ : gset string))) in Hloop.
  2: { apply Forall_forall. intros ? _. apply not_elem_of_empty. }
  destruct (decide (Forall _ (PullRequest.AssignedReviewers pr))) as [Hall|Hnot].
  - rewrite decide_True by (split_and!; [lia|done..]).
    apply Hloop.
    + subst db1. cbn [pull_requests]. rewrite dom_insert. set_solver.
    + subst db1. cbn [pull_request_reviewers].
      intros r [Hne _]%list_elem_of_filter. by destruct Hne.
    + intros r Hin. by apply elem_of_empty in Hin.
  - rewrite decide_False by tauto.
    apply Hloop.
    + subst db1. cbn [pull_requests]. rewrite dom_insert. set_solver.
    + subst db1. cbn [pull_request_reviewers].
      intros r [Hne _]%list_elem_of_filter. by destruct Hne.
    + intros r Hin. by apply elem_of_empty in Hin.
Qed.

(** [SavePullRequest] succeeds exactly when the request has at most two
    reviewers and its author and every reviewer that is not the empty string
    are rows of the users table.  A pull request id that is already stored
    is no obstacle, and neither is a reviewer listed twice. *)
Theorem SavePullRequest_succeeds_iff (pr : PullRequest.t) (db : Tables) :
  is_Ok (SavePullRequest pr db) = true ↔
  length (PullRequest.AssignedReviewers pr) ≤ 2 ∧
  PullRequest.AuthorId pr ∈ dom (users db) ∧
  ∀ r, r ∈ PullRequest.AssignedReviewers pr → r ≠ "" → r ∈ dom (users db).
Proof.
  pose proof (SavePullRequest_spec pr db) as Hspec. cbv zeta in Hspec.
  rewrite <- Forall_forall.
  destruct (decide _) as [Hcond|Hcond].
  - rewrite Hspec. done.
  - rewrite Hspec. split; [done|]. intros. by destruct Hcond.
Qed.

(** The rows a successful [SavePullRequest] leaves: the row of the request,
    the reviewers it stored for it, and the reviewers of the other requests
    as they were. *)
Lemma SavePullRequest_rows (pr : PullRequest.t) (db db' : Tables) :
  SavePullRequest pr db = Ok db' →
  let id := PullRequest.PullRequestId pr in
  pull_requests db'
  = <[id := mkPullRequestRow (PullRequest.PullRequestName pr) (PullRequest.AuthorId pr)
              (PullRequest.Status pr) (timestamptz <$> PullRequest.CreatedAt pr)
              (timestamptz <$> PullRequest.MergedAt pr)]> (pull_requests db) ∧
  ∀ prID,
    reviewers_of prID db'
    = if decide (prID = id)
      then spec_first_occurrences (filter (λ r, r ≠ "") (PullRequest.AssignedReviewers pr))
      else reviewers_of prID db.
Proof.
  intros Hsave id.
  pose proof (SavePullRequest_spec pr db) as Hspec. cbv zeta in Hspec.
  destruct (decide _) as [Hcond|Hcond]; [|by rewrite Hsave in Hspec].
  rewrite Hsave in Hspec. injection Hspec as ->. split; [done|].
  intros prID. unfold reviewers_of. cbn [pull_request_reviewers].
  rewrite filter_app, fmap_app, list_filter_filter.
  destruct (decide (prID = id)) as [->|Hne].
  - rewrite filter_none.
    2: { apply Forall_forall. intros row _. tauto. }
    rewrite filter_fst_fmap_pair_eq, <- list_fmap_compose. simpl.
    by rewrite list_fmap_id.
  - rewrite filter_fst_fmap_pair_ne by done. rewrite app_nil_r. f_equal.
    apply filter_ext_Forall, Forall_forall. intros row _. split; [tauto|].
    intros Heq. split; [done|]. by rewrite Heq.
Qed.

(** What is saved can be read back.  After a successful [SavePullRequest],
    [GetPullRequest] returns the request with the fields that were saved,
    its instants as the database keeps them, and as reviewers the ids
    saved, without the empty string and without repetitions; every other
    pull request reads as before. *)
Theorem SavePullRequest_GetPullRequest (pr : PullRequest.t) (db db' : Tables) :
  SavePullRequest pr db = Ok db' →
  (∃ got,
     GetPullRequest (PullRequest.PullRequestId pr) db' = Ok got ∧
     PullRequest.AssignedReviewers got
       ≡ₚ spec_first_occurrences (filter (λ r, r ≠ "") (PullRequest.AssignedReviewers pr)) ∧
     PullRequest.PullRequestId got = PullRequest.PullRequestId pr ∧
     PullRequest.PullRequestName got = PullRequest.PullRequestName pr ∧
     PullRequest.AuthorId got = PullRequest.AuthorId pr ∧
     PullRequest.Status got = PullRequest.Status pr ∧
     PullRequest.CreatedAt got = timestamptz <$> PullRequest.CreatedAt pr ∧
     PullRequest.MergedAt got = timestamptz <$> PullRequest.MergedAt pr) ∧
  (∀ prID, prID ≠ PullRequest.PullRequestId pr →
           GetPullRequest prID db' = GetPullRequest prID db).
Proof.
  intros Hsave. apply SavePullRequest_rows in Hsave as [Hprs Hrev]. split.
  - unfold GetPullRequest. rewrite Hprs, lookup_insert_eq.
    eexists. split; [done|]. unfold scan_pull_request.
    cbn [PullRequest.AssignedReviewers fst snd]. split; [|done].
    rewrite Hrev, decide_True by done. by rewrite order_by_perm.
  - intros prID Hne. unfold GetPullRequest. rewrite Hprs, lookup_insert_ne by done.
    destruct (pull_requests db !! prID) as [row|]; [|done].
    unfold scan_pull_request. cbn [fst snd]. by rewrite Hrev, decide_False.
Qed.

(** [SaveUser] fails only on the foreign key to [teams]: when the user
    names a team, not the empty string, that is not stored.  After a
    successful [SaveUser], [GetUser] returns the user as saved (an empty
    team name is stored as [NULL] and read back as the empty string), every
    other user reads as before, and the other tables are untouched. *)
Theorem SaveUser_GetUser (user : User.t) (db : Tables) :
  match SaveUser user db with
  | Ok db' =>
    (User.TeamName user = "" ∨ User.TeamName user ∈ teams db) ∧
    GetUser (User.UserId user) db' = Ok user ∧
    (∀ userID, userID ≠ User.UserId user → GetUser userID db' = GetUser userID db) ∧
    teams db' = teams db ∧ pull_requests db' = pull_requests db ∧
    pull_request_reviewers db' = pull_request_reviewers db
  | Err err =>
    User.TeamName user ≠ "" ∧ (User.TeamName user ∉ teams db) ∧
    wrapped_sentinel err = None
  end.
Proof.
  unfold SaveUser, upsert_user, nullif_empty.
  destruct (decide (User.TeamName user = "")) as [Hempty|Hteam].
  - split_and!; [by left| |intros userID Hne|done..].
    + unfold GetUser. cbn [users]. rewrite lookup_insert_eq.
      destruct user as [a t i n]. simpl in *. by subst.
    + unfold GetUser. cbn [users]. by rewrite lookup_insert_ne.
  - case_bool_decide as Hin.
    + split_and!; [by right| |intros userID Hne|done..].
      * unfold GetUser. cbn [users]. rewrite lookup_insert_eq. by destruct user.
      * unfold GetUser. cbn [users]. by rewrite lookup_insert_ne.
    + done.
Qed.

(** [SaveTeam] stores the name of the team and nothing of its members: it
    succeeds exactly when the name is new, a second call with that name
    fails with [ErrTeamExists], and on tables whose users respect the
    foreign key to [teams] the team just saved is read back without
    members, whatever the payload listed. *)
Theorem SaveTeam_stores_the_name (team : Team.t) (db : Tables) :
  users_team_fk db →
  match SaveTeam team db with
  | Ok db' =>
    (Team.TeamName team ∉ teams db) ∧
    GetTeam (Team.TeamName team) db' = Ok (Team.mk [] (Team.TeamName team)) ∧
    SaveTeam team db' = Err (NewTeamExistsError (Team.TeamName team)) ∧
    users db' = users db ∧ pull_requests db' = pull_requests db ∧
    pull_request_reviewers db' = pull_request_reviewers db
  | Err err => Team.TeamName team ∈ teams db ∧ err = NewTeamExistsError (Team.TeamName team)
  end.
Proof.
  intros Hfk. unfold SaveTeam. case_bool_decide as Hin; [done|].
  split_and!; [done| | |done..].
  - unfold GetTeam. cbn [teams]. rewrite bool_decide_eq_true_2 by set_solver.
    unfold GetAllUsersInTeam. cbn [users]. rewrite filter_none.
    + by rewrite fmap_nil, order_by_nil.
    + apply Forall_forall. intros [k row] Hrow%elem_of_map_to_list Hteam.
      apply Hfk in Hrow. simpl in *. rewrite Hteam in Hrow. done.
  - cbn [teams]. rewrite bool_decide_eq_true_2 by set_solver. done.
Qed.

End repository.

(** ** The reports *)

Section reports.
Import Storage.
Context {pg : Postgres}.
#[local] Existing Instance Storage.pullRequestReports.

Lemma order_by_singleton {A} (x : A) : order_by [x] = [x].
Proof. apply Permutation_singleton_r. by rewrite order_by_perm. Qed.

Lemma filter_eq_NoDup {A} `{!EqDecision A} (x : A) (l : list A) :
  NoDup l → x ∈ l → filter (λ y, y = x) l = [x].
Proof.
  induction 1 as [|y l Hy Hnd IH]; [by intros ?%elem_of_nil|].
  intros [->|Hin]%elem_of_cons.
  - rewrite filter_cons_True by done. f_equal.
    apply filter_none, Forall_forall. by intros z Hz ->.
  - rewrite filter_cons_False by (by intros ->). by apply IH.
Qed.

(** [FindPullRequestsByReviewer] lists a pull request exactly when it has a
    reviewer row for the user, whatever its status, and each once.  As the
    join keeps only the rows of that user, the reviewer list of a request it
    returns holds that user alone, not the other reviewers of the request.
    [ListForReviewer] turns the requests found into cards with the id, the
    name, the author and the status of the stored row; for a user without
    reviewer rows, known or not, the list is empty and there is no error. *)
Theorem ListForReviewer_lists_reviewer_rows (userID : string) (w : World Tables) :
  NoDup (pull_request_reviewers (store w)) →
  ∃ prs cards,
    FindPullRequestsByReviewer userID (store w) = Ok prs ∧
    main.ListForReviewer userID w = Ok cards ∧
    Forall (λ pr, PullRequest.AssignedReviewers pr = [userID]) prs ∧
    PullRequestShort.PullRequestId <$> cards = PullRequest.PullRequestId <$> prs ∧
    NoDup (PullRequestShort.PullRequestId <$> cards) ∧
    ∀ card, card ∈ cards ↔
      ∃ row,
        pull_requests (store w) !! PullRequestShort.PullRequestId card = Some row ∧
        (PullRequestShort.PullRequestId card, userID) ∈ pull_request_reviewers (store w) ∧
        card = PullRequestShort.mk (author_id row) (PullRequestShort.PullRequestId card)
                 (pull_request_name row) (status row).
Proof.
  intros Hpk. set (db := store w).
  unfold main.ListForReviewer, PullRequestManager.ListForReviewer.
  cbn [Repository.FindPullRequestsByReviewer pullRequestReports].
  unfold FindPullRequestsByReviewer. fold db.
  set (found := filter _ (map_to_list (pull_requests db))).
  set (scan := λ entry : string * PullRequestRow, PullRequest.mk _ _ _ _ _ _ _).
  set (short := λ pr : PullRequest.t, PullRequestShort.mk _ _ _ _).
  assert (∀ entry, entry ∈ found ↔
            pull_requests db !! entry.1 = Some entry.2 ∧
            (entry.1, userID) ∈ pull_request_reviewers db) as Hfound.
  { intros [prID row]. unfold found. rewrite list_elem_of_filter, elem_of_map_to_list.
    rewrite Exists_exists. cbn [fst snd]. rewrite <- reviewers_of_elem_of. naive_solver. }
  assert (∀ entry, entry ∈ found →
            scan entry = PullRequest.mk [userID] (author_id entry.2) (created_at entry.2)
                           (merged_at entry.2) entry.1 (pull_request_name entry.2)
                           (status entry.2)) as Hscan.
  { intros entry [_ Hrow]%Hfound. unfold scan. f_equal.
    rewrite filter_eq_NoDup.
    - apply order_by_singleton.
    - by apply reviewers_of_NoDup.
    - by apply reviewers_of_elem_of. }
  assert (NoDup found.*1) as Hnd.
  { eapply sublist_NoDup; [apply (NoDup_fst_map_to_list (pull_requests db))|].
    apply fmap_sublist, sublist_filter. }
  eexists _, _. split_and!; [done|done| | | |].
  - apply Forall_forall. intros pr. rewrite order_by_perm.
    intros (entry & -> & Hentry)%list_elem_of_fmap. by rewrite Hscan.
  - rewrite <- !list_fmap_compose. done.
  - rewrite <- list_fmap_compose.
    assert (PullRequestShort.PullRequestId ∘ short <$> order_by (scan <$> found)
            ≡ₚ found.*1) as ->; [|done].
    rewrite order_by_perm, <- list_fmap_compose. done.
  - intros card. rewrite list_elem_of_fmap. setoid_rewrite order_by_perm.
    setoid_rewrite list_elem_of_fmap. split.
    + intros (pr & -> & entry & -> & Hentry).
      rewrite Hscan by done. apply Hfound in Hentry as [Hrow Hrev].
      exists entry.2. by cbn.
    + intros (row & Hrow & Hrev & Hcard).
      exists (scan (PullRequestShort.PullRequestId card, row)). split.
      * rewrite Hscan; [by rewrite Hcard at 1|]. by apply Hfound.
      * eexists. split; [done|]. by apply Hfound.
Qed.

(** The sum of a list of counters does not depend on their order. *)
Lemma sum_Z_perm (l l' : list Z) :
  l ≡ₚ l' → foldr Z.add 0%Z l = foldr Z.add 0%Z l'.
Proof. induction 1; simpl; lia. Qed.

Lemma sum_Z_indicator (x : string) (keys : list string) :
  NoDup keys →
  foldr Z.add 0%Z ((λ k, if decide (x = k) then 1 else 0)%Z <$> keys)
  = (if decide (x ∈ keys) then 1 else 0)%Z.
Proof.
  induction 1 as [|k keys Hk Hnd IH].
  { simpl. destruct (decide (x ∈ [])) as [Hin|]; [by apply elem_of_nil in Hin|done]. }
  rewrite fmap_cons. cbn [foldr]. rewrite IH. destruct (decide (x = k)) as [->|Hne].
  - rewrite (decide_False (P := k ∈ keys)) by done.
    rewrite (decide_True (P := k ∈ k :: keys)); [done|left].
  - destruct (decide (x ∈ keys)) as [Hin|Hnin].
    + rewrite decide_True; [done|by right].
    + rewrite decide_False; [done|]. by intros [?|?]%elem_of_cons.
Qed.

(** Counting the elements of a list key by key, over keys that are all
    different and cover the list, counts every element once. *)
Lemma sum_Z_count_by_key {A} (key : A → string) (keys : list string) (l : list A) :
  NoDup keys → Forall (λ a, key a ∈ keys) l →
  foldr Z.add 0%Z ((λ k, Z.of_nat (length (filter (λ a, key a = k) l))) <$> keys)
  = Z.of_nat (length l).
Proof.
  intros Hnd. induction 1 as [|a l Ha _ IH].
  { clear Hnd. induction keys as [|k keys IH]; [done|]. rewrite fmap_cons. cbn [foldr].
    rewrite IH. done. }
  assert (∀ ks,
    foldr Z.add 0%Z ((λ k, Z.of_nat (length (filter (λ a, key a = k) (a :: l)))) <$> ks)
    = (foldr Z.add 0 ((λ k, if decide (key a = k) then 1 else 0) <$> ks) +
       foldr Z.add 0 ((λ k, Z.of_nat (length (filter (λ a, key a = k) l))) <$> ks))%Z)
    as Hsplit.
  { intros ks. induction ks as [|k ks IHks]; [done|]. rewrite !fmap_cons. cbn [foldr].
    rewrite IHks. destruct (decide (key a = k)).
    - rewrite filter_cons_True by done. cbn [length]. lia.
    - rewrite filter_cons_False by done. lia. }
  rewrite Hsplit, IH, sum_Z_indicator, decide_True by done. cbn [length]. lia.
Qed.

(** [GetAssignmentStats] accounts for every reviewer row twice, once under
    its user and once under its pull request: the assignments of the users
    add up to the number of rows, and so do the reviewer counts of the pull
    requests when every row belongs to a stored request, as the foreign key
    of the table wants.  A user is listed once, and only with a positive
    count; every stored pull request is listed once, also with no reviewer;
    a reviewer without a users row is listed with an empty name. *)
Theorem GetAssignmentStats_totals (db : Tables) :
  (∀ row, row ∈ pull_request_reviewers db → row.1 ∈ dom (pull_requests db)) →
  ∃ stats,
    GetAssignmentStats db = Ok (Some stats) ∧
    foldr Z.add 0%Z (UserAssignmentStat.Assignments <$> AssignmentStats.ByUser stats)
    = Z.of_nat (length (pull_request_reviewers db)) ∧
    foldr Z.add 0%Z
      (PullRequestAssignmentStat.ReviewerCount <$> AssignmentStats.ByPullRequest stats)
    = Z.of_nat (length (pull_request_reviewers db)) ∧
    NoDup (UserAssignmentStat.UserId <$> AssignmentStats.ByUser stats) ∧
    Forall (λ s, (0 < UserAssignmentStat.Assignments s)%Z ∧
                 UserAssignmentStat.Username s
                 = default "" (username <$> users db !! UserAssignmentStat.UserId s))
           (AssignmentStats.ByUser stats) ∧
    PullRequestAssignmentStat.PullRequestId <$> AssignmentStats.ByPullRequest stats
      ≡ₚ (map_to_list (pull_requests db)).*1.
Proof.
  intros Hfk. unfold GetAssignmentStats. eexists. split; [done|].
  cbn [AssignmentStats.ByUser AssignmentStats.ByPullRequest].
  set (rows := pull_request_reviewers db).
  set (userIDs := elements (list_to_set rows.*2 : gset string)).
  assert (NoDup userIDs) as Hnd by apply NoDup_elements.
  assert (∀ u, u ∈ userIDs ↔ u ∈ rows.*2) as Hin.
  { intros u. unfold userIDs. by rewrite elem_of_elements, elem_of_list_to_set. }
  split_and!.
  - rewrite (sum_Z_perm _ _ (fmap_Permutation _ _ _ (order_by_perm _ _))).
    rewrite <- list_fmap_compose.
    apply (sum_Z_count_by_key snd userIDs rows Hnd).
    apply Forall_forall. intros row Hrow. apply Hin, list_elem_of_fmap. by exists row.
  - rewrite (sum_Z_perm _ _ (fmap_Permutation _ _ _ (order_by_perm _ _))).
    rewrite <- list_fmap_compose.
    rewrite <- (sum_Z_count_by_key fst (map_to_list (pull_requests db)).*1 rows).
    + rewrite <- list_fmap_compose. f_equal. apply list_fmap_ext. intros _ [prID row] _.
      cbn [compose fst snd PullRequestAssignmentStat.ReviewerCount].
      unfold reviewers_of. by rewrite length_fmap.
    + apply NoDup_fst_map_to_list.
    + apply Forall_forall. intros row Hrow%Hfk.
      apply elem_of_dom in Hrow as [r Hr]. apply list_elem_of_fmap.
      exists (row.1, r). split; [done|]. by apply elem_of_map_to_list.
  - rewrite order_by_perm, <- list_fmap_compose.
    rewrite (list_fmap_ext _ id); [by rewrite list_fmap_id|done].
  - apply Forall_forall. intros s. rewrite order_by_perm.
    intros (u & -> & Hu)%list_elem_of_fmap.
    cbn [UserAssignmentStat.Assignments UserAssignmentStat.Username
         UserAssignmentStat.UserId]. split; [|done].
    apply Hin, list_elem_of_fmap in Hu as (row & -> & Hrow).
    assert (row ∈ filter (λ r : string * string, r.2 = row.2) rows) as Hlen.
    { by apply list_elem_of_filter. }
    destruct (filter _ rows); [by apply elem_of_nil in Hlen|]. cbn [length]. lia.
  - rewrite order_by_perm, <- list_fmap_compose. done.
Qed.

End reports.

(** ** The foreign keys and the cache of the running system *)

Section foreign_keys.
Context {go : Golang} {pg : Storage.Postgres}.
#[local] Existing Instance Storage.pullRequestRepository.

(** Tables with more teams and more users, and the same team for the users
    there were, keep the foreign keys of reviewer rows and requests that
    refer to what was there. *)
Lemma schema_fk_grow (db : Storage.Tables) (teams' : gset string)
    (users' : gmap string Storage.UserRow) :
  schema_fk db →
  Storage.teams db ⊆ teams' →
  dom (Storage.users db) ⊆ dom users' →
  map_Forall (λ _ row, match Storage.team_name row with
                       | Some t => t ∈ teams' | None => True end) users' →
  schema_fk (Storage.mkTables teams' users' (Storage.pull_requests db)
                              (Storage.pull_request_reviewers db)).
Proof.
  intros (Hteam & Hauthor & Hrows) Hteams Husers Hfk. split_and!; [done| |].
  - intros prID row Hrow. apply Husers. by eapply Hauthor.
  - eapply Forall_impl; [done|]. intros row [? ?]. split; [done|]. by apply Husers.
Qed.

Lemma upsert_user_fk (user : User.t) (db db' : Storage.Tables) :
  Storage.upsert_user user db = Ok db' → schema_fk db →
  schema_fk db' ∧ Storage.teams db' = Storage.teams db ∧
  dom (Storage.users db') = {[User.UserId user]} ∪ dom (Storage.users db).
Proof.
  unfold Storage.upsert_user. intros Hup Hfk.
  destruct (match Storage.nullif_empty (User.TeamName user) with
            | Some t => bool_decide (t ∈ Storage.teams db) | None => true end) eqn:Hteam;
    [|done].
  injection Hup as <-. cbn [Storage.users Storage.teams].
  split_and!; [|done|by rewrite dom_insert_L].
  apply (schema_fk_grow db); [done|done| |].
  { rewrite dom_insert. set_solver. }
  apply map_Forall_insert_2; [|apply Hfk]. revert Hteam. cbn.
  destruct (Storage.nullif_empty _); [|done]. intros Hteam.
  by eapply bool_decide_eq_true_1.
Qed.

Lemma CreateTeamWithMembers_users_fk (new : list User.t) (db db' : Storage.Tables) :
  Storage.CreateTeamWithMembers_users new db = Ok db' → schema_fk db →
  schema_fk db' ∧
  dom (Storage.users db') = list_to_set (User.UserId <$> new) ∪ dom (Storage.users db).
Proof.
  revert db. induction new as [|user new IH]; intros db; cbn [Storage.CreateTeamWithMembers_users].
  { intros [= <-] Hfk. split; [done|]. set_solver. }
  destruct (Storage.upsert_user user db) as [db1|] eqn:Hup; [|done].
  intros Hrest Hfk. apply upsert_user_fk in Hup as (Hfk1 & _ & Hdom1); [|done].
  apply IH in Hrest as [Hfk' Hdom']; [|done]. split; [done|].
  rewrite Hdom', Hdom1, fmap_cons. set_solver.
Qed.

Lemma CreateTeamWithMembers_fk (team : Team.t) (new : list User.t)
    (db db' : Storage.Tables) :
  Storage.CreateTeamWithMembers team new db = Ok db' → schema_fk db →
  schema_fk db' ∧
  dom (Storage.users db') = list_to_set (User.UserId <$> new) ∪ dom (Storage.users db).
Proof.
  unfold Storage.CreateTeamWithMembers. case_bool_decide; [done|].
  intros Hcreate Hfk. apply CreateTeamWithMembers_users_fk in Hcreate; [done|].
  destruct db as [ts us prs rows]. apply (schema_fk_grow (Storage.mkTables ts us prs rows));
    [done|set_solver|done|].
  eapply map_Forall_impl; [apply Hfk|]. intros k row. cbn.
  destruct (Storage.team_name row); [set_solver|done].
Qed.

Lemma SavePullRequest_fk (pr : PullRequest.t) (db db' : Storage.Tables) :
  Storage.SavePullRequest pr db = Ok db' → schema_fk db →
  schema_fk db' ∧ Storage.users db' = Storage.users db.
Proof.
  intros Hsave (Hteam & Hauthor & Hrows).
  pose proof (SavePullRequest_spec pr db) as Hspec. cbv zeta in Hspec.
  destruct (decide _) as [(Hlen & Hau & Hrev)|]; [|by rewrite Hsave in Hspec].
  rewrite Hsave in Hspec. injection Hspec as ->. split; [|done]. split_and!.
  - done.
  - apply map_Forall_insert_2; [done|]. done.
  - cbn [Storage.pull_request_reviewers Storage.pull_requests Storage.users].
    apply Forall_app. split.
    + apply Forall_forall. intros row [_ Hrow]%list_elem_of_filter.
      eapply Forall_forall in Hrows as [Hp Hu]; [|done]. split; [|done].
      rewrite dom_insert. set_solver.
    + apply Forall_fmap, Forall_forall. intros r Hr. cbn. split.
      * rewrite dom_insert. set_solver.
      * apply spec_first_occurrences_elem_of, list_elem_of_filter in Hr as [Hne Hr].
        eapply Forall_forall in Hrev; [|done]. by apply Hrev.
Qed.

Lemma applyReviewerSwapsTx_fk (swaps : list ReviewerSwap.t) (db db' : Storage.Tables) :
  Storage.applyReviewerSwapsTx swaps db = Ok db' → schema_fk db →
  schema_fk db' ∧ Storage.users db' = Storage.users db.
Proof.
  revert db. induction swaps as [|swap swaps IH]; intros db; cbn [Storage.applyReviewerSwapsTx].
  { by intros [= <-]. }
  destruct (Storage.applyReviewerSwap swap db) as [db1|] eqn:Hswap; [|done].
  intros Hrest (Hteam & Hauthor & Hrows).
  unfold Storage.applyReviewerSwap in Hswap. case_bool_decide; [done|].
  unfold Storage.insert_reviewer, Storage.delete_reviewers in Hswap.
  cbn [Storage.pull_request_reviewers Storage.pull_requests Storage.users Storage.teams
       fst snd] in Hswap.
  case_bool_decide; [done|].
  case_bool_decide as Hp; [|done]. case_bool_decide as Hu; [|done].
  cbn [negb] in Hswap. injection Hswap as <-.
  apply IH in Hrest as [Hfk' ->]; [done|].
  split_and!; [done|done|].
  cbn [Storage.pull_request_reviewers Storage.pull_requests Storage.users].
  apply Forall_app. split; [|by repeat constructor].
  apply Forall_forall. intros row [_ Hrow]%list_elem_of_filter.
  by eapply Forall_forall in Hrows.
Qed.

Lemma deactivateUsersTx_fk (userIDs : list string) (db : Storage.Tables) :
  schema_fk db →
  schema_fk (Storage.deactivateUsersTx userIDs db) ∧
  dom (Storage.users (Storage.deactivateUsersTx userIDs db)) = dom (Storage.users db).
Proof.
  intros Hfk. unfold Storage.deactivateUsersTx. case_bool_decide; [done|].
  cbn [Storage.users].
  assert (dom (map_imap
            (λ id row, Some (if decide (id ∈ (list_to_set (filter (λ id, id ≠ "") userIDs)
                                              : gset string))
                             then Storage.mkUserRow (Storage.username row) false
                                    (Storage.team_name row)
                             else row)) (Storage.users db))
          = dom (Storage.users db)) as Hdom.
  { apply set_eq. intros k. rewrite !elem_of_dom, map_lookup_imap.
    destruct (Storage.users db !! k); simpl; [|done]. split; by eauto. }
  split; [|done].
  destruct db as [ts us prs rows].
  apply (schema_fk_grow (Storage.mkTables ts us prs rows)); [done|done|by rewrite Hdom|].
  intros k row. rewrite map_lookup_imap. cbn [Storage.users Storage.teams].
  destruct (us !! k) as [row0|] eqn:Hk; [|done]. cbn. intros [= <-].
  destruct Hfk as (Hteam & _). apply Hteam in Hk. cbn in Hk. by destruct (decide _).
Qed.

Lemma ApplyBulkTeamReviewerSwaps_fk (swaps : list ReviewerSwap.t)
    (usersToDeactivate : list string) (db db' : Storage.Tables) :
  Storage.ApplyBulkTeamReviewerSwaps swaps usersToDeactivate db = Ok db' → schema_fk db →
  schema_fk db' ∧ dom (Storage.users db') = dom (Storage.users db).
Proof.
  unfold Storage.ApplyBulkTeamReviewerSwaps. intros Hrun Hfk.
  destruct (_ && _); [by injection Hrun as <-|].
  assert (∃ db1, (if bool_decide (0 < length swaps)
                  then Storage.applyReviewerSwapsTx swaps db else Ok db) = Ok db1 ∧
                 schema_fk db1 ∧ Storage.users db1 = Storage.users db) as (db1 & Heq & Hfk1 & Hu).
  { case_bool_decide.
    - destruct (Storage.applyReviewerSwapsTx swaps db) as [db1|] eqn:Htx; [|done].
      exists db1. split; [done|]. by eapply applyReviewerSwapsTx_fk.
    - by exists db. }
  rewrite Heq in Hrun. clear Heq. injection Hrun as <-. case_bool_decide.
  - destruct (deactivateUsersTx_fk usersToDeactivate db1 Hfk1) as [? Hdom].
    split; [done|]. by rewrite Hdom, Hu.
  - split; [done|]. by rewrite Hu.
Qed.

Lemma foldl_set_cached_activity_dom (status : bool) (ids : list string)
    (us : gmap string User.t) :
  dom (foldl (UserManager.set_cached_activity status) us ids) = dom us.
Proof.
  apply set_eq. intros k. rewrite !elem_of_dom, foldl_set_cached_activity_lookup.
  destruct (decide (k ∈ ids)); [|done]. by rewrite fmap_is_Some.
Qed.

Lemma SyncUsersActivity_dom (ids : list string) (status : bool) (us : gmap string User.t) :
  dom (UserManager.SyncUsersActivity ids status us) = dom us.
Proof.
  unfold UserManager.SyncUsersActivity. case_bool_decide; [done|].
  apply foldl_set_cached_activity_dom.
Qed.

Lemma insert_all_dom {A V} (key : A → string) (val : A → V) (m : gmap string V)
    (l : list A) :
  dom (insert_all key val m l) = list_to_set (key <$> l) ∪ dom m.
Proof.
  revert m. unfold insert_all. induction l as [|a l IH]; intros m; simpl; [set_solver|].
  rewrite IH, dom_insert_L. set_solver.
Qed.

(** What [GetUserTeam] does with the PostgreSQL repository behind it. *)
Lemma GetUserTeam_stored (userID : string) (w : World Storage.Tables) :
  UserManager.GetUserTeam main.userManager userID w
  = match users w !! userID with
    | Some user => (Ok (User.TeamName user), w)
    | None =>
      match Storage.users (store w) !! userID with
      | Some row =>
        (Ok (default "" (Storage.team_name row)),
         with_users (<[userID := Storage.scan_user (userID, row)]> (users w)) w)
      | None => (Err (NewNotFoundError "user"), w)
      end
    end.
Proof.
  unfold UserManager.GetUserTeam, main.userManager.
  destruct (users w !! userID); [done|].
  cbn [Repository.GetUser Storage.userTeamRepository]. unfold Storage.GetUser.
  by destruct (Storage.users (store w) !! userID).
Qed.

Lemma cache_stored_grow (db db' : Storage.Tables) (us : gmap string User.t) :
  cache_stored db us →
  Storage.teams db ⊆ Storage.teams db' →
  dom (Storage.users db) ⊆ dom (Storage.users db') →
  cache_stored db' us.
Proof.
  intros Hc Hteams Husers k user Hk. apply Hc in Hk as [Hd Ht]. split; [set_solver|].
  destruct Ht; [by left|right; set_solver].
Qed.

Lemma cache_stored_set_activity (db : Storage.Tables) (status : bool) (ids : list string)
    (us : gmap string User.t) :
  cache_stored db us → cache_stored db (foldl (UserManager.set_cached_activity status) us ids).
Proof.
  intros Hc k user. rewrite foldl_set_cached_activity_lookup.
  destruct (decide (k ∈ ids)); [|apply Hc].
  destruct (us !! k) as [user0|] eqn:Hk; [|done]. intros [= <-]. by apply Hc in Hk.
Qed.

Lemma cache_stored_scan (db : Storage.Tables) (us : gmap string User.t) (userID : string)
    (row : Storage.UserRow) :
  schema_fk db → cache_stored db us → Storage.users db !! userID = Some row →
  cache_stored db (<[userID := Storage.scan_user (userID, row)]> us).
Proof.
  intros (Hteam & _) Hc Hrow. apply map_Forall_insert_2; [|done]. split.
  - by apply elem_of_dom_2 in Hrow.
  - apply Hteam in Hrow. cbn in *. destruct (Storage.team_name row); [by right|by left].
Qed.

Lemma GetUserTeam_system_inv (userID : string) (w : World Storage.Tables) :
  system_inv w → system_inv (UserManager.GetUserTeam main.userManager userID w).2.
Proof.
  intros (Hw & Hfk & Hne & Hcache). rewrite GetUserTeam_stored.
  destruct (users w !! userID); [done|].
  destruct (Storage.users (store w) !! userID) as [row|] eqn:Hrow; [|done].
  split_and!; [|done|done|by apply cache_stored_scan].
  destruct Hw as [Hs Hc]. split; [done|]. by apply map_Forall_insert_2.
Qed.

Lemma CreateTeamWithMembers_teams (team : Team.t) (new : list User.t)
    (db db' : Storage.Tables) :
  Storage.CreateTeamWithMembers team new db = Ok db' →
  Storage.teams db' = {[Team.TeamName team]} ∪ Storage.teams db.
Proof.
  unfold Storage.CreateTeamWithMembers. case_bool_decide; [done|].
  by intros [-> _]%CreateTeamWithMembers_users_Ok.
Qed.

Lemma SavePullRequest_teams_users (pr : PullRequest.t) (db db' : Storage.Tables) :
  Storage.SavePullRequest pr db = Ok db' →
  Storage.teams db' = Storage.teams db ∧ Storage.users db' = Storage.users db.
Proof. intros Hsave. by apply SavePullRequest_Ok in Hsave as (_ & ? & ? & _). Qed.

Lemma ApplyBulkTeamReviewerSwaps_teams (swaps : list ReviewerSwap.t)
    (usersToDeactivate : list string) (db db' : Storage.Tables) :
  Storage.ApplyBulkTeamReviewerSwaps swaps usersToDeactivate db = Ok db' →
  NoDup (Storage.pull_request_reviewers db) →
  Storage.teams db' = Storage.teams db.
Proof.
  unfold Storage.ApplyBulkTeamReviewerSwaps. intros Hrun Hnd.
  destruct (_ && _); [by injection Hrun as <-|].
  assert (∃ db1, (if bool_decide (0 < length swaps)
                  then Storage.applyReviewerSwapsTx swaps db else Ok db) = Ok db1 ∧
                 Storage.teams db1 = Storage.teams db) as (db1 & Heq & Ht).
  { case_bool_decide; [|by exists db].
    destruct (Storage.applyReviewerSwapsTx swaps db) as [db1|] eqn:Htx; [|done].
    exists db1. split; [done|]. clear -Htx. revert db Htx.
    induction swaps as [|swap swaps IH]; intros db; cbn [Storage.applyReviewerSwapsTx].
    { by intros [= <-]. }
    destruct (Storage.applyReviewerSwap swap db) as [db2|] eqn:Hswap; [|done].
    intros ->%IH. by apply applyReviewerSwap_Ok in Hswap as [_ ->]. }
  rewrite Heq in Hrun. clear Heq. injection Hrun as <-. case_bool_decide; [|done].
  by destruct (deactivateUsersTx_tables usersToDeactivate db1) as (-> & _).
Qed.

(** Every step of a serial execution keeps [system_inv]. *)
Lemma system_inv_step (w w' : World Storage.Tables) :
  main.step w w' → system_inv w → system_inv w'.
Proof.
  intros Hstep Hinv.
  assert (world_inv w') as Hw'. { eapply step_world_inv; [done|apply Hinv]. }
  destruct Hinv as (Hw & Hfk & Hne & Hcache).
  assert (system_inv w) as Hinv by done.
  split; [done|]. clear Hw'.
  destruct Hstep as [userID w|team w|userID isActive w|reqData now w|prID now w
                    |oldUserId prId w|teamName userIDs w|rewIds status w Hgo].
  - (* PrimeCacheUser *)
    unfold main.PrimeCacheUser, UserManager.PrimeCacheUser, main.userManager in *.
    cbn [Repository.GetUser Storage.userTeamRepository] in *.
    unfold Storage.GetUser in *.
    destruct (Storage.users (store w) !! userID) as [row|] eqn:Hrow; [|done].
    world_fields; split_and!; [done|done|]. by apply cache_stored_scan.
  - (* AddTeam *)
    unfold main.AddTeam, UserManager.AddTeam, main.userManager in *.
    destruct (UserManager.AddTeam_validate _ _ _) eqn:Hvalid; [done|].
    apply AddTeam_validate_None in Hvalid as [_ Hvalid].
    unfold call_write in *.
    cbn [Repository.CreateTeamWithMembers Storage.userTeamRepository store emit] in *.
    destruct (Storage.CreateTeamWithMembers _ _ _) as [db|] eqn:Hcreate; [|done].
    pose proof (CreateTeamWithMembers_teams _ _ _ _ Hcreate) as Hteams.
    apply CreateTeamWithMembers_fk in Hcreate as [Hfk' Hdom]; [|done].
    rewrite ConvertTmToUser_ids in Hdom.
    cbn [store users with_users with_store emit fst snd]; split_and!; [done| |].
    + cbn. rewrite Hdom, not_elem_of_union, elem_of_list_to_set. split; [|done].
      intros (m & Heq & Hm)%list_elem_of_fmap.
      eapply Forall_forall in Hvalid as [Hvalid _]; [|done]. done.
    + change (cache_stored db
                (insert_all User.UserId id (users w)
                   ((λ m, ConvertTmToUser m (Team.TeamName team)) <$> Team.Members team))).
      unfold insert_all.
      assert (cache_stored db (users w)) as Hc.
      { eapply cache_stored_grow; [done|set_solver|set_solver]. }
      assert (Forall (λ user, User.UserId user ∈ dom (Storage.users db) ∧
                              User.TeamName user ∈ Storage.teams db)
                     ((λ m, ConvertTmToUser m (Team.TeamName team)) <$> Team.Members team))
        as Hnew.
      { apply Forall_fmap, Forall_forall. intros m Hm. cbn. split.
        - rewrite Hdom. apply elem_of_union_l, elem_of_list_to_set.
          by apply list_elem_of_fmap_2.
        - rewrite Hteams. set_solver. }
      revert Hc Hnew. generalize (users w).
      induction ((λ m, ConvertTmToUser m (Team.TeamName team)) <$> Team.Members team)
        as [|user new IH]; intros us Hc Hnew; [done|].
      apply Forall_cons in Hnew as [[Hu Ht] Hnew]. cbn [foldl]. apply IH; [|done].
      apply map_Forall_insert_2; [|done]. split; [done|by right].
  - (* SetUserActivity *)
    unfold main.SetUserActivity, UserManager.SetUserActivity, main.userManager in *.
    destruct (users w !! userID) as [user|] eqn:Hcached; [|done].
    pose proof (Hcache _ _ Hcached) as [Hstored Hteam].
    assert (User.UserId user = userID) as Hid by (by apply Hw in Hcached).
    unfold call_write in *.
    cbn [Repository.SaveUser Storage.userTeamRepository store emit with_users] in *.
    unfold Storage.SaveUser in *.
    destruct (Storage.upsert_user _ _) as [db|] eqn:Hup.
    + apply upsert_user_fk in Hup as (Hfk' & Hteams & Hdom); [|done].
      cbn [User.UserId User.with_IsActive] in Hdom. rewrite Hid in Hdom.
      assert (dom (Storage.users db) = dom (Storage.users (store w))) as Hdom'.
      { rewrite Hdom. set_solver. }
      world_fields; split_and!; [done|by rewrite Hdom'|]. cbn [store users].
      apply map_Forall_insert_2.
      * rewrite Hdom', Hteams. done.
      * eapply cache_stored_grow; [done|by rewrite Hteams|by rewrite Hdom'].
    + world_fields; split_and!; [done|done|]. cbn [store users]. rewrite insert_insert_eq.
      apply map_Forall_insert_2; [|done]. by destruct user.
  - (* CreatePullRequest *)
    unfold main.CreatePullRequest, PullRequestManager.CreatePullRequest in *.
    pose proof (GetUserTeam_system_inv
                  (PullRequest.AuthorId (PullRequestManager.convertReqToModel reqData now))
                  w Hinv) as Hinv1.
    destruct (UserManager.GetUserTeam _ _ w) as [[teamID|err] w1]; [|apply Hinv1].
    destruct Hinv1 as (Hw1 & Hfk1 & Hne1 & Hcache1). cbn [snd] in *.
    unfold call_write in *.
    cbn [Repository.SavePullRequest Storage.pullRequestRepository store emit] in *.
    destruct (Storage.SavePullRequest _ _) as [db|] eqn:Hsave; [|done].
    pose proof (SavePullRequest_teams_users _ _ _ Hsave) as [Ht Hu].
    apply SavePullRequest_fk in Hsave as [Hfk' _]; [|done].
    world_fields; split_and!; [done|by rewrite Hu|]. cbn [store users].
    eapply cache_stored_grow; [done|by rewrite Ht|by rewrite Hu].
  - (* Merge *)
    unfold main.Merge, PullRequestManager.Merge in *.
    destruct (PullRequestManager.load_pull_request prID w) as [pr|]; [|done].
    destruct (decide _); [done|].
    unfold call_write in *.
    cbn [Repository.SavePullRequest Storage.pullRequestRepository store emit] in *.
    destruct (Storage.SavePullRequest _ _) as [db|] eqn:Hsave; [|done].
    pose proof (SavePullRequest_teams_users _ _ _ Hsave) as [Ht Hu].
    apply SavePullRequest_fk in Hsave as [Hfk' _]; [|done].
    assert (cache_stored db (users w)) as Hc'.
    { eapply cache_stored_grow; [done|by rewrite Ht|by rewrite Hu]. }
    destruct (bool_decide _); (world_fields; split_and!; [done|by rewrite Hu|done]).
  - (* Reassign *)
    unfold main.Reassign, PullRequestManager.Reassign in *.
    destruct (PullRequestManager.load_pull_request prId w) as [pr|]; [|done].
    destruct (decide _); [done|]. destruct (negb _); [done|].
    pose proof (GetUserTeam_system_inv oldUserId w Hinv) as Hinv1.
    destruct (UserManager.GetUserTeam _ _ w) as [[teamName|err] w1]; [|apply Hinv1].
    destruct Hinv1 as (Hw1 & Hfk1 & Hne1 & Hcache1). cbn [snd] in *.
    destruct (UserManager.FindReplacementReviewer _ _ _) as [new|err].
    2: { by destruct (errors_Is err ErrNoCandidate). }
    unfold call_write in *.
    cbn [Repository.SavePullRequest Storage.pullRequestRepository store emit] in *.
    destruct (Storage.SavePullRequest _ _) as [db|] eqn:Hsave; [|done].
    pose proof (SavePullRequest_teams_users _ _ _ Hsave) as [Ht Hu].
    apply SavePullRequest_fk in Hsave as [Hfk' _]; [|done].
    world_fields; split_and!; [done|by rewrite Hu|]. cbn [store users].
    eapply cache_stored_grow; [done|by rewrite Ht|by rewrite Hu].
  - (* BulkDeactivateTeamMembers *)
    unfold main.BulkDeactivateTeamMembers, PullRequestManager.BulkDeactivateTeamMembers
      in *.
    destruct (decide _); [done|]. destruct (bool_decide _); [done|].
    destruct (PullRequestManager.normalizeTargetUserIDs userIDs) as [[targets targetSet]|];
      [|done].
    destruct (UserManager.GetTeam _ _ w) as [team|]; [|done].
    destruct (PullRequestManager.ensureTargetsInTeam _ _); [done|].
    destruct (PullRequestManager.planBulkReviewerSwaps _ _ _ _)
      as [[[swaps reassignments] replacementIDs]|]; [|done].
    unfold call_write in *.
    cbn [Repository.ApplyBulkTeamReviewerSwaps Storage.pullRequestRepository store emit]
      in *.
    destruct (Storage.ApplyBulkTeamReviewerSwaps _ _ _) as [db|] eqn:Hrun; [|done].
    pose proof (ApplyBulkTeamReviewerSwaps_teams _ _ _ _ Hrun (proj1 (proj1 Hw))) as Ht.
    apply ApplyBulkTeamReviewerSwaps_fk in Hrun as [Hfk' Hdom]; [|done].
    assert (cache_stored db (users w)) as Hc'.
    { eapply cache_stored_grow; [done|by rewrite Ht|by rewrite Hdom]. }
    destruct (bool_decide _); (world_fields; split_and!; [done|by rewrite Hdom|]); [|done].
    cbn [store users]. unfold UserManager.SyncUsersActivity.
    case_bool_decide; [done|]. by apply cache_stored_set_activity.
  - (* a goroutine of SetActivity *)
    world_fields; split_and!; [done|done|]. by apply cache_stored_set_activity.
Qed.

Lemma system_inv_fresh : system_inv Examples.fresh.
Proof.
  split_and!; [apply world_inv_fresh| |set_solver|done].
  split_and!; [done|done|constructor].
Qed.

(** Serial executions, in which every request is served from its first
    statement to its last before the next one starts, keep [system_inv],
    the cap of two reviewers included. *)
Lemma serial_system_inv (w : World Storage.Tables) :
  rtc main.step Examples.fresh w →
  schema_fk (store w) ∧ ("" ∉ dom (Storage.users (store w))) ∧
  cache_stored (store w) (users w) ∧ system_inv w.
Proof.
  intros Hreach. cut (system_inv w). { intros Hinv. split_and!; [apply Hinv..|done]. }
  pose proof system_inv_fresh as Hfresh. revert Hfresh.
  induction Hreach as [|w0 w1 w2 H01 _ IH]; [done|].
  intros Hinv. apply IH. by eapply system_inv_step.
Qed.

End foreign_keys.

(** ** The server, its requests interleaved *)

Section concurrent.
Context {go : Golang} {pg : Storage.Postgres}.
#[local] Existing Instance Storage.pullRequestRepository.

Lemma system_inv_running_inv (w : World Storage.Tables) : system_inv w → running_inv w.
Proof. intros ([[Hnd _] Hc] & Hfk & Hne & Hcache). by split_and!. Qed.

Lemma grows_refl (w : World Storage.Tables) : grows w w.
Proof. by split. Qed.

Lemma grows_trans (w1 w2 w3 : World Storage.Tables) :
  grows w1 w2 → grows w2 w3 → grows w1 w3.
Proof. intros [? ?] [? ?]. split; set_solver. Qed.

(** A request that is safe from a world is safe from every world that has
    grown from it. *)
Lemma safe_grows {A} (p : Concurrent.Prog A) (w0 w1 : World Storage.Tables) :
  grows w0 w1 → safe p w0 → safe p w1.
Proof.
  intros Hg. destruct p as [a|X act k]; [done|]. cbn [safe]. intros Hsafe w Hinv Hg1.
  apply Hsafe; [done|]. by eapply grows_trans.
Qed.

Lemma safe_bind {A B} (p : Concurrent.Prog A) (f : A → Concurrent.Prog B)
    (w0 : World Storage.Tables) :
  safe p w0 → (∀ a w, grows w0 w → safe (f a) w) → safe (p ≫= f) w0.
Proof.
  unfold mbind, Concurrent.Prog_bind. revert w0.
  induction p as [a|X act k IH]; intros w0 Hp Hf; cbn [Concurrent.bind].
  { apply Hf, grows_refl. }
  cbn [safe] in *. intros w Hinv Hg. destruct (Hp w Hinv Hg) as (Hinv' & Hg' & Hk).
  split_and!; [done..|]. apply IH; [done|]. intros a w' Hg''. apply Hf.
  eapply grows_trans; [done|]. by eapply grows_trans.
Qed.

Lemma safe_atomic {X A} (act : World Storage.Tables → X * World Storage.Tables)
    (k : X → Concurrent.Prog A) (w0 : World Storage.Tables) :
  (∀ w, running_inv w → grows w0 w →
        running_inv (act w).2 ∧ grows w (act w).2 ∧ safe (k (act w).1) (act w).2) →
  safe (Concurrent.atomic act ≫= k) w0.
Proof. done. Qed.

Lemma safe_query {X A} (f : World Storage.Tables → X) (k : X → Concurrent.Prog A)
    (w0 : World Storage.Tables) :
  (∀ w, running_inv w → grows w0 w → safe (k (f w)) w) →
  safe (Concurrent.query f ≫= k) w0.
Proof.
  intros Hk. apply safe_atomic. intros w Hinv Hg. cbn [fst snd].
  split_and!; [done|apply grows_refl|by apply Hk].
Qed.

Lemma safe_update {A} (f : World Storage.Tables → World Storage.Tables)
    (p : Concurrent.Prog A) (w0 : World Storage.Tables) :
  (∀ w, running_inv w → grows w0 w → running_inv (f w) ∧ grows w (f w) ∧ safe p (f w)) →
  safe (Concurrent.update f ≫= λ _, p) w0.
Proof. intros Hf. apply safe_atomic. intros w Hinv Hg. by apply Hf. Qed.

(** *** The atomic actions *)

Lemma SavePullRequest_NoDup (pr : PullRequest.t) (db db' : Storage.Tables) :
  Storage.SavePullRequest pr db = Ok db' →
  NoDup (Storage.pull_request_reviewers db) → NoDup (Storage.pull_request_reviewers db').
Proof.
  intros Hsave Hnd. pose proof (SavePullRequest_spec pr db) as Hspec. cbv zeta in Hspec.
  destruct (decide _); [|by rewrite Hsave in Hspec].
  rewrite Hsave in Hspec. injection Hspec as ->. cbn [Storage.pull_request_reviewers].
  apply NoDup_app. split_and!.
  - by apply NoDup_filter.
  - intros row [Hne _]%list_elem_of_filter (r & -> & _)%list_elem_of_fmap. by apply Hne.
  - apply NoDup_fmap_2; [by intros ?? [=]|apply spec_first_occurrences_NoDup].
Qed.

Lemma applyReviewerSwapsTx_NoDup (swaps : list ReviewerSwap.t) (db db' : Storage.Tables) :
  Storage.applyReviewerSwapsTx swaps db = Ok db' →
  NoDup (Storage.pull_request_reviewers db) → NoDup (Storage.pull_request_reviewers db').
Proof.
  revert db. induction swaps as [|swap swaps IH]; intros db; cbn [Storage.applyReviewerSwapsTx].
  { by intros [= <-]. }
  destruct (Storage.applyReviewerSwap swap db) as [db1|] eqn:Hswap; [|done].
  intros Hrest Hnd. apply IH in Hrest; [done|].
  apply applyReviewerSwap_Ok in Hswap as [Hnew ->]. cbn [Storage.pull_request_reviewers].
  apply NoDup_app. split_and!; [by apply NoDup_filter| |apply NoDup_singleton].
  by intros row Hrow ->%list_elem_of_singleton.
Qed.

Lemma ApplyBulkTeamReviewerSwaps_NoDup (swaps : list ReviewerSwap.t)
    (usersToDeactivate : list string) (db db' : Storage.Tables) :
  Storage.ApplyBulkTeamReviewerSwaps swaps usersToDeactivate db = Ok db' →
  NoDup (Storage.pull_request_reviewers db) → NoDup (Storage.pull_request_reviewers db').
Proof.
  unfold Storage.ApplyBulkTeamReviewerSwaps. intros Hrun Hnd.
  destruct (_ && _); [by injection Hrun as <-|].
  assert (∃ db1, (if bool_decide (0 < length swaps)
                  then Storage.applyReviewerSwapsTx swaps db else Ok db) = Ok db1 ∧
                 NoDup (Storage.pull_request_reviewers db1)) as (db1 & Heq & Hnd1).
  { case_bool_decide; [|by exists db].
    destruct (Storage.applyReviewerSwapsTx swaps db) as [db1|] eqn:Htx; [|done].
    exists db1. split; [done|]. by eapply applyReviewerSwapsTx_NoDup. }
  rewrite Heq in Hrun. clear Heq. injection Hrun as <-. case_bool_decide; [|done].
  by destruct (deactivateUsersTx_tables usersToDeactivate db1) as (_ & _ & ->).
Qed.

(** A world with the same cache, the same reviewer rows up to what the
    primary key allows, and tables that respect the foreign keys and have
    grown. *)
Lemma running_inv_store (w : World Storage.Tables) (db : Storage.Tables)
    (tr : list Event) :
  running_inv w →
  NoDup (Storage.pull_request_reviewers db) → schema_fk db →
  Storage.teams (store w) ⊆ Storage.teams db →
  dom (Storage.users (store w)) ⊆ dom (Storage.users db) →
  "" ∉ dom (Storage.users db) →
  running_inv (mkWorld db (users w) tr) ∧ grows w (mkWorld db (users w) tr).
Proof.
  intros (Hnd & Hc & Hfk & Hne & Hcache) Hnd' Hfk' Hteams Hdom Hne'. split; [|done].
  split_and!; [done..|]. by eapply cache_stored_grow.
Qed.

Lemma SavePullRequest_keeps (pr : PullRequest.t) (w : World Storage.Tables) :
  running_inv w →
  let w' := (call_write (CallSavePullRequest pr) (Storage.SavePullRequest pr) w).2 in
  running_inv w' ∧ grows w w'.
Proof.
  intros Hinv. unfold call_write. cbn [store emit].
  destruct (Storage.SavePullRequest pr (store w)) as [db|] eqn:Hsave;
    [|split; [done|by split]].
  pose proof (SavePullRequest_teams_users _ _ _ Hsave) as [Ht Hu].
  apply (running_inv_store w); [done| | |by rewrite Ht|by rewrite Hu| ].
  - eapply SavePullRequest_NoDup; [done|apply Hinv].
  - eapply SavePullRequest_fk; [done|apply Hinv].
  - rewrite Hu. apply Hinv.
Qed.

Lemma ApplyBulkTeamReviewerSwaps_keeps (swaps : list ReviewerSwap.t)
    (usersToDeactivate : list string) (w : World Storage.Tables) :
  running_inv w →
  let w' := (call_write (CallApplyBulkTeamReviewerSwaps swaps usersToDeactivate)
               (Storage.ApplyBulkTeamReviewerSwaps swaps usersToDeactivate) w).2 in
  running_inv w' ∧ grows w w'.
Proof.
  intros Hinv. unfold call_write. cbn [store emit].
  destruct (Storage.ApplyBulkTeamReviewerSwaps _ _ (store w)) as [db|] eqn:Hrun;
    [|split; [done|by split]].
  pose proof (ApplyBulkTeamReviewerSwaps_teams _ _ _ _ Hrun (proj1 Hinv)) as Ht.
  pose proof (ApplyBulkTeamReviewerSwaps_NoDup _ _ _ _ Hrun (proj1 Hinv)) as Hnd.
  apply ApplyBulkTeamReviewerSwaps_fk in Hrun as [Hfk Hdom]; [|apply Hinv].
  apply (running_inv_store w); [done|done|done|by rewrite Ht|by rewrite Hdom|].
  rewrite Hdom. apply Hinv.
Qed.

(** The flags of the cache may be set in any way. *)
Lemma set_cached_activity_keeps (status : bool) (ids : list string)
    (w : World Storage.Tables) :
  running_inv w →
  let w' := with_users (foldl (UserManager.set_cached_activity status) (users w) ids) w in
  running_inv w' ∧ grows w w'.
Proof.
  intros (Hnd & Hc & Hfk & Hne & Hcache). split; [|by split].
  split_and!; [done| |done|done|].
  - by apply set_cached_activity_cache_inv.
  - by apply cache_stored_set_activity.
Qed.

Lemma SyncUsersActivity_keeps (status : bool) (ids : list string)
    (w : World Storage.Tables) :
  running_inv w →
  let w' := with_users (UserManager.SyncUsersActivity ids status (users w)) w in
  running_inv w' ∧ grows w w'.
Proof.
  intros Hinv. unfold UserManager.SyncUsersActivity. case_bool_decide.
  - split; [by destruct w|by split].
  - by apply set_cached_activity_keeps.
Qed.

(** A user as it was read from the users table, cached later. *)
Lemma cache_user_keeps (userID : string) (row : Storage.UserRow)
    (w1 w : World Storage.Tables) :
  running_inv w1 → Storage.users (store w1) !! userID = Some row →
  grows w1 w → running_inv w →
  let user := Storage.scan_user (userID, row) in
  let w' := with_users (<[User.UserId user := user]> (users w)) w in
  running_inv w' ∧ grows w w'.
Proof.
  intros (_ & _ & (Hteam & _) & _) Hrow [Hteams Husers] (Hnd & Hc & Hfk & Hne & Hcache).
  split; [|by split]. split_and!; [done| |done|done|].
  - by apply map_Forall_insert_2.
  - apply map_Forall_insert_2; [|done]. split.
    + apply Husers. by apply elem_of_dom_2 in Hrow.
    + apply Hteam in Hrow. cbn in *. destruct (Storage.team_name row); [|by left].
      right. by apply Hteams.
Qed.

(** The members of a payload that passed the checks of [AddTeam], written
    by [CreateTeamWithMembers] ... *)
Lemma CreateTeamWithMembers_keeps (team : Team.t) (w : World Storage.Tables) :
  UserManager.AddTeam_validate 0 ∅ (Team.Members team) = None →
  running_inv w →
  let new := (λ m, ConvertTmToUser m (Team.TeamName team)) <$> Team.Members team in
  let w' := (call_write (CallCreateTeamWithMembers team new)
               (Storage.CreateTeamWithMembers team new) w).2 in
  running_inv w' ∧ grows w w'.
Proof.
  intros Hvalid%AddTeam_validate_None Hinv. destruct Hvalid as [_ Hvalid].
  cbv zeta. unfold call_write. cbn [store emit].
  destruct (Storage.CreateTeamWithMembers _ _ _) as [db|] eqn:Hcreate;
    [|split; [done|by split]].
  destruct Hinv as (Hnd & Hc & Hfk & Hne & Hcache).
  pose proof (CreateTeamWithMembers_teams _ _ _ _ Hcreate) as Hteams.
  assert (Storage.pull_request_reviewers db = Storage.pull_request_reviewers (store w))
    as Hrows.
  { unfold Storage.CreateTeamWithMembers in Hcreate. case_bool_decide; [done|].
    by apply CreateTeamWithMembers_users_rows in Hcreate. }
  apply CreateTeamWithMembers_fk in Hcreate as [Hfk' Hdom]; [|done].
  rewrite ConvertTmToUser_ids in Hdom.
  apply (running_inv_store w);
    [by split_and!|by rewrite Hrows|done|rewrite Hteams; set_solver
    |rewrite Hdom; set_solver|].
  rewrite Hdom, not_elem_of_union, elem_of_list_to_set. split; [|done].
  intros (m & Heq & Hm)%list_elem_of_fmap.
  eapply Forall_forall in Hvalid as [Hvalid _]; [|done]. done.
Qed.

(** ... and cached later, when the write has succeeded. *)
Lemma cache_users_keeps (teamName : string) (members : list TeamMember.t)
    (w : World Storage.Tables) :
  running_inv w →
  Forall (λ m, TeamMember.UserId m ∈ dom (Storage.users (store w))) members →
  teamName ∈ Storage.teams (store w) →
  let new := (λ m, ConvertTmToUser m teamName) <$> members in
  let w' := with_users (UserManager.cache_users (users w) new) w in
  running_inv w' ∧ grows w w'.
Proof.
  intros (Hnd & Hc & Hfk & Hne & Hcache) Hstored Hteam. split; [|by split].
  split_and!; [done| |done|done|]; cbn [users with_users store].
  - by apply (insert_all_cache_inv (users w)).
  - unfold UserManager.cache_users. revert Hcache. generalize (users w).
    induction members as [|m members IH]; intros us Hcache; [done|].
    apply Forall_cons in Hstored as [Hm Hstored]. cbn [fmap list_fmap foldl].
    apply IH; [done|]. apply map_Forall_insert_2; [|done]. split; [done|by right].
Qed.

Lemma SetUserActivity_keeps (userID : string) (isActive : bool)
    (w : World Storage.Tables) :
  running_inv w →
  let w' := (main.SetUserActivity userID isActive w).2 in
  running_inv w' ∧ grows w w'.
Proof.
  intros Hinv. pose proof Hinv as (Hnd & Hc & Hfk & Hne & Hcache).
  unfold main.SetUserActivity, UserManager.SetUserActivity, main.userManager.
  destruct (users w !! userID) as [user|] eqn:Hcached; [|split; [done|by split]].
  pose proof (Hcache _ _ Hcached) as [Hstored Hteam].
  assert (User.UserId user = userID) as Hid by (by apply Hc in Hcached).
  assert (∀ b, cache_inv (<[userID := User.with_IsActive b user]> (users w))) as Hset.
  { intros b. by apply map_Forall_insert_2. }
  assert (∀ b db, Storage.teams (store w) ⊆ Storage.teams db →
                  dom (Storage.users (store w)) ⊆ dom (Storage.users db) →
                  cache_stored db (<[userID := User.with_IsActive b user]> (users w)))
    as Hset'.
  { intros b db Ht Hu. apply map_Forall_insert_2.
    - split; [set_solver|]. destruct Hteam; [by left|right; set_solver].
    - by eapply cache_stored_grow. }
  unfold call_write.
  cbn [Repository.SaveUser Storage.userTeamRepository store emit with_users].
  unfold Storage.SaveUser.
  destruct (Storage.upsert_user _ _) as [db|] eqn:Hup; cbn [snd].
  - pose proof (upsert_user_rows _ _ _ Hup) as Hrows.
    apply upsert_user_fk in Hup as (Hfk' & Hteams & Hdom); [|done].
    cbn [User.UserId User.with_IsActive] in Hdom. rewrite Hid in Hdom.
    assert (dom (Storage.users db) = dom (Storage.users (store w))) as Hdom'.
    { rewrite Hdom. set_solver. }
    split; [|split; cbn [store with_store]; [by rewrite Hteams|by rewrite Hdom']].
    split_and!; cbn [store users with_store];
      [by rewrite Hrows|apply Hset|done|by rewrite Hdom'|].
    apply Hset'; [by rewrite Hteams|by rewrite Hdom'].
  - split; [|by split]. unfold running_inv. cbn [users with_users store emit].
    rewrite insert_insert_eq.
    split_and!; [done|apply (Hset (User.IsActive user))|done|done|by apply Hset'].
Qed.

Lemma emit_keeps (e : Event) (w : World Storage.Tables) :
  running_inv w → running_inv (emit e w) ∧ grows w (emit e w).
Proof. intros Hinv. split; [exact Hinv|by split]. Qed.

(** *** The requests *)

Lemma repo_GetPullRequest_safe (prID : string) (w0 : World Storage.Tables) :
  safe (Concurrent.repo_GetPullRequest prID) w0.
Proof.
  apply safe_query. intros w _ _. destruct (_ !! prID); [|done]. by apply safe_query.
Qed.

Lemma repo_GetTeam_safe (teamID : string) (w0 : World Storage.Tables) :
  safe (Concurrent.repo_GetTeam teamID) w0.
Proof.
  apply safe_query. intros w _ _. destruct (bool_decide _); [|done]. by apply safe_query.
Qed.

Lemma cache_user_safe {A} (userID : string) (row : Storage.UserRow)
    (p : Concurrent.Prog A) (w1 : World Storage.Tables) :
  running_inv w1 → Storage.users (store w1) !! userID = Some row →
  (∀ w, safe p w) →
  safe (Concurrent.cache_user (Storage.scan_user (userID, row)) ≫= λ _, p) w1.
Proof.
  intros Hinv1 Hrow Hp. apply safe_update. intros w Hinv Hg.
  destruct (cache_user_keeps userID row w1 w) as [Hinv' Hg']; [done..|].
  by split_and!.
Qed.

Lemma PrimeCacheUser_safe (userID : string) (w0 : World Storage.Tables) :
  safe (Concurrent.PrimeCacheUser userID) w0.
Proof.
  apply safe_query. intros w Hinv _. unfold Storage.GetUser.
  destruct (Storage.users (store w) !! userID) as [row|] eqn:Hrow; [|done].
  by apply cache_user_safe.
Qed.

Lemma GetUserTeam_safe (userID : string) (w0 : World Storage.Tables) :
  safe (Concurrent.GetUserTeam userID) w0.
Proof.
  apply safe_query. intros w _ _. destruct (users w !! userID); [done|].
  apply safe_query. intros w1 Hinv1 _. unfold Storage.GetUser.
  destruct (Storage.users (store w1) !! userID) as [row|] eqn:Hrow; [|done].
  by apply cache_user_safe.
Qed.

Lemma GetTeam_safe (teamName : string) (w0 : World Storage.Tables) :
  safe (Concurrent.GetTeam teamName) w0.
Proof.
  apply safe_bind; [apply repo_GetTeam_safe|]. intros [team|err] w _; [done|].
  destruct (negb _); [done|]. apply (safe_query _ mret). done.
Qed.

Lemma AddTeam_safe (team : Team.t) (w0 : World Storage.Tables) :
  safe (Concurrent.AddTeam team) w0.
Proof.
  unfold Concurrent.AddTeam.
  destruct (UserManager.AddTeam_validate _ _ _) eqn:Hvalid; [done|].
  apply safe_atomic. intros w Hinv _.
  destruct (CreateTeamWithMembers_keeps team w Hvalid Hinv) as [Hinv' Hg'].
  split_and!; [done..|]. revert Hinv' Hg'. unfold call_write. cbn [store emit].
  destruct (Storage.CreateTeamWithMembers _ _ _) as [db|] eqn:Hcreate; [|done].
  cbn [fst snd]. intros Hinv' _. apply safe_update. intros w2 Hinv2 [Hteams Husers].
  pose proof (CreateTeamWithMembers_teams _ _ _ _ Hcreate) as Ht.
  apply CreateTeamWithMembers_fk in Hcreate as [_ Hdom]; [|apply Hinv].
  rewrite ConvertTmToUser_ids in Hdom. cbn [store with_store] in Hteams, Husers.
  destruct (cache_users_keeps (Team.TeamName team) (Team.Members team) w2)
    as [Hinv3 Hg3]; [done| |rewrite Ht in Hteams; set_solver|by split_and!].
  apply Forall_forall. intros m Hm. apply Husers. rewrite Hdom.
  apply elem_of_union_l, elem_of_list_to_set. by apply list_elem_of_fmap_2.
Qed.

Lemma SetUserActivity_safe (userID : string) (isActive : bool)
    (w0 : World Storage.Tables) :
  safe (Concurrent.SetUserActivity userID isActive) w0.
Proof.
  apply (safe_atomic _ mret). intros w Hinv _.
  destruct (SetUserActivity_keeps userID isActive w Hinv). by split_and!.
Qed.

Lemma go_SetActivity_safe {A} (rewIds : list string) (status : bool)
    (p : Concurrent.Prog A) (w0 : World Storage.Tables) :
  (∀ w, safe p w) → safe (Concurrent.go_SetActivity rewIds status ≫= λ _, p) w0.
Proof.
  intros Hp. apply safe_update. intros w Hinv _.
  destruct (emit_keeps (GoSetActivity rewIds status) w Hinv). by split_and!.
Qed.

Lemma SavePullRequest_safe {A} (pr : PullRequest.t)
    (k : option error → Concurrent.Prog A) (w0 : World Storage.Tables) :
  (∀ failed w, safe (k failed) w) → safe (Concurrent.SavePullRequest pr ≫= k) w0.
Proof.
  intros Hk. apply safe_atomic. intros w Hinv _.
  destruct (SavePullRequest_keeps pr w Hinv). by split_and!.
Qed.

Lemma load_pull_request_safe (prID : string) (w0 : World Storage.Tables) :
  safe (Concurrent.load_pull_request prID) w0.
Proof.
  apply safe_bind; [apply repo_GetPullRequest_safe|]. intros [pr|err] w _; [done|].
  by destruct (errors_Is _ _).
Qed.

Lemma CreatePullRequest_safe (reqData : PostPullRequestCreateJSONBody.t) (now : Time)
    (w0 : World Storage.Tables) :
  safe (Concurrent.CreatePullRequest reqData now) w0.
Proof.
  apply safe_bind; [apply GetUserTeam_safe|]. intros [teamID|err] w _; [|done].
  apply safe_query. intros w1 _ _. apply go_SetActivity_safe. intros w2.
  apply SavePullRequest_safe. by intros [err|] w3.
Qed.

Lemma Merge_safe (prID : string) (now : Time) (w0 : World Storage.Tables) :
  safe (Concurrent.Merge prID now) w0.
Proof.
  apply safe_bind; [apply load_pull_request_safe|]. intros [pr|err] w _; [|done].
  destruct (decide _); [done|]. apply SavePullRequest_safe. intros [err|] w1; [done|].
  case_bool_decide; [|done]. by apply go_SetActivity_safe.
Qed.

Lemma Reassign_safe (oldUserId prId : string) (w0 : World Storage.Tables) :
  safe (Concurrent.Reassign oldUserId prId) w0.
Proof.
  apply safe_bind; [apply load_pull_request_safe|]. intros [pr|err] w _; [|done].
  destruct (decide _); [done|]. destruct (negb _); [done|].
  apply safe_bind; [apply GetUserTeam_safe|]. intros [teamName|err] w1 _; [|done].
  apply safe_query. intros w2 _ _.
  destruct (UserManager.FindReplacementReviewer _ _ _) as [new|err];
    [|by destruct (errors_Is _ _)].
  apply SavePullRequest_safe. intros [err|] w3; [done|].
  apply go_SetActivity_safe. intros w4. by apply go_SetActivity_safe.
Qed.

Lemma BulkDeactivateTeamMembers_safe (teamName : string) (userIDs : list string)
    (w0 : World Storage.Tables) :
  safe (Concurrent.BulkDeactivateTeamMembers teamName userIDs) w0.
Proof.
  unfold Concurrent.BulkDeactivateTeamMembers. cbv zeta.
  destruct (decide _); [done|]. destruct (bool_decide _); [done|].
  destruct (PullRequestManager.normalizeTargetUserIDs userIDs)
    as [[targets targetSet]|]; [|done].
  apply safe_bind; [apply GetTeam_safe|]. intros [team|err] w _; [|done].
  destruct (PullRequestManager.ensureTargetsInTeam _ _); [done|].
  apply safe_query. intros w1 _ _.
  destruct (PullRequestManager.planBulkReviewerSwaps _ _ _ _)
    as [[[swaps reassignments] replacementIDs]|]; [|done].
  apply safe_atomic. intros w2 Hinv2 _.
  destruct (ApplyBulkTeamReviewerSwaps_keeps swaps (targets ++ replacementIDs) w2 Hinv2).
  split_and!; [done..|]. destruct (call_write _ _ w2).1; [done|].
  case_bool_decide; [|done]. apply safe_update. intros w3 Hinv3 _.
  destruct (SyncUsersActivity_keeps false (targets ++ replacementIDs) w3 Hinv3).
  by split_and!.
Qed.

Lemma request_safe (t : Concurrent.Thread) (w0 : World Storage.Tables) :
  Concurrent.request t → match t with Concurrent.Running p => safe p w0 end.
Proof.
  destruct 1.
  - apply PrimeCacheUser_safe.
  - apply AddTeam_safe.
  - apply GetTeam_safe.
  - apply SetUserActivity_safe.
  - apply CreatePullRequest_safe.
  - apply Merge_safe.
  - apply Reassign_safe.
  - apply BulkDeactivateTeamMembers_safe.
Qed.

(** Every step of the server keeps [running_inv], and leaves every
    request in flight safe. *)
Lemma step_running_inv (s s' : Concurrent.System) :
  Concurrent.step s s' →
  running_inv (Concurrent.world s) ∧
  Forall (λ t, match t with Concurrent.Running p => safe p (Concurrent.world s) end)
         (Concurrent.threads s) →
  running_inv (Concurrent.world s') ∧
  Forall (λ t, match t with Concurrent.Running p => safe p (Concurrent.world s') end)
         (Concurrent.threads s').
Proof.
  intros Hstep [Hinv Hsafe]. destruct Hstep as [t s Hreq|A X act k i s Hi|rewIds status s Hgo];
    cbn [Concurrent.world Concurrent.threads].
  - split; [done|]. apply Forall_app. split; [done|].
    apply Forall_singleton. by apply request_safe.
  - pose proof (Forall_lookup_1 _ _ _ _ Hsafe Hi) as Hp. cbn [safe] in Hp.
    destruct (Hp (Concurrent.world s) Hinv (grows_refl _)) as (Hinv' & Hg & Hk).
    split; [done|]. apply Forall_insert; [|done].
    eapply Forall_impl; [done|]. intros [B p]. by apply safe_grows.
  - destruct (set_cached_activity_keeps status rewIds (Concurrent.world s) Hinv)
      as [Hinv' Hg].
    split; [done|]. eapply Forall_impl; [done|]. intros [B p]. by apply safe_grows.
Qed.

(** Every state the server reaches satisfies [running_inv], with every
    request in flight safe. *)
Lemma reachable_running_safe (s : Concurrent.System) :
  rtc Concurrent.step (Concurrent.mkSystem Examples.fresh []) s →
  running_inv (Concurrent.world s) ∧
  Forall (λ t, match t with Concurrent.Running p => safe p (Concurrent.world s) end)
         (Concurrent.threads s).
Proof.
  revert s. apply rtc_ind_r.
  { split; [|constructor]. apply system_inv_running_inv, system_inv_fresh. }
  intros s1 s2 _ Hstep IH. by eapply step_running_inv.
Qed.

(** The invariants of the server.  In every state the server reaches from
    empty tables and an empty cache, whatever requests arrive, whether they
    succeed or fail, and in whatever order their actions and the goroutines
    they start happen: no reviewer row is stored twice; the team of a user,
    the author of a pull request and the pull request and the user of a
    reviewer row are stored; no user has the empty id; every cached user is
    filed under its own id, which is the id of a stored user, and belongs to
    a stored team or to none. *)
Theorem server_running_inv (s : Concurrent.System) :
  rtc Concurrent.step (Concurrent.mkSystem Examples.fresh []) s →
  NoDup (Storage.pull_request_reviewers (store (Concurrent.world s))) ∧
  cache_inv (users (Concurrent.world s)) ∧
  schema_fk (store (Concurrent.world s)) ∧
  ("" ∉ dom (Storage.users (store (Concurrent.world s)))) ∧
  cache_stored (store (Concurrent.world s)) (users (Concurrent.world s)).
Proof. intros Hreach. by apply reachable_running_safe in Hreach as [? _]. Qed.

(** A safe request served without any other in between. *)
Lemma safe_run {A} (p : Concurrent.Prog A) (w0 w : World Storage.Tables) :
  safe p w0 → grows w0 w → running_inv w →
  running_inv (Concurrent.run p w).2 ∧ grows w (Concurrent.run p w).2.
Proof.
  revert w0 w. induction p as [a|X act k IH]; intros w0 w Hsafe Hg Hinv;
    cbn [Concurrent.run].
  { split; [done|apply grows_refl]. }
  cbn [safe] in Hsafe. destruct (Hsafe w Hinv Hg) as (Hinv' & Hg' & Hsafe').
  destruct (act w) as [x w1]. cbn [fst snd] in *.
  destruct (IH x w1 w1 Hsafe' (grows_refl _) Hinv') as [? ?].
  split; [done|]. by eapply grows_trans.
Qed.

(** *** A request served alone is the request of the serial executions *)

Lemma run_bind {A B} (p : Concurrent.Prog A) (f : A → Concurrent.Prog B)
    (w : World Storage.Tables) :
  Concurrent.run (p ≫= f) w
  = Concurrent.run (f (Concurrent.run p w).1) (Concurrent.run p w).2.
Proof.
  unfold mbind, Concurrent.Prog_bind. revert w.
  induction p as [a|X act k IH]; intros w; cbn [Concurrent.bind Concurrent.run]; [done|].
  destruct (act w) as [x w']. apply IH.
Qed.

Lemma run_repo_GetPullRequest (prID : string) (w : World Storage.Tables) :
  Concurrent.run (Concurrent.repo_GetPullRequest prID) w
  = (Storage.GetPullRequest prID (store w), w).
Proof.
  unfold Concurrent.repo_GetPullRequest, Storage.GetPullRequest. run_actions.
  by destruct (Storage.pull_requests (store w) !! prID).
Qed.

Lemma run_repo_GetTeam (teamID : string) (w : World Storage.Tables) :
  Concurrent.run (Concurrent.repo_GetTeam teamID) w = (Storage.GetTeam teamID (store w), w).
Proof.
  unfold Concurrent.repo_GetTeam, Storage.GetTeam. run_actions.
  by destruct (bool_decide _).
Qed.

Lemma run_PrimeCacheUser (userID : string) (w : World Storage.Tables) :
  Concurrent.run (Concurrent.PrimeCacheUser userID) w = main.PrimeCacheUser userID w.
Proof.
  unfold Concurrent.PrimeCacheUser, main.PrimeCacheUser, UserManager.PrimeCacheUser.
  run_actions. cbn [main.userManager Repository.GetUser Storage.userTeamRepository].
  by destruct (Storage.GetUser userID (store w)).
Qed.

Lemma run_AddTeam (team : Team.t) (w : World Storage.Tables) :
  Concurrent.run (Concurrent.AddTeam team) w = main.AddTeam team w.
Proof.
  unfold Concurrent.AddTeam, main.AddTeam, UserManager.AddTeam.
  destruct (UserManager.AddTeam_validate _ _ _); [done|]. run_actions.
  cbn [main.userManager Repository.CreateTeamWithMembers Storage.userTeamRepository].
  by destruct (call_write _ _ w) as [[err|] w'].
Qed.

Lemma run_GetTeam (teamName : string) (w : World Storage.Tables) :
  Concurrent.run (Concurrent.GetTeam teamName) w = (main.GetTeam teamName w, w).
Proof.
  unfold Concurrent.GetTeam, main.GetTeam, UserManager.GetTeam.
  rewrite run_bind, run_repo_GetTeam.
  cbn [fst snd main.userManager Repository.GetTeam Storage.userTeamRepository].
  destruct (Storage.GetTeam teamName (store w)) as [team|err]; [done|].
  by destruct (negb _).
Qed.

Lemma run_GetUserTeam (userID : string) (w : World Storage.Tables) :
  Concurrent.run (Concurrent.GetUserTeam userID) w
  = UserManager.GetUserTeam main.userManager userID w.
Proof.
  unfold Concurrent.GetUserTeam, UserManager.GetUserTeam. run_actions.
  destruct (users w !! userID); [done|]. run_actions.
  cbn [main.userManager Repository.GetUser Storage.userTeamRepository].
  destruct (Storage.GetUser userID (store w)) as [user|err]; [done|].
  by destruct (errors_Is _ _).
Qed.

Lemma run_load_pull_request (prID : string) (w : World Storage.Tables) :
  Concurrent.run (Concurrent.load_pull_request prID) w
  = (PullRequestManager.load_pull_request prID w, w).
Proof.
  unfold Concurrent.load_pull_request, PullRequestManager.load_pull_request.
  rewrite run_bind, run_repo_GetPullRequest.
  cbn [fst snd Repository.GetPullRequest Storage.pullRequestRepository].
  destruct (Storage.GetPullRequest prID (store w)) as [pr|err]; [done|].
  by destruct (errors_Is _ _).
Qed.

Lemma run_SetUserActivity (userID : string) (isActive : bool) (w : World Storage.Tables) :
  Concurrent.run (Concurrent.SetUserActivity userID isActive) w
  = main.SetUserActivity userID isActive w.
Proof.
  unfold Concurrent.SetUserActivity. run_actions.
  by destruct (main.SetUserActivity userID isActive w).
Qed.

Lemma run_CreatePullRequest (reqData : PostPullRequestCreateJSONBody.t) (now : Time)
    (w : World Storage.Tables) :
  Concurrent.run (Concurrent.CreatePullRequest reqData now) w
  = main.CreatePullRequest reqData now w.
Proof.
  unfold Concurrent.CreatePullRequest, main.CreatePullRequest,
    PullRequestManager.CreatePullRequest.
  cbv zeta. rewrite run_bind, run_GetUserTeam.
  destruct (UserManager.GetUserTeam _ _ w) as [[teamID|err] w1]; [|done].
  cbn [fst snd]. unfold Concurrent.go_SetActivity, Concurrent.SavePullRequest.
  run_actions. cbn [Repository.SavePullRequest Storage.pullRequestRepository].
  by destruct (call_write _ _ _) as [[err|] w2].
Qed.

Lemma run_Merge (prID : string) (now : Time) (w : World Storage.Tables) :
  Concurrent.run (Concurrent.Merge prID now) w = main.Merge prID now w.
Proof.
  unfold Concurrent.Merge, main.Merge, PullRequestManager.Merge.
  rewrite run_bind, run_load_pull_request. cbn [fst snd].
  destruct (PullRequestManager.load_pull_request prID w) as [pr|err]; [|done].
  destruct (decide _); [done|]. cbv zeta.
  unfold Concurrent.go_SetActivity, Concurrent.SavePullRequest. run_actions.
  cbn [Repository.SavePullRequest Storage.pullRequestRepository].
  destruct (call_write _ _ _) as [[err|] w2]; [done|]. by case_bool_decide.
Qed.

Lemma run_Reassign (oldUserId prId : string) (w : World Storage.Tables) :
  Concurrent.run (Concurrent.Reassign oldUserId prId) w = main.Reassign oldUserId prId w.
Proof.
  unfold Concurrent.Reassign, main.Reassign, PullRequestManager.Reassign.
  rewrite run_bind, run_load_pull_request. cbn [fst snd].
  destruct (PullRequestManager.load_pull_request prId w) as [pr|err]; [|done].
  destruct (decide _); [done|]. destruct (negb _); [done|].
  rewrite run_bind, run_GetUserTeam.
  destruct (UserManager.GetUserTeam _ _ w) as [[teamName|err] w1]; [|done].
  cbn [fst snd]. cbv zeta. run_actions.
  destruct (UserManager.FindReplacementReviewer _ _ _) as [new|err];
    [|by destruct (errors_Is _ _)].
  unfold Concurrent.go_SetActivity, Concurrent.SavePullRequest. run_actions.
  cbn [Repository.SavePullRequest Storage.pullRequestRepository].
  by destruct (call_write _ _ _) as [[err|] w2].
Qed.

Lemma run_BulkDeactivateTeamMembers (teamName : string) (userIDs : list string)
    (w : World Storage.Tables) :
  Concurrent.run (Concurrent.BulkDeactivateTeamMembers teamName userIDs) w
  = main.BulkDeactivateTeamMembers teamName userIDs w.
Proof.
  unfold Concurrent.BulkDeactivateTeamMembers, main.BulkDeactivateTeamMembers,
    PullRequestManager.BulkDeactivateTeamMembers.
  cbv zeta. destruct (decide _); [done|]. destruct (bool_decide _); [done|].
  destruct (PullRequestManager.normalizeTargetUserIDs userIDs)
    as [[targets targetSet]|]; [|done].
  rewrite run_bind, run_GetTeam. cbn [fst snd]. unfold main.GetTeam.
  destruct (UserManager.GetTeam _ _ w) as [team|err]; [|done].
  destruct (PullRequestManager.ensureTargetsInTeam _ _); [done|]. run_actions.
  destruct (PullRequestManager.planBulkReviewerSwaps _ _ _ _)
    as [[[swaps reassignments] replacementIDs]|]; [|done].
  run_actions. cbn [Repository.ApplyBulkTeamReviewerSwaps Storage.pullRequestRepository].
  destruct (call_write _ _ _) as [[err|] w2]; [done|]. by case_bool_decide.
Qed.

(** The whole call is its first half followed by its second half on the
    same world. *)
Lemma BulkDeactivateTeamMembers_plan_apply (teamName : string) (userIDs : list string)
    (w : World Storage.Tables) :
  main.BulkDeactivateTeamMembers teamName userIDs w
  = match main.BulkDeactivateTeamMembers_plan teamName userIDs w with
    | Err err => (Err err, w)
    | Ok plan => main.BulkDeactivateTeamMembers_apply plan w
    end.
Proof.
  unfold main.BulkDeactivateTeamMembers, main.BulkDeactivateTeamMembers_plan,
    main.BulkDeactivateTeamMembers_apply, PullRequestManager.BulkDeactivateTeamMembers,
    PullRequestManager.BulkDeactivateTeamMembers_plan,
    PullRequestManager.BulkDeactivateTeamMembers_apply.
  cbv zeta. destruct (decide _); [done|]. destruct (bool_decide _); [done|].
  destruct (PullRequestManager.normalizeTargetUserIDs userIDs)
    as [[targets targetSet]|]; [|done].
  destruct (UserManager.GetTeam _ _ w) as [team|err]; [|done].
  destruct (PullRequestManager.ensureTargetsInTeam _ _); [done|].
  by destruct (PullRequestManager.planBulkReviewerSwaps _ _ _ _)
    as [[[swaps reassignments] replacementIDs]|].
Qed.

(** *** The serial executions are executions of the server *)

Lemma advance_steps {A} (n : nat) (p : Concurrent.Prog A) (i : nat)
    (ts : list Concurrent.Thread) (w : World Storage.Tables) :
  ts !! i = Some (Concurrent.Running p) →
  rtc Concurrent.step (Concurrent.mkSystem w ts)
    (Concurrent.mkSystem (Concurrent.advance n p w).2
       (<[i := Concurrent.Running (Concurrent.advance n p w).1]> ts)).
Proof.
  revert p ts w. induction n as [|n IH]; intros p ts w Hi.
  { cbn. by rewrite list_insert_id. }
  destruct p as [a|X act k]; cbn [Concurrent.advance].
  { cbn. by rewrite list_insert_id. }
  eapply rtc_l; [by apply (Concurrent.step_atomic act k i (Concurrent.mkSystem w ts))|].
  cbn [Concurrent.world Concurrent.threads]. destruct (act w) as [x w'] eqn:Hact.
  cbn [fst snd].
  specialize (IH (k x) (<[i := Concurrent.Running (k x)]> ts) w').
  rewrite list_insert_insert_eq in IH. apply IH.
  apply list_lookup_insert_eq. by eapply lookup_lt_Some.
Qed.

Lemma run_steps {A} (p : Concurrent.Prog A) (i : nat) (ts : list Concurrent.Thread)
    (w : World Storage.Tables) :
  ts !! i = Some (Concurrent.Running p) →
  rtc Concurrent.step (Concurrent.mkSystem w ts)
    (Concurrent.mkSystem (Concurrent.run p w).2
       (<[i := Concurrent.Running (Concurrent.Ret (Concurrent.run p w).1)]> ts)).
Proof.
  revert ts w. induction p as [a|X act k IH]; intros ts w Hi.
  { cbn. by rewrite list_insert_id. }
  eapply rtc_l; [by apply (Concurrent.step_atomic act k i (Concurrent.mkSystem w ts))|].
  cbn [Concurrent.world Concurrent.threads Concurrent.run].
  destruct (act w) as [x w'] eqn:Hact. cbn [fst snd].
  specialize (IH x (<[i := Concurrent.Running (k x)]> ts) w').
  rewrite list_insert_insert_eq in IH. apply IH.
  apply list_lookup_insert_eq. by eapply lookup_lt_Some.
Qed.

(** A request that arrives and is served before anything else happens. *)
Lemma request_served {A} (p : Concurrent.Prog A) (ts : list Concurrent.Thread)
    (w : World Storage.Tables) :
  Concurrent.request (Concurrent.Running p) →
  rtc Concurrent.step (Concurrent.mkSystem w ts)
    (Concurrent.mkSystem (Concurrent.run p w).2
       (ts ++ [Concurrent.Running (Concurrent.Ret (Concurrent.run p w).1)])).
Proof.
  intros Hreq.
  eapply rtc_l.
  { exact (Concurrent.step_request _ (Concurrent.mkSystem w ts) Hreq). }
  cbn [Concurrent.world Concurrent.threads].
  pose proof (run_steps p (length ts) (ts ++ [Concurrent.Running p]) w) as Hrun.
  rewrite insert_app_r_alt, Nat.sub_diag in Hrun by done. apply Hrun.
  by rewrite lookup_app_r, Nat.sub_diag.
Qed.

Lemma serial_step_concurrent (w w' : World Storage.Tables)
    (ts : list Concurrent.Thread) :
  main.step w w' →
  ∃ ts', rtc Concurrent.step (Concurrent.mkSystem w ts) (Concurrent.mkSystem w' ts').
Proof.
  destruct 1 as [userID w|team w|userID isActive w|reqData now w|prID now w
                |oldUserId prId w|teamName userIDs w|rewIds status w Hgo].
  - eexists. rewrite <- run_PrimeCacheUser. apply request_served. constructor.
  - eexists. rewrite <- run_AddTeam. apply request_served. constructor.
  - eexists. rewrite <- run_SetUserActivity. apply request_served. constructor.
  - eexists. rewrite <- run_CreatePullRequest. apply request_served. constructor.
  - eexists. rewrite <- run_Merge. apply request_served. constructor.
  - eexists. rewrite <- run_Reassign. apply request_served. constructor.
  - eexists. rewrite <- run_BulkDeactivateTeamMembers. apply request_served. constructor.
  - exists ts. apply rtc_once.
    by apply (Concurrent.step_go_SetActivity rewIds status (Concurrent.mkSystem w ts)).
Qed.

Lemma serial_reachable_concurrent (w w' : World Storage.Tables)
    (ts : list Concurrent.Thread) :
  rtc main.step w w' →
  ∃ ts', rtc Concurrent.step (Concurrent.mkSystem w ts) (Concurrent.mkSystem w' ts').
Proof.
  intros Hreach. revert ts. induction Hreach as [w|w w1 w' Hstep _ IH]; intros ts.
  { by exists ts. }
  destruct (serial_step_concurrent w w1 ts Hstep) as [ts1 H1].
  destruct (IH ts1) as [ts' H']. exists ts'. by etrans.
Qed.

End concurrent.

(** ** The services of the server *)

Section running.
Context {go : Golang} {pg : Storage.Postgres}.
#[local] Existing Instance Storage.pullRequestRepository.

Lemma spec_first_occurrences_NoDup_id (l : list string) :
  NoDup l → spec_first_occurrences l = l.
Proof.
  induction 1 as [|x l Hx _ IH]; [done|]. cbn [spec_first_occurrences]. rewrite IH.
  f_equal. apply filter_id, Forall_forall. by intros y Hy ->.
Qed.

(** A reviewer list without repetitions and without the empty id is stored
    as it is. *)
Lemma stored_reviewers_id (l : list string) :
  NoDup l → "" ∉ l → spec_first_occurrences (filter (λ r, r ≠ "") l) = l.
Proof.
  intros Hnd Hne. rewrite filter_id; [by apply spec_first_occurrences_NoDup_id|].
  apply Forall_forall. by intros r Hr ->.
Qed.

Lemma system_inv_cached (w : World Storage.Tables) (k : string) (user : User.t) :
  system_inv w → users w !! k = Some user →
  User.UserId user = k ∧ k ∈ dom (Storage.users (store w)) ∧ k ≠ "" ∧
  (User.TeamName user = "" ∨ User.TeamName user ∈ Storage.teams (store w)).
Proof.
  intros ([_ Hc] & _ & Hne & Hcache) Hk. pose proof (Hcache _ _ Hk) as [Hd Ht].
  split_and!; [by apply Hc in Hk|done| |done]. by intros ->.
Qed.

(** The reviewers of a stored request, in a world of the running system:
    at most two, all different, all users, none with the empty id. *)
Lemma system_inv_reviewers (w : World Storage.Tables) (prID : string) :
  system_inv w →
  let rs := Storage.reviewers_of prID (store w) in
  NoDup rs ∧ length rs ≤ 2 ∧ (∀ r, r ∈ rs → r ∈ dom (Storage.users (store w)) ∧ r ≠ "").
Proof.
  intros ([Hs _] & (_ & _ & Hrows) & Hne & _). cbv zeta.
  apply store_inv_alt in Hs as [Hnd Hlen]. split_and!.
  - by apply reviewers_of_NoDup.
  - apply Hlen.
  - intros r Hr%reviewers_of_elem_of. eapply Forall_forall in Hrows as [_ Hu]; [|done].
    split; [done|]. by intros ->.
Qed.

Lemma SavePullRequest_Ok_intro (pr : PullRequest.t) (db : Storage.Tables) :
  length (PullRequest.AssignedReviewers pr) ≤ 2 →
  PullRequest.AuthorId pr ∈ dom (Storage.users db) →
  (∀ r, r ∈ PullRequest.AssignedReviewers pr → r ∈ dom (Storage.users db)) →
  ∃ db', Storage.SavePullRequest pr db = Ok db'.
Proof.
  intros Hlen Hauthor Hrev.
  pose proof (SavePullRequest_spec pr db) as Hspec. cbv zeta in Hspec.
  rewrite decide_True in Hspec; [by eexists|].
  split_and!; [done..|]. apply Forall_forall. intros r Hr _. by apply Hrev.
Qed.

(** What [GetPullRequest] reads after a successful [SavePullRequest] of a
    request whose reviewers are all different and not the empty id. *)
Lemma SavePullRequest_read_back (pr : PullRequest.t) (db db' : Storage.Tables) :
  Storage.SavePullRequest pr db = Ok db' →
  NoDup (PullRequest.AssignedReviewers pr) → "" ∉ PullRequest.AssignedReviewers pr →
  (∃ got,
     Storage.GetPullRequest (PullRequest.PullRequestId pr) db' = Ok got ∧
     PullRequest.AssignedReviewers got ≡ₚ PullRequest.AssignedReviewers pr ∧
     PullRequest.Status got = PullRequest.Status pr ∧
     PullRequest.AuthorId got = PullRequest.AuthorId pr ∧
     PullRequest.PullRequestName got = PullRequest.PullRequestName pr ∧
     PullRequest.MergedAt got = Storage.timestamptz <$> PullRequest.MergedAt pr) ∧
  (∀ prID, prID ≠ PullRequest.PullRequestId pr →
           Storage.GetPullRequest prID db' = Storage.GetPullRequest prID db).
Proof.
  intros Hsave Hnd Hne. apply SavePullRequest_rows in Hsave as [Hprs Hrev]. split.
  - unfold Storage.GetPullRequest. rewrite Hprs, lookup_insert_eq.
    eexists. split; [done|]. unfold Storage.scan_pull_request.
    cbn [PullRequest.AssignedReviewers fst snd]. split; [|done].
    rewrite Hrev, decide_True by done.
    by rewrite Storage.order_by_perm, stored_reviewers_id.
  - intros prID Hne'. unfold Storage.GetPullRequest. rewrite Hprs, lookup_insert_ne by done.
    destruct (Storage.pull_requests db !! prID) as [row|]; [|done].
    unfold Storage.scan_pull_request. cbn [fst snd]. by rewrite Hrev, decide_False.
Qed.

(** What [load_pull_request] reads with the PostgreSQL repository. *)
Lemma load_pull_request_stored (prID : string) (w : World Storage.Tables) :
  PullRequestManager.load_pull_request prID w
  = match Storage.pull_requests (store w) !! prID with
    | Some row => Ok (Storage.scan_pull_request (store w) (prID, row))
    | None => Err (NewNotFoundError "pull request")
    end.
Proof.
  unfold PullRequestManager.load_pull_request.
  cbn [Repository.GetPullRequest Storage.pullRequestRepository].
  unfold Storage.GetPullRequest. by destruct (Storage.pull_requests (store w) !! prID).
Qed.

(** A request read from the store of the running system can be saved
    again with reviewers that are users, at most two. *)
Lemma scan_pull_request_author (w : World Storage.Tables) (prID : string)
    (row : Storage.PullRequestRow) :
  system_inv w → Storage.pull_requests (store w) !! prID = Some row →
  Storage.author_id row ∈ dom (Storage.users (store w)).
Proof. intros (_ & (_ & Hauthor & _) & _) Hrow. by apply Hauthor in Hrow. Qed.

(** [CreatePullRequest] on the running system: the save cannot fail. *)
Lemma CreatePullRequest_run (reqData : PostPullRequestCreateJSONBody.t) (now : Time)
    (w : World Storage.Tables) :
  system_inv w →
  let author := PostPullRequestCreateJSONBody.AuthorId reqData in
  match UserManager.GetUserTeam main.userManager author w with
  | (Ok teamName, w1) =>
    let pr := PullRequest.with_AssignedReviewers
                (UserManager.AssignRewiers teamName (users w1))
                (PullRequestManager.convertReqToModel reqData now) in
    NoDup (PullRequest.AssignedReviewers pr) ∧ ("" ∉ PullRequest.AssignedReviewers pr) ∧
    ∃ db',
      Storage.SavePullRequest pr (store w) = Ok db' ∧
      main.CreatePullRequest reqData now w
      = (Ok pr, mkWorld db' (users w1)
                  (trace w ++ [GoSetActivity (PullRequest.AssignedReviewers pr) false;
                               CallSavePullRequest pr]))
  | (Err _, _) =>
    users w !! author = None ∧ Storage.users (store w) !! author = None ∧
    main.CreatePullRequest reqData now w
    = (Err (Wrapf "failed to get author team: " (NewNotFoundError "user")), w)
  end.
Proof.
  intros Hinv author.
  unfold main.CreatePullRequest, PullRequestManager.CreatePullRequest.
  cbn [PullRequestManager.convertReqToModel PullRequest.AuthorId]. fold author.
  pose proof (GetUserTeam_system_inv author w Hinv) as Hinv1.
  pose proof (GetUserTeam_world main.userManager author w) as [Hstore1 Htrace1].
  assert (is_Ok (UserManager.GetUserTeam main.userManager author w).1 = true →
          author ∈ dom (Storage.users (store w))) as Hauthor.
  { rewrite GetUserTeam_stored. destruct (users w !! author) as [user|] eqn:Hc.
    - intros _. by apply (system_inv_cached w author user).
    - destruct (Storage.users (store w) !! author) eqn:Hs; [|done].
      intros _. by apply elem_of_dom_2 in Hs. }
  destruct (UserManager.GetUserTeam main.userManager author w) as [[teamName|err] w1]
    eqn:Hteam; cbn [fst snd] in *.
  2: { rewrite GetUserTeam_stored in Hteam.
       destruct (users w !! author); [done|].
       destruct (Storage.users (store w) !! author); [done|].
       by injection Hteam as <- <-. }
  specialize (Hauthor eq_refl).
  set (reviewers := UserManager.AssignRewiers teamName (users w1)).
  set (pr := PullRequest.with_AssignedReviewers reviewers _).
  assert (reviewers_ok reviewers) as [Hlen Hnd].
  { apply AssignRewiers_reviewers_ok, Hinv1. }
  assert (∀ r, r ∈ reviewers → r ∈ dom (Storage.users (store w)) ∧ r ≠ "") as Hrev.
  { intros r (k & user & Hk & Hid & _)%AssignRewiers_elem_of.
    apply (system_inv_cached w1) in Hk as (Hid' & Hd & Hne & _); [|done].
    rewrite Hstore1 in Hd. split; congruence. }
  destruct (SavePullRequest_Ok_intro pr (store w)) as [db' Hsave]; [done|done| |].
  { intros r Hr. by apply Hrev. }
  split_and!; [done|by intros [_ ?]%Hrev|]. exists db'. split; [done|].
  unfold call_write.
  cbn [Repository.SavePullRequest Storage.pullRequestRepository store emit].
  rewrite Hstore1, Hsave. unfold with_store, emit. cbn [store users trace].
  by rewrite Htrace1, <- app_assoc.
Qed.

(** On the running system [CreatePullRequest] fails only for an author
    that is neither cached nor stored, and then nothing has happened.  For
    a known author it succeeds: the request is open, created now, with the
    first two active users that the cache holds for the team of the author
    as reviewers; one goroutine is started to mark them inactive and the
    request is saved once; and the request is then stored as open and not
    merged, with these reviewers, also when a request with this id was
    stored before, merged or not. *)
Theorem CreatePullRequest_fails_only_for_unknown_author
    (reqData : PostPullRequestCreateJSONBody.t) (now : Time) (w : World Storage.Tables) :
  system_inv w →
  let author := PostPullRequestCreateJSONBody.AuthorId reqData in
  let prID := PostPullRequestCreateJSONBody.PullRequestId reqData in
  match main.CreatePullRequest reqData now w with
  | (Ok pr, w') =>
    ∃ teamName got,
      (UserManager.GetUserTeam main.userManager author w).1 = Ok teamName ∧
      pr = PullRequest.mk (take 2 (User.UserId <$> active_of_team teamName (users w')))
             author (Some now) None prID
             (PostPullRequestCreateJSONBody.PullRequestName reqData) PullRequestStatusOPEN ∧
      trace w' = trace w ++ [GoSetActivity (PullRequest.AssignedReviewers pr) false;
                             CallSavePullRequest pr] ∧
      Storage.GetPullRequest prID (store w') = Ok got ∧
      PullRequest.Status got = PullRequestStatusOPEN ∧
      PullRequest.MergedAt got = None ∧
      PullRequest.AssignedReviewers got ≡ₚ PullRequest.AssignedReviewers pr
  | (Err err, w') =>
    w' = w ∧ users w !! author = None ∧ Storage.users (store w) !! author = None ∧
    err = Wrapf "failed to get author team: " (NewNotFoundError "user")
  end.
Proof.
  intros Hinv author prID.
  pose proof (CreatePullRequest_run reqData now w Hinv) as Hrun. cbv zeta in Hrun.
  fold author in Hrun.
  destruct (UserManager.GetUserTeam main.userManager author w) as [[teamName|err] w1].
  2: { destruct Hrun as (? & ? & ->). done. }
  destruct Hrun as (Hnd & Hne & db' & Hsave & ->).
  apply SavePullRequest_read_back in Hsave as [(got & Hgot & Hperm & Hstatus & _ & _ & Hm) _];
    [|done..].
  exists teamName, got. cbn [fst users trace store].
  split_and!; [done| |done..]. by rewrite <- AssignRewiers_take.
Qed.

Lemma running_inv_cached (w : World Storage.Tables) (k : string) (user : User.t) :
  running_inv w → users w !! k = Some user →
  User.UserId user = k ∧ k ∈ dom (Storage.users (store w)) ∧ k ≠ "" ∧
  (User.TeamName user = "" ∨ User.TeamName user ∈ Storage.teams (store w)).
Proof.
  intros (_ & Hc & _ & Hne & Hcache) Hk. pose proof (Hcache _ _ Hk) as [Hd Ht].
  split_and!; [by apply Hc in Hk|done| |done]. by intros ->.
Qed.

(** The reviewers of a stored request, in a world of the server: all
    different, all users, none with the empty id.  There may be more than
    two. *)
Lemma running_inv_reviewers (w : World Storage.Tables) (prID : string) :
  running_inv w →
  let rs := Storage.reviewers_of prID (store w) in
  NoDup rs ∧ (∀ r, r ∈ rs → r ∈ dom (Storage.users (store w)) ∧ r ≠ "").
Proof.
  intros (Hnd & _ & (_ & _ & Hrows) & Hne & _). cbv zeta. split.
  - by apply reviewers_of_NoDup.
  - intros r Hr%reviewers_of_elem_of. eapply Forall_forall in Hrows as [_ Hu]; [|done].
    split; [done|]. by intros ->.
Qed.

Lemma running_inv_author (w : World Storage.Tables) (prID : string)
    (row : Storage.PullRequestRow) :
  running_inv w → Storage.pull_requests (store w) !! prID = Some row →
  Storage.author_id row ∈ dom (Storage.users (store w)).
Proof. intros (_ & _ & (_ & Hauthor & _) & _) Hrow. by apply Hauthor in Hrow. Qed.

Lemma GetUserTeam_running_inv (userID : string) (w : World Storage.Tables) :
  running_inv w → running_inv (UserManager.GetUserTeam main.userManager userID w).2.
Proof.
  intros Hinv. rewrite <- run_GetUserTeam.
  by apply (safe_run _ w w (GetUserTeam_safe userID w) (grows_refl w)).
Qed.

(** [Merge] on the server.  Saving the merged request fails exactly when
    the stored request, not merged, has more than two reviewer rows. *)
Lemma Merge_run (prID : string) (now : Time) (w : World Storage.Tables) :
  running_inv w →
  match Storage.pull_requests (store w) !! prID with
  | None => main.Merge prID now w = (Err (NewNotFoundError "pull request"), w)
  | Some row =>
    let before := Storage.scan_pull_request (store w) (prID, row) in
    if decide (PullRequest.Status before = PullRequestStatusMERGED)
    then main.Merge prID now w = (Ok before, w)
    else
      NoDup (PullRequest.AssignedReviewers before) ∧
      ("" ∉ PullRequest.AssignedReviewers before) ∧
      if decide (length (PullRequest.AssignedReviewers before) ≤ 2)
      then
        ∃ db' tr,
          Storage.SavePullRequest (PullRequest.with_merged now before) (store w) = Ok db' ∧
          main.Merge prID now w
          = (Ok (PullRequest.with_merged now before), mkWorld db' (users w) tr)
      else
        main.Merge prID now w
        = (Err (Wrapf "failed to save merged pull request: "
                  (Errorf "assigned reviewers count must be <= 2")),
           emit (CallSavePullRequest (PullRequest.with_merged now before)) w)
  end.
Proof.
  intros Hinv. unfold main.Merge, PullRequestManager.Merge.
  rewrite load_pull_request_stored.
  destruct (Storage.pull_requests (store w) !! prID) as [row|] eqn:Hrow; [|done].
  cbv zeta. set (before := Storage.scan_pull_request (store w) (prID, row)).
  destruct (decide (PullRequest.Status before = PullRequestStatusMERGED)) as [Hm|Hm];
    [done|].
  destruct (running_inv_reviewers w prID Hinv) as (Hnd & Husers).
  assert (PullRequest.AssignedReviewers before ≡ₚ Storage.reviewers_of prID (store w))
    as Hperm by apply Storage.order_by_perm.
  set (merged := PullRequest.with_merged now before).
  split_and!; [by rewrite Hperm|rewrite Hperm; by intros [_ ?]%Husers|].
  unfold call_write.
  cbn [Repository.SavePullRequest Storage.pullRequestRepository store emit].
  fold merged.
  destruct (decide (length (PullRequest.AssignedReviewers before) ≤ 2)) as [Hlen|Hlen].
  - destruct (SavePullRequest_Ok_intro merged (store w)) as [db' Hsave].
    { done. }
    { by eapply running_inv_author. }
    { intros r. unfold merged. cbn [PullRequest.with_merged PullRequest.AssignedReviewers].
      rewrite Hperm. by intros [? _]%Husers. }
    rewrite Hsave. exists db'. destruct (bool_decide _); by eexists.
  - unfold Storage.SavePullRequest.
    rewrite bool_decide_eq_true_2; [done|].
    unfold merged. cbn [PullRequest.with_merged PullRequest.AssignedReviewers]. lia.
Qed.

(** [Merge] on the server, in whatever state the requests served so far
    and those in flight have left it.  It fails for a request that is not
    stored, with a not-found error and nothing changed.  It fails as well
    for a stored request, not merged, with more than two reviewer rows:
    saving it is refused, the error wraps no sentinel, and nothing is
    stored.  In every other case it succeeds: it returns the stored
    request, marked as merged now unless it was merged already; the request
    is then stored as merged with the reviewers, the author and the name it
    had, and every other request reads as before. *)
Theorem Merge_fails_for_unknown_or_over_cap (prID : string) (now : Time)
    (w : World Storage.Tables) :
  running_inv w →
  match main.Merge prID now w with
  | (Ok pr, w') =>
    ∃ before got,
      Storage.GetPullRequest prID (store w) = Ok before ∧
      (PullRequest.Status before = PullRequestStatusMERGED ∨
       length (PullRequest.AssignedReviewers before) ≤ 2) ∧
      pr = (if decide (PullRequest.Status before = PullRequestStatusMERGED)
            then before else PullRequest.with_merged now before) ∧
      Storage.GetPullRequest prID (store w') = Ok got ∧
      PullRequest.Status got = PullRequestStatusMERGED ∧
      PullRequest.AssignedReviewers got ≡ₚ PullRequest.AssignedReviewers before ∧
      PullRequest.AuthorId got = PullRequest.AuthorId before ∧
      PullRequest.PullRequestName got = PullRequest.PullRequestName before ∧
      (∀ other, other ≠ prID →
                Storage.GetPullRequest other (store w')
                = Storage.GetPullRequest other (store w))
  | (Err err, w') =>
    store w' = store w ∧ users w' = users w ∧
    match Storage.GetPullRequest prID (store w) with
    | Err _ => err = NewNotFoundError "pull request" ∧ w' = w
    | Ok before =>
      PullRequest.Status before ≠ PullRequestStatusMERGED ∧
      2 < length (PullRequest.AssignedReviewers before) ∧
      err = Wrapf "failed to save merged pull request: "
              (Errorf "assigned reviewers count must be <= 2") ∧
      wrapped_sentinel err = None ∧
      trace w' = trace w ++ [CallSavePullRequest (PullRequest.with_merged now before)]
    end
  end.
Proof.
  intros Hinv. pose proof (Merge_run prID now w Hinv) as Hrun.
  assert (Storage.GetPullRequest prID (store w)
          = match Storage.pull_requests (store w) !! prID with
            | Some row => Ok (Storage.scan_pull_request (store w) (prID, row))
            | None => Err (NewNotFoundError ("pull request " +:+ prID))
            end) as -> by done.
  destruct (Storage.pull_requests (store w) !! prID) as [row|] eqn:Hrow;
    [|by rewrite Hrun].
  cbv zeta in Hrun. set (before := Storage.scan_pull_request (store w) (prID, row)) in *.
  destruct (decide (PullRequest.Status before = PullRequestStatusMERGED)) as [Hm|Hm].
  { rewrite Hrun. exists before, before. unfold Storage.GetPullRequest.
    rewrite Hrow, decide_True by done. split_and!; [done|left; done|done..]. }
  destruct Hrun as (Hnd & Hne & Hrun).
  destruct (decide (length (PullRequest.AssignedReviewers before) ≤ 2)) as [Hlen|Hlen].
  2: { rewrite Hrun. cbn [store users trace emit]. split_and!; [done|done|done|lia|done..]. }
  destruct Hrun as (db' & tr & Hsave & ->).
  apply SavePullRequest_read_back in Hsave
    as [(got & Hgot & Hp & Hstatus & Hau & Hname & _) Hother]; [|done..].
  exists before, got. rewrite decide_False by done. cbn [store].
  split_and!; [done|right; done|done..].
Qed.

(** [Reassign] on the server: the team of a reviewer is always found, and
    saving the request fails exactly when the stored request has more than
    two reviewer rows. *)
Lemma Reassign_run (oldUserId prId : string) (w : World Storage.Tables) :
  running_inv w →
  match Storage.pull_requests (store w) !! prId with
  | None => main.Reassign oldUserId prId w = (Err (NewNotFoundError "pull request"), w)
  | Some row =>
    let pr := Storage.scan_pull_request (store w) (prId, row) in
    if decide (PullRequest.Status pr = PullRequestStatusMERGED)
    then main.Reassign oldUserId prId w = (Err (NewPRMergedError prId), w)
    else if decide (oldUserId ∈ PullRequest.AssignedReviewers pr)
    then
      ∃ teamName w1,
        UserManager.GetUserTeam main.userManager oldUserId w = (Ok teamName, w1) ∧
        match UserManager.FindReplacementReviewer teamName
                (PullRequest.AssignedReviewers pr ++ [oldUserId]) (users w1) with
        | Err _ =>
          main.Reassign oldUserId prId w = (Err (NewNoCandidateError prId), w1) ∧
          ∀ k member, users w1 !! k = Some member → User.TeamName member = teamName →
                      User.IsActive member = true →
                      User.UserId member ∈ PullRequest.AssignedReviewers pr
        | Ok new =>
          let after := filter (λ reviewerID, reviewerID ≠ oldUserId)
                              (PullRequest.AssignedReviewers pr) ++ [new] in
          let saved := PullRequest.with_AssignedReviewers after pr in
          NoDup after ∧ ("" ∉ after) ∧
          if decide (length (PullRequest.AssignedReviewers pr) ≤ 2)
          then
            ∃ db' tr,
              Storage.SavePullRequest saved (store w) = Ok db' ∧
              main.Reassign oldUserId prId w
              = (Ok (ReassignResponse.mk saved new), mkWorld db' (users w1) tr)
          else
            main.Reassign oldUserId prId w
            = (Err (Wrapf "failed to save reassigned pull request: "
                      (Errorf "assigned reviewers count must be <= 2")),
               emit (CallSavePullRequest saved) w1)
        end
    else main.Reassign oldUserId prId w = (Err (NewNotAssignedError prId), w)
  end.
Proof.
  intros Hinv. unfold main.Reassign, PullRequestManager.Reassign.
  rewrite load_pull_request_stored.
  destruct (Storage.pull_requests (store w) !! prId) as [row|] eqn:Hrow; [|done].
  cbv zeta. set (pr := Storage.scan_pull_request (store w) (prId, row)).
  destruct (decide (PullRequest.Status pr = PullRequestStatusMERGED)) as [Hm|Hm]; [done|].
  destruct (decide (oldUserId ∈ PullRequest.AssignedReviewers pr)) as [Hold|Hold].
  2: { by rewrite bool_decide_eq_false_2. }
  rewrite bool_decide_eq_true_2 by done. cbn [negb].
  destruct (running_inv_reviewers w prId Hinv) as (Hnd & Husers).
  assert (PullRequest.AssignedReviewers pr ≡ₚ Storage.reviewers_of prId (store w))
    as Hperm by apply Storage.order_by_perm.
  rewrite <- Hperm in Hnd. setoid_rewrite <- Hperm in Husers.
  pose proof (GetUserTeam_running_inv oldUserId w Hinv) as Hinv1.
  pose proof (GetUserTeam_world main.userManager oldUserId w) as [Hstore1 Htrace1].
  destruct (UserManager.GetUserTeam main.userManager oldUserId w) as [[teamName|err] w1]
    eqn:Hteam; cbn [fst snd] in *.
  2: { exfalso. rewrite GetUserTeam_stored in Hteam.
       destruct (users w !! oldUserId); [done|].
       apply Husers in Hold as [Hold _]. apply elem_of_dom in Hold as [r Hr].
       by rewrite Hr in Hteam. }
  exists teamName, w1. split; [done|].
  destruct (UserManager.FindReplacementReviewer _ _ _) as [new|err] eqn:Hfind.
  2: { apply FindReplacementReviewer_Err in Hfind as [-> Hnone].
       cbn [errors_Is]. rewrite bool_decide_eq_true_2 by done. split; [done|].
       intros k member Hk Ht Ha. specialize (Hnone k member Hk Ht Ha).
       apply elem_of_app in Hnone as [?|Heq%list_elem_of_singleton]; [done|].
       by rewrite Heq. }
  apply FindReplacementReviewer_Ok in Hfind
    as (Hnew & k & member & Hk & Hid & _).
  apply (running_inv_cached w1) in Hk as (Hid' & Hd & Hne & _); [|done].
  assert (new = k) as -> by congruence. rewrite Hstore1 in Hd.
  rewrite elem_of_app, list_elem_of_singleton in Hnew.
  set (after := filter (λ reviewerID, reviewerID ≠ oldUserId)
                       (PullRequest.AssignedReviewers pr) ++ [k]).
  set (saved := PullRequest.with_AssignedReviewers after pr).
  assert (NoDup after) as Hnd'.
  { apply NoDup_app. split_and!; [by apply NoDup_filter| |apply NoDup_singleton].
    intros x [_ Hx]%list_elem_of_filter ->%list_elem_of_singleton. tauto. }
  assert (∀ r, r ∈ after → r ∈ dom (Storage.users (store w)) ∧ r ≠ "") as Hafter.
  { intros r [[_ Hr]%list_elem_of_filter|Heq%list_elem_of_singleton]%elem_of_app;
      [by apply Husers|by rewrite Heq]. }
  assert (length after = length (PullRequest.AssignedReviewers pr)) as Hafter_len.
  { unfold after. rewrite length_app. cbn [length].
    by rewrite Nat.add_1_r, (length_filter_remove_one oldUserId). }
  split_and!; [done|by intros [_ ?]%Hafter|].
  unfold call_write.
  cbn [Repository.SavePullRequest Storage.pullRequestRepository store emit].
  fold after saved. rewrite Hstore1.
  destruct (decide (length (PullRequest.AssignedReviewers pr) ≤ 2)) as [Hlen|Hlen].
  - destruct (SavePullRequest_Ok_intro saved (store w)) as [db' Hsave].
    { unfold saved.
      cbn [PullRequest.with_AssignedReviewers PullRequest.AssignedReviewers]. lia. }
    { by eapply running_inv_author. }
    { intros r Hr. by apply Hafter. }
    rewrite Hsave. by eexists _, _.
  - unfold Storage.SavePullRequest. rewrite bool_decide_eq_true_2.
    + unfold emit. by rewrite Hstore1.
    + unfold saved.
      cbn [PullRequest.with_AssignedReviewers PullRequest.AssignedReviewers]. lia.
Qed.

(** [Reassign] on the server, in whatever state the requests served so far
    and those in flight have left it.  It fails with one of four domain
    errors, checked in this order, and then it has written nothing: the
    request is not stored; it is merged (whoever the user is); the user is
    not one of its reviewers; or every active user that the cache holds for
    the team of the user is a reviewer of the request already.  It fails as
    well when a replacement is found for a request with more than two
    reviewer rows: saving it is refused, the error wraps no sentinel, and
    nothing is stored.  When it succeeds the request had at most two
    reviewers and is stored, still not merged, with the reviewers returned:
    the old one is gone and the replacement is there; every other request
    reads as before. *)
Theorem Reassign_failures (oldUserId prId : string) (w : World Storage.Tables) :
  running_inv w →
  match main.Reassign oldUserId prId w with
  | (Ok resp, w') =>
    ∃ before got,
      Storage.GetPullRequest prId (store w) = Ok before ∧
      length (PullRequest.AssignedReviewers before) ≤ 2 ∧
      Storage.GetPullRequest prId (store w') = Ok got ∧
      PullRequest.AssignedReviewers got
        ≡ₚ PullRequest.AssignedReviewers (ReassignResponse.PR resp) ∧
      (oldUserId ∉ PullRequest.AssignedReviewers got) ∧
      ReassignResponse.ReplacedBy resp ∈ PullRequest.AssignedReviewers got ∧
      PullRequest.Status got ≠ PullRequestStatusMERGED ∧
      (∀ other, other ≠ prId →
                Storage.GetPullRequest other (store w')
                = Storage.GetPullRequest other (store w))
  | (Err err, w') =>
    store w' = store w ∧
    match Storage.GetPullRequest prId (store w) with
    | Err _ => err = NewNotFoundError "pull request" ∧ w' = w
    | Ok pr =>
      if decide (PullRequest.Status pr = PullRequestStatusMERGED)
      then err = NewPRMergedError prId ∧ w' = w
      else if decide (oldUserId ∈ PullRequest.AssignedReviewers pr)
      then
        ∃ teamName,
          (UserManager.GetUserTeam main.userManager oldUserId w).1 = Ok teamName ∧
          ((err = NewNoCandidateError prId ∧ trace w' = trace w ∧
            ∀ k member, users w' !! k = Some member → User.TeamName member = teamName →
                        User.IsActive member = true →
                        User.UserId member ∈ PullRequest.AssignedReviewers pr) ∨
           (2 < length (PullRequest.AssignedReviewers pr) ∧
            err = Wrapf "failed to save reassigned pull request: "
                    (Errorf "assigned reviewers count must be <= 2") ∧
            wrapped_sentinel err = None ∧
            ∃ saved, trace w' = trace w ++ [CallSavePullRequest saved] ∧
                     length (PullRequest.AssignedReviewers saved)
                     = length (PullRequest.AssignedReviewers pr)))
      else err = NewNotAssignedError prId ∧ w' = w
    end
  end.
Proof.
  intros Hinv. pose proof (Reassign_run oldUserId prId w Hinv) as Hrun.
  assert (Storage.GetPullRequest prId (store w)
          = match Storage.pull_requests (store w) !! prId with
            | Some row => Ok (Storage.scan_pull_request (store w) (prId, row))
            | None => Err (NewNotFoundError ("pull request " +:+ prId))
            end) as -> by done.
  destruct (Storage.pull_requests (store w) !! prId) as [row|] eqn:Hrow;
    [|by rewrite Hrun].
  cbv zeta in Hrun. set (pr := Storage.scan_pull_request (store w) (prId, row)) in *.
  destruct (decide (PullRequest.Status pr = PullRequestStatusMERGED)) as [Hm|Hm];
    [by rewrite Hrun|].
  destruct (decide (oldUserId ∈ PullRequest.AssignedReviewers pr)) as [Hold|Hold];
    [|by rewrite Hrun].
  destruct Hrun as (teamName & w1 & Hteam & Hrun).
  pose proof (GetUserTeam_world main.userManager oldUserId w) as [Hstore1 Htrace1].
  rewrite Hteam in Hstore1, Htrace1. cbn [snd] in *.
  destruct (UserManager.FindReplacementReviewer _ _ _) as [new|err] eqn:Hfind.
  2: { destruct Hrun as [-> Hnone]. split; [done|]. exists teamName.
       rewrite Hteam. split; [done|]. by left. }
  cbv zeta in Hrun. destruct Hrun as (Hnd & Hne & Hrun).
  destruct (decide (length (PullRequest.AssignedReviewers pr) ≤ 2)) as [Hlen|Hlen].
  2: { rewrite Hrun. cbn [store emit trace]. split; [done|]. exists teamName.
       rewrite Hteam. split; [done|]. right. split_and!; [lia|done|done|].
       eexists. split; [by rewrite Htrace1|].
       cbn [PullRequest.with_AssignedReviewers PullRequest.AssignedReviewers].
       rewrite length_app. cbn [length].
       rewrite Nat.add_1_r, (length_filter_remove_one oldUserId); [done| |done].
       unfold pr. cbn [Storage.scan_pull_request PullRequest.AssignedReviewers fst].
       rewrite Storage.order_by_perm.
       by apply reviewers_of_NoDup, Hinv. }
  destruct Hrun as (db' & tr & Hsave & ->).
  apply SavePullRequest_read_back in Hsave
    as [(got & Hgot & Hp & Hstatus & _) Hother]; [|done..].
  exists pr, got. cbn [store ReassignResponse.PR ReassignResponse.ReplacedBy].
  split_and!; [done|done|done|done| | |by rewrite Hstatus|done].
  - rewrite Hp. cbn [PullRequest.with_AssignedReviewers PullRequest.AssignedReviewers].
    rewrite elem_of_app, list_elem_of_filter, list_elem_of_singleton.
    intros [[? _]|Heq]; [done|]. subst new.
    apply FindReplacementReviewer_Ok in Hfind as [Hnew _].
    apply Hnew. apply elem_of_app. right. by apply list_elem_of_singleton.
  - rewrite Hp. cbn [PullRequest.with_AssignedReviewers PullRequest.AssignedReviewers].
    rewrite elem_of_app, list_elem_of_singleton. by right.
Qed.

End running.

(** ** Teams and users of the running system *)

Section running_directory.
Context {go : Golang} {pg : Storage.Postgres}.

(** With the team stored, the upserts of its members cannot fail. *)
Lemma CreateTeamWithMembers_users_total (new : list User.t) (db : Storage.Tables) :
  Forall (λ user, User.TeamName user = "" ∨ User.TeamName user ∈ Storage.teams db) new →
  ∃ db', Storage.CreateTeamWithMembers_users new db = Ok db'.
Proof.
  revert db. induction new as [|user new IH]; intros db Hall; [by eexists|].
  apply Forall_cons in Hall as [Hteam Hall]. cbn [Storage.CreateTeamWithMembers_users].
  assert (∃ db1, Storage.upsert_user user db = Ok db1 ∧ Storage.teams db1 = Storage.teams db)
    as (db1 & -> & Hteams).
  { unfold Storage.upsert_user, Storage.nullif_empty.
    destruct (decide (User.TeamName user = "")) as [|Hne]; [by eexists|].
    destruct Hteam as [|Hin]; [done|]. rewrite bool_decide_eq_true_2 by done. by eexists. }
  apply IH. by rewrite Hteams.
Qed.

(** [AddTeam] with the PostgreSQL repository: the payload check, then the
    transaction, which fails only on a stored team name. *)
Lemma AddTeam_run (team : Team.t) (w : World Storage.Tables) :
  let valid := NoDup (TeamMember.UserId <$> Team.Members team) ∧
               Forall (λ m, TeamMember.UserId m ≠ "") (Team.Members team) in
  let new := (λ m, ConvertTmToUser m (Team.TeamName team)) <$> Team.Members team in
  match main.AddTeam team w with
  | (None, w') =>
    valid ∧ (Team.TeamName team ∉ Storage.teams (store w)) ∧
    Storage.teams (store w') = {[Team.TeamName team]} ∪ Storage.teams (store w) ∧
    Storage.users (store w') = insert_all User.UserId user_row (Storage.users (store w)) new ∧
    users w' = insert_all User.UserId id (users w) new ∧
    trace w' = trace w ++ [CallCreateTeamWithMembers team new]
  | (Some err, w') =>
    store w' = store w ∧ users w' = users w ∧
    if decide valid
    then Team.TeamName team ∈ Storage.teams (store w) ∧
         err = Wrapf ("failed to persist team " +:+ Team.TeamName team +:+ ": ")
                     (NewTeamExistsError (Team.TeamName team)) ∧
         trace w' = trace w ++ [CallCreateTeamWithMembers team new]
    else wrapped_sentinel err = None ∧ w' = w
  end.
Proof.
  intros valid new. unfold main.AddTeam, UserManager.AddTeam, main.userManager.
  destruct (UserManager.AddTeam_validate 0 ∅ (Team.Members team)) as [err|] eqn:Hvalid.
  { split_and!; [done..|]. rewrite decide_False.
    - split; [|done]. clear -Hvalid. revert Hvalid.
      generalize 0 (∅ : gset string). induction (Team.Members team) as [|m ms IH];
        intros i seen; cbn [UserManager.AddTeam_validate]; [done|].
      destruct (decide _); [by intros [= <-]|]. destruct (decide _); [by intros [= <-]|].
      apply IH.
    - intros [Hnd Hne].
      assert (UserManager.AddTeam_validate 0 ∅ (Team.Members team) = None) as Hnone.
      { apply AddTeam_validate_None. split; [done|].
        eapply Forall_impl; [done|]. set_solver. }
      by rewrite Hnone in Hvalid. }
  apply AddTeam_validate_None in Hvalid as [Hnd Hne].
  assert (valid) as Hv.
  { split; [done|]. eapply Forall_impl; [done|]. naive_solver. }
  unfold call_write.
  cbn [Repository.CreateTeamWithMembers Storage.userTeamRepository store emit].
  fold new. unfold Storage.CreateTeamWithMembers.
  case_bool_decide as Hexists.
  { split_and!; [done..|]. by rewrite decide_True. }
  set (db1 := Storage.mkTables _ _ _ _).
  destruct (CreateTeamWithMembers_users_total new db1) as [db' Hcreate].
  { apply Forall_fmap, Forall_forall. intros m _. right. cbn. set_solver. }
  rewrite Hcreate.
  apply CreateTeamWithMembers_users_Ok in Hcreate as [Hteams Husers].
  cbn [store users trace with_store with_users]. done.
Qed.

(** [AddTeam] with the PostgreSQL repository succeeds exactly when the
    member ids are not empty and all different and the team name is not
    stored yet.  A payload with an empty or a repeated id is refused before
    anything is written, with an error that wraps no sentinel; a stored team
    name is refused by [CreateTeamWithMembers] with [ErrTeamExists]; in both
    cases the tables and the cache stay as they were.  After a success the
    team is stored, each member is a row of the users table, and each is
    cached with the team name of the payload. *)
Theorem AddTeam_succeeds_iff (team : Team.t) (w : World Storage.Tables) :
  let valid := NoDup (TeamMember.UserId <$> Team.Members team) ∧
               Forall (λ m, TeamMember.UserId m ≠ "") (Team.Members team) in
  ((main.AddTeam team w).1 = None ↔
   valid ∧ Team.TeamName team ∉ Storage.teams (store w)) ∧
  match main.AddTeam team w with
  | (None, w') =>
    Storage.teams (store w') = {[Team.TeamName team]} ∪ Storage.teams (store w) ∧
    dom (Storage.users (store w'))
    = list_to_set (TeamMember.UserId <$> Team.Members team) ∪ dom (Storage.users (store w)) ∧
    (∀ m, m ∈ Team.Members team →
          users w' !! TeamMember.UserId m = Some (ConvertTmToUser m (Team.TeamName team)) ∧
          Storage.GetUser (TeamMember.UserId m) (store w')
          = Ok (ConvertTmToUser m (Team.TeamName team)))
  | (Some err, w') =>
    store w' = store w ∧ users w' = users w ∧
    wrapped_sentinel err = (if decide valid then Some ErrTeamExists else None)
  end.
Proof.
  intros valid. pose proof (AddTeam_run team w) as Hrun. cbv zeta in Hrun. fold valid in Hrun.
  set (new := (λ m, ConvertTmToUser m (Team.TeamName team)) <$> Team.Members team) in *.
  destruct (main.AddTeam team w) as [[err|] w']; cbn [fst].
  - destruct Hrun as (Hs & Hu & Hrest). split.
    + split; [done|]. intros [Hv Hnew]. rewrite decide_True in Hrest by done. tauto.
    + split_and!; [done..|]. destruct (decide valid); [by destruct Hrest as (_ & -> & _)|].
      by destruct Hrest.
  - destruct Hrun as (Hv & Hnew & Hteams & Husers & Hcache & _). split; [done|].
    assert (NoDup (User.UserId <$> new)) as Hnd.
    { unfold new. rewrite ConvertTmToUser_ids. apply Hv. }
    split_and!; [done| |].
    + rewrite Husers, insert_all_dom. unfold new. by rewrite ConvertTmToUser_ids.
    + intros m Hm.
      assert (ConvertTmToUser m (Team.TeamName team) ∈ new) as Hin.
      { apply list_elem_of_fmap. by exists m. }
      split.
      * rewrite Hcache.
        apply (insert_all_lookup User.UserId id (users w) new _ Hnd Hin).
      * unfold Storage.GetUser. rewrite Husers.
        pose proof (insert_all_lookup User.UserId user_row (Storage.users (store w)) new
                      (ConvertTmToUser m (Team.TeamName team)) Hnd Hin) as Hrow.
        cbn [User.UserId ConvertTmToUser] in Hrow. rewrite Hrow.
        unfold Storage.scan_user, user_row, Storage.nullif_empty. cbn.
        by destruct (decide (Team.TeamName team = "")) as [->|]; destruct m.
Qed.

(** On the running system [GetTeam] answers from the store: for a stored
    team, with the users that the users table holds for it, their activity
    as stored; for a name that is not stored and not empty, with
    [ErrNotFound], since no cached user can carry such a name and the
    reconstruction from the cache finds nobody. *)
Theorem GetTeam_answers_from_the_store (teamName : string) (w : World Storage.Tables) :
  system_inv w → teamName ≠ "" →
  match main.GetTeam teamName w with
  | Ok team =>
    teamName ∈ Storage.teams (store w) ∧ Team.TeamName team = teamName ∧
    NoDup (TeamMember.UserId <$> Team.Members team) ∧
    ∀ m, m ∈ Team.Members team ↔
         ∃ row, Storage.users (store w) !! TeamMember.UserId m = Some row ∧
                Storage.team_name row = Some teamName ∧
                m = TeamMember.mk (Storage.is_active row) (TeamMember.UserId m)
                      (Storage.username row)
  | Err err => (teamName ∉ Storage.teams (store w)) ∧ err = NewNotFoundError "team"
  end.
Proof.
  intros Hinv Hne. unfold main.GetTeam, UserManager.GetTeam, main.userManager.
  cbn [Repository.GetTeam Storage.userTeamRepository]. unfold Storage.GetTeam.
  case_bool_decide as Hstored.
  - split_and!; [done|done| |].
    + cbn [Team.Members].
      assert ((TeamMember.UserId <$>
                 (Storage.convertUserToTeamMember <$>
                    Storage.GetAllUsersInTeam teamName (store w)))
              ≡ₚ (filter (λ entry, Storage.team_name entry.2 = Some teamName)
                         (map_to_list (Storage.users (store w)))).*1) as ->.
      { unfold Storage.GetAllUsersInTeam.
        rewrite <- list_fmap_compose, Storage.order_by_perm, <- list_fmap_compose. done. }
      eapply sublist_NoDup; [apply (NoDup_fst_map_to_list (Storage.users (store w)))|].
      apply fmap_sublist, sublist_filter.
    + intros m. cbn [Team.Members]. unfold Storage.GetAllUsersInTeam. split.
      * intros (user & -> & Huser)%list_elem_of_fmap.
        rewrite Storage.order_by_perm in Huser.
        apply list_elem_of_fmap in Huser as ([k row] & -> & Hentry).
        apply list_elem_of_filter in Hentry as [Hteam Hrow%elem_of_map_to_list].
        exists row. by cbn.
      * intros (row & Hrow & Hteam & Hm). apply list_elem_of_fmap.
        exists (Storage.scan_user (TeamMember.UserId m, row)).
        split; [by rewrite Hm at 1|].
        rewrite Storage.order_by_perm. apply list_elem_of_fmap.
        exists (TeamMember.UserId m, row). split; [done|].
        apply list_elem_of_filter. split; [done|by apply elem_of_map_to_list].
  - cbn [errors_Is NewNotFoundError]. rewrite bool_decide_eq_true_2 by done. cbn [negb].
    unfold UserManager.GetTeam_from_cache. rewrite filter_none.
    + done.
    + apply Forall_forall. intros user ([k u] & -> & Hku)%list_elem_of_fmap Hteam.
      rewrite range_users_perm in Hku. apply elem_of_map_to_list in Hku.
      apply (system_inv_cached w) in Hku as (_ & _ & _ & Ht); [|done].
      cbn in Hteam. destruct Ht as [Ht|Ht]; congruence.
Qed.

(** [GetUserTeam] with the PostgreSQL repository reads through the cache.
    A cached user answers for itself, whatever the store holds; a user that
    is not cached is read from the users table and cached as read, with the
    empty string for the team of a user without one; a user that is in
    neither is reported as not found and nothing changes.  After an answer
    a second call gives the same answer and changes nothing.  The store and
    the trace are never touched. *)
Theorem GetUserTeam_reads_through (userID : string) (w : World Storage.Tables) :
  let r := (UserManager.GetUserTeam main.userManager userID w).1 in
  let w' := (UserManager.GetUserTeam main.userManager userID w).2 in
  store w' = store w ∧ trace w' = trace w ∧
  match r with
  | Ok teamName =>
    (∃ user, users w' !! userID = Some user ∧ User.TeamName user = teamName) ∧
    (∀ user, users w !! userID = Some user → User.TeamName user = teamName ∧ w' = w) ∧
    (users w !! userID = None →
     ∃ row, Storage.users (store w) !! userID = Some row ∧
            teamName = default "" (Storage.team_name row) ∧
            users w' = <[userID := Storage.scan_user (userID, row)]> (users w)) ∧
    UserManager.GetUserTeam main.userManager userID w' = (Ok teamName, w')
  | Err err =>
    err = NewNotFoundError "user" ∧ w' = w ∧
    users w !! userID = None ∧ Storage.users (store w) !! userID = None
  end.
Proof.
  cbv zeta.
  destruct (UserManager.GetUserTeam main.userManager userID w) as [r w'] eqn:Hrun.
  cbn [fst snd]. rewrite GetUserTeam_stored in Hrun.
  destruct (users w !! userID) as [user|] eqn:Hcached.
  { injection Hrun as <- <-. split_and!; [done|done| | |done|].
    - by exists user.
    - by intros ? [= <-].
    - by rewrite GetUserTeam_stored, Hcached. }
  destruct (Storage.users (store w) !! userID) as [row|] eqn:Hrow.
  2: { by injection Hrun as <- <-. }
  injection Hrun as <- <-.
  cbn [store trace users with_users]. split_and!; [done|done| |done| |].
  - rewrite lookup_insert_eq. by eexists.
  - intros _. by exists row.
  - rewrite GetUserTeam_stored. cbn [users with_users]. by rewrite lookup_insert_eq.
Qed.

(** On the running system [SetUserActivity] fails only for a user that is
    not cached, even one that is stored, and then nothing has happened:
    the write cannot fail.  Otherwise the flag is set and the user is then
    the same in the cache and in the users table. *)
Theorem SetUserActivity_fails_only_for_uncached (userID : string) (isActive : bool)
    (w : World Storage.Tables) :
  system_inv w →
  match main.SetUserActivity userID isActive w with
  | (Ok user, w') =>
    ∃ before,
      users w !! userID = Some before ∧
      user = User.with_IsActive isActive before ∧
      users w' = <[userID := user]> (users w) ∧
      Storage.GetUser userID (store w') = Ok user ∧
      (∀ other, other ≠ userID →
                Storage.GetUser other (store w') = Storage.GetUser other (store w)) ∧
      trace w' = trace w ++ [CallSaveUser user]
  | (Err err, w') =>
    w' = w ∧ users w !! userID = None ∧ err = NewNotFoundError "user"
  end.
Proof.
  intros Hinv. unfold main.SetUserActivity, UserManager.SetUserActivity, main.userManager.
  destruct (users w !! userID) as [before|] eqn:Hcached; [|done].
  apply (system_inv_cached w) in Hcached as (Hid & _ & _ & Hteam); [|done].
  unfold call_write.
  cbn [Repository.SaveUser Storage.userTeamRepository store emit with_users].
  unfold Storage.SaveUser, Storage.upsert_user, Storage.nullif_empty.
  cbn [User.with_IsActive User.TeamName User.UserId User.Username User.IsActive].
  assert ((match (if decide (User.TeamName before = "") then None
                  else Some (User.TeamName before)) with
           | Some t => bool_decide (t ∈ Storage.teams (store w))
           | None => true
           end) = true) as ->.
  { destruct (decide _); [done|]. destruct Hteam; [done|]. by apply bool_decide_eq_true_2. }
  exists before. cbn [store users trace with_store].
  split_and!; [done|done|done| | |done].
  - unfold Storage.GetUser. cbn [Storage.users]. rewrite Hid, lookup_insert_eq.
    unfold Storage.scan_user. cbn. destruct before as [a t i n]. cbn in *. subst i.
    by destruct (decide (t = "")) as [->|].
  - intros other Hne. unfold Storage.GetUser. cbn [Storage.users].
    rewrite lookup_insert_ne; [done|]. by rewrite Hid.
Qed.

End running_directory.

(** ** Bulk deactivation: the targets and their replacements *)

Section bulk_plan.
Import PullRequestManager.

(** The draws of the inner loop: each replacement was available in the
    pool and is not afterwards, is not a reviewer of the request nor drawn
    for it before, and no replacement is drawn twice. *)
Lemma plan_reviewers_draws (prID : string) (targetSet : gset string)
    (reviewers : list string) (assigned : gset string)
    (repl repl' : list ReviewerReplacement.t) (st st' : planState) :
  pool_wf (pool st) →
  plan_reviewers prID targetSet reviewers assigned repl st = Some (repl', st') →
  pool_wf (pool st') ∧
  ∃ added,
    swaps st' = swaps st ++ added ∧
    available (pool st')
    = available (pool st) ∖ list_to_set (ReviewerSwap.NewUserId <$> added) ∧
    NoDup (ReviewerSwap.NewUserId <$> added) ∧
    Forall (λ s, ReviewerSwap.NewUserId s ∈ available (pool st) ∧
                 (ReviewerSwap.NewUserId s ∉ assigned) ∧
                 ReviewerSwap.PullRequestId s = prID ∧
                 ReviewerSwap.OldUserId s ∈ reviewers ∧
                 ReviewerSwap.OldUserId s ∈ targetSet) added.
Proof.
  revert assigned repl st.
  induction reviewers as [|reviewer reviewers IH]; intros assigned repl st Hwf;
    cbn [plan_reviewers].
  { intros [= <- <-]. split; [done|]. exists []. rewrite app_nil_r.
    split_and!; [done|set_solver|constructor|constructor]. }
  destruct (decide (reviewer ∈ targetSet)) as [Htarget|Htarget].
  2: { intros Hrun. apply IH in Hrun as (Hwf' & added & ? & ? & ? & Hall); [|done].
       split; [done|]. exists added. split_and!; [done..|].
       eapply Forall_impl; [done|]. cbn. intros s (? & ? & ? & ? & ?).
       split_and!; [done..|by right|done]. }
  pose proof (take_spec assigned (pool st) Hwf) as Htake.
  pose proof (take_wf assigned (pool st) Hwf) as Hwf1.
  destruct (take assigned (pool st)) as [[new|] p] eqn:Hdraw; [|done].
  destruct Htake as (Hnew & Hav & Hav' & _). cbn [snd] in Hwf1.
  intros Hrun. apply IH in Hrun as (Hwf' & added & Hswaps & Havail & Hnd & Hall); [|done].
  cbn [pool swaps] in *. split; [done|].
  exists (ReviewerSwap.mk prID reviewer new :: added).
  rewrite Hswaps, <- app_assoc, fmap_cons. cbn [ReviewerSwap.NewUserId]. split_and!.
  - done.
  - rewrite Havail, Hav'. set_solver.
  - apply NoDup_cons. split; [|done]. intros Hin.
    apply list_elem_of_fmap in Hin as (s & Heq & Hs).
    eapply Forall_forall in Hall as (Hin & _); [|done].
    rewrite <- Heq, Hav' in Hin. set_solver.
  - constructor.
    + cbn. split_and!; [done|done|done|by left|done].
    + eapply Forall_impl; [done|]. cbn. intros s (Hin & Hnin & ? & ? & ?).
      rewrite Hav' in Hin. split_and!; [set_solver|set_solver|done|by right|done].
Qed.

(** The draws of the whole plan. *)
Lemma plan_pull_requests_draws (targetSet : gset string) (openPRs : list PullRequest.t)
    (st st' : planState) :
  pool_wf (pool st) →
  plan_pull_requests targetSet openPRs st = Ok st' →
  pool_wf (pool st') ∧
  ∃ added,
    swaps st' = swaps st ++ added ∧
    available (pool st')
    = available (pool st) ∖ list_to_set (ReviewerSwap.NewUserId <$> added) ∧
    NoDup (ReviewerSwap.NewUserId <$> added) ∧
    Forall (λ s, ReviewerSwap.NewUserId s ∈ available (pool st) ∧
                 ReviewerSwap.OldUserId s ∈ targetSet ∧
                 ∃ pr, pr ∈ openPRs ∧
                       PullRequest.PullRequestId pr = ReviewerSwap.PullRequestId s ∧
                       ReviewerSwap.OldUserId s ∈ PullRequest.AssignedReviewers pr ∧
                       ReviewerSwap.NewUserId s ∉ PullRequest.AssignedReviewers pr) added.
Proof.
  revert st. induction openPRs as [|pr openPRs IH]; intros st Hwf; cbn [plan_pull_requests].
  { intros [= <-]. split; [done|]. exists []. rewrite app_nil_r.
    split_and!; [done|set_solver|constructor|constructor]. }
  destruct (plan_reviewers _ _ _ _ _ _) as [[replacementsForPR st1]|] eqn:Hinner; [|done].
  apply plan_reviewers_draws in Hinner as (Hwf1 & added1 & Hs1 & Hav1 & Hnd1 & Hall1);
    [|done].
  intros Hrest.
  set (st2 := if bool_decide (0 < length replacementsForPR) then _ else st1) in Hrest.
  assert (pool st2 = pool st1 ∧ swaps st2 = swaps st1) as [Hp2 Hs2].
  { unfold st2. by destruct (bool_decide _). }
  apply IH in Hrest as (Hwf' & added2 & Hs' & Hav' & Hnd2 & Hall2); [|by rewrite Hp2].
  rewrite Hp2 in Hav', Hall2. rewrite Hs2 in Hs'.
  split; [done|]. exists (added1 ++ added2).
  rewrite Hs', Hs1, <- app_assoc, fmap_app. split_and!.
  - done.
  - rewrite Hav', Hav1, list_to_set_app_L. set_solver.
  - apply NoDup_app. split_and!; [done| |done].
    intros x Hx1 Hx2. apply list_elem_of_fmap in Hx2 as (s & -> & Hs).
    eapply Forall_forall in Hall2 as (Hin & _); [|done].
    rewrite Hav1 in Hin. apply elem_of_difference in Hin as [_ Hin].
    by rewrite elem_of_list_to_set in Hin.
  - apply Forall_app. split.
    + eapply Forall_impl; [done|]. cbn. intros s (Hin & Hnin & Hid & Hold & Ht).
      split_and!; [done|done|]. exists pr. split_and!; [by left|done|done|].
      intros Hr. apply Hnin. by apply elem_of_list_to_set.
    + eapply Forall_impl; [done|]. cbn. intros s (Hin & Ht & pr' & Hpr' & Hrest).
      rewrite Hav1 in Hin. split_and!; [set_solver|done|].
      exists pr'. split; [by right|done].
Qed.

Lemma collectReplacementCandidates_elem_of (members : list TeamMember.t)
    (targetSet : gset string) (id : string) :
  id ∈ collectReplacementCandidates members targetSet ↔
  (id ∉ targetSet) ∧
  ∃ m, m ∈ members ∧ TeamMember.UserId m = id ∧ TeamMember.IsActive m = true.
Proof.
  unfold collectReplacementCandidates. rewrite list_elem_of_fmap.
  setoid_rewrite list_elem_of_filter. naive_solver.
Qed.

(** [ensureTargetsInTeam] passes exactly when every target is the id of a
    member, and otherwise names the first target that is not. *)
Lemma ensureTargetsInTeam_spec (targets : list string) (members : list TeamMember.t) :
  match ensureTargetsInTeam targets members with
  | None => Forall (λ id, id ∈ TeamMember.UserId <$> members) targets
  | Some err =>
    ∃ before id after,
      targets = before ++ id :: after ∧
      Forall (λ id, id ∈ TeamMember.UserId <$> members) before ∧
      (id ∉ TeamMember.UserId <$> members) ∧
      err = NewNotFoundError ("user " +:+ id)
  end.
Proof.
  unfold ensureTargetsInTeam.
  destruct (list_find _ targets) as [[i id]|] eqn:Hfind.
  - apply list_find_Some in Hfind as (Hi & Hid & Hbefore).
    rewrite elem_of_list_to_set in Hid.
    exists (firstn i targets), id, (skipn (S i) targets). split_and!; [|..|done|done].
    + by rewrite take_drop_middle.
    + apply Forall_forall. intros x Hx. apply elem_of_take in Hx as (j & Hj & Hlt).
      destruct (decide (x ∈ TeamMember.UserId <$> members)) as [|Hnin]; [done|].
      exfalso. apply (Hbefore j x Hj Hlt). by rewrite elem_of_list_to_set.
  - apply list_find_None in Hfind. eapply Forall_impl; [done|]. cbn. intros id Hid.
    rewrite elem_of_list_to_set in Hid.
    by destruct (decide (id ∈ TeamMember.UserId <$> members)) as [|Hnin]; [|destruct Hid].
Qed.

End bulk_plan.

Section bulk.
Import PullRequestManager.
Context {DB : Type} {go : Golang} {prRepo : Repository.PullRequestRepository DB}.
Variable userRepo : option (Repository.UserTeamRepository DB).

(** A target that is not a member of the team stops the bulk deactivation
    before anything is planned or written: the call fails with an error
    that wraps [ErrNotFound] and names the first such target, in the order
    of the normalised list, and the world is the one it started from. *)
Theorem BulkDeactivateTeamMembers_unknown_target (teamName : string)
    (userIDs : list string) (w : World DB) (team : Team.t) :
  TrimSpace teamName ≠ "" →
  spec_normalize userIDs ≠ [] →
  UserManager.GetTeam userRepo (TrimSpace teamName) w = Ok team →
  ¬ Forall (λ id, id ∈ TeamMember.UserId <$> Team.Members team) (spec_normalize userIDs) →
  ∃ before id after,
    spec_normalize userIDs = before ++ id :: after ∧
    Forall (λ id, id ∈ TeamMember.UserId <$> Team.Members team) before ∧
    (id ∉ TeamMember.UserId <$> Team.Members team) ∧
    wrapped_sentinel (NewNotFoundError ("user " +:+ id)) = Some ErrNotFound ∧
    BulkDeactivateTeamMembers userRepo teamName userIDs w
    = (Err (NewNotFoundError ("user " +:+ id)), w).
Proof.
  intros Hteam Htargets Hget Hstranger.
  pose proof (ensureTargetsInTeam_spec (spec_normalize userIDs) (Team.Members team))
    as Hensure.
  destruct (ensureTargetsInTeam _ _) as [err|] eqn:Hcheck; [|done].
  destruct Hensure as (before & id & after & Heq & Hbefore & Hid & ->).
  exists before, id, after. split_and!; [done..|].
  unfold BulkDeactivateTeamMembers. rewrite decide_False by done.
  rewrite bool_decide_eq_false_2.
  2: { intros Hlen. apply Htargets. destruct userIDs; [done|]. done. }
  rewrite normalizeTargetUserIDs_eq, decide_False by done.
  by rewrite Hget, Hcheck.
Qed.

(** The replacements of a successful bulk deactivation.  Every swap handed
    to the repository replaces a target, on an open pull request found that
    has the target as reviewer, by an active member of the team who is not
    a target, has not the empty id and is not a reviewer of that request;
    and no member replaces twice in one call, on the same request or on
    another. *)
Theorem BulkDeactivateTeamMembers_replacements (teamName : string)
    (userIDs : list string) (w w' : World DB) (res : TeamBulkDeactivateResult.t) :
  BulkDeactivateTeamMembers userRepo teamName userIDs w = (Ok res, w') →
  ∃ team openPRs swaps usersToDeactivate,
    UserManager.GetTeam userRepo (TrimSpace teamName) w = Ok team ∧
    Repository.FindOpenPullRequestsByReviewers (spec_normalize userIDs) (store w)
    = Ok openPRs ∧
    trace w' = trace w ++ [CallApplyBulkTeamReviewerSwaps swaps usersToDeactivate] ∧
    NoDup (ReviewerSwap.NewUserId <$> swaps) ∧
    Forall (λ s,
              ReviewerSwap.OldUserId s ∈ spec_normalize userIDs ∧
              (ReviewerSwap.NewUserId s ∉ spec_normalize userIDs) ∧
              ReviewerSwap.NewUserId s ≠ "" ∧
              (∃ m, m ∈ Team.Members team ∧
                    TeamMember.UserId m = ReviewerSwap.NewUserId s ∧
                    TeamMember.IsActive m = true) ∧
              ∃ pr, pr ∈ openPRs ∧
                    PullRequest.PullRequestId pr = ReviewerSwap.PullRequestId s ∧
                    ReviewerSwap.OldUserId s ∈ PullRequest.AssignedReviewers pr ∧
                    ReviewerSwap.NewUserId s ∉ PullRequest.AssignedReviewers pr) swaps.
Proof.
  intros Hrun.
  destruct (BulkDeactivateTeamMembers_Ok_inv userRepo _ _ _ _ _ Hrun)
    as (targets & targetSet & team & Hname & Hnorm & Hget & Hensure).
  rewrite (BulkDeactivateTeamMembers_checked userRepo _ _ _ _ _ _ Hname Hnorm Hget Hensure)
    in Hrun.
  apply normalizeTargetUserIDs_Ok in Hnorm as (-> & -> & _).
  unfold planBulkReviewerSwaps in Hrun.
  destruct (Repository.FindOpenPullRequestsByReviewers _ _) as [openPRs|]; [|done].
  destruct (plan_pull_requests _ _ _) as [st|] eqn:Hplan; [|done].
  apply plan_pull_requests_draws in Hplan as (_ & added & Hswaps & _ & Hnd & Hall);
    [|apply newReviewerPool_wf].
  cbn [swaps pool] in *. rewrite app_nil_l in Hswaps.
  destruct (Repository.ApplyBulkTeamReviewerSwaps _ _ _); [|done].
  injection Hrun as <- <-. cbn [trace].
  exists team, openPRs, (swaps st), (spec_normalize userIDs ++ replacementIDs st).
  rewrite Hswaps. split_and!; [done..|].
  eapply Forall_impl; [done|]. cbn. intros s (Hav & Hold & Hpr).
  apply newReviewerPool_available in Hav as [Hcand Hne].
  apply collectReplacementCandidates_elem_of in Hcand as [Hnt Hm].
  rewrite elem_of_list_to_set in Hold, Hnt. done.
Qed.

End bulk.

Section bulk_stored.
Context {go : Golang} {pg : Storage.Postgres}.
#[local] Existing Instance Storage.pullRequestRepository.






End bulk_stored.

(** ** The handlers of the running system *)

Section handlers.
Context {go : Golang} {pg : Storage.Postgres}.

(** What [time.Now()] reads while the request is served. *)
Variable now : Time.

Lemma spec_first_occurrences_nil (l : list string) :
  spec_first_occurrences l = [] ↔ l = [].
Proof. by destruct l. Qed.

(** Trimming and dropping the empty ids once more changes nothing, when
    trimming a trimmed string changes nothing. *)
Lemma spec_normalize_filtered (userIDs : list string) :
  (∀ s, TrimSpace (TrimSpace s) = TrimSpace s) →
  spec_normalize (filter (λ id, id ≠ "") (TrimSpace <$> userIDs)) = spec_normalize userIDs.
Proof.
  intros Hidem. unfold spec_normalize. f_equal.
  induction userIDs as [|raw userIDs IH]; [done|]. rewrite fmap_cons.
  destruct (decide (TrimSpace raw = "")) as [Hraw|Hraw].
  - by rewrite !filter_cons_False by naive_solver.
  - rewrite (filter_cons_True _ (TrimSpace raw)) by done.
    rewrite fmap_cons, Hidem, filter_cons_True by done. by rewrite IH.
Qed.

(** [handleTeamDeactivate] and [BulkDeactivateTeamMembers] normalise the
    same way, so that, [strings.TrimSpace] being idempotent, the handler
    answers 400 exactly for the requests the service would refuse as
    invalid, and for every other request answers with the outcome of the
    service on the request as it came: trimming the team name and the ids
    and dropping the empty ids before the call changes nothing. *)
Theorem handleTeamDeactivate_normalises_once (req : TeamBulkDeactivateRequest.t)
    (w : World Storage.Tables) :
  (∀ s, TrimSpace (TrimSpace s) = TrimSpace s) →
  let teamName := TeamBulkDeactivateRequest.TeamName req in
  let userIDs := TeamBulkDeactivateRequest.UserIDs req in
  web.handleTeamDeactivate (prService := main.prManager now) (Some req) w
  = if decide (TrimSpace teamName = "")
    then (web.missing_param "team_name is required", w)
    else if decide (spec_normalize userIDs = [])
    then (web.missing_param "at least one user_id is required", w)
    else
      match main.BulkDeactivateTeamMembers teamName userIDs w with
      | (Err err, w') => (web.write_domain_error err, w')
      | (Ok result, w') =>
        (web.writeJSON http.StatusOK (web.teamDeactivateResponse result), w')
      end.
Proof.
  intros Hidem teamName userIDs. unfold web.handleTeamDeactivate. fold teamName userIDs.
  destruct (decide (TrimSpace teamName = "")) as [|Hteam]; [done|].
  pose proof (spec_normalize_filtered userIDs Hidem) as Hsame.
  assert (spec_normalize userIDs
          = spec_first_occurrences (filter (λ id, id ≠ "") (TrimSpace <$> userIDs)))
    as Hnorm by done.
  destruct (filter (λ id, id ≠ "") (TrimSpace <$> userIDs)) as [|id filtered] eqn:Hfiltered.
  { by rewrite Hnorm, decide_True. }
  rewrite decide_False by (by rewrite Hnorm).
  rewrite bool_decide_eq_false_2 by done.
  cbn [web.BulkDeactivateTeamMembers main.prManager].
  assert (main.BulkDeactivateTeamMembers (TrimSpace teamName) (id :: filtered) w
          = main.BulkDeactivateTeamMembers teamName userIDs w) as ->; [|done].
  unfold main.BulkDeactivateTeamMembers, PullRequestManager.BulkDeactivateTeamMembers.
  rewrite Hidem, !decide_False by done.
  rewrite !bool_decide_eq_false_2.
  - by rewrite !normalizeTargetUserIDs_eq, Hsame.
  - intros Hlen. by destruct userIDs.
  - done.
Qed.

(** The answers of [handleTeamAdd] with the PostgreSQL repository: 400
    [INVALID_PAYLOAD] for a body that does not decode; 500 [INTERNAL_ERROR]
    for a payload with an empty or a repeated member id, which the service
    refuses with an error that wraps no sentinel; 400 [TEAM_EXISTS] for a
    stored team name; and 201 with the payload otherwise, the team then
    being stored.  Except in the last case nothing is stored or cached. *)
Theorem handleTeamAdd_statuses (decoded : option Team.t) (w : World Storage.Tables) :
  let resp := (web.handleTeamAdd (userTeamService := main.userTeamService) decoded w).1 in
  let w' := (web.handleTeamAdd (userTeamService := main.userTeamService) decoded w).2 in
  match decoded with
  | None => resp = web.invalid_payload ∧ w' = w
  | Some team =>
    if decide (NoDup (TeamMember.UserId <$> Team.Members team) ∧
               Forall (λ m, TeamMember.UserId m ≠ "") (Team.Members team))
    then
      if decide (Team.TeamName team ∈ Storage.teams (store w))
      then
        web.status resp = 400%Z ∧
        (∃ msg, web.body resp = web.errorResponse "TEAM_EXISTS" msg) ∧
        store w' = store w ∧ users w' = users w
      else
        resp = web.writeJSON 201 (web.teamAdded team) ∧
        Team.TeamName team ∈ Storage.teams (store w')
    else
      web.status resp = 500%Z ∧
      (∃ msg, web.body resp = web.errorResponse "INTERNAL_ERROR" msg) ∧ w' = w
  end.
Proof.
  cbv zeta. destruct decoded as [team|]; [|done].
  unfold web.handleTeamAdd. cbn [web.AddTeam main.userTeamService].
  pose proof (AddTeam_run team w) as Hrun. cbv zeta in Hrun.
  destruct (main.AddTeam team w) as [[err|] w']; cbn [fst snd].
  - destruct Hrun as (Hs & Hu & Hrest).
    unfold web.write_domain_error. rewrite mapDomainError_table.
    destruct (decide _) as [Hvalid|Hvalid].
    + destruct Hrest as (Hexists & -> & _). rewrite decide_True by done.
      cbn. split_and!; [done|by eexists|done|done].
    + destruct Hrest as (-> & ->). cbn. split_and!; [done|by eexists|done].
  - destruct Hrun as (Hvalid & Hnew & Hteams & _).
    rewrite decide_True, decide_False by done. split; [done|]. rewrite Hteams. set_solver.
Qed.

(** The answers of [handlePRCreate] on the running system: 400 for a body
    that does not decode or lacks the id, the name or the author; 404
    [NOT_FOUND] for an author that is not a stored user, with nothing
    changed; and 201 with the pull request created otherwise.  There is no
    409 [PR_EXISTS] and no 500: an id that is taken is overwritten. *)
Theorem handlePRCreate_statuses (decoded : option PostPullRequestCreateJSONBody.t)
    (w : World Storage.Tables) :
  system_inv w →
  let resp := (web.handlePRCreate (prService := main.prManager now) decoded w).1 in
  let w' := (web.handlePRCreate (prService := main.prManager now) decoded w).2 in
  match decoded with
  | None => resp = web.invalid_payload ∧ w' = w
  | Some p =>
    if decide (PostPullRequestCreateJSONBody.PullRequestId p = "" ∨
               PostPullRequestCreateJSONBody.PullRequestName p = "" ∨
               PostPullRequestCreateJSONBody.AuthorId p = "")
    then
      resp = web.missing_param "pull_request_id, pull_request_name and author_id are required"
      ∧ w' = w
    else if decide (PostPullRequestCreateJSONBody.AuthorId p ∈ dom (Storage.users (store w)))
    then
      ∃ pr, resp = web.writeJSON 201 (web.prResp pr) ∧
            main.CreatePullRequest p now w = (Ok pr, w')
    else
      web.status resp = 404%Z ∧
      (∃ msg, web.body resp = web.errorResponse "NOT_FOUND" msg) ∧ w' = w
  end.
Proof.
  intros Hinv. cbv zeta. destruct decoded as [p|]; [|done].
  unfold web.handlePRCreate. case_bool_decide as Hmissing.
  { by rewrite decide_True. }
  rewrite decide_False by done. cbn [web.CreatePullRequest main.prManager].
  pose proof (CreatePullRequest_run p now w Hinv) as Hrun. cbv zeta in Hrun.
  pose proof (GetUserTeam_stored (PostPullRequestCreateJSONBody.AuthorId p) w) as Hteam.
  destruct (UserManager.GetUserTeam main.userManager _ w) as [[teamName|err] w1].
  - destruct Hrun as (_ & _ & db' & _ & ->). cbn [fst snd].
    rewrite decide_True; [by eexists|].
    destruct (users w !! PostPullRequestCreateJSONBody.AuthorId p) as [user|] eqn:Hcached.
    + by apply (system_inv_cached w) in Hcached as (_ & ? & _).
    + destruct (Storage.users (store w) !! _) eqn:Hrow; [|done].
      by apply elem_of_dom_2 in Hrow.
  - destruct Hrun as (_ & Hrow & ->). cbn [fst snd].
    rewrite decide_False by (by apply not_elem_of_dom).
    unfold web.write_domain_error. rewrite mapDomainError_table. cbn.
    split_and!; [done|by eexists|done].
Qed.

(** The answers of [handlePRMerge] on the server, in whatever state the
    requests served so far and those in flight have left it: 400 for a body
    that does not decode or has no id; 404 [NOT_FOUND] for a pull request
    that is not stored, with nothing changed; 500 [INTERNAL_ERROR], with
    nothing stored, for a stored request that is not merged and has more
    than two reviewer rows; and 200 with the merged pull request otherwise,
    also when it was merged before. *)
Theorem handlePRMerge_statuses (decoded : option PostPullRequestMergeJSONBody.t)
    (w : World Storage.Tables) :
  running_inv w →
  let resp := (web.handlePRMerge (prService := main.prManager now) decoded w).1 in
  let w' := (web.handlePRMerge (prService := main.prManager now) decoded w).2 in
  match decoded with
  | None => resp = web.invalid_payload ∧ w' = w
  | Some p =>
    let prID := PostPullRequestMergeJSONBody.PullRequestId p in
    if decide (prID = "")
    then resp = web.missing_param "pull_request_id is required" ∧ w' = w
    else
      match Storage.GetPullRequest prID (store w) with
      | Err _ =>
        resp = web.write_domain_error (NewNotFoundError "pull request") ∧
        web.status resp = 404%Z ∧ w' = w
      | Ok before =>
        if decide (PullRequest.Status before = PullRequestStatusMERGED ∨
                   length (PullRequest.AssignedReviewers before) ≤ 2)
        then
          ∃ pr, resp = web.writeJSON 200 (web.prResp pr) ∧
                PullRequest.Status pr = PullRequestStatusMERGED ∧
                main.Merge prID now w = (Ok pr, w')
        else
          (web.status resp = 500%Z ∧
           ∃ msg, web.body resp = web.errorResponse "INTERNAL_ERROR" msg) ∧
          store w' = store w ∧ users w' = users w
      end
  end.
Proof.
  intros Hinv. cbv zeta. destruct decoded as [p|]; [|done].
  unfold web.handlePRMerge.
  destruct (decide (PostPullRequestMergeJSONBody.PullRequestId p = "")); [done|].
  cbn [web.Merge main.prManager].
  pose proof (Merge_run (PostPullRequestMergeJSONBody.PullRequestId p) now w Hinv) as Hrun.
  unfold Storage.GetPullRequest.
  destruct (Storage.pull_requests (store w) !! _) as [row|] eqn:Hrow;
    [|by rewrite Hrun].
  cbv zeta in Hrun. set (before := Storage.scan_pull_request _ _) in *.
  destruct (decide (PullRequest.Status before = PullRequestStatusMERGED)) as [Hm|Hm].
  { rewrite decide_True by (by left). rewrite Hrun. by eexists. }
  destruct Hrun as (_ & _ & Hrun).
  destruct (decide (length (PullRequest.AssignedReviewers before) ≤ 2)) as [Hlen|Hlen].
  - rewrite decide_True by (by right). destruct Hrun as (db' & tr & _ & ->). by eexists.
  - rewrite decide_False by tauto. rewrite Hrun. cbn [fst snd].
    split_and!; [done|by eexists|done|done].
Qed.

(** The answers of [handlePRReassign] on the server, in whatever state the
    requests served so far and those in flight have left it: 400 for a body
    that does not decode or lacks an id; 404 [NOT_FOUND] for a pull request
    that is not stored; 409 [PR_MERGED] for a merged one, whoever the user
    is; 409 [NOT_ASSIGNED] when the user is not one of its reviewers; 409
    [NO_CANDIDATE] when the cache holds no active user of the team of the
    user who is not a reviewer of the request already; 500
    [INTERNAL_ERROR] when there is such a user and the request has more than
    two reviewer rows; and 200 with the pull request and the replacement
    otherwise.  Nothing is stored unless the answer is 200. *)
Theorem handlePRReassign_statuses (decoded : option PostPullRequestReassignJSONBody.t)
    (w : World Storage.Tables) :
  running_inv w →
  let resp := (web.handlePRReassign (prService := main.prManager now) decoded w).1 in
  let w' := (web.handlePRReassign (prService := main.prManager now) decoded w).2 in
  match decoded with
  | None => resp = web.invalid_payload ∧ w' = w
  | Some p =>
    let prId := PostPullRequestReassignJSONBody.PullRequestId p in
    let oldUserId := PostPullRequestReassignJSONBody.OldUserId p in
    if decide (prId = "" ∨ oldUserId = "")
    then resp = web.missing_param "pull_request_id and old_user_id are required" ∧ w' = w
    else
      match Storage.GetPullRequest prId (store w) with
      | Err _ => resp = web.write_domain_error (NewNotFoundError "pull request") ∧
                 web.status resp = 404%Z ∧ w' = w
      | Ok pr =>
        if decide (PullRequest.Status pr = PullRequestStatusMERGED)
        then resp = web.write_domain_error (NewPRMergedError prId) ∧
             (web.status resp = 409%Z ∧
              ∃ msg, web.body resp = web.errorResponse "PR_MERGED" msg) ∧ w' = w
        else if decide (oldUserId ∈ PullRequest.AssignedReviewers pr)
        then
          (resp = web.write_domain_error (NewNoCandidateError prId) ∧
           (web.status resp = 409%Z ∧
            ∃ msg, web.body resp = web.errorResponse "NO_CANDIDATE" msg) ∧
           store w' = store w ∧ trace w' = trace w) ∨
          (2 < length (PullRequest.AssignedReviewers pr) ∧
           (web.status resp = 500%Z ∧
            ∃ msg, web.body resp = web.errorResponse "INTERNAL_ERROR" msg) ∧
           store w' = store w) ∨
          (length (PullRequest.AssignedReviewers pr) ≤ 2 ∧
           ∃ res, resp = web.writeJSON 200
                           (web.reassignResponse (ReassignResponse.PR res)
                                                 (ReassignResponse.ReplacedBy res)) ∧
                  main.Reassign oldUserId prId w = (Ok res, w'))
        else resp = web.write_domain_error (NewNotAssignedError prId) ∧
             (web.status resp = 409%Z ∧
              ∃ msg, web.body resp = web.errorResponse "NOT_ASSIGNED" msg) ∧ w' = w
      end
  end.
Proof.
  intros Hinv. cbv zeta. destruct decoded as [p|]; [|done].
  unfold web.handlePRReassign. case_bool_decide as Hmissing.
  { by rewrite decide_True. }
  rewrite decide_False by done. cbn [web.Reassign main.prManager].
  set (prId := PostPullRequestReassignJSONBody.PullRequestId p).
  set (oldUserId := PostPullRequestReassignJSONBody.OldUserId p).
  pose proof (Reassign_run oldUserId prId w Hinv) as Hrun.
  unfold Storage.GetPullRequest.
  destruct (Storage.pull_requests (store w) !! prId) as [row|] eqn:Hrow;
    [|by rewrite Hrun].
  cbv zeta in Hrun. set (pr := Storage.scan_pull_request (store w) (prId, row)) in *.
  destruct (decide (PullRequest.Status pr = PullRequestStatusMERGED)) as [Hm|Hm].
  { rewrite Hrun. cbn [fst snd]. split_and!; [done|done|by eexists|done]. }
  destruct (decide (oldUserId ∈ PullRequest.AssignedReviewers pr)) as [Hold|Hold].
  2: { rewrite Hrun. cbn [fst snd]. split_and!; [done|done|by eexists|done]. }
  destruct Hrun as (teamName & w1 & Hteam & Hrun).
  pose proof (GetUserTeam_world main.userManager oldUserId w) as [Hstore1 Htrace1].
  rewrite Hteam in Hstore1, Htrace1. cbn [snd] in *.
  destruct (UserManager.FindReplacementReviewer _ _ _) as [new|err].
  - right. cbv zeta in Hrun. destruct Hrun as (_ & _ & Hrun).
    destruct (decide (length (PullRequest.AssignedReviewers pr) ≤ 2)) as [Hlen|Hlen].
    + right. destruct Hrun as (db' & tr & _ & ->). split; [done|]. by eexists.
    + left. rewrite Hrun. cbn [fst snd store emit].
      split_and!; [lia|done|by eexists|done].
  - left. destruct Hrun as [-> _]. cbn [fst snd].
    split_and!; [done|done|by eexists|done|done].
Qed.

End handlers.

(** ** The further properties at concrete inputs *)

Section trim.
Import Examples.

Lemma trim_right_idempotent (s : string) : trim_right (trim_right s) = trim_right s.
Proof.
  induction s as [|a s IH]; [done|]. cbn [trim_right].
  destruct (is_ascii_space a && bool_decide (trim_right s = "")) eqn:Hdrop; [done|].
  cbn [trim_right]. by rewrite IH, Hdrop.
Qed.

Lemma trim_left_trim_right (s : string) :
  trim_left (trim_right (trim_left s)) = trim_right (trim_left s).
Proof.
  induction s as [|a s IH]; [done|]. cbn [trim_left].
  destruct (is_ascii_space a) eqn:Hspace; [done|].
  cbn [trim_right]. rewrite Hspace. cbn [andb trim_left]. by rewrite Hspace.
Qed.

(** Trimming a trimmed string changes nothing. *)
Lemma TrimSpace_ascii_idempotent (s : string) :
  TrimSpace_ascii (TrimSpace_ascii s) = TrimSpace_ascii s.
Proof.
  unfold TrimSpace_ascii. by rewrite trim_left_trim_right, trim_right_idempotent.
Qed.

End trim.

Section more_runs.
Import Examples.
#[local] Existing Instance golang.
#[local] Existing Instance postgres.
#[local] Existing Instance Storage.pullRequestRepository.

Lemma system_inv_with_team : system_inv with_team.
Proof. apply (system_inv_step fresh); [apply main.step_AddTeam|apply system_inv_fresh]. Qed.

Lemma system_inv_with_pr : system_inv with_pr.
Proof.
  apply (system_inv_step with_team);
    [apply main.step_CreatePullRequest|apply system_inv_with_team].
Qed.

Lemma system_inv_small_pr : system_inv small_pr.
Proof.
  apply (system_inv_step small_team); [apply main.step_CreatePullRequest|].
  apply (system_inv_step fresh); [apply main.step_AddTeam|apply system_inv_fresh].
Qed.

Lemma SavePullRequest_GetPullRequest_witness :
  let pr := PullRequest.mk [""; "u2"] "u1" (Some 7%Z) None "pr-9" "nine"
              PullRequestStatusOPEN in
  ∃ db' got,
    Storage.SavePullRequest pr (store with_team) = Ok db' ∧
    Storage.GetPullRequest "pr-9" db' = Ok got ∧
    PullRequest.AssignedReviewers got ≡ₚ ["u2"].
Proof.
  intros pr.
  destruct (Storage.SavePullRequest pr (store with_team)) as [db'|] eqn:Hsave;
    [|by vm_compute in Hsave].
  destruct (SavePullRequest_GetPullRequest pr (store with_team) db' Hsave)
    as [(got & Hgot & Hperm & _) _].
  exists db', got. split_and!; [done..|]. vm_compute in Hperm. exact Hperm.
Defined.

Lemma SaveTeam_stores_the_name_witness :
  let team := Team.mk [member "u9" true] "ops" in
  users_team_fk (store with_team) ∧
  ∃ db', Storage.SaveTeam team (store with_team) = Ok db' ∧
         Storage.GetTeam "ops" db' = Ok (Team.mk [] "ops").
Proof.
  intros team.
  assert (users_team_fk (store with_team)) as Hfk by apply system_inv_with_team.
  split; [done|].
  pose proof (SaveTeam_stores_the_name team (store with_team) Hfk) as Hsave.
  destruct (Storage.SaveTeam team (store with_team)) as [db'|] eqn:Hrun;
    [|by vm_compute in Hrun].
  exists db'. split; [done|]. apply Hsave.
Defined.

Lemma ListForReviewer_lists_reviewer_rows_witness :
  NoDup (Storage.pull_request_reviewers (store with_pr)) ∧
  ∃ cards, main.ListForReviewer "u3" with_pr = Ok cards ∧
           cards = [PullRequestShort.mk "u1" "pr-1" "title" PullRequestStatusOPEN].
Proof.
  assert (NoDup (Storage.pull_request_reviewers (store with_pr))) as Hpk.
  { apply world_inv_with_pr. }
  split; [done|].
  destruct (ListForReviewer_lists_reviewer_rows "u3" with_pr Hpk)
    as (prs & cards & _ & Hcards & _).
  exists cards. split; [done|]. vm_compute in Hcards. by injection Hcards as <-.
Defined.

Lemma GetAssignmentStats_totals_witness :
  (∀ row, row ∈ Storage.pull_request_reviewers (store with_pr) →
          row.1 ∈ dom (Storage.pull_requests (store with_pr))) ∧
  ∃ stats,
    Storage.GetAssignmentStats (store with_pr) = Ok (Some stats) ∧
    foldr Z.add 0%Z (UserAssignmentStat.Assignments <$> AssignmentStats.ByUser stats) = 2%Z.
Proof.
  assert (∀ row, row ∈ Storage.pull_request_reviewers (store with_pr) →
                 row.1 ∈ dom (Storage.pull_requests (store with_pr))) as Hfk.
  { intros row Hrow. destruct system_inv_with_pr as (_ & (_ & _ & Hrows) & _).
    eapply Forall_forall in Hrows as [? _]; done. }
  split; [done|].
  destruct (GetAssignmentStats_totals (store with_pr) Hfk) as (stats & Hstats & Hsum & _).
  exists stats. split; [done|]. rewrite Hsum. by vm_compute.
Defined.

Lemma CreatePullRequest_fails_only_for_unknown_author_witness :
  system_inv with_team ∧
  ∃ pr w',
    main.CreatePullRequest (PostPullRequestCreateJSONBody.mk "u1" "pr-1" "title") 5%Z
      with_team = (Ok pr, w') ∧
    PullRequest.Status pr = PullRequestStatusOPEN ∧
    ∃ got, Storage.GetPullRequest "pr-1" (store w') = Ok got ∧
           PullRequest.AssignedReviewers got ≡ₚ PullRequest.AssignedReviewers pr.
Proof.
  split; [apply system_inv_with_team|].
  pose proof (CreatePullRequest_fails_only_for_unknown_author
                (PostPullRequestCreateJSONBody.mk "u1" "pr-1" "title") 5%Z with_team
                system_inv_with_team) as Hcreate.
  cbv zeta in Hcreate.
  destruct (main.CreatePullRequest _ _ with_team) as [[pr|err] w'] eqn:Hrun.
  - destruct Hcreate as (teamName & got & _ & Hpr & _ & Hgot & _ & _ & Hperm).
    exists pr, w'. split_and!; [reflexivity|by rewrite Hpr|].
    exists got. split; [exact Hgot|exact Hperm].
  - by vm_compute in Hrun.
Defined.

Lemma GetTeam_answers_from_the_store_witness :
  system_inv with_pr ∧
  main.GetTeam "frontend" with_pr = Err (NewNotFoundError "team").
Proof.
  split; [apply system_inv_with_pr|].
  pose proof (GetTeam_answers_from_the_store "frontend" with_pr system_inv_with_pr)
    as Hget.
  destruct (main.GetTeam "frontend" with_pr) as [team|err] eqn:Hrun.
  - by vm_compute in Hrun.
  - by destruct Hget as [_ ->].
Defined.

Lemma SetUserActivity_fails_only_for_uncached_witness :
  system_inv with_pr ∧
  ∃ user w',
    main.SetUserActivity "u2" false with_pr = (Ok user, w') ∧
    Storage.GetUser "u2" (store w') = Ok user ∧ users w' !! "u2" = Some user.
Proof.
  split; [apply system_inv_with_pr|].
  pose proof (SetUserActivity_fails_only_for_uncached "u2" false with_pr
                system_inv_with_pr) as Hset.
  destruct (main.SetUserActivity "u2" false with_pr) as [[user|err] w'] eqn:Hrun.
  - destruct Hset as (before & _ & _ & Hcache & Hstored & _).
    exists user, w'. split_and!; [done..|]. by rewrite Hcache, lookup_insert_eq.
  - by vm_compute in Hrun.
Defined.

Lemma BulkDeactivateTeamMembers_unknown_target_witness :
  TrimSpace "backend" ≠ "" ∧
  spec_normalize ["u3"; "u7"; "u8"] ≠ [] ∧
  (∃ team, main.GetTeam (TrimSpace "backend") with_pr = Ok team) ∧
  main.BulkDeactivateTeamMembers "backend" ["u3"; "u7"; "u8"] with_pr
  = (Err (NewNotFoundError "user u7"), with_pr).
Proof.
  assert (TrimSpace "backend" ≠ "") as Hteam by (by vm_compute).
  assert (spec_normalize ["u3"; "u7"; "u8"] ≠ []) as Hsome by (by vm_compute).
  destruct (main.GetTeam (TrimSpace "backend") with_pr) as [team|err] eqn:Hget;
    [|by vm_compute in Hget].
  split_and!; [done..|by exists team|].
  destruct (BulkDeactivateTeamMembers_unknown_target
              (prRepo := Storage.pullRequestRepository) main.userManager
              "backend" ["u3"; "u7"; "u8"] with_pr team Hteam Hsome Hget)
    as (before & id & after & Heq & Hbefore & Hid & _ & Hrun).
  { vm_compute in Hget. injection Hget as <-.
    refine (bool_decide_unpack _ _). by vm_compute. }
  unfold main.BulkDeactivateTeamMembers. rewrite Hrun. do 3 f_equal.
  vm_compute in Hget. injection Hget as <-.
  assert (spec_normalize ["u3"; "u7"; "u8"] = ["u3"; "u7"; "u8"]) as Hnorm
    by (by vm_compute).
  rewrite Hnorm in Heq. clear Hrun Hnorm.
  destruct before as [|b1 [|b2 before]]; simplify_eq/=.
  - exfalso. apply Hid. refine (bool_decide_unpack _ _). by vm_compute.
  - done.
  - exfalso. apply Forall_cons in Hbefore as [_ Hbefore].
    apply Forall_cons in Hbefore as [Hin _].
    revert Hin. refine (bool_decide_unpack _ _). by vm_compute.
Defined.

Lemma BulkDeactivateTeamMembers_replacements_witness :
  ∃ res w' swaps usersToDeactivate,
    main.BulkDeactivateTeamMembers "backend" ["u3"] with_pr = (Ok res, w') ∧
    trace w' = trace with_pr ++ [CallApplyBulkTeamReviewerSwaps swaps usersToDeactivate] ∧
    NoDup (ReviewerSwap.NewUserId <$> swaps) ∧
    Forall (λ s, ReviewerSwap.NewUserId s ∉ spec_normalize ["u3"]) swaps.
Proof.
  destruct (main.BulkDeactivateTeamMembers "backend" ["u3"] with_pr)
    as [[res|err] w'] eqn:Hrun; [|by vm_compute in Hrun].
  destruct (BulkDeactivateTeamMembers_replacements
              (prRepo := Storage.pullRequestRepository) main.userManager
              "backend" ["u3"] with_pr w' res Hrun)
    as (team & openPRs & swaps & usersToDeactivate & _ & _ & Htrace & Hnd & Hall).
  exists res, w', swaps, usersToDeactivate. split_and!; [done..|].
  eapply Forall_impl; [done|]. cbn. tauto.
Defined.


Lemma handleTeamDeactivate_normalises_once_witness :
  (∀ s, TrimSpace (TrimSpace s) = TrimSpace s) ∧
  web.handleTeamDeactivate (prService := main.prManager 9%Z)
    (Some (TeamBulkDeactivateRequest.mk " backend " [" "; ""])) with_pr
  = (web.missing_param "at least one user_id is required", with_pr).
Proof.
  split; [apply TrimSpace_ascii_idempotent|].
  rewrite (handleTeamDeactivate_normalises_once (go := golang) 9%Z
             (TeamBulkDeactivateRequest.mk " backend " [" "; ""]) with_pr
             TrimSpace_ascii_idempotent).
  by vm_compute.
Defined.

Lemma handlePRCreate_statuses_witness :
  system_inv with_team ∧
  web.status (web.handlePRCreate (prService := main.prManager 5%Z)
                (Some (PostPullRequestCreateJSONBody.mk "u9" "pr-2" "two")) with_team).1
  = 404%Z.
Proof.
  split; [apply system_inv_with_team|].
  pose proof (handlePRCreate_statuses 5%Z
                (Some (PostPullRequestCreateJSONBody.mk "u9" "pr-2" "two")) with_team
                system_inv_with_team) as Hcreate.
  cbv beta iota zeta in Hcreate.
  rewrite decide_False in Hcreate by (by intros [[=]|[[=]|[=]]]).
  rewrite decide_False in Hcreate; [apply Hcreate|].
  intros Hin. apply elem_of_dom in Hin as [row Hrow]. by vm_compute in Hrow.
Defined.

(** *** The server with a stale plan written *)

Lemma over_cap_reachable :
  rtc Concurrent.step (Concurrent.mkSystem fresh []) over_cap_system.
Proof.
  set (bulk := Concurrent.BulkDeactivateTeamMembers "core" ["c"]).
  set (reas := Concurrent.Reassign "c" "P2").
  etrans; [apply (request_served (Concurrent.AddTeam core)); constructor|].
  etrans.
  { apply (request_served
             (Concurrent.CreatePullRequest
                (PostPullRequestCreateJSONBody.mk "d" "P1" "first") 5%Z)); constructor. }
  etrans.
  { apply (request_served
             (Concurrent.CreatePullRequest
                (PostPullRequestCreateJSONBody.mk "d" "P2" "second") 6%Z)); constructor. }
  rewrite run_AddTeam, run_CreatePullRequest, run_CreatePullRequest.
  change (main.AddTeam core fresh).2 with core_team.
  change (main.CreatePullRequest _ 5%Z core_team).2 with core_pr.
  change (main.CreatePullRequest _ 6%Z core_pr).2 with core_prs.
  eapply rtc_l.
  { apply (Concurrent.step_request (Concurrent.Running bulk)). constructor. }
  eapply rtc_l.
  { apply (Concurrent.step_request (Concurrent.Running reas)). constructor. }
  cbn [Concurrent.world Concurrent.threads app].
  etrans; [apply (advance_steps 3 bulk 3); reflexivity|].
  change (Concurrent.advance 3 bulk core_prs) with stale_plan.
  cbn [list_insert].
  etrans; [apply (run_steps reas 4); reflexivity|].
  change (Concurrent.run reas stale_plan.2) with reassigned.
  cbn [list_insert].
  etrans; [apply (run_steps stale_plan.1 3); reflexivity|].
  cbn [list_insert].
  apply rtc_refl.
Qed.

Lemma running_inv_over_cap : running_inv over_cap.
Proof. apply (reachable_running_safe over_cap_system), over_cap_reachable. Qed.

(** C1 does not hold of the server.  From empty tables and an empty
    cache the server reaches [over_cap_system] with five requests, all
    answered with success: [AddTeam] of the team ["core"] with the active
    members ["a"] to ["e"]; [CreatePullRequest] of ["P1"] and of ["P2"] by
    ["d"], both assigned to ["c"] and ["e"]; a bulk deactivation of ["c"]
    and, between its read of the open requests of ["c"] and its write, a
    [Reassign] of ["c"] on ["P2"], which replaces ["c"] by ["a"].  The bulk
    deactivation then writes the swap it planned for ["P2"], ["c"] by
    ["b"]: the [DELETE] finds no row, the [INSERT] adds one, and ["P2"] is
    stored, open, with the three reviewers ["e"], ["a"] and ["b"]. *)
Theorem reviewer_cap_broken_by_stale_plan :
  rtc Concurrent.step (Concurrent.mkSystem fresh []) over_cap_system ∧
  reassigned.1
  = Ok (ReassignResponse.mk
          (PullRequest.mk ["e"; "a"] "d" (Some 6%Z) None "P2" "second" PullRequestStatusOPEN)
          "a") ∧
  bulk_done.1
  = Ok (TeamBulkDeactivateResult.mk "core" ["c"]
          [TeamPRReassignment.mk "P1" [ReviewerReplacement.mk "c" "a"];
           TeamPRReassignment.mk "P2" [ReviewerReplacement.mk "c" "b"]]) ∧
  Storage.GetPullRequest "P2" (store (Concurrent.world over_cap_system))
  = Ok (PullRequest.mk ["e"; "a"; "b"] "d" (Some 6%Z) None "P2" "second"
          PullRequestStatusOPEN) ∧
  ¬ world_inv (Concurrent.world over_cap_system).
Proof.
  split; [apply over_cap_reachable|]. split_and!; [by vm_compute..|].
  intros [[_ Hcap]%store_inv_alt _]. specialize (Hcap "P2").
  vm_compute in Hcap. lia.
Qed.

(** The same world, with the functions of the serial executions: the first
    half of the bulk deactivation on [core_prs], [Reassign] on [core_prs],
    and the second half of the bulk deactivation on what [Reassign] left. *)
Example over_cap_by_hand :
  ∃ plan,
    main.BulkDeactivateTeamMembers_plan "core" ["c"] core_prs = Ok plan ∧
    PullRequestManager.plan_swaps plan
    = [ReviewerSwap.mk "P1" "c" "a"; ReviewerSwap.mk "P2" "c" "b"] ∧
    (main.BulkDeactivateTeamMembers_apply plan (main.Reassign "c" "P2" core_prs).2).2
    = over_cap.
Proof.
  destruct (main.BulkDeactivateTeamMembers_plan "core" ["c"] core_prs) as [plan|err] eqn:Hplan;
    [|by vm_compute in Hplan].
  exists plan. vm_compute in Hplan. injection Hplan as <-. split_and!; by vm_compute.
Qed.

Lemma server_running_inv_witness :
  rtc Concurrent.step (Concurrent.mkSystem fresh []) over_cap_system ∧
  NoDup (Storage.pull_request_reviewers (store over_cap)) ∧
  schema_fk (store over_cap) ∧
  cache_stored (store over_cap) (users over_cap).
Proof.
  split; [apply over_cap_reachable|].
  destruct (server_running_inv over_cap_system over_cap_reachable)
    as (Hnd & _ & Hfk & _ & Hcache).
  split_and!; [exact Hnd|exact Hfk|exact Hcache].
Defined.

Lemma Merge_fails_for_unknown_or_over_cap_witness :
  running_inv over_cap ∧
  ∃ w', main.Merge "P2" 9%Z over_cap
        = (Err (Wrapf "failed to save merged pull request: "
                  (Errorf "assigned reviewers count must be <= 2")), w') ∧
        store w' = store over_cap.
Proof.
  split; [apply running_inv_over_cap|].
  pose proof (Merge_fails_for_unknown_or_over_cap "P2" 9%Z over_cap running_inv_over_cap)
    as Hmerge.
  destruct (main.Merge "P2" 9%Z over_cap) as [[pr|err] w'] eqn:Hrun.
  - by vm_compute in Hrun.
  - clear Hrun. destruct Hmerge as (Hstore & _ & Hmerge). exists w'.
    destruct (Storage.GetPullRequest "P2" (store over_cap)) as [before|] eqn:Hget;
      [|by vm_compute in Hget].
    destruct Hmerge as (_ & _ & -> & _). split; [reflexivity|exact Hstore].
Defined.

Lemma Reassign_failures_witness :
  running_inv over_cap ∧
  ∃ w', main.Reassign "a" "P2" over_cap
        = (Err (Wrapf "failed to save reassigned pull request: "
                  (Errorf "assigned reviewers count must be <= 2")), w') ∧
        store w' = store over_cap.
Proof.
  split; [apply running_inv_over_cap|].
  pose proof (Reassign_failures "a" "P2" over_cap running_inv_over_cap) as Hreassign.
  destruct (main.Reassign "a" "P2" over_cap) as [[resp|err] w'] eqn:Hrun.
  - by vm_compute in Hrun.
  - destruct Hreassign as [Hstore _]. exists w'. split; [|exact Hstore].
    vm_compute in Hrun. injection Hrun as <- _. reflexivity.
Defined.

Lemma handlePRMerge_statuses_witness :
  running_inv over_cap ∧
  web.status (web.handlePRMerge (prService := main.prManager 9%Z)
                (Some (PostPullRequestMergeJSONBody.mk "P2")) over_cap).1
  = 500%Z.
Proof.
  split; [apply running_inv_over_cap|].
  pose proof (handlePRMerge_statuses 9%Z (Some (PostPullRequestMergeJSONBody.mk "P2"))
                over_cap running_inv_over_cap) as Hmerge.
  cbv beta iota zeta in Hmerge. rewrite decide_False in Hmerge by (by intros [=]).
  destruct (Storage.GetPullRequest _ (store over_cap)) as [pr|] eqn:Hget;
    [|by vm_compute in Hget].
  vm_compute in Hget. injection Hget as <-.
  rewrite decide_False in Hmerge; [apply Hmerge|].
  intros [[=]|Hlen]. cbn in Hlen. lia.
Defined.

Lemma handlePRReassign_statuses_witness :
  running_inv over_cap ∧
  web.status (web.handlePRReassign (prService := main.prManager 9%Z)
                (Some (PostPullRequestReassignJSONBody.mk "a" "P2")) over_cap).1
  = 500%Z.
Proof.
  split; [apply running_inv_over_cap|].
  pose proof (handlePRReassign_statuses 9%Z
                (Some (PostPullRequestReassignJSONBody.mk "a" "P2"))
                over_cap running_inv_over_cap) as Hreassign.
  cbv beta iota zeta in Hreassign.
  rewrite decide_False in Hreassign by (by intros [[=]|[=]]).
  destruct (Storage.GetPullRequest _ (store over_cap)) as [pr|] eqn:Hget;
    [|by vm_compute in Hget].
  vm_compute in Hget. injection Hget as <-.
  rewrite decide_False in Hreassign by (by vm_compute).
  rewrite decide_True in Hreassign by (refine (bool_decide_unpack _ _); by vm_compute).
  destruct Hreassign as [(Hresp & _)|[(_ & [Hstatus _] & _)|(Hlen & _)]].
  - exfalso. revert Hresp. by vm_compute.
  - exact Hstatus.
  - exfalso. cbn in Hlen. lia.
Defined.

End more_runs.
